(** * Skeleton Key: a shallow embedding of [skeleton.py]

    The development follows the Python module section by section:
    enumerations, data models, the four signal tables, the four
    keyword-density detectors, the influence graph, the spell entropy,
    the crumb trail with its JSON snapshot and the collective aggregator.

    Conventions of the embedding.
    - A Python [str] is a [string]; one [ascii] stands for one character.
      [str.lower] is modelled on the letters A-Z (every keyword of the
      signal tables is ASCII).
    - A Python [float] that is a share, a density or a score of the
      detectors is an exact rational ([Q]); the entropy, which needs
      [math.log2], lives in [R].  The weights of the influence edges are
      different: [find_puppeteers] adds and compares them, so they and the
      numbers it derives from them are the binary64 values themselves
      ([PrimFloat.float]) with the IEEE 754 operations.
    - [uuid.uuid4()], [datetime.now()] and the file system are the three
      effects of the module; they are threaded explicitly through a [World].
    - A Python [dict] is an insertion-ordered association list ([odict]):
      the module relies on insertion order for every tie-break.
    - Values read back from JSON are dynamically typed.  A loader that would
      store a value outside the annotated type of a field returns
      [IllTyped]: that state exists in Python but not in the typed model. *)

From Stdlib Require Import List String Ascii Bool Arith ZArith NArith QArith Lia.
From Stdlib Require Import Qround Qabs DecimalString Sorting.Sorted Sorting.Permutation.
From Stdlib Require Import Reals Lra.
From Stdlib Require Floats.
Import ListNotations.

#[local] Set Warnings "-register-all".

Local Open Scope list_scope.
Local Open Scope string_scope.

(* ------------------------------------------------------------------ *)
(** ** Python built-ins used by the module                              *)
(* ------------------------------------------------------------------ *)

Module Py.

(** [c.lower()] on one character. *)
Definition lower_char (c : ascii) : ascii :=
  let n := nat_of_ascii c in
  if andb (65 <=? n)%nat (n <=? 90)%nat then ascii_of_nat (n + 32) else c.

Definition upper_char (c : ascii) : ascii :=
  let n := nat_of_ascii c in
  if andb (97 <=? n)%nat (n <=? 122)%nat then ascii_of_nat (n - 32) else c.

Definition is_cased (c : ascii) : bool :=
  let n := nat_of_ascii c in
  orb (andb (65 <=? n)%nat (n <=? 90)%nat) (andb (97 <=? n)%nat (n <=? 122)%nat).

(** [s.lower()] *)
Fixpoint lower (s : string) : string :=
  match s with
  | EmptyString => EmptyString
  | String c r => String (lower_char c) (lower r)
  end.

(** [s.title()]: a cased character is upper-cased when it follows an
    uncased one (or starts the string) and lower-cased otherwise. *)
Fixpoint title_from (prev_cased : bool) (s : string) : string :=
  match s with
  | EmptyString => EmptyString
  | String c r =>
      String (if prev_cased then lower_char c else upper_char c)
             (title_from (is_cased c) r)
  end.

Definition title (s : string) : string := title_from false s.

(** [s.replace(a, b)] for single characters. *)
Fixpoint replace_char (a b : ascii) (s : string) : string :=
  match s with
  | EmptyString => EmptyString
  | String c r => String (if Ascii.eqb c a then b else c) (replace_char a b r)
  end.

(** [pat in text]: substring test. *)
Fixpoint str_in (pat text : string) : bool :=
  if String.prefix pat text then true
  else match text with
       | EmptyString => false
       | String _ r => str_in pat r
       end.

(** [sep.join(parts)] *)
Definition join (sep : string) (parts : list string) : string :=
  String.concat sep parts.

(** [s[:n]] *)
Definition take (n : nat) (s : string) : string := String.substring 0 n s.

(** [min(a, b)] and [max(a, b)]: the first argument wins a tie. *)
Definition min (a b : Q) : Q := if Qle_bool a b then a else b.
Definition max (a b : Q) : Q := if Qle_bool b a then a else b.
Definition maxZ (a b : Z) : Z := if (b <=? a)%Z then a else b.

Definition Qltb (a b : Q) : bool := negb (Qle_bool b a).

(** [round(x)] to an integer, ties to even. *)
Definition round_half_even (x : Q) : Z :=
  let fl := Qfloor x in
  match Qcompare (x - inject_Z fl) (1 # 2) with
  | Lt => fl
  | Gt => (fl + 1)%Z
  | Eq => if Z.even fl then fl else (fl + 1)%Z
  end.

(** [round(x, 3)] *)
Definition round3 (x : Q) : Q :=
  Qmake (round_half_even (x * (1000 # 1))) 1000.

(** [str(n)] for an [int], and [f"{x:.2f}"]: sign, integer part, and two
    decimals of the value rounded half to even. *)
Definition str_int (z : Z) : string :=
  DecimalString.NilZero.string_of_int (Z.to_int z).

Definition two_digits (n : Z) : string :=
  ((if (n <? 10)%Z then "0" else EmptyString) ++ str_int n)%string.

Definition format_2f (x : Q) : string :=
  let n := round_half_even (Qabs x * (100 # 1)) in
  ((if Qltb x 0 then "-" else EmptyString)
   ++ str_int (n / 100) ++ "." ++ two_digits (n mod 100))%string.

(** [len(l) / len(m)]: true division of two lengths. *)
Definition len_div {A B} (l : list A) (m : list B) : Q :=
  inject_Z (Z.of_nat (List.length l)) / inject_Z (Z.of_nat (List.length m)).

(** [math.log2] *)
Definition log2 (x : R) : R := (ln x / ln 2)%R.

End Py.

(** Binary64 values, for the edge weights.  Sums, products, quotients and
    comparisons are those of [PrimFloat]: round to nearest, ties to even. *)
Module PyFloat.
Import PrimFloat SpecFloat FloatOps.

(** [0.0] and [0.01] *)
Definition zero : float := 0%float.
Definition hundredth : float := 0x1.47ae147ae147bp-7%float.

(** [max(a, b)] on floats: [b] only if [b > a]. *)
Definition max (a b : float) : float := if ltb a b then b else a.

(** [float(n)] for an [int], as in [x * n]: the nearest binary64 value,
    ties to even; exact below 2^53.  From 2^1024 on Python raises
    OverflowError where this gives infinity. *)
Definition of_int (z : Z) : float := SF2Prim (binary_normalize prec emax z 0 false).

(** The binary64 value nearest to [n / d], ties to even: what [strtod]
    returns for a decimal numeral, with the sign [s]. *)
Definition nearest (s : bool) (n d : positive) : spec_float :=
  let '(q, e, l) := SFdiv_core_binary prec emax (Zpos n) 0 (Zpos d) 0 in
  binary_round_aux prec emax s q e l.

(** A float literal, written as a fraction: [literal 1 10] is [0.1]. *)
Definition literal (n d : positive) : float := SF2Prim (nearest false n d).

(** The exact value [m * 2^e] of a finite float, without its sign. *)
Definition magnitude (m : positive) (e : Z) : Q := inject_Z (Zpos m) * Qpower 2 e.

(** [round(x, 3)] on a float: the exact value of [x] is rounded to three
    decimals, ties to even, and the decimal is read back as a float; the
    sign of [x] is kept, and zeros, infinities and nan are returned as they
    are. *)
Definition round3 (x : float) : float :=
  match Prim2SF x with
  | S754_finite s m e =>
      match Py.round_half_even (magnitude m e * 1000) with
      | Zpos k => SF2Prim (nearest s k 1000)
      | _ => SF2Prim (S754_zero s)
      end
  | _ => x
  end.

(** The exact value of a finite float. *)
Definition value (x : float) : Q :=
  match Prim2SF x with
  | S754_finite s m e => if s then - magnitude m e else magnitude m e
  | _ => 0
  end.

(** Every float but nan. *)
Definition is_number (x : float) : Prop := Prim2SF x <> S754_nan.
End PyFloat.

(* ------------------------------------------------------------------ *)
(** ** Insertion-ordered dictionaries                                   *)
(* ------------------------------------------------------------------ *)

Definition odict (V : Type) : Type := list (string * V).

Module OD.
Section Ops.
Context {V : Type}.

(** [d.get(k)] *)
Fixpoint get (k : string) (d : odict V) : option V :=
    match d with
    | [] => None
    | (k', v) :: r => if String.eqb k k' then Some v else get k r
    end.

(** [d[k] = v]: an existing key keeps its position, a new key goes last. *)
Fixpoint set (k : string) (v : V) (d : odict V) : odict V :=
    match d with
    | [] => [(k, v)]
    | (k', v') :: r =>
        if String.eqb k k' then (k, v) :: r else (k', v') :: set k v r
    end.

Definition keys (d : odict V) : list string := map fst d.
Definition values (d : odict V) : list V := map snd d.

(** [d.get(k, dflt)] *)
Definition get_or (k : string) (dflt : V) (d : odict V) : V :=
    match get k d with Some v => v | None => dflt end.

(** [dict(pairs)]: later pairs overwrite earlier ones. *)
Definition of_pairs (l : list (string * V)) : odict V :=
    fold_left (fun d kv => set (fst kv) (snd kv) d) l [].
End Ops.
End OD.

(* ------------------------------------------------------------------ *)
(** ** JSON values, exceptions and the outside world                    *)
(* ------------------------------------------------------------------ *)

(** What [json.loads] returns and [json.dumps] accepts.  [JObj] carries the
    items of the parsed [dict] in order. *)
Inductive json : Type :=
| JNull
| JBool (b : bool)
| JInt (z : Z)
| JNum (q : Q)
| JStr (s : string)
| JArr (items : list json)
| JObj (members : list (string * json)).

Inductive exception : Type :=
| KeyError | TypeError | ValueError | AttributeError | OSError | JSONDecodeError.

(** Outcome of a fallible operation.  [IllTyped] marks a state Python would
    build without complaint but whose fields leave their annotated types. *)
Inductive result (A : Type) : Type :=
| Ok (a : A)
| Raise (e : exception)
| IllTyped.
Arguments Ok {A} a.
Arguments Raise {A} e.
Arguments IllTyped {A}.

Definition rbind {A B} (r : result A) (k : A -> result B) : result B :=
  match r with
  | Ok a => k a
  | Raise e => Raise e
  | IllTyped => IllTyped
  end.

Notation "' pat <-? c ;; k" := (rbind c (fun x => match x with pat => k end))
  (at level 61, pat pattern, c at next level, right associativity).
Notation "x <-? c ;; k" := (rbind c (fun x => k))
  (at level 61, c at next level, right associativity).

(** A path of the file system holds a directory or unreadable bytes, text
    that is not JSON, or the JSON text of a value. *)
Inductive file : Type :=
| Unreadable
| Text (raw : string)
| Document (v : json).

Record World : Type := mkWorld {
  entropy : nat -> N;      (* the 128-bit integers uuid4 will return *)
  drawn : nat;             (* how many were consumed *)
  clock : nat -> string;   (* successive readings of datetime.now().isoformat() *)
  ticks : nat;
  files : odict file;      (* path -> content *)
}.

(** State-passing computations. *)
Definition State (S A : Type) : Type := S -> A * S.

Definition ret {S A} (a : A) : State S A := fun s => (a, s).

Definition bind {S A B} (m : State S A) (k : A -> State S B) : State S B :=
  fun s => let (a, s') := m s in k a s'.

Notation "x <- c ;; k" := (bind c (fun x => k))
  (at level 61, c at next level, right associativity).

Definition M (A : Type) : Type := State World A.
(** [for x in items: out.append(f(x))]: one call per item, in order. *)
Fixpoint for_each {S A B : Type} (f : A -> State S B) (items : list A)
  : State S (list B) :=
  match items with
  | [] => ret []
  | x :: rest =>
      b <- f x ;;
      bs <- for_each f rest ;;
      ret (b :: bs)
  end.


(** [Path.exists()], [Path.read_text()] followed by [json.loads], and
    [Path.write_text(json.dumps(v))].  Writing is taken to succeed. *)
Definition path_exists (p : string) (w : World) : bool :=
  match OD.get p (files w) with Some _ => true | None => false end.

Definition read_json (p : string) (w : World) : result json :=
  match OD.get p (files w) with
  | None => Raise OSError
  | Some Unreadable => Raise OSError
  | Some (Text _) => Raise JSONDecodeError
  | Some (Document v) => Ok v
  end.

Definition write_json (p : string) (v : json) : M unit :=
  fun w => (tt, mkWorld (entropy w) (drawn w) (clock w) (ticks w)
                        (OD.set p (Document v) (files w))).

(** [datetime.now(timezone.utc).isoformat()] *)
Definition now_iso : M string :=
  fun w => (clock w (ticks w),
            mkWorld (entropy w) (drawn w) (clock w) (S (ticks w)) (files w)).

(** ['%032x' % n], the [hex] attribute of a UUID. *)
Definition hex_digit (n : N) : ascii :=
  match n with
  | 0%N => "0" | 1%N => "1" | 2%N => "2" | 3%N => "3"
  | 4%N => "4" | 5%N => "5" | 6%N => "6" | 7%N => "7"
  | 8%N => "8" | 9%N => "9" | 10%N => "a" | 11%N => "b"
  | 12%N => "c" | 13%N => "d" | 14%N => "e" | _ => "f"
  end%char.

Fixpoint hex_acc (k : nat) (n : N) (acc : string) : string :=
  match k with
  | O => acc
  | S k' => hex_acc k' (N.shiftr n 4) (String (hex_digit (N.land n 15)) acc)
  end.

Definition uuid_hex (n : N) : string := hex_acc 32 n EmptyString.

(** [uuid.uuid4().hex[:n]] *)
Definition uuid4_hex (n : nat) : M string :=
  fun w => (Py.take n (uuid_hex (entropy w (drawn w))),
            mkWorld (entropy w) (S (drawn w)) (clock w) (ticks w) (files w)).

(* ------------------------------------------------------------------ *)
(** ** I. Enumerations                                                  *)
(* ------------------------------------------------------------------ *)

Module FrameType.
Inductive t : Type :=
| NORMATIVE | LINGUISTIC | INSTITUTIONAL | TEMPORAL
| EPISTEMIC | ECONOMIC | TECHNOLOGICAL | MYTHOLOGICAL.

Definition name (x : t) : string :=
  match x with
  | NORMATIVE => "NORMATIVE" | LINGUISTIC => "LINGUISTIC"
  | INSTITUTIONAL => "INSTITUTIONAL" | TEMPORAL => "TEMPORAL"
  | EPISTEMIC => "EPISTEMIC" | ECONOMIC => "ECONOMIC"
  | TECHNOLOGICAL => "TECHNOLOGICAL" | MYTHOLOGICAL => "MYTHOLOGICAL"
  end.

(** the number [auto()] gave the member *)
Definition value (x : t) : nat :=
  match x with
  | NORMATIVE => 1 | LINGUISTIC => 2 | INSTITUTIONAL => 3 | TEMPORAL => 4
  | EPISTEMIC => 5 | ECONOMIC => 6 | TECHNOLOGICAL => 7 | MYTHOLOGICAL => 8
  end.
End FrameType.

Module MaskType.
Inductive t : Type :=
| AUTHORITY | BENEVOLENCE | NEUTRALITY | MERITOCRACY
| INEVITABILITY | TRADITION | INNOVATION | EXPERTISE.

Definition name (x : t) : string :=
  match x with
  | AUTHORITY => "AUTHORITY" | BENEVOLENCE => "BENEVOLENCE"
  | NEUTRALITY => "NEUTRALITY" | MERITOCRACY => "MERITOCRACY"
  | INEVITABILITY => "INEVITABILITY" | TRADITION => "TRADITION"
  | INNOVATION => "INNOVATION" | EXPERTISE => "EXPERTISE"
  end.

Definition value (x : t) : nat :=
  match x with
  | AUTHORITY => 1 | BENEVOLENCE => 2 | NEUTRALITY => 3 | MERITOCRACY => 4
  | INEVITABILITY => 5 | TRADITION => 6 | INNOVATION => 7 | EXPERTISE => 8
  end.
End MaskType.

Module SpellType.
Inductive t : Type :=
| ORIGIN_MYTH | PROGRESS_NARRATIVE | FEAR_NARRATIVE | SCARCITY_SPELL
| IDENTITY_SPELL | COMPLEXITY_SPELL | UNITY_SPELL | BINARY_SPELL.

Definition name (x : t) : string :=
  match x with
  | ORIGIN_MYTH => "ORIGIN_MYTH" | PROGRESS_NARRATIVE => "PROGRESS_NARRATIVE"
  | FEAR_NARRATIVE => "FEAR_NARRATIVE" | SCARCITY_SPELL => "SCARCITY_SPELL"
  | IDENTITY_SPELL => "IDENTITY_SPELL" | COMPLEXITY_SPELL => "COMPLEXITY_SPELL"
  | UNITY_SPELL => "UNITY_SPELL" | BINARY_SPELL => "BINARY_SPELL"
  end.

Definition value (x : t) : nat :=
  match x with
  | ORIGIN_MYTH => 1 | PROGRESS_NARRATIVE => 2 | FEAR_NARRATIVE => 3
  | SCARCITY_SPELL => 4 | IDENTITY_SPELL => 5 | COMPLEXITY_SPELL => 6
  | UNITY_SPELL => 7 | BINARY_SPELL => 8
  end.
End SpellType.

Module PrisonType.
Inductive t : Type :=
| CHOICE_ARCHITECTURE | OVERTON_WINDOW | DEBT_STRUCTURE | CREDENTIAL_GATE
| PLATFORM_LOCK | TEMPORAL_TRAP | IDENTITY_CAGE | LEARNED_HELPLESSNESS.

Definition name (x : t) : string :=
  match x with
  | CHOICE_ARCHITECTURE => "CHOICE_ARCHITECTURE"
  | OVERTON_WINDOW => "OVERTON_WINDOW"
  | DEBT_STRUCTURE => "DEBT_STRUCTURE"
  | CREDENTIAL_GATE => "CREDENTIAL_GATE"
  | PLATFORM_LOCK => "PLATFORM_LOCK"
  | TEMPORAL_TRAP => "TEMPORAL_TRAP"
  | IDENTITY_CAGE => "IDENTITY_CAGE"
  | LEARNED_HELPLESSNESS => "LEARNED_HELPLESSNESS"
  end.

Definition value (x : t) : nat :=
  match x with
  | CHOICE_ARCHITECTURE => 1 | OVERTON_WINDOW => 2 | DEBT_STRUCTURE => 3
  | CREDENTIAL_GATE => 4 | PLATFORM_LOCK => 5 | TEMPORAL_TRAP => 6
  | IDENTITY_CAGE => 7 | LEARNED_HELPLESSNESS => 8
  end.
End PrisonType.

Module CrumbType.
Inductive t : Type :=
| QUESTION | PATTERN | PARADOX | BRIDGE | MIRROR | TRAIL | SIGNAL.

Definition name (x : t) : string :=
  match x with
  | QUESTION => "QUESTION" | PATTERN => "PATTERN" | PARADOX => "PARADOX"
  | BRIDGE => "BRIDGE" | MIRROR => "MIRROR" | TRAIL => "TRAIL"
  | SIGNAL => "SIGNAL"
  end.

Definition members : list t :=
  [QUESTION; PATTERN; PARADOX; BRIDGE; MIRROR; TRAIL; SIGNAL].

(** [CrumbType[s]]: lookup of a member by name; [KeyError] if there is none. *)
Definition of_name (s : string) : option t :=
  find (fun x => String.eqb (name x) s) members.
End CrumbType.

Module SeeingDepth.
Inductive t : Type :=
| SURFACE | PATTERN | STRUCTURE | GENERATIVE | RECURSIVE | INTEGRAL.

Definition value (x : t) : string :=
  match x with
  | SURFACE => "surface" | PATTERN => "pattern" | STRUCTURE => "structure"
  | GENERATIVE => "generative" | RECURSIVE => "recursive"
  | INTEGRAL => "integral"
  end.
End SeeingDepth.

(* ------------------------------------------------------------------ *)
(** ** II. Data models                                                  *)
(* ------------------------------------------------------------------ *)

(** Each dataclass is a record; [new] is its constructor with the default
    factories ([uuid4] for the id, [datetime.now] for a timestamp) run in
    field order. *)

Module Frame.
Record t : Type := make {
  frame_id : string;
  name : string;
  frame_type : FrameType.t;
  description : string;
  unspoken_rules : list string;
  naturalized_assumptions : list string;
  forbidden_questions : list string;
  beneficiaries : list string;
  edges_of_thinkable : list string;
  strength : Q;
  visibility : Q;
  detected_at : string;
}.

Definition new (name : string) (frame_type : FrameType.t) (description : string)
    (unspoken_rules naturalized_assumptions forbidden_questions
     beneficiaries edges_of_thinkable : list string)
    (strength visibility : Q) : M t :=
  frame_id <- uuid4_hex 12 ;;
  detected_at <- now_iso ;;
  ret (make frame_id name frame_type description unspoken_rules
            naturalized_assumptions forbidden_questions beneficiaries
            edges_of_thinkable strength visibility detected_at).
End Frame.

Module Mask.
Record t : Type := make {
  mask_id : string;
  actor : string;
  mask_type : MaskType.t;
  formal_role : string;
  actual_function : string;
  performance : string;
  hidden_hand : string;
  dependencies : list string;
  vulnerabilities : list string;
}.

Definition new (actor : string) (mask_type : MaskType.t)
    (formal_role actual_function performance hidden_hand : string)
    (dependencies vulnerabilities : list string) : M t :=
  mask_id <- uuid4_hex 12 ;;
  ret (make mask_id actor mask_type formal_role actual_function performance
            hidden_hand dependencies vulnerabilities).

Definition to_dict (self : t) : json :=
  JObj [ ("mask_id", JStr (mask_id self));
         ("actor", JStr (actor self));
         ("mask_type", JStr (MaskType.name (mask_type self)));
         ("formal_role", JStr (formal_role self));
         ("actual_function", JStr (actual_function self));
         ("performance", JStr (performance self));
         ("hidden_hand", JStr (hidden_hand self));
         ("dependencies", JArr (map JStr (dependencies self)));
         ("vulnerabilities", JArr (map JStr (vulnerabilities self))) ].
End Mask.

Module Spell.
Record t : Type := make {
  spell_id : string;
  name : string;
  spell_type : SpellType.t;
  narrative : string;
  emotional_payload : string;
  hidden_assumption : string;
  erasure : string;
  cui_bono : string;
  counter_narrative : string;
  potency : Q;
  reach : Q;
}.

Definition new (name : string) (spell_type : SpellType.t)
    (narrative emotional_payload hidden_assumption erasure cui_bono
     counter_narrative : string) (potency reach : Q) : M t :=
  spell_id <- uuid4_hex 12 ;;
  ret (make spell_id name spell_type narrative emotional_payload
            hidden_assumption erasure cui_bono counter_narrative potency reach).
End Spell.

Module Prison.
Record t : Type := make {
  prison_id : string;
  name : string;
  prison_type : PrisonType.t;
  description : string;
  missing_choices : list string;
  forbidden_paths : list string;
  unimaginable_futures : list string;
  invisible_walls : list string;
  exit_conditions : list string;
  elegance : Q;
}.

Definition new (name : string) (prison_type : PrisonType.t) (description : string)
    (missing_choices forbidden_paths unimaginable_futures invisible_walls
     exit_conditions : list string) (elegance : Q) : M t :=
  prison_id <- uuid4_hex 12 ;;
  ret (make prison_id name prison_type description missing_choices
            forbidden_paths unimaginable_futures invisible_walls
            exit_conditions elegance).
End Prison.

Module Crumb.
Record t : Type := make {
  crumb_id : string;
  crumb_type : CrumbType.t;
  content : string;
  context : string;
  visibility : string;               (* hidden | subtle | public *)
  target_audience : string;
  decay_time : option string;
  chain_id : option string;
  created_at : string;
}.

Definition opt_str (o : option string) : json :=
  match o with Some s => JStr s | None => JNull end.

Definition to_dict (self : t) : json :=
  JObj [ ("crumb_id", JStr (crumb_id self));
         ("crumb_type", JStr (CrumbType.name (crumb_type self)));
         ("content", JStr (content self));
         ("context", JStr (context self));
         ("visibility", JStr (visibility self));
         ("target_audience", JStr (target_audience self));
         ("decay_time", opt_str (decay_time self));
         ("chain_id", opt_str (chain_id self));
         ("created_at", JStr (created_at self)) ].
End Crumb.

Module InfluenceEdge.
Record t : Type := make {
  source : string;
  target : string;
  relation : string;
  weight : PrimFloat.float;
  visible : bool;
  mask_used : option string;
}.

(** The values of the [dict] that [to_dict] returns. *)
Inductive value : Type :=
| VStr (s : string)
| VFloat (x : PrimFloat.float)
| VBool (b : bool)
| VNone.

Definition to_dict (self : t) : odict value :=
  [ ("source", VStr (source self));
    ("target", VStr (target self));
    ("relation", VStr (relation self));
    ("weight", VFloat (weight self));
    ("visible", VBool (visible self));
    ("mask_used", match mask_used self with Some s => VStr s | None => VNone end) ].
End InfluenceEdge.

Module SelfExamination.
Record t : Type := make {
  exam_id : string;
  assumptions_found : list string;
  blind_spots : list string;
  misuse_vectors : list string;
  creator_biases : list string;
  evolution_needs : list string;
  structural_metrics : odict json;
  timestamp : string;
}.
End SelfExamination.

Module SystemAnalysis.
Record t : Type := make {
  analysis_id : string;
  system_name : string;
  frames : list Frame.t;
  masks : list Mask.t;
  spells : list Spell.t;
  prisons : list Prison.t;
  crumbs : list Crumb.t;
  influence_edges : list InfluenceEdge.t;
  self_examination : option SelfExamination.t;
  seeing_depth : SeeingDepth.t;
  analyzed_at : string;
}.

Definition len_over {A} (l : list A) (d : Z) : Q :=
  inject_Z (Z.of_nat (List.length l)) / inject_Z d.

(** the [awareness_score] property *)
Definition awareness_score (self : t) : Q :=
  let components :=
    [ Py.min (len_over (frames self) 3) 1;
      Py.min (len_over (masks self) 3) 1;
      Py.min (len_over (spells self) 3) 1;
      Py.min (len_over (prisons self) 3) 1;
      Py.min (len_over (influence_edges self) 5) 1;
      match self_examination self with Some _ => 1 | None => 0 end ] in
  fold_left Qplus components 0 / inject_Z (Z.of_nat (List.length components)).
End SystemAnalysis.

(* ------------------------------------------------------------------ *)
(** ** III. Knowledge structures                                        *)
(* ------------------------------------------------------------------ *)

(** The value stored under each member of a signal table.  The em dash of
    a few descriptive texts is kept as its UTF-8 bytes; the module never
    looks inside these texts. *)

Module FrameSignals.
Record t : Type := make {
  signals : list string;
  question : string;
  reveals : string;
  antidote : string;
}.
End FrameSignals.

Module MaskSignals.
Record t : Type := make {
  signals : list string;
  behind_the_mask : string;
  slip_indicators : list string;
}.
End MaskSignals.

Module SpellSignals.
Record t : Type := make {
  signals : list string;
  emotional_hook : string;
  hidden_function : string;
  breaking_question : string;
}.
End SpellSignals.

Module PrisonSignals.
Record t : Type := make {
  signals : list string;
  mechanism : string;
  door : string;
}.
End PrisonSignals.

Definition FRAME_SIGNALS : list (FrameType.t * FrameSignals.t) :=
  [
    (FrameType.NORMATIVE,
     FrameSignals.make
       (* signals *)
       ["normal"; "natural"; "obvious"; "common sense"; "everyone knows";
        "that's just how it is"; "tradition"; "always been"; "standard";
        "the way things work"; "realistic"; "pragmatic"; "inevitable";
        "human nature"; "the real world"]
       (* question *)
       "What would change if this were seen as a choice rather than a fact?"
       (* reveals *)
       "Normative frames disguise social constructions as natural law."
       (* antidote *)
       "Ask: who decided this was 'normal,' and when?");
    (FrameType.LINGUISTIC,
     FrameSignals.make
       (* signals *)
       ["stakeholder"; "human resources"; "collateral damage"; "externality";
        "disruption"; "optimization"; "leverage"; "synergy"; "alignment";
        "market forces"; "talent"; "assets"; "capital"; "deliverables";
        "value proposition"; "growth"; "scale"]
       (* question *)
       "What does this language conceal about who is affected and how?"
       (* reveals *)
       "Linguistic frames make violence abstract and people into resources."
       (* antidote *)
       "Replace each term with plain language and notice what changes.");
    (FrameType.INSTITUTIONAL,
     FrameSignals.make
       (* signals *)
       ["policy"; "procedure"; "compliance"; "regulation"; "governance";
        "protocol"; "due process"; "standard operating"; "best practice";
        "industry standard"; "accreditation"; "certification"; "authorized";
        "official channels"; "chain of command"]
       (* question *)
       "Who wrote these rules, and what do they protect?"
       (* reveals *)
       "Institutional frames make power arrangements feel like physics."
       (* antidote *)
       "Trace each rule to its origin. Someone wrote it. Someone benefits.");
    (FrameType.TEMPORAL,
     FrameSignals.make
       (* signals *)
       ["progress"; "inevitable"; "the future"; "moving forward";
        "behind the times"; "modernization"; "next generation"; "legacy";
        "outdated"; "evolving"; "trajectory"; "momentum"; "disruption cycle";
        "paradigm shift"; "the arc of history"; "tipping point"]
       (* question *)
       "Whose timeline is this, and what does it erase?"
       (* reveals *)
       "Temporal frames make one group's trajectory feel like destiny."
       (* antidote *)
       "Ask: inevitable for whom? Progress toward what? Decided by whom?");
    (FrameType.EPISTEMIC,
     FrameSignals.make
       (* signals *)
       ["evidence-based"; "data-driven"; "peer-reviewed";
        "scientific consensus"; "expert opinion"; "credible sources";
        "methodology"; "rigorous"; "statistically significant"; "empirical";
        "objective"; "measurable"; "anecdotal"; "unsubstantiated";
        "misinformation"]
       (* question *)
       "What ways of knowing are being excluded, and why?"
       (* reveals *)
       "Epistemic frames determine what counts as knowledge — and who counts as a knower."
       (* antidote *)
       "Ask: what would a different discipline, culture, or tradition see here?");
    (FrameType.ECONOMIC,
     FrameSignals.make
       (* signals *)
       ["market"; "efficiency"; "roi"; "cost-benefit"; "productivity";
        "scarcity"; "supply and demand"; "rational actor"; "incentive";
        "GDP"; "profit margin"; "bottom line"; "valuation"; "monetize";
        "free market"; "competition"; "shareholder value"]
       (* question *)
       "What is being valued, and what is being discarded?"
       (* reveals *)
       "Economic frames reduce all value to a single metric and hide the rest."
       (* antidote *)
       "Name three things this framework cannot measure but that matter enormously.");
    (FrameType.TECHNOLOGICAL,
     FrameSignals.make
       (* signals *)
       ["platform"; "algorithm"; "AI"; "automation"; "machine learning";
        "digital transformation"; "smart"; "cloud"; "API"; "ecosystem";
        "scalable"; "disruptive"; "innovation"; "tech-enabled";
        "frictionless"; "seamless"; "personalized"]
       (* question *)
       "What human decisions are hidden inside this technology?"
       (* reveals *)
       "Technological frames make human choices appear as neutral computation."
       (* antidote *)
       "Find the humans. Someone designed this. Someone chose the training data. Someone profits.");
    (FrameType.MYTHOLOGICAL,
     FrameSignals.make
       (* signals *)
       ["founding fathers"; "self-made"; "American dream"; "invisible hand";
        "meritocracy"; "free world"; "civilization"; "manifest destiny";
        "the people"; "our values"; "who we are"; "heritage"; "legacy";
        "promised land"; "chosen"; "destiny"; "greatness"]
       (* question *)
       "What does this myth authorize, and what does it forbid?"
       (* reveals *)
       "Mythological frames sacralize power arrangements so they cannot be questioned."
       (* antidote *)
       "Tell the same story from the perspective of those the myth excludes.")
  ].

Definition MASK_SIGNALS : list (MaskType.t * MaskSignals.t) :=
  [
    (MaskType.AUTHORITY,
     MaskSignals.make
       (* signals *)
       ["leadership"; "executive"; "decision-maker"; "vision"; "strategy";
        "mandate"; "direction"; "C-suite"; "board"; "governance"]
       (* behind_the_mask *)
       "Power is often held not by the visible leaders but by those who set the agenda they enact."
       (* slip_indicators *)
       ["contradicts own policy"; "defers upward";
        "cannot explain rationale"; "reads from script"]);
    (MaskType.BENEVOLENCE,
     MaskSignals.make
       (* signals *)
       ["for your own good"; "we care"; "protecting"; "safety"; "support";
        "help"; "empower"; "serve"; "community"; "wellbeing"]
       (* behind_the_mask *)
       "Care rhetoric often masks control. True care shares power; false care hoards it."
       (* slip_indicators *)
       ["help requires compliance"; "support has conditions";
        "empowerment means obedience"]);
    (MaskType.NEUTRALITY,
     MaskSignals.make
       (* signals *)
       ["objective"; "balanced"; "both sides"; "unbiased"; "fair"; "neutral";
        "apolitical"; "nonpartisan"; "just the facts"; "centrist"]
       (* behind_the_mask *)
       "Claimed neutrality always serves the status quo. The center is not neutral — it is the current arrangement of power."
       (* slip_indicators *)
       ["frames challengers as extreme"; "treats current system as baseline";
        "equates critique with bias"]);
    (MaskType.MERITOCRACY,
     MaskSignals.make
       (* signals *)
       ["earned"; "deserved"; "talent"; "hard work"; "achievement";
        "performance"; "best and brightest"; "top tier"; "elite";
        "competitive"]
       (* behind_the_mask *)
       "Meritocracy narratives attribute systemic outcomes to individual qualities, hiding the architecture of advantage."
       (* slip_indicators *)
       ["success correlates with starting position";
        "failure blamed on individual"; "structural advantages unnamed"]);
    (MaskType.INEVITABILITY,
     MaskSignals.make
       (* signals *)
       ["no alternative"; "the only way"; "necessary"; "unavoidable";
        "market forces"; "economic reality"; "there is no choice"; "we must";
        "the situation demands"; "forced by circumstances"]
       (* behind_the_mask *)
       "Inevitability is the most powerful mask. When choices vanish, power becomes invisible."
       (* slip_indicators *)
       ["alternatives existed historically";
        "other systems do it differently";
        "someone benefits from 'no choice'"]);
    (MaskType.TRADITION,
     MaskSignals.make
       (* signals *)
       ["always been done"; "heritage"; "custom"; "roots"; "values";
        "time-tested"; "wisdom of the ages"; "sacred"; "founding principles"]
       (* behind_the_mask *)
       "Tradition selectively remembers. What is called 'traditional' was once someone's radical innovation."
       (* slip_indicators *)
       ["the 'tradition' is recent"; "it was contested when introduced";
        "other traditions are excluded"]);
    (MaskType.INNOVATION,
     MaskSignals.make
       (* signals *)
       ["disrupt"; "transform"; "revolutionize"; "cutting-edge"; "future";
        "breakthrough"; "paradigm shift"; "next generation"; "reimagine"]
       (* behind_the_mask *)
       "Innovation rhetoric often masks extraction. 'Disruption' frequently means destroying what communities built and selling it back."
       (* slip_indicators *)
       ["innovation benefits investors most";
        "disrupted communities not consulted"; "problems recreated at scale"]);
    (MaskType.EXPERTISE,
     MaskSignals.make
       (* signals *)
       ["expert"; "specialist"; "authority"; "credentials"; "certification";
        "qualified"; "trained"; "professional"; "accredited";
        "peer-reviewed"]
       (* behind_the_mask *)
       "Expertise is real, but the gatekeeping of expertise is a power structure. Who decides what counts as knowing?"
       (* slip_indicators *)
       ["experts disagree but one view dominates"; "credentials gate access";
        "lived experience dismissed"])
  ].

Definition SPELL_SIGNALS : list (SpellType.t * SpellSignals.t) :=
  [
    (SpellType.ORIGIN_MYTH,
     SpellSignals.make
       (* signals *)
       ["founded"; "began"; "origin"; "genesis"; "founding"; "started with";
        "our story"; "once upon"; "in the beginning";
        "from humble beginnings"]
       (* emotional_hook *)
       "Belonging, legitimacy, pride"
       (* hidden_function *)
       "Creates loyalty by making the listener part of a sacred story"
       (* breaking_question *)
       "What does this origin story leave out? Who was already here?");
    (SpellType.PROGRESS_NARRATIVE,
     SpellSignals.make
       (* signals *)
       ["better"; "improving"; "growing"; "advancing"; "developing";
        "more than ever"; "unprecedented"; "next level"; "forward"]
       (* emotional_hook *)
       "Hope, optimism, participation"
       (* hidden_function *)
       "Makes current trajectory feel inevitable and good; resistance feels regressive"
       (* breaking_question *)
       "Better for whom? By whose metric? At what cost to what?");
    (SpellType.FEAR_NARRATIVE,
     SpellSignals.make
       (* signals *)
       ["threat"; "danger"; "crisis"; "enemy"; "collapse"; "catastrophe";
        "if we don't act now"; "at risk"; "under attack"; "existential"]
       (* emotional_hook *)
       "Fear, urgency, tribal bonding"
       (* hidden_function *)
       "Justifies extreme measures and suppresses dissent ('now is not the time')"
       (* breaking_question *)
       "Who benefits from this fear? What becomes possible when people are afraid?");
    (SpellType.SCARCITY_SPELL,
     SpellSignals.make
       (* signals *)
       ["not enough"; "limited"; "scarce"; "running out"; "competition";
        "zero-sum"; "fight for"; "earn your place"; "only the best"]
       (* emotional_hook *)
       "Anxiety, competition, hoarding instinct"
       (* hidden_function *)
       "Prevents solidarity by making people see each other as competitors for artificially limited resources"
       (* breaking_question *)
       "Is this truly scarce, or is access being controlled? By whom?");
    (SpellType.IDENTITY_SPELL,
     SpellSignals.make
       (* signals *)
       ["we are"; "our people"; "who we are"; "our values"; "our kind";
        "real Americans"; "true believers"; "the faithful"; "patriots"]
       (* emotional_hook *)
       "Belonging, exclusion, tribal identity"
       (* hidden_function *)
       "Creates in-group that cannot question without losing identity"
       (* breaking_question *)
       "Who is 'we,' and who is excluded? What happens to those who disagree from within?");
    (SpellType.COMPLEXITY_SPELL,
     SpellSignals.make
       (* signals *)
       ["it's complicated"; "you wouldn't understand"; "technical";
        "nuanced"; "leave it to the experts"; "too complex"; "sophisticated";
        "intricate"]
       (* emotional_hook *)
       "Intellectual insecurity, deference, helplessness"
       (* hidden_function *)
       "Prevents democratic engagement with decisions that affect everyone"
       (* breaking_question *)
       "Is it truly complex, or is complexity being weaponized to exclude?");
    (SpellType.UNITY_SPELL,
     SpellSignals.make
       (* signals *)
       ["together"; "united"; "one team"; "shared purpose"; "collective";
        "all of us"; "in this together"; "common goal"; "solidarity"]
       (* emotional_hook *)
       "Warmth, safety, community feeling"
       (* hidden_function *)
       "Suppresses legitimate disagreement by framing it as betrayal of the group"
       (* breaking_question *)
       "Whose version of 'together'? Who set the terms? Who is silenced by 'unity'?");
    (SpellType.BINARY_SPELL,
     SpellSignals.make
       (* signals *)
       ["either"; "or"; "with us"; "against us"; "right side of history";
        "good vs evil"; "black and white"; "choose a side";
        "no middle ground"]
       (* emotional_hook *)
       "Moral clarity, righteousness, urgency"
       (* hidden_function *)
       "Eliminates the third option — the one that would reveal the frame itself"
       (* breaking_question *)
       "What would a third position look like? What does the binary hide?")
  ].

Definition PRISON_SIGNALS : list (PrisonType.t * PrisonSignals.t) :=
  [
    (PrisonType.CHOICE_ARCHITECTURE,
     PrisonSignals.make
       (* signals *)
       ["option"; "plan"; "tier"; "package"; "menu"; "choose from"; "select";
        "pick"; "preference"; "customize"]
       (* mechanism *)
       "Freedom is performed through selection from a pre-curated menu. The menu IS the cage."
       (* door *)
       "Design your own menu. Ask: what option is missing, and why?");
    (PrisonType.OVERTON_WINDOW,
     PrisonSignals.make
       (* signals *)
       ["mainstream"; "fringe"; "extreme"; "moderate"; "reasonable";
        "radical"; "unthinkable"; "acceptable"; "politically feasible"]
       (* mechanism *)
       "The range of 'acceptable' opinion is itself a structure of control. Moving the window is a power act."
       (* door *)
       "Name the idea that cannot be spoken in this space. That is where the wall is.");
    (PrisonType.DEBT_STRUCTURE,
     PrisonSignals.make
       (* signals *)
       ["loan"; "mortgage"; "tuition"; "credit"; "payment plan"; "interest";
        "debt"; "obligation"; "owe"; "afford"]
       (* mechanism *)
       "Debt restructures time itself. The indebted cannot afford to question because they cannot afford to lose."
       (* door *)
       "Calculate the total lifetime interest paid. Follow where it goes. That is the architecture.");
    (PrisonType.CREDENTIAL_GATE,
     PrisonSignals.make
       (* signals *)
       ["degree"; "certification"; "accreditation"; "qualified"; "licensed";
        "authorized"; "prerequisite"; "requirements"]
       (* mechanism *)
       "Credentials gatekeep knowledge that often came from the uncredentialed. The gate charges rent on the commons."
       (* door *)
       "Find someone who knows this without the credential. They exist. Ask how they learned.");
    (PrisonType.PLATFORM_LOCK,
     PrisonSignals.make
       (* signals *)
       ["ecosystem"; "integration"; "compatible"; "API"; "platform";
        "migration cost"; "switching cost"; "vendor"; "proprietary"]
       (* mechanism *)
       "Digital dependency creates invisible walls. Your data, your network, your history — held hostage by design."
       (* door *)
       "Export everything. If you can't, that IS the wall. Build on what you can leave.");
    (PrisonType.TEMPORAL_TRAP,
     PrisonSignals.make
       (* signals *)
       ["busy"; "no time"; "deadline"; "urgent"; "ASAP"; "bandwidth";
        "overwhelmed"; "sprint"; "crunch"; "hustle"]
       (* mechanism *)
       "The trap that prevents seeing all other traps. If you have no time to think, you have no time to be free."
       (* door *)
       "The most radical act may be stopping. Not forever. Just long enough to see.");
    (PrisonType.IDENTITY_CAGE,
     PrisonSignals.make
       (* signals *)
       ["people like us"; "that's not who I am"; "I could never";
        "that's not for people like me"; "stay in your lane";
        "know your place"]
       (* mechanism *)
       "Identity becomes a cage when it limits possibility. 'Who you are' becomes 'what you're allowed to want.'"
       (* door *)
       "Try the thing that 'people like you' don't do. The cage is made of stories, not steel.");
    (PrisonType.LEARNED_HELPLESSNESS,
     PrisonSignals.make
       (* signals *)
       ["nothing changes"; "what's the point"; "they won't let us";
        "it's always been this way"; "you can't fight"; "too big to change"]
       (* mechanism *)
       "The most elegant prison. The prisoner maintains their own walls by believing escape is impossible."
       (* door *)
       "Find one person who escaped. One example breaks the spell. Then find another.")
  ].
(* ------------------------------------------------------------------ *)
(** ** IV-VII. The detectors                                            *)
(* ------------------------------------------------------------------ *)

(** The loop the four detectors share:
<<
    for ty, signals_data in TABLE.items():
        matched = [s for s in signals_data["signals"] if s in text_lower]
        if not matched:
            continue
        density = len(matched) / len(signals_data["signals"])
        ...                      # [body] builds the finding and its sort key
        results.append((key, finding))
>>
*)
Section Scan.
Context {S T D F : Type}.
Variable signals : D -> list string.
Variable body : T -> D -> list string -> Q -> State S (Q * F).
Variable text_lower : string.

Definition matched_in (d : D) : list string :=
  filter (fun s => Py.str_in s text_lower) (signals d).

Definition density_of (d : D) : Q := Py.len_div (matched_in d) (signals d).

Fixpoint scan (tbl : list (T * D)) : State S (list (Q * F)) :=
  match tbl with
  | [] => ret []
  | (ty, signals_data) :: rest =>
      match matched_in signals_data with
      | [] => scan rest
      | _ :: _ =>
          r <- body ty signals_data (matched_in signals_data)
                    (density_of signals_data) ;;
          rs <- scan rest ;;
          ret (r :: rs)
      end
  end.
(** Does the entry have a matched keyword, and the finding the body builds
    for it when started in state [s]. *)
Definition hit (p : T * D) : bool :=
  match matched_in (snd p) with [] => false | _ => true end.

Definition built (p : T * D) (s : S) : Q * F :=
  fst (body (fst p) (snd p) (matched_in (snd p)) (density_of (snd p)) s).
End Scan.

(** [results.sort(key=lambda x: x[0], reverse=True)]: a stable sort, larger
    keys first; entries with equal keys keep their order. *)
Fixpoint insert_desc {F : Type} (x : Q * F) (l : list (Q * F)) : list (Q * F) :=
  match l with
  | [] => [x]
  | y :: r => if Py.Qltb (fst x) (fst y) then y :: insert_desc x r else x :: l
  end.

Definition sort_desc {F : Type} (l : list (Q * F)) : list (Q * F) :=
  fold_right insert_desc [] l.

(** The same sort on float keys, with the comparison of floats. *)
Fixpoint insert_desc_float {F : Type} (x : PrimFloat.float * F)
    (l : list (PrimFloat.float * F)) : list (PrimFloat.float * F) :=
  match l with
  | [] => [x]
  | y :: r => if PrimFloat.ltb (fst x) (fst y) then y :: insert_desc_float x r else x :: l
  end.

Definition sort_desc_float {F : Type} (l : list (PrimFloat.float * F))
  : list (PrimFloat.float * F) :=
  fold_right insert_desc_float [] l.

(** *** Module 1: frame detector *)

(** the body of the loop of [detect_frames] *)
Definition frame_entry (frame_type : FrameType.t) (signals_data : FrameSignals.t)
    (matched : list string) (density : Q) : M (Q * Frame.t) :=
  let strength := Py.min (density * 2) 1 in
  frame <- Frame.new
             (Py.title (FrameType.name frame_type) ++ " Frame")
             frame_type
             (FrameSignals.reveals signals_data)
             (map (fun m => "Signal detected: '" ++ m ++ "'") matched)
             [FrameSignals.reveals signals_data]
             [FrameSignals.question signals_data]
             []
             [FrameSignals.antidote signals_data]
             strength
             (1 - strength) ;;
  ret (density, frame).

Definition detect_frames (text context : string) : M (list Frame.t) :=
  let text_lower := Py.lower text ++ " " ++ Py.lower context in
  results <- scan FrameSignals.signals frame_entry text_lower FRAME_SIGNALS ;;
  ret (map snd (sort_desc results)).

(** *** Module 2: mask identifier *)

Module InfluenceGraph.
Record t : Type := make {
  _actors : odict Mask.t;
  _edges : list InfluenceEdge.t;
}.

(** [InfluenceGraph()] *)
Definition init : t := make [] [].

Definition add_actor (mask : Mask.t) (self : t) : t :=
  make (OD.set (Mask.actor mask) mask (_actors self)) (_edges self).

Definition add_edge (edge : InfluenceEdge.t) (self : t) : t :=
  make (_actors self) ((_edges self ++ [edge])%list).

(** Methods run on the graph and the world together. *)
Definition Method (A : Type) : Type := State (t * World) A.

Definition in_world {A} (m : M A) : Method A :=
  fun gw => let (a, w') := m (snd gw) in (a, (fst gw, w')).

Definition on_self (f : t -> t) : Method unit :=
  fun gw => (tt, (f (fst gw), snd gw)).

(** the body of the loop of [identify_masks] *)
Definition mask_entry (mask_type : MaskType.t) (signals_data : MaskSignals.t)
    (matched : list string) (density : Q) : Method (Q * Mask.t) :=
  mask <- in_world
            (Mask.new
               ("[Actor performing " ++ MaskType.name mask_type ++ "]")
               mask_type
               (Py.join ", " matched)
               (MaskSignals.behind_the_mask signals_data)
               ("Signals: " ++ Py.join ", " matched)
               (MaskSignals.behind_the_mask signals_data)
               []
               (MaskSignals.slip_indicators signals_data)) ;;
  _ <- on_self (add_actor mask) ;;
  ret (density, mask).

Definition identify_masks (text : string) : Method (list Mask.t) :=
  let text_lower := Py.lower text in
  results <- scan MaskSignals.signals mask_entry text_lower MASK_SIGNALS ;;
  ret (map snd (sort_desc results)).

(** One entry of the list [find_puppeteers] returns. *)
Record puppeteer : Type := mk_puppeteer {
  actor : string;
  outgoing_influence : PrimFloat.float;
  incoming_influence : PrimFloat.float;
  hidden_connections : nat;
  puppet_score : PrimFloat.float;
}.

(** The three [defaultdict]s filled by the loop over [self._edges]; [+=]
    on a missing key starts from [0.0], or from [0]. *)
Definition tally_edge
    (acc : odict PrimFloat.float * odict PrimFloat.float * odict nat)
    (edge : InfluenceEdge.t)
  : odict PrimFloat.float * odict PrimFloat.float * odict nat :=
  let '(outgoing, incoming, hidden_count) := acc in
  let src := InfluenceEdge.source edge in
  let tgt := InfluenceEdge.target edge in
  let outgoing :=
    OD.set src (PrimFloat.add (OD.get_or src PyFloat.zero outgoing)
                              (InfluenceEdge.weight edge)) outgoing in
  let incoming :=
    OD.set tgt (PrimFloat.add (OD.get_or tgt PyFloat.zero incoming)
                              (InfluenceEdge.weight edge)) incoming in
  let hidden_count :=
    if negb (InfluenceEdge.visible edge)
    then OD.set src (OD.get_or src 0%nat hidden_count + 1)%nat hidden_count
    else hidden_count in
  (outgoing, incoming, hidden_count).

Definition tally (edges : list InfluenceEdge.t)
  : odict PrimFloat.float * odict PrimFloat.float * odict nat :=
  fold_left tally_edge edges ([], [], []).

(** The body of the loop over [self._actors].  The divisor is
    [max(inc, 0.01)], which is never zero when [out > inc]. *)
Definition candidate
    (t3 : odict PrimFloat.float * odict PrimFloat.float * odict nat) (actor : string)
  : option puppeteer :=
  let '(outgoing, incoming, hidden_count) := t3 in
  let out := OD.get_or actor PyFloat.zero outgoing in
  let inc := OD.get_or actor PyFloat.zero incoming in
  let hidden := OD.get_or actor 0%nat hidden_count in
  if andb (PrimFloat.ltb inc out) (0 <? hidden)%nat
  then Some (mk_puppeteer actor (PyFloat.round3 out) (PyFloat.round3 inc) hidden
               (PyFloat.round3
                  (PrimFloat.mul
                     (PrimFloat.div out (PyFloat.max inc PyFloat.hundredth))
                     (PyFloat.of_int (Z.of_nat (1 + hidden))))))
  else None.

Fixpoint collect
    (t3 : odict PrimFloat.float * odict PrimFloat.float * odict nat)
    (actors : list string) : list puppeteer :=
  match actors with
  | [] => []
  | a :: rest =>
      match candidate t3 a with
      | Some p => p :: collect t3 rest
      | None => collect t3 rest
      end
  end.

Definition find_puppeteers (self : t) : list puppeteer :=
  let puppeteers := collect (tally (_edges self)) (OD.keys (_actors self)) in
  map snd (sort_desc_float (map (fun p => (puppet_score p, p)) puppeteers)).

(** The report of [unmask_network]. *)
Record network : Type := mk_network {
  actors : odict json;
  relationships : list (odict InfluenceEdge.value);
  hidden_relationships : list (odict InfluenceEdge.value);
  puppeteers : list puppeteer;
  total_actors : nat;
  total_edges : nat;
  hidden_edge_ratio : Q;
}.

Definition unmask_network (self : t) : network :=
  mk_network
    (map (fun kv => (fst kv, Mask.to_dict (snd kv))) (_actors self))
    (map InfluenceEdge.to_dict (_edges self))
    (map InfluenceEdge.to_dict
         (filter (fun e => negb (InfluenceEdge.visible e)) (_edges self)))
    (find_puppeteers self)
    (List.length (_actors self))
    (List.length (_edges self))
    (inject_Z (Z.of_nat (List.length
                           (filter (fun e => negb (InfluenceEdge.visible e)) (_edges self))))
     / inject_Z (Z.of_nat (Nat.max (List.length (_edges self)) 1))).
End InfluenceGraph.

(** the module-level convenience function: a throw-away graph *)
Definition identify_masks (text : string) : M (list Mask.t) :=
  fun w =>
    let (masks, gw) :=
      InfluenceGraph.identify_masks text (InfluenceGraph.init, w) in
    (masks, snd gw).

(** *** Module 3: spell analyzer *)

(** the body of the loop of [analyze_spells] *)
Definition spell_entry (spell_type : SpellType.t) (signals_data : SpellSignals.t)
    (matched : list string) (density : Q) : M (Q * Spell.t) :=
  let potency := Py.min (density * (5 # 2)) 1 in
  spell <- Spell.new
             (Py.title (Py.replace_char "_" " " (SpellType.name spell_type)))
             spell_type
             ("Detected narrative signals: " ++ Py.join ", " matched)
             (SpellSignals.emotional_hook signals_data)
             (SpellSignals.hidden_function signals_data)
             "[Requires deeper analysis — what is NOT being said?]"
             "[Follow the benefit — who gains from this belief?]"
             (SpellSignals.breaking_question signals_data)
             potency
             density ;;
  ret (potency, spell).

Definition analyze_spells (text : string) : M (list Spell.t) :=
  let text_lower := Py.lower text in
  results <- scan SpellSignals.signals spell_entry text_lower SPELL_SIGNALS ;;
  ret (map snd (sort_desc results)).

(** *** Module 4: prison mapper *)

(** the body of the loop of [map_prisons] *)
Definition prison_entry (prison_type : PrisonType.t) (signals_data : PrisonSignals.t)
    (matched : list string) (density : Q) : M (Q * Prison.t) :=
  let elegance := Py.min (density * 2) 1 in
  prison <- Prison.new
              (Py.title (Py.replace_char "_" " " (PrisonType.name prison_type)))
              prison_type
              (PrisonSignals.mechanism signals_data)
              ["[What option would change everything if it appeared?]"]
              ["[What path is not even conceived as possible?]"]
              ["[What future cannot be imagined from inside this prison?]"]
              (map (fun m => "Signal: '" ++ m ++ "'") matched)
              [PrisonSignals.door signals_data]
              elegance ;;
  ret (elegance, prison).

Definition map_prisons (text : string) : M (list Prison.t) :=
  let text_lower := Py.lower text in
  results <- scan PrisonSignals.signals prison_entry text_lower PRISON_SIGNALS ;;
  ret (map snd (sort_desc results)).

(** A world for concrete runs: the n-th UUID has n+1 in its leading bits. *)
Definition world0 : World :=
  mkWorld (fun n => N.shiftl (N.of_nat (S n)) 96) 0
          (fun n => "2024-01-01T00:00:0" ++ String (hex_digit (N.of_nat n)) "+00:00") 0
          [].

(** *** Aggregate potency of a list of spells *)

(** [round(x)] on a real, ties to even, and [round(x, 3)]. *)
Definition round_half_even_R (x : R) : Z :=
  let fl := Int_part x in
  if Rlt_dec (x - IZR fl) (1 / 2) then fl
  else if Rlt_dec (1 / 2) (x - IZR fl) then (fl + 1)%Z
  else if Z.even fl then fl else (fl + 1)%Z.

Definition round3_R (x : R) : R := (IZR (round_half_even_R (x * 1000)) / 1000)%R.

(** [type_counts[s.spell_type.name] += 1] over the spells *)
Definition type_counts (spells : list Spell.t) : odict nat :=
  fold_left
    (fun tc s =>
       let k := SpellType.name (Spell.spell_type s) in
       OD.set k (OD.get_or k 0%nat tc + 1)%nat tc)
    spells [].

(** The local [entropy] of [compute_spell_potency]: Shannon entropy, in
    bits, of the distribution of spell types. *)
Definition spell_entropy (spells : list Spell.t) : R :=
  let counts := OD.values (type_counts spells) in
  let total := fold_left Nat.add counts 0%nat in
  (- fold_left Rplus
       (map (fun c => INR c / INR total * Py.log2 (INR c / INR total))
            (filter (fun c => 0 <? c)%nat counts))
       0)%R.

(** [max(spells, key=lambda s: s.potency)]: the first spell of largest potency. *)
Fixpoint max_potency (best : Spell.t) (rest : list Spell.t) : Spell.t :=
  match rest with
  | [] => best
  | s :: r =>
      max_potency (if Py.Qltb (Spell.potency best) (Spell.potency s) then s else best) r
  end.

Module SpellPotency.
Record t : Type := make {
  aggregate_potency : Q;
  dominant_spell : option Spell.t;
  spell_count : nat;
  spell_diversity : option R;       (* the key is absent for an empty list *)
  enchantment_level : string;
}.
End SpellPotency.

(** The report without its [spell_breakdown] and [insight] entries. *)
Definition compute_spell_potency (spells : list Spell.t) : SpellPotency.t :=
  match spells with
  | [] => SpellPotency.make 0 None 0 None "clear"
  | first :: others =>
      let aggregate :=
        fold_left Qplus (map Spell.potency spells) 0
        / inject_Z (Z.of_nat (List.length spells)) in
      let dominant := max_potency first others in
      let entropy := spell_entropy spells in
      let level :=
        if Qle_bool (8 # 10) aggregate then "total_enchantment"
        else if Qle_bool (6 # 10) aggregate then "heavy_enchantment"
        else if Qle_bool (4 # 10) aggregate then "moderate_enchantment"
        else if Qle_bool (2 # 10) aggregate then "light_enchantment"
        else "minimal_enchantment" in
      SpellPotency.make (Py.round3 aggregate) (Some dominant)
        (List.length spells) (Some (round3_R entropy)) level
  end.

(** *** Doors and cage score of a list of prisons *)

(** [max(items, key=key)] on a non-empty sequence: the first item whose
    key is the largest. *)
Fixpoint max_by {A : Type} (key : A -> Q) (best : A) (rest : list A) : A :=
  match rest with
  | [] => best
  | x :: r => max_by key (if Py.Qltb (key best) (key x) then x else best) r
  end.

Module Door.
Record t : Type := make {
  prison : string;
  prison_type : string;
  elegance : Q;
  exits : list string;
  escape_difficulty : Q;
  first_step : string;
}.
End Door.

Definition find_doors (prisons : list Prison.t) : list Door.t :=
  map (fun prison =>
         let difficulty := Prison.elegance prison in
         Door.make (Prison.name prison)
                   (PrisonType.name (Prison.prison_type prison))
                   (Prison.elegance prison)
                   (Prison.exit_conditions prison)
                   (Py.round3 difficulty)
                   ("See the wall. That is always the first step. "
                    ++ "You cannot walk through a wall you don't know is there."))
      prisons.

Module CageScore.
Record t : Type := make {
  cage_score : Q;
  interpretation : string;
  prison_count : nat;
  avg_elegance : option Q;          (* these four keys are absent for an empty list *)
  interlocking_bonus : option Q;
  most_elegant_prison : option string;
  doors : option (list Door.t);
}.
End CageScore.

(** The report without its [insight] entry. *)
Definition compute_cage_score (prisons : list Prison.t) : CageScore.t :=
  match prisons with
  | [] => CageScore.make 0 "open_field" 0 None None None None
  | first :: others =>
      let avg_elegance :=
        fold_left Qplus (map Prison.elegance prisons) 0
        / inject_Z (Z.of_nat (List.length prisons)) in
      let interlocking_bonus :=
        Py.min (inject_Z (Z.of_nat (List.length prisons)) * (1 # 10)) (5 # 10) in
      let cage_score := Py.min (avg_elegance + interlocking_bonus) 1 in
      let interp :=
        if Qle_bool (8 # 10) cage_score then "total_confinement"
        else if Qle_bool (6 # 10) cage_score then "heavy_constraint"
        else if Qle_bool (4 # 10) cage_score then "moderate_constraint"
        else if Qle_bool (2 # 10) cage_score then "light_constraint"
        else "mostly_free" in
      CageScore.make (Py.round3 cage_score) interp (List.length prisons)
        (Some (Py.round3 avg_elegance)) (Some (Py.round3 interlocking_bonus))
        (Some (Prison.name (max_by Prison.elegance first others)))
        (Some (find_doors prisons))
  end.

(** *** Composite map of the frames of several texts *)

(** [tuple(sorted([a, b]))] *)
Definition sorted_pair (a b : string) : string * string :=
  if String.ltb b a then (b, a) else (a, b).

(** [co_occurrences[pair] += 1] on a dictionary keyed by pairs of names *)
Definition pair_eqb (p q : string * string) : bool :=
  String.eqb (fst p) (fst q) && String.eqb (snd p) (snd q).

Fixpoint bump_pair (pair : string * string) (d : list ((string * string) * nat))
  : list ((string * string) * nat) :=
  match d with
  | [] => [(pair, 1%nat)]
  | (k, n) :: r =>
      if pair_eqb pair k then (k, (n + 1)%nat) :: r else (k, n) :: bump_pair pair r
  end.

(** The pairs met by [for i, a in enumerate(types_found): for b in
    types_found[i + 1:]], in the order in which they are met. *)
Fixpoint pairs_of (types_found : list string) : list (string * string) :=
  match types_found with
  | [] => []
  | a :: rest => (map (fun b => sorted_pair a b) rest ++ pairs_of rest)%list
  end.

Module FrameArchitecture.
Record t : Type := make {
  total_frames_detected : nat;
  frame_frequency : odict nat;
  co_occurrence_matrix : odict nat;
  dominant_frame : option string;
  architectural_density : Q;
  insight : string;
}.
End FrameArchitecture.

Definition _generate_frame_insight (dominant : list (string * nat))
    (co_occurrences : list ((string * string) * nat)) : string :=
  match dominant with
  | [] =>
      "No frames detected. This is itself significant — where there appear to be no frames, the framing may be total."
  | (top, count) :: _ =>
      let insight :=
        "The dominant frame is " ++ top ++ " (appeared "
        ++ Py.str_int (Z.of_nat count) ++ " times). " in
      match co_occurrences with
      | [] => insight
      | first :: others =>
          let strongest_pair :=
            max_by (fun x => inject_Z (Z.of_nat (snd x))) first others in
          let (a, b) := fst strongest_pair in
          insight
          ++ "The strongest reinforcement pattern is " ++ a ++ " ↔ " ++ b
          ++ " (co-occurred " ++ Py.str_int (Z.of_nat (snd strongest_pair)) ++ " times). "
          ++ "These frames likely reinforce each other — look for how one naturalizes the other."
      end
  end.

(** The three accumulators of the loop over the texts, and one turn of it. *)
Definition architecture : Type :=
  (list Frame.t * odict nat * list ((string * string) * nat))%type.

Definition architecture_step (acc : architecture) (frames : list Frame.t) : architecture :=
  let '(all_frames, frame_counts, co_occurrences) := acc in
  let types_found := map (fun f => FrameType.name (Frame.frame_type f)) frames in
  ((all_frames ++ frames)%list,
   fold_left (fun d ft => OD.set ft (OD.get_or ft 0%nat d + 1)%nat d)
             types_found frame_counts,
   fold_left (fun d pair => bump_pair pair d) (pairs_of types_found) co_occurrences).

Fixpoint architecture_loop (texts : list string) (acc : architecture) : M architecture :=
  match texts with
  | [] => ret acc
  | text :: rest =>
      frames <- detect_frames text EmptyString ;;
      architecture_loop rest (architecture_step acc frames)
  end.

Definition map_frame_architecture (texts : list string) : M FrameArchitecture.t :=
  acc <- architecture_loop texts ([], [], []) ;;
  let '(all_frames, frame_counts, co_occurrences) := acc in
  let dominant :=
    map snd (sort_desc (map (fun kv => (inject_Z (Z.of_nat (snd kv)), kv)) frame_counts)) in
  ret (FrameArchitecture.make
         (List.length all_frames)
         (OD.of_pairs dominant)
         (OD.of_pairs (map (fun kc => (fst (fst kc) ++ "-" ++ snd (fst kc), snd kc))
                           co_occurrences))
         (match dominant with [] => None | kv :: _ => Some (fst kv) end)
         (inject_Z (Z.of_nat (List.length all_frames))
          / inject_Z (Z.of_nat (Nat.max (List.length texts) 1)))
         (_generate_frame_insight dominant co_occurrences)).

(* ------------------------------------------------------------------ *)
(** ** Reading dynamically typed JSON values                            *)
(* ------------------------------------------------------------------ *)

(** Two steps of a loader that both run: an exception of the first, else
    of the second, propagates; without an exception the result is typed
    only if each part is. *)
Definition both {A B} (ra : result A) (rb : result B) : result (A * B) :=
  match ra, rb with
  | Raise e, _ => Raise e
  | _, Raise e => Raise e
  | Ok a, Ok b => Ok (a, b)
  | _, _ => IllTyped
  end.

Fixpoint all_of {A} (l : list (result A)) : result (list A) :=
  match l with
  | [] => Ok []
  | r :: rest =>
      match both r (all_of rest) with
      | Ok (a, l') => Ok (a :: l')
      | Raise e => Raise e
      | IllTyped => IllTyped
      end
  end.

(** [bool(v)] *)
Definition truthy (v : json) : bool :=
  match v with
  | JNull => false
  | JBool b => b
  | JInt z => negb (z =? 0)%Z
  | JNum q => negb (Qeq_bool q 0)
  | JStr s => negb (String.eqb s EmptyString)
  | JArr l => match l with [] => false | _ => true end
  | JObj kv => match kv with [] => false | _ => true end
  end.

(** [v[k]] for a string [k] *)
Definition subscript (v : json) (k : string) : result json :=
  match v with
  | JObj kv => match OD.get k kv with Some x => Ok x | None => Raise KeyError end
  | _ => Raise TypeError
  end.

(** [v.get(k)] and [v.get(k, dflt)]: only a dict has the method. *)
Definition get_method (v : json) (k : string) (dflt : json) : result json :=
  match v with
  | JObj kv => Ok (OD.get_or k dflt kv)
  | _ => Raise AttributeError
  end.

Definition chars (s : string) : list json :=
  map (fun c => JStr (String c EmptyString)) (list_ascii_of_string s).

(** [iter(v)] *)
Definition iterate (v : json) : result (list json) :=
  match v with
  | JArr l => Ok l
  | JObj kv => Ok (map (fun kx => JStr (fst kx)) kv)
  | JStr s => Ok (chars s)
  | _ => Raise TypeError
  end.

(** One element of the iterable given to [dict(...)]: it must itself
    iterate to exactly two objects, the first of them hashable. *)
Definition pair_of_item (item : json) : result (string * json) :=
  match iterate item with
  | Ok [k; v] =>
      match k with
      | JStr s => Ok (s, v)
      | JArr _ | JObj _ => Raise TypeError
      | _ => IllTyped                      (* a key that is not a string *)
      end
  | Ok _ => Raise ValueError
  | Raise e => Raise e
  | IllTyped => IllTyped
  end.

(** [dict(v)], as [defaultdict(factory, v)] builds its content. *)
Definition py_dict (v : json) : result (odict json) :=
  match v with
  | JObj kv => Ok kv
  | JArr _ | JStr _ =>
      ' items <-? iterate v ;;
      ' pairs <-? all_of (map pair_of_item items) ;;
      Ok (OD.of_pairs pairs)
  | _ => Raise TypeError
  end.

(** Values a typed field can hold. *)
Definition as_str (v : json) : result string :=
  match v with JStr s => Ok s | _ => IllTyped end.

Definition as_opt_str (v : json) : result (option string) :=
  match v with JStr s => Ok (Some s) | JNull => Ok None | _ => IllTyped end.

Definition as_int (v : json) : result Z :=
  match v with JInt z => Ok z | _ => IllTyped end.

Definition as_obj (v : json) : result (odict json) :=
  match v with JObj kv => Ok kv | _ => IllTyped end.

Definition as_list {A} (elem : json -> result A) (v : json) : result (list A) :=
  match v with
  | JArr l =>
      fold_right (fun x acc => ' a <-? elem x ;; ' r <-? acc ;; Ok (a :: r)) (Ok []) l
  | _ => IllTyped
  end.

Definition as_dict {A} (elem : json -> result A) (d : odict json) : result (odict A) :=
  fold_right
    (fun kv acc => ' a <-? elem (snd kv) ;; ' r <-? acc ;; Ok ((fst kv, a) :: r))
    (Ok []) d.

(* ------------------------------------------------------------------ *)
(** ** VIII. Module 5: crumb trail                                      *)
(* ------------------------------------------------------------------ *)

Module CrumbTrail.
Record t : Type := make {
  trail_id : string;
  _crumbs : list Crumb.t;
  _chains : odict (list string);          (* chain_id -> [crumb_ids] *)
}.

(** [CrumbTrail(trail_id)]: [trail_id or uuid.uuid4().hex[:16]] *)
Definition init (trail_id : option string) : M t :=
  match trail_id with
  | Some (String c s) => ret (make (String c s) [] [])
  | _ => fresh <- uuid4_hex 16 ;; ret (make fresh [] [])
  end.

Definition Method (A : Type) : Type := State (t * World) A.

Definition drop_crumb (content : string) (crumb_type : CrumbType.t)
    (context visibility target_audience : string) (chain_id : option string)
  : Method Crumb.t :=
  fun tw =>
    let (self, w) := tw in
    let chain :=
      match chain_id with
      | Some (String c s) => String c s
      | _ => trail_id self
      end in
    let (crumb_id, w1) := uuid4_hex 12 w in
    let (created_at, w2) := now_iso w1 in
    let crumb := Crumb.make crumb_id crumb_type content context visibility
                            target_audience None (Some chain) created_at in
    (crumb,
     (make (trail_id self) ((_crumbs self ++ [crumb])%list)
           (OD.set chain ((OD.get_or chain [] (_chains self) ++ [crumb_id])%list)
                   (_chains self)),
      w2)).

(** [follow_chain] *)
Definition follow_chain (chain_id : string) (self : t) : list Crumb.t :=
  let crumb_ids := OD.get_or chain_id [] (_chains self) in
  filter (fun c => existsb (String.eqb (Crumb.crumb_id c)) crumb_ids) (_crumbs self).

Definition snapshot (self : t) (saved_at : string) : json :=
  JObj [ ("trail_id", JStr (trail_id self));
         ("crumbs", JArr (map Crumb.to_dict (_crumbs self)));
         ("chains", JObj (map (fun kv => (fst kv, JArr (map JStr (snd kv))))
                              (_chains self)));
         ("saved_at", JStr saved_at) ].

(** [persist(path)] *)
Definition persist (path : string) (self : t) : M unit :=
  saved_at <- now_iso ;;
  write_json path (snapshot self saved_at).

(** [CrumbType[v]] *)
Definition crumb_type_of (v : json) : result CrumbType.t :=
  match v with
  | JStr s => match CrumbType.of_name s with Some x => Ok x | None => Raise KeyError end
  | JArr _ | JObj _ => Raise TypeError
  | _ => Raise KeyError
  end.

(** [Crumb(crumb_id=c_data["crumb_id"], ...)]: the arguments are evaluated
    in the order they are written. *)
Definition crumb_of (c_data : json) : result Crumb.t :=
  let field k := ' v <-? subscript c_data k ;; as_str v in
  let r_type := ' v <-? subscript c_data "crumb_type" ;; crumb_type_of v in
  let r_decay := ' v <-? get_method c_data "decay_time" JNull ;; as_opt_str v in
  let r_chain := ' v <-? get_method c_data "chain_id" JNull ;; as_opt_str v in
  match both (field "crumb_id") (both r_type (both (field "content")
          (both (field "context") (both (field "visibility")
          (both (field "target_audience") (both r_decay (both r_chain
          (field "created_at")))))))) with
  | Ok (crumb_id, (crumb_type, (content, (context, (visibility,
          (target_audience, (decay_time, (chain_id, created_at)))))))) =>
      Ok (Crumb.make crumb_id crumb_type content context visibility
                     target_audience decay_time chain_id created_at)
  | Raise e => Raise e
  | IllTyped => IllTyped
  end.

(** [CrumbTrail.load(path)] *)
Definition load (path : string) : M (result t) :=
  fun w =>
    match read_json path w with
    | Ok data =>
        match subscript data "trail_id" with
        | Ok tid =>
            (* cls(trail_id=data["trail_id"]) *)
            let (r_id, w') :=
              if truthy tid then (as_str tid, w)
              else let (fresh, w1) := uuid4_hex 16 w in (Ok fresh, w1) in
            (* for c_data in data["crumbs"]: ... trail._crumbs.append(crumb) *)
            let r_crumbs :=
              ' v <-? subscript data "crumbs" ;;
              ' items <-? iterate v ;;
              all_of (map crumb_of items) in
            (* trail._chains = defaultdict(list, data.get("chains", {})) *)
            let r_chains :=
              ' v <-? get_method data "chains" (JObj []) ;;
              ' d <-? py_dict v ;;
              as_dict (as_list as_str) d in
            (match both r_id (both r_crumbs r_chains) with
             | Ok (trail_id, (crumbs, chains)) => Ok (make trail_id crumbs chains)
             | Raise e => Raise e
             | IllTyped => IllTyped
             end, w')
        | Raise e => (Raise e, w)
        | IllTyped => (IllTyped, w)
        end
    | Raise e => (Raise e, w)
    | IllTyped => (IllTyped, w)
    end.

Definition in_world {A} (m : M A) : Method A :=
  fun tw => let (a, w') := m (snd tw) in (a, (fst tw, w')).

(** The texts of the crumbs [generate_from_analysis] drops. *)
Definition question_context (frame : Frame.t) : string :=
  "Generated from " ++ Frame.name frame ++ " detection".

Definition pattern_content (mask : Mask.t) : string :=
  "When you hear '" ++ Mask.formal_role mask ++ "', look for: "
  ++ Mask.actual_function mask.

Definition pattern_context (mask : Mask.t) : string :=
  "Generated from " ++ MaskType.name (Mask.mask_type mask) ++ " mask detection".

Definition paradox_context (spell : Spell.t) : string :=
  "Counter to " ++ Spell.name spell.

Definition trail_context (prison : Prison.t) : string :=
  "Door in " ++ Prison.name prison.

Definition bridge_content (analysis : SystemAnalysis.t) : string :=
  "This system has "
  ++ Py.str_int (Z.of_nat (List.length (SystemAnalysis.frames analysis)))
  ++ " visible frames, "
  ++ Py.str_int (Z.of_nat (List.length (SystemAnalysis.masks analysis)))
  ++ " masks in play, "
  ++ Py.str_int (Z.of_nat (List.length (SystemAnalysis.spells analysis)))
  ++ " active spells, and "
  ++ Py.str_int (Z.of_nat (List.length (SystemAnalysis.prisons analysis)))
  ++ " prisons operating. "
  ++ "Awareness score: " ++ Py.format_2f (SystemAnalysis.awareness_score analysis) ++ ". "
  ++ "The first step is always the same: see.".

(** [generate_from_analysis] *)
Definition generate_from_analysis (analysis : SystemAnalysis.t) : Method (list Crumb.t) :=
  chain_id <- in_world (uuid4_hex 12) ;;
  questions <-
    for_each
      (fun frame =>
         for_each
           (fun question =>
              drop_crumb question CrumbType.QUESTION (question_context frame)
                         "hidden" "seekers" (Some chain_id))
           (Frame.forbidden_questions frame))
      (SystemAnalysis.frames analysis) ;;
  patterns <-
    for_each
      (fun mask =>
         drop_crumb (pattern_content mask) CrumbType.PATTERN (pattern_context mask)
                    "hidden" "seekers" (Some chain_id))
      (SystemAnalysis.masks analysis) ;;
  paradoxes <-
    for_each
      (fun spell =>
         drop_crumb (Spell.counter_narrative spell) CrumbType.PARADOX
                    (paradox_context spell) "hidden" "seekers" (Some chain_id))
      (SystemAnalysis.spells analysis) ;;
  trails <-
    for_each
      (fun prison =>
         for_each
           (fun exit_condition =>
              drop_crumb exit_condition CrumbType.TRAIL (trail_context prison)
                         "hidden" "seekers" (Some chain_id))
           (Prison.exit_conditions prison))
      (SystemAnalysis.prisons analysis) ;;
  let generated :=
    (List.concat questions ++ patterns ++ paradoxes ++ List.concat trails)%list in
  match generated with
  | [] => ret []
  | _ :: _ =>
      bridge <- drop_crumb (bridge_content analysis) CrumbType.BRIDGE
                           "Meta-analysis bridge" "hidden" "seekers" (Some chain_id) ;;
      ret (generated ++ [bridge])%list
  end.

(** [encode_crumb] and [decode_trail].  The digest
    [hashlib.sha256(s.encode()).hexdigest()] is a parameter of the two. *)
Section Encoding.
Variable sha256_hex : string -> string.

Definition encode_crumb (crumb : Crumb.t) (key : string) (self : t) : string :=
  let content := Crumb.content crumb in
  let salt := match key with EmptyString => trail_id self | _ => key end in
  let marker := Py.take 8 (sha256_hex (salt ++ ":" ++ Crumb.crumb_id crumb)) in
  let content_hash := Py.take 16 (sha256_hex content) in
  "sk:" ++ marker ++ ":" ++ content_hash.

Definition decode_trail (encoded_markers : list string) (self : t) : list Crumb.t :=
  filter (fun crumb =>
            existsb (String.eqb (encode_crumb crumb EmptyString self)) encoded_markers)
         (_crumbs self).
End Encoding.
End CrumbTrail.

(* ------------------------------------------------------------------ *)
(** ** X. Collective learning                                           *)
(* ------------------------------------------------------------------ *)

(** [str(n)] for an [int] *)
Definition str_of_int (z : Z) : string :=
  DecimalString.NilZero.string_of_int (Z.to_int z).

(** A number as [sum] adds it; anything else makes [0 + v] raise. *)
Definition number (v : json) : result Q :=
  match v with
  | JInt z => Ok (inject_Z z)
  | JNum q => Ok q
  | JBool b => Ok (if b then 1 else 0)
  | _ => Raise TypeError
  end.

Module CollectiveMap.
Record t : Type := make {
  total_analyses : Z;
  most_common_frame : option string;
  most_common_mask : option string;
  most_powerful_spell : option string;
  most_elegant_prison : option string;
  frame_distribution : odict Q;
  mask_distribution : odict Q;
  spell_distribution : odict Q;
  prison_distribution : odict Q;
  average_awareness : Q;
  insight : string;
}.
End CollectiveMap.

Module CollectiveInsight.
Record t : Type := make {
  _storage_path : option string;
  _analyses : list (odict json);
  _frame_frequencies : odict Z;
  _mask_frequencies : odict Z;
  _spell_frequencies : odict Z;
  _prison_frequencies : odict Z;
  _total_analyses : Z;
}.

(** The state [__init__] sets up before it looks at the storage path. *)
Definition empty (storage_path : option string) : t :=
  make storage_path [] [] [] [] [] 0.

(** One assignment inside the [try] of [_load]: an exception ends the
    method with what was assigned so far ([except Exception: pass]). *)
Definition assign {A} (r : result A) (upd : A -> t) (k : t -> result t) (self : t)
  : result t :=
  match r with
  | Ok a => k (upd a)
  | Raise _ => Ok self
  | IllTyped => IllTyped
  end.

(** [defaultdict(int, data.get(key, {}))] *)
Definition counter_of (data : json) (key : string) : result (odict Z) :=
  ' v <-? get_method data key (JObj []) ;;
  ' d <-? py_dict v ;;
  as_dict as_int d.

Definition _load (self : t) (w : World) : result t :=
  match _storage_path self with
  | None => Ok self
  | Some path =>
      if negb (path_exists path w) then Ok self
      else
        match read_json path w with
        | Ok data =>
            assign (' v <-? get_method data "total_analyses" (JInt 0) ;; as_int v)
              (fun n => make (_storage_path self) (_analyses self)
                          (_frame_frequencies self) (_mask_frequencies self)
                          (_spell_frequencies self) (_prison_frequencies self) n)
            (fun s1 =>
            assign (counter_of data "frame_frequencies")
              (fun d => make (_storage_path s1) (_analyses s1)
                          d (_mask_frequencies s1)
                          (_spell_frequencies s1) (_prison_frequencies s1)
                          (_total_analyses s1))
            (fun s2 =>
            assign (counter_of data "mask_frequencies")
              (fun d => make (_storage_path s2) (_analyses s2)
                          (_frame_frequencies s2) d
                          (_spell_frequencies s2) (_prison_frequencies s2)
                          (_total_analyses s2))
            (fun s3 =>
            assign (counter_of data "spell_frequencies")
              (fun d => make (_storage_path s3) (_analyses s3)
                          (_frame_frequencies s3) (_mask_frequencies s3)
                          d (_prison_frequencies s3)
                          (_total_analyses s3))
            (fun s4 =>
            assign (counter_of data "prison_frequencies")
              (fun d => make (_storage_path s4) (_analyses s4)
                          (_frame_frequencies s4) (_mask_frequencies s4)
                          (_spell_frequencies s4) d
                          (_total_analyses s4))
            (fun s5 =>
            assign (' v <-? get_method data "analyses" (JArr []) ;; as_list as_obj v)
              (fun h => make (_storage_path s5) h
                          (_frame_frequencies s5) (_mask_frequencies s5)
                          (_spell_frequencies s5) (_prison_frequencies s5)
                          (_total_analyses s5))
            (fun s6 => Ok s6) s5) s4) s3) s2) s1) self
        | _ => Ok self
        end
  end.

(** [CollectiveInsight(storage_path)] *)
Definition init (storage_path : option string) (w : World) : result t :=
  let self := empty storage_path in
  match storage_path with
  | Some path => if path_exists path w then _load self w else Ok self
  | None => Ok self
  end.

(** [max(d, key=d.get) if d else None]: the first key of largest count. *)
Fixpoint argmax (best : string * Z) (rest : odict Z) : string :=
  match rest with
  | [] => fst best
  | kv :: r => argmax (if (snd best <? snd kv)%Z then kv else best) r
  end.

Definition most_common (d : odict Z) : option string :=
  match d with
  | [] => None
  | kv :: r => Some (argmax kv r)
  end.

Definition _generate_collective_insight (self : t) : string :=
  if (_total_analyses self <? 1)%Z then
    "The collective map is empty. You are the first seeker. What you see matters."
  else
    let frame_part :=
      match most_common (_frame_frequencies self) with
      | Some top_frame =>
          ["The most common frame across all analyses is " ++ top_frame]
      | None => [] end in
    let prison_part :=
      match most_common (_prison_frequencies self) with
      | Some top_prison => ["the most prevalent prison is " ++ top_prison]
      | None => [] end in
    let spell_part :=
      match most_common (_spell_frequencies self) with
      | Some top_spell => ["the most potent spell is " ++ top_spell]
      | None => [] end in
    let parts := (frame_part ++ prison_part ++ spell_part)%list in
    let base := match parts with [] => "" | _ => Py.join ". " parts ++ "." end in
    "Across " ++ str_of_int (_total_analyses self) ++ " analyses: " ++ base
      ++ " The collective sees further than any individual.".

(** [{k: round(v / total, 3) for k, v in freq.items()}] *)
Definition normalize (total : Z) (freq : odict Z) : odict Q :=
  map (fun kv => (fst kv, Py.round3 (inject_Z (snd kv) / inject_Z total))) freq.

(** [sum(scores)]: left to right, starting from 0 *)
Fixpoint py_sum (acc : Q) (l : list json) : result Q :=
  match l with
  | [] => Ok acc
  | v :: r => ' x <-? number v ;; py_sum (acc + x) r
  end.

(** [[a["awareness_score"] for a in self._analyses if "awareness_score" in a]] *)
Fixpoint awareness_scores (analyses : list (odict json)) : list json :=
  match analyses with
  | [] => []
  | a :: r =>
      match OD.get "awareness_score" a with
      | Some v => v :: awareness_scores r
      | None => awareness_scores r
      end
  end.

Definition get_collective_map (self : t) : result CollectiveMap.t :=
  let total := Py.maxZ (_total_analyses self) 1 in
  let frame_pct := normalize total (_frame_frequencies self) in
  let mask_pct := normalize total (_mask_frequencies self) in
  let spell_pct := normalize total (_spell_frequencies self) in
  let prison_pct := normalize total (_prison_frequencies self) in
  let scores := awareness_scores (_analyses self) in
  ' sum <-? py_sum 0 scores ;;
  let avg_awareness :=
    sum / inject_Z (Py.maxZ (Z.of_nat (List.length scores)) 1) in
  Ok (CollectiveMap.make
        (_total_analyses self)
        (most_common (_frame_frequencies self))
        (most_common (_mask_frequencies self))
        (most_common (_spell_frequencies self))
        (most_common (_prison_frequencies self))
        frame_pct mask_pct spell_pct prison_pct
        (Py.round3 avg_awareness)
        (_generate_collective_insight self)).

(** [self._analyses[-100:]] *)
Definition last_100 {A} (l : list A) : list A :=
  skipn (List.length l - 100) l.

Definition counts_json (d : odict Z) : json :=
  JObj (map (fun kv => (fst kv, JInt (snd kv))) d).

Definition _save (self : t) : M unit :=
  match _storage_path self with
  | None => ret tt
  | Some path =>
      saved_at <- now_iso ;;
      write_json path
        (JObj [ ("total_analyses", JInt (_total_analyses self));
                ("frame_frequencies", counts_json (_frame_frequencies self));
                ("mask_frequencies", counts_json (_mask_frequencies self));
                ("spell_frequencies", counts_json (_spell_frequencies self));
                ("prison_frequencies", counts_json (_prison_frequencies self));
                ("analyses", JArr (map JObj (last_100 (_analyses self))));
                ("saved_at", JStr saved_at) ])
  end.

(** [freq[k] += 1] for every [k] of the list *)
Definition bump (names : list string) (freq : odict Z) : odict Z :=
  fold_left (fun d k => OD.set k (OD.get_or k 0%Z d + 1)%Z d) names freq.

Definition Method (A : Type) : Type := State (t * World) A.

Definition contribute (analysis : SystemAnalysis.t) : Method (result CollectiveMap.t) :=
  fun sw =>
    let (self, w) := sw in
    let frame_types :=
      map (fun f => FrameType.name (Frame.frame_type f)) (SystemAnalysis.frames analysis) in
    let mask_types :=
      map (fun m => MaskType.name (Mask.mask_type m)) (SystemAnalysis.masks analysis) in
    let spell_types :=
      map (fun s => SpellType.name (Spell.spell_type s)) (SystemAnalysis.spells analysis) in
    let prison_types :=
      map (fun p => PrisonType.name (Prison.prison_type p)) (SystemAnalysis.prisons analysis) in
    let (contributed_at, w1) := now_iso w in
    let anonymized : odict json :=
      [ ("frame_types", JArr (map JStr frame_types));
        ("mask_types", JArr (map JStr mask_types));
        ("spell_types", JArr (map JStr spell_types));
        ("prison_types", JArr (map JStr prison_types));
        ("awareness_score", JNum (SystemAnalysis.awareness_score analysis));
        ("seeing_depth", JStr (SeeingDepth.value (SystemAnalysis.seeing_depth analysis)));
        ("contributed_at", JStr contributed_at) ] in
    let self' :=
      make (_storage_path self)
           ((_analyses self ++ [anonymized])%list)
           (bump frame_types (_frame_frequencies self))
           (bump mask_types (_mask_frequencies self))
           (bump spell_types (_spell_frequencies self))
           (bump prison_types (_prison_frequencies self))
           (_total_analyses self + 1)%Z in
    let (_, w2) := _save self' w1 in
    (get_collective_map self', (self', w2)).

(** [contribute] called once per analysis of the list, in order; the
    reports are returned in the same order. *)
Fixpoint contribute_all (analyses : list SystemAnalysis.t)
  : Method (list (result CollectiveMap.t)) :=
  match analyses with
  | [] => ret []
  | a :: rest =>
      r <- contribute a ;;
      rs <- contribute_all rest ;;
      ret (r :: rs)
  end.
End CollectiveInsight.

(* ------------------------------------------------------------------ *)
(** ** IX. Module 6: recursive self-examiner                            *)
(* ------------------------------------------------------------------ *)

Definition _OWN_ASSUMPTIONS : list string :=
  [ "That language reveals structure (but structures also hide in silence).";
    "That keyword-matching approximates meaning (but meaning exceeds any word list).";
    "That power operates through narrative (but also through raw force, which narratives may obscure).";
    "That seeing is liberating (but seeing without action may deepen despair).";
    "That individual awakening matters (but systems change through collective, not just individual, action).";
    "That this framework is different from what it critiques (but every lens is also a frame).";
    "That the categories (frames, masks, spells, prisons) are sufficient (but reality exceeds any taxonomy).";
    "That the observer can be separate from the observed (but the act of seeing changes both)." ].

Definition _OWN_BLIND_SPOTS : list string :=
  [ "Non-linguistic power structures (violence, geography, biology).";
    "The positive functions of some 'frames' (shared meaning, coordination, belonging).";
    "Cultural contexts where these categories don't map cleanly.";
    "The danger of seeing everything as a conspiracy (pattern over-matching).";
    "The privilege embedded in having time and capacity to 'see' at all.";
    "Power dynamics within communities of 'the waking' themselves.";
    "The ways this tool could become its own kind of frame." ].

Definition _MISUSE_VECTORS : list string :=
  [ "Weaponizing analysis to manipulate rather than liberate.";
    "Using frame-detection to build more sophisticated frames.";
    "Creating an in-group of 'those who see' that becomes its own prison.";
    "Paralysis through analysis — seeing so much that action becomes impossible.";
    "Intellectual superiority — mistaking the map for the territory.";
    "Surveillance — using the tool to profile and control rather than to free.";
    "Nihilism — concluding that because all frames are constructed, nothing is real." ].

Definition _CREATOR_BIASES : list string :=
  [ "Western philosophical tradition (individualism, rationalism, logocentrism).";
    "English-language centrism in signal detection.";
    "Implicit assumption that 'seeing' is good and 'not seeing' is bad.";
    "Technology-positive bias (building tools as the response to structural problems).";
    "Narrative bias — tendency to see stories everywhere, including where there may be none.";
    "Liberation theology undertones — assumption that freedom is the highest value." ].

Definition _EVOLUTION_NEEDS : list string :=
  [ "Multi-language signal detection (frames operate in every language).";
    "Integration with actual social network analysis (not just text).";
    "Feedback loops from users about what's missing.";
    "Cultural adaptation (different societies, different frames).";
    "Historical depth (frames change over time; static analysis misses drift).";
    "Embodied knowing (the body detects frames before the mind does).";
    "Connection to action (seeing alone is not enough).";
    "Protection mechanisms (for those who see and are in danger for it)." ].

Definition _DEPTH_DESCRIPTIONS (depth : SeeingDepth.t) : string :=
  match depth with
  | SeeingDepth.SURFACE =>
      "You are seeing content — what is said. The architecture that shapes the saying is still invisible."
  | SeeingDepth.PATTERN =>
      "You are beginning to see patterns — recurring shapes across contexts. The next step is to see the structure that generates these patterns."
  | SeeingDepth.STRUCTURE =>
      "You are seeing architecture — the invisible structures that shape perception and possibility. The next step is to see what generates the architecture itself."
  | SeeingDepth.GENERATIVE =>
      "You are seeing the generative layer — the forces, incentives, and dynamics that produce the architecture. You are beginning to see how systems create themselves."
  | SeeingDepth.RECURSIVE =>
      "You are seeing yourself seeing. You recognize that your own perception has a structure, that your analysis has its own frames, its own blind spots. This is rare."
  | SeeingDepth.INTEGRAL =>
      "You are seeing the seeing itself. Not the content, not the structure, not even the you who sees — but the awareness in which all of this appears. This is where the skeleton key points but cannot follow. The rest is yours."
  end.

Section SelfExaminer.
(** The structural metrics of [examine_self]: what its pass over the
    module's own source file computes, or the error entry it records when
    that pass fails.  Reading and parsing the file is outside the model;
    the metrics are a function of the world. *)
Variable introspect : World -> odict json.

Definition examine_self : M SelfExamination.t :=
  fun w =>
    let metrics := introspect w in
    (exam_id <- uuid4_hex 12 ;;
     timestamp <- now_iso ;;
     ret (SelfExamination.make exam_id _OWN_ASSUMPTIONS _OWN_BLIND_SPOTS
            _MISUSE_VECTORS _CREATOR_BIASES _EVOLUTION_NEEDS metrics timestamp)) w.
End SelfExaminer.

(* ------------------------------------------------------------------ *)
(** ** XI. The integration layer                                        *)
(* ------------------------------------------------------------------ *)

Module CorpusScan.
Record t : Type := make {
  corpus_size : nat;
  individual_analyses : list SystemAnalysis.t;   (* each stands for its [to_dict()] *)
  frame_architecture : FrameArchitecture.t;
  spell_potency : SpellPotency.t;
  cage_score : CageScore.t;
  collective_map : CollectiveMap.t;
}.
End CorpusScan.

Module SkeletonKey.
Record t : Type := make {
  influence_graph : InfluenceGraph.t;
  crumb_trail : CrumbTrail.t;
  collective : CollectiveInsight.t;
  _crumb_path : option string;
}.

(** [SkeletonKey(collective_path, crumb_path)] *)
Definition init (collective_path crumb_path : option string) : M (result t) :=
  fun w =>
    let (trail, w1) := CrumbTrail.init None w in
    (' c <-? CollectiveInsight.init collective_path w1 ;;
     Ok (make InfluenceGraph.init trail c crumb_path),
     w1).

Definition Method (A : Type) : Type := State (t * World) A.

(** [depth.value in (...)] *)
Definition value_in (depth : SeeingDepth.t) (values : list string) : bool :=
  existsb (String.eqb (SeeingDepth.value depth)) values.

Section Methods.
Variable introspect : World -> odict json.

(** [analyze] *)
Definition analyze (text system_name context : string) (depth : SeeingDepth.t)
    (contribute_to_collective : bool) : Method (result SystemAnalysis.t) :=
  fun kw =>
    let (self, w) := kw in
    (* Module 1: detect frames *)
    let (frames, w1) := detect_frames text context w in
    (* Module 2: identify masks *)
    let '(masks, (graph, w2)) :=
      InfluenceGraph.identify_masks text (influence_graph self, w1) in
    (* Module 3: analyze spells *)
    let (spells, w3) := analyze_spells text w2 in
    (* Module 4: map prisons *)
    let (prisons, w4) := map_prisons text w3 in
    (* Module 6: self-examination *)
    let (self_exam, w5) :=
      if value_in depth ["recursive"; "integral"]
      then let (exam, w') := examine_self introspect w4 in (Some exam, w')
      else (None, w4) in
    (* SystemAnalysis(...): the id and the time stamp are drawn here *)
    let (analysis_id, w6) := uuid4_hex 12 w5 in
    let (analyzed_at, w7) := now_iso w6 in
    let analysis :=
      SystemAnalysis.make analysis_id system_name frames masks spells prisons
                          [] [] self_exam depth analyzed_at in
    (* Module 5: generate crumbs *)
    let '(analysis, (trail, w8)) :=
      if value_in depth ["structure"; "generative"; "recursive"; "integral"]
      then
        let '(crumbs, tw) :=
          CrumbTrail.generate_from_analysis analysis (crumb_trail self, w7) in
        (SystemAnalysis.make analysis_id system_name frames masks spells prisons
                             crumbs [] self_exam depth analyzed_at, tw)
      else (analysis, (crumb_trail self, w7)) in
    (* contribute to collective learning *)
    if contribute_to_collective
    then
      let '(report, (coll, w9)) :=
        CollectiveInsight.contribute analysis (collective self, w8) in
      (' _ <-? report ;; Ok analysis,
       (make graph trail coll (_crumb_path self), w9))
    else
      (Ok analysis, (make graph trail (collective self) (_crumb_path self), w8)).

(** The loop of [scan_corpus]: the texts are numbered from [i + 1]. *)
Fixpoint analyze_each (system_name : string) (total : nat) (i : nat)
    (texts : list string) : Method (result (list SystemAnalysis.t)) :=
  match texts with
  | [] => ret (Ok [])
  | text :: rest =>
      fun kw =>
        let name :=
          system_name ++ " [" ++ Py.str_int (Z.of_nat (i + 1)) ++ "/"
          ++ Py.str_int (Z.of_nat total) ++ "]" in
        match analyze text name EmptyString SeeingDepth.STRUCTURE true kw with
        | (Ok analysis, kw1) =>
            let (r, kw2) := analyze_each system_name total (S i) rest kw1 in
            (' analyses <-? r ;; Ok (analysis :: analyses), kw2)
        | (Raise e, kw1) => (Raise e, kw1)
        | (IllTyped, kw1) => (IllTyped, kw1)
        end
  end.

(** [scan_corpus] *)
Definition scan_corpus (texts : list string) (system_name : string)
  : Method (result CorpusScan.t) :=
  fun kw =>
    match analyze_each system_name (List.length texts) 0 texts kw with
    | (Ok analyses, (self, w1)) =>
        let (frame_arch, w2) := map_frame_architecture texts w1 in
        let all_spells := flat_map SystemAnalysis.spells analyses in
        let all_prisons := flat_map SystemAnalysis.prisons analyses in
        (' collective_map <-? CollectiveInsight.get_collective_map (collective self) ;;
         Ok (CorpusScan.make (List.length texts) analyses frame_arch
               (compute_spell_potency all_spells)
               (compute_cage_score all_prisons)
               collective_map),
         (self, w2))
    | (Raise e, kw1) => (Raise e, kw1)
    | (IllTyped, kw1) => (IllTyped, kw1)
    end.
End Methods.

(** [leave_trail] *)
Definition leave_trail (analysis : SystemAnalysis.t) : Method (list Crumb.t) :=
  fun kw =>
    let (self, w) := kw in
    let '(crumbs, (trail, w1)) :=
      CrumbTrail.generate_from_analysis analysis (crumb_trail self, w) in
    let w2 :=
      match _crumb_path self with
      | Some path => snd (CrumbTrail.persist path trail w1)
      | None => w1
      end in
    (crumbs, (make (influence_graph self) trail (collective self) (_crumb_path self), w2)).

(** [get_influence_network] *)
Definition get_influence_network (self : t) : InfluenceGraph.network :=
  InfluenceGraph.unmask_network (influence_graph self).

(** The report of [assess_seeing_depth]. *)
Record assessment : Type := mk_assessment {
  depth : string;
  awareness_score : Q;
  frames_detected : nat;
  masks_detected : nat;
  spells_detected : nat;
  prisons_detected : nat;
  self_examined : bool;
  crumbs_generated : nat;
  interpretation : string;
}.

(** The branch of [assess_seeing_depth] that picks the level. *)
Definition assessed_depth (analysis : SystemAnalysis.t) : SeeingDepth.t :=
  let score := SystemAnalysis.awareness_score analysis in
  let has_self_exam :=
    match SystemAnalysis.self_examination analysis with Some _ => true | None => false end in
  let has_crumbs := (0 <? List.length (SystemAnalysis.crumbs analysis))%nat in
  let frame_count := List.length (SystemAnalysis.frames analysis) in
  let spell_count := List.length (SystemAnalysis.spells analysis) in
  let prison_count := List.length (SystemAnalysis.prisons analysis) in
  if has_self_exam && Py.Qltb (8 # 10) score then SeeingDepth.INTEGRAL
  else if has_self_exam then SeeingDepth.RECURSIVE
  else if has_crumbs && Py.Qltb (6 # 10) score then SeeingDepth.GENERATIVE
  else if (2 <? frame_count)%nat && (1 <? spell_count)%nat && (1 <? prison_count)%nat
       then SeeingDepth.STRUCTURE
  else if (0 <? frame_count)%nat || (0 <? spell_count)%nat then SeeingDepth.PATTERN
  else SeeingDepth.SURFACE.

Definition assess_seeing_depth (analysis : SystemAnalysis.t) : assessment :=
  let depth := assessed_depth analysis in
  mk_assessment
    (SeeingDepth.value depth)
    (Py.round3 (SystemAnalysis.awareness_score analysis))
    (List.length (SystemAnalysis.frames analysis))
    (List.length (SystemAnalysis.masks analysis))
    (List.length (SystemAnalysis.spells analysis))
    (List.length (SystemAnalysis.prisons analysis))
    (match SystemAnalysis.self_examination analysis with Some _ => true | None => false end)
    (List.length (SystemAnalysis.crumbs analysis))
    (_DEPTH_DESCRIPTIONS depth).
End SkeletonKey.

(* ------------------------------------------------------------------ *)
(** ** Vocabulary of the statements                                     *)
(* ------------------------------------------------------------------ *)

(** [TABLE[ty]]: the entry stored under a member, found by its number. *)
Definition entry {T D : Type} (value : T -> nat) (tbl : list (T * D)) (ty : T)
  : option D :=
  option_map snd (find (fun p => Nat.eqb (value (fst p)) (value ty)) tbl).

(** Density of a subtype in a lower-cased text: matched keywords over
    listed keywords. *)
Definition density {D : Type} (signals : D -> list string) (text_lower : string)
    (e : option D) : Q :=
  match e with
  | Some d => density_of signals text_lower d
  | None => 0
  end.

Definition frame_density (text_lower : string) (ty : FrameType.t) : Q :=
  density FrameSignals.signals text_lower (entry FrameType.value FRAME_SIGNALS ty).

Definition mask_density (text_lower : string) (ty : MaskType.t) : Q :=
  density MaskSignals.signals text_lower (entry MaskType.value MASK_SIGNALS ty).

Definition spell_density (text_lower : string) (ty : SpellType.t) : Q :=
  density SpellSignals.signals text_lower (entry SpellType.value SPELL_SIGNALS ty).

Definition prison_density (text_lower : string) (ty : PrisonType.t) : Q :=
  density PrisonSignals.signals text_lower (entry PrisonType.value PRISON_SIGNALS ty).

(** [a] is ranked before [b]: a strictly larger score, or the same score
    and an earlier place in the signal table. *)
Definition ranked_before {T : Type} (score : T -> Q) (place : T -> nat) (a b : T)
  : Prop :=
  score b < score a \/ (score a == score b /\ (place a < place b)%nat).

(** Every keyword of the four signal tables. *)
Definition all_keywords : list string :=
  (flat_map (fun p => FrameSignals.signals (snd p)) FRAME_SIGNALS
   ++ flat_map (fun p => MaskSignals.signals (snd p)) MASK_SIGNALS
   ++ flat_map (fun p => SpellSignals.signals (snd p)) SPELL_SIGNALS
   ++ flat_map (fun p => PrisonSignals.signals (snd p)) PRISON_SIGNALS)%list.

(** A finding without what the constructor draws afresh (id, timestamp). *)
Definition frame_body (f : Frame.t) : Frame.t :=
  Frame.make EmptyString (Frame.name f) (Frame.frame_type f) (Frame.description f)
    (Frame.unspoken_rules f) (Frame.naturalized_assumptions f)
    (Frame.forbidden_questions f) (Frame.beneficiaries f)
    (Frame.edges_of_thinkable f) (Frame.strength f) (Frame.visibility f)
    EmptyString.

Definition mask_body (m : Mask.t) : Mask.t :=
  Mask.make EmptyString (Mask.actor m) (Mask.mask_type m) (Mask.formal_role m)
    (Mask.actual_function m) (Mask.performance m) (Mask.hidden_hand m)
    (Mask.dependencies m) (Mask.vulnerabilities m).

Definition spell_body (s : Spell.t) : Spell.t :=
  Spell.make EmptyString (Spell.name s) (Spell.spell_type s) (Spell.narrative s)
    (Spell.emotional_payload s) (Spell.hidden_assumption s) (Spell.erasure s)
    (Spell.cui_bono s) (Spell.counter_narrative s) (Spell.potency s)
    (Spell.reach s).

Definition prison_body (p : Prison.t) : Prison.t :=
  Prison.make EmptyString (Prison.name p) (Prison.prison_type p)
    (Prison.description p) (Prison.missing_choices p) (Prison.forbidden_paths p)
    (Prison.unimaginable_futures p) (Prison.invisible_walls p)
    (Prison.exit_conditions p) (Prison.elegance p).

(** Sums and counts over the edges of a graph, by actor. *)
Definition out_edges (g : InfluenceGraph.t) (a : string) : list InfluenceEdge.t :=
  filter (fun e => String.eqb (InfluenceEdge.source e) a) (InfluenceGraph._edges g).

Definition in_edges (g : InfluenceGraph.t) (a : string) : list InfluenceEdge.t :=
  filter (fun e => String.eqb (InfluenceEdge.target e) a) (InfluenceGraph._edges g).

(** The weights of a list of edges, added from the left as floats. *)
Definition total_weight (es : list InfluenceEdge.t) : PrimFloat.float :=
  fold_left PrimFloat.add (map InfluenceEdge.weight es) PyFloat.zero.

Definition out_weight (g : InfluenceGraph.t) (a : string) : PrimFloat.float :=
  total_weight (out_edges g a).

Definition in_weight (g : InfluenceGraph.t) (a : string) : PrimFloat.float :=
  total_weight (in_edges g a).

Definition hidden_out (g : InfluenceGraph.t) (a : string) : nat :=
  List.length (filter (fun e => negb (InfluenceEdge.visible e)) (out_edges g a)).

(** The score of the specification, before it is rounded to three
    decimals: a float quotient and a float product. *)
Definition raw_score (g : InfluenceGraph.t) (a : string) : PrimFloat.float :=
  PrimFloat.mul
    (PrimFloat.div (out_weight g a) (PyFloat.max (in_weight g a) PyFloat.hundredth))
    (PyFloat.of_int (Z.of_nat (1 + hidden_out g a))).

Definition qualifies (g : InfluenceGraph.t) (a : string) : bool :=
  andb (PrimFloat.ltb (in_weight g a) (out_weight g a)) (0 <? hidden_out g a)%nat.

Definition puppeteer_of (g : InfluenceGraph.t) (a : string) : InfluenceGraph.puppeteer :=
  InfluenceGraph.mk_puppeteer a (PyFloat.round3 (out_weight g a))
    (PyFloat.round3 (in_weight g a)) (hidden_out g a) (PyFloat.round3 (raw_score g a)).

(** The edge weights of a graph, added exactly. *)
Definition exact_weight (es : list InfluenceEdge.t) : Q :=
  fold_left Qplus (map (fun e => PyFloat.value (InfluenceEdge.weight e)) es) 0.

(** Two actors with one hidden edge each, of weights 1.000001 and 1.000002. *)
Definition two_close_scores : InfluenceGraph.t :=
  InfluenceGraph.make
    [ ("A", Mask.make "m1" "A" MaskType.AUTHORITY "" "" "" "" [] []);
      ("C", Mask.make "m2" "C" MaskType.AUTHORITY "" "" "" "" [] []) ]
    [ InfluenceEdge.make "A" "B" "controls" (PyFloat.literal 1000001 1000000) false None;
      InfluenceEdge.make "C" "B" "controls" (PyFloat.literal 1000002 1000000) false None ].

(** A sends 0.1 through a hidden edge and 0.2 through a visible one, and
    receives 0.3. *)
Definition sum_exceeds_weight : InfluenceGraph.t :=
  InfluenceGraph.make
    [ ("A", Mask.make "m1" "A" MaskType.AUTHORITY "" "" "" "" [] []) ]
    [ InfluenceEdge.make "A" "B" "controls" (PyFloat.literal 1 10) false None;
      InfluenceEdge.make "A" "B" "funds" (PyFloat.literal 2 10) true None;
      InfluenceEdge.make "B" "A" "funds" (PyFloat.literal 3 10) true None ].

(** A receives 0.1 and 0.2 and sends 0.30000000000000004 through a hidden
    edge. *)
Definition sum_meets_weight : InfluenceGraph.t :=
  InfluenceGraph.make
    [ ("A", Mask.make "m1" "A" MaskType.AUTHORITY "" "" "" "" [] []) ]
    [ InfluenceEdge.make "B" "A" "funds" (PyFloat.literal 1 10) true None;
      InfluenceEdge.make "B" "A" "funds" (PyFloat.literal 2 10) true None;
      InfluenceEdge.make "A" "B" "controls"
        (PrimFloat.add (PyFloat.literal 1 10) (PyFloat.literal 2 10)) false None ].

(** Decidable equality of spell types, for counting occurrences. *)
Definition SpellType_eq_dec (a b : SpellType.t) : {a = b} + {a <> b}.
Proof. decide equality. Defined.

(** On keyed entries: [a] may stand before [b] after the stable sort. *)
Definition pair_before {F : Type} (place : F -> nat) (a b : Q * F) : Prop :=
  fst b < fst a \/ (fst a == fst b /\ (place (snd a) < place (snd b))%nat).

(** The label under which [identify_masks] stores a mask. *)
Definition actor_label (ty : MaskType.t) : string :=
  "[Actor performing " ++ MaskType.name ty ++ "]".

(** A history entry as [contribute] writes it: its awareness score is a number. *)
Definition scored (a : odict json) : Prop :=
  exists q, OD.get "awareness_score" a = Some (JNum q).

(** The state after [n] contributions that each carry the one frame type [X]. *)
Definition counted (X : FrameType.t) (n : Z) (self : CollectiveInsight.t) : Prop :=
  CollectiveInsight._frame_frequencies self
    = (if (n =? 0)%Z then [] else [(FrameType.name X, n)])
  /\ CollectiveInsight._total_analyses self = n
  /\ Forall scored (CollectiveInsight._analyses self).

(** [counts[k] += 1] for each name of a list, from an empty dictionary. *)
Definition count_names (names : list string) : odict nat :=
  fold_left (fun tc k => OD.set k (OD.get_or k 0%nat tc + 1)%nat tc) names [].


(** The snapshot of the failing input: an object whose total is 5 and whose
    frame counter is the number 7 instead of an object. *)
Definition half_corrupt_snapshot : json :=
  JObj [ ("total_analyses", JInt 5); ("frame_frequencies", JInt 7) ].

Definition half_corrupt_world : World :=
  mkWorld (entropy world0) 0 (clock world0) 0
          [ ("collective.json", Document half_corrupt_snapshot) ].

(** A trail with one crumb, as [CrumbTrail()] and [drop_crumb] build it. *)
Definition demo_trail : CrumbTrail.t * World :=
  snd (CrumbTrail.drop_crumb "What option is missing, and why?" CrumbType.QUESTION
         "demo" "hidden" "seekers" None (CrumbTrail.init None world0)).

(** An analysis whose only finding is one ECONOMIC frame. *)
Definition demo_analysis : SystemAnalysis.t :=
  SystemAnalysis.make "a1" "demo"
    [ Frame.make "f1" "Economic Frame" FrameType.ECONOMIC "" [] [] [] [] []
                 (2 # 17) (15 # 17) "2024-01-01T00:00:00+00:00" ]
    [] [] [] [] [] None SeeingDepth.STRUCTURE "2024-01-01T00:00:00+00:00".

(** What a new [CollectiveInsight] at the same path rebuilds from the
    snapshot [self] saved: everything but the history, of which the
    snapshot keeps the last 100 entries. *)
Definition truncated (self : CollectiveInsight.t) : CollectiveInsight.t :=
  CollectiveInsight.make
    (CollectiveInsight._storage_path self)
    (CollectiveInsight.last_100 (CollectiveInsight._analyses self))
    (CollectiveInsight._frame_frequencies self)
    (CollectiveInsight._mask_frequencies self)
    (CollectiveInsight._spell_frequencies self)
    (CollectiveInsight._prison_frequencies self)
    (CollectiveInsight._total_analyses self).

(** How often a name occurs in a list of names. *)
Definition occurrences (k : string) (names : list string) : Z :=
  Z.of_nat (count_occ string_dec names k).

(** The type names an analysis contributes to each counter. *)
Definition frame_names (a : SystemAnalysis.t) : list string :=
  map (fun f => FrameType.name (Frame.frame_type f)) (SystemAnalysis.frames a).

Definition mask_names (a : SystemAnalysis.t) : list string :=
  map (fun m => MaskType.name (Mask.mask_type m)) (SystemAnalysis.masks a).

Definition spell_names (a : SystemAnalysis.t) : list string :=
  map (fun s => SpellType.name (Spell.spell_type s)) (SystemAnalysis.spells a).

Definition prison_names (a : SystemAnalysis.t) : list string :=
  map (fun p => PrisonType.name (Prison.prison_type p)) (SystemAnalysis.prisons a).

(** A crumb was dropped on chain [k]. *)
Definition on_chain (k : string) (c : Crumb.t) : bool :=
  match Crumb.chain_id c with
  | Some k' => String.eqb k' k
  | None => false
  end.

(** The chain index of a trail agrees with its crumbs: under every chain
    id it lists the ids of the crumbs of that chain, in the order in which
    they were dropped. *)
Definition indexed (self : CrumbTrail.t) : Prop :=
  forall k, OD.get_or k [] (CrumbTrail._chains self)
            = map Crumb.crumb_id (filter (on_chain k) (CrumbTrail._crumbs self)).

(** Type and content of the crumbs an analysis calls for, in order:
    a question per forbidden question of each frame, a pattern per mask,
    a paradox per spell, a trail per exit condition of each prison, and a
    closing bridge if there is any of these. *)
Definition crumb_plan (analysis : SystemAnalysis.t) : list (CrumbType.t * string) :=
  (flat_map (fun frame => map (pair CrumbType.QUESTION) (Frame.forbidden_questions frame))
            (SystemAnalysis.frames analysis)
   ++ map (fun mask => (CrumbType.PATTERN, CrumbTrail.pattern_content mask))
          (SystemAnalysis.masks analysis)
   ++ map (fun spell => (CrumbType.PARADOX, Spell.counter_narrative spell))
          (SystemAnalysis.spells analysis)
   ++ flat_map (fun prison => map (pair CrumbType.TRAIL) (Prison.exit_conditions prison))
               (SystemAnalysis.prisons analysis))%list.

Definition planned (analysis : SystemAnalysis.t) : list (CrumbType.t * string) :=
  match crumb_plan analysis with
  | [] => []
  | _ :: _ =>
      (crumb_plan analysis
       ++ [(CrumbType.BRIDGE, CrumbTrail.bridge_content analysis)])%list
  end.

Definition kind_and_content (c : Crumb.t) : CrumbType.t * string :=
  (Crumb.crumb_type c, Crumb.content c).

(** A step of a trail method that drops the crumbs [out] on chain [chain]
    and does nothing else. *)
Definition drops (chain : string) (before after : CrumbTrail.t * World)
    (out : list Crumb.t) : Prop :=
  CrumbTrail.trail_id (fst after) = CrumbTrail.trail_id (fst before)
  /\ CrumbTrail._crumbs (fst after) = (CrumbTrail._crumbs (fst before) ++ out)%list
  /\ Forall (fun c => Crumb.chain_id c = Some chain) out
  /\ files (snd after) = files (snd before)
  /\ drawn (snd after) = (drawn (snd before) + List.length out)%nat
  /\ ticks (snd after) = (ticks (snd before) + List.length out)%nat
  /\ (indexed (fst before) -> indexed (fst after)).

(** The frame types [detect_frames] finds in a text given without
    context, in the order in which it returns them, and whether the type
    [X] is among them: whether a keyword of its entry occurs. *)
Definition frame_tags (text : string) : list FrameType.t :=
  let tl := Py.lower text ++ " " ++ Py.lower EmptyString in
  map snd (sort_desc (map (fun p => (density_of FrameSignals.signals tl (snd p), fst p))
                          (filter (hit FrameSignals.signals tl) FRAME_SIGNALS))).

Definition frame_found (X : FrameType.t) (text : string) : bool :=
  match entry FrameType.value FRAME_SIGNALS X with
  | Some d =>
      hit FrameSignals.signals (Py.lower text ++ " " ++ Py.lower EmptyString) (X, d)
  | None => false
  end.

Definition tag_names (text : string) : list string :=
  map FrameType.name (frame_tags text).

(** A key as [SkeletonKey()] builds it, but for the id of its trail, and
    an examiner whose structural metrics are empty, for concrete runs. *)
Definition demo_key : SkeletonKey.t :=
  SkeletonKey.make InfluenceGraph.init (CrumbTrail.make "trail" [] [])
                   (CollectiveInsight.empty None) None.

Definition no_metrics (w : World) : odict json := [].

(** The number of findings of a detector that count towards the awareness
    score: at most three. *)
Definition counted_findings {A : Type} (l : list A) : nat := Nat.min 3 (List.length l).

(** The key of the concrete runs with a path to persist its trail. *)
Definition demo_key_with_path : SkeletonKey.t :=
  SkeletonKey.make InfluenceGraph.init (fst demo_trail)
                   (CollectiveInsight.empty None) (Some "trail.json").

(** An analysis whose only finding is a spell with a counter-narrative. *)
Definition demo_spell_analysis : SystemAnalysis.t :=
  SystemAnalysis.make "a2" "demo" []
    [] [ Spell.make "s1" "Origin Myth" SpellType.ORIGIN_MYTH "" "" "" "" ""
                    "Who benefits from this story of the beginning?" (1 # 4) (1 # 10) ]
    [] [] [] None SeeingDepth.STRUCTURE "2024-01-01T00:00:00+00:00".

(** The system name [scan_corpus] gives to the analysis of its text
    number [k], counted from 0. *)
Definition numbered_name (system_name : string) (total k : nat) : string :=
  system_name ++ " [" ++ Py.str_int (Z.of_nat (k + 1)) ++ "/"
  ++ Py.str_int (Z.of_nat total) ++ "]".

(** What [scan_corpus] finds for one of its texts: the analysis holds the
    findings of the four detectors for that text without context. *)
Definition analysis_of_text (text : string) (a : SystemAnalysis.t) : Prop :=
  (forall w0, map frame_body (SystemAnalysis.frames a)
              = map frame_body (fst (detect_frames text EmptyString w0)))
  /\ (forall g0 w0, map mask_body (SystemAnalysis.masks a)
                    = map mask_body (fst (InfluenceGraph.identify_masks text (g0, w0))))
  /\ (forall w0, map spell_body (SystemAnalysis.spells a)
                 = map spell_body (fst (analyze_spells text w0)))
  /\ (forall w0, map prison_body (SystemAnalysis.prisons a)
                 = map prison_body (fst (map_prisons text w0)))
  /\ SystemAnalysis.seeing_depth a = SeeingDepth.STRUCTURE.

(** An analysis that names each type at most once in each of its four
    lists of findings, as the detectors guarantee. *)
Definition tidy (a : SystemAnalysis.t) : Prop :=
  NoDup (frame_names a) /\ NoDup (mask_names a)
  /\ NoDup (spell_names a) /\ NoDup (prison_names a).

(** A share of a distribution is a proportion. *)
Definition proportion (kv : string * Q) : Prop := 0 <= snd kv /\ snd kv <= 1.

(** A counter that never exceeds the number [n] of contributions, and an
    aggregator all of whose counters are such, with a history of scores
    between 0 and 1. *)
Definition within (n : Z) (d : odict Z) : Prop :=
  NoDup (OD.keys d) /\ forall k, (0 <= OD.get_or k 0 d <= n)%Z.

Definition score_in_range (a : odict json) : Prop :=
  exists q, OD.get "awareness_score" a = Some (JNum q) /\ 0 <= q /\ q <= 1.

Definition balanced (n : Z) (self : CollectiveInsight.t) : Prop :=
  CollectiveInsight._total_analyses self = n
  /\ (0 <= n)%Z
  /\ within n (CollectiveInsight._frame_frequencies self)
  /\ within n (CollectiveInsight._mask_frequencies self)
  /\ within n (CollectiveInsight._spell_frequencies self)
  /\ within n (CollectiveInsight._prison_frequencies self)
  /\ Forall score_in_range (CollectiveInsight._analyses self).

(** [co_occurrences.get(pair, 0)] *)
Fixpoint pair_get (pair : string * string) (d : list ((string * string) * nat)) : nat :=
  match d with
  | [] => 0%nat
  | (k, n) :: r => if pair_eqb pair k then n else pair_get pair r
  end.

(** Frames of the types [X] and [Y] are both detected in a text. *)
Definition both_found (X Y : FrameType.t) (text : string) : bool :=
  frame_found X text && frame_found Y text.

(** A string without the character that joins the two names of a key of
    the co-occurrence matrix. *)
Definition dashless (s : string) : Prop := ~ In "-"%char (list_ascii_of_string s).

(** The key of the co-occurrence matrix for two frame types. *)
Definition matrix_key (X Y : FrameType.t) : string :=
  fst (sorted_pair (FrameType.name X) (FrameType.name Y)) ++ "-"
  ++ snd (sorted_pair (FrameType.name X) (FrameType.name Y)).

(** [f"{a}-{b}"] for a pair [(a, b)], and the pairs of names of frame types. *)
Definition join_key (q : string * string) : string := fst q ++ "-" ++ snd q.

Definition named_pair (q : string * string) : Prop :=
  exists A B : FrameType.t, q = (FrameType.name A, FrameType.name B).



(* ------------------------------------------------------------------ *)
(** ** Lemmas: state passing, the shared loop, the stable sort          *)
(* ------------------------------------------------------------------ *)

Lemma bind_run {S A B} (m : State S A) (k : A -> State S B) (s : S) :
  bind m k s = k (fst (m s)) (snd (m s)).
Proof. unfold bind. destruct (m s). reflexivity. Qed.

Lemma ret_run {S A} (a : A) (s : S) : @ret S A a s = (a, s).
Proof. reflexivity. Qed.

Section ScanFacts.
Context {S T D F : Type}.
Variable signals : D -> list string.
Variable body : T -> D -> list string -> Q -> State S (Q * F).
Variable text_lower : string.

Local Abbreviation hit := (hit signals text_lower).
Local Abbreviation built := (built signals body text_lower).

Lemma scan_cons_hit p rest s :
  hit p = true ->
  scan signals body text_lower (p :: rest) s =
  (built p s :: fst (scan signals body text_lower rest
                      (snd (body (fst p) (snd p) (matched_in signals text_lower (snd p))
                                 (density_of signals text_lower (snd p)) s))),
   snd (scan signals body text_lower rest
          (snd (body (fst p) (snd p) (matched_in signals text_lower (snd p))
                     (density_of signals text_lower (snd p)) s)))).
Proof.
  unfold hit, built. destruct p as [ty d]. simpl.
  destruct (matched_in signals text_lower d) eqn:E; [discriminate|].
  intros _. rewrite bind_run. rewrite bind_run. rewrite ret_run. reflexivity.
Qed.

Lemma scan_cons_miss p rest s :
  hit p = false ->
  scan signals body text_lower (p :: rest) s = scan signals body text_lower rest s.
Proof.
  unfold hit. destruct p as [ty d]. simpl.
  destruct (matched_in signals text_lower d); [reflexivity|discriminate].
Qed.

(** The results are the findings of the entries with a match, in table
    order, each built in some state. *)
Lemma scan_shape tbl : forall s,
  Forall2 (fun r p => exists s0, r = built p s0)
          (fst (scan signals body text_lower tbl s)) (filter hit tbl).
Proof.
  induction tbl as [|p rest IH]; intro s.
  - constructor.
  - simpl filter. destruct (hit p) eqn:H.
    + rewrite scan_cons_hit by assumption. simpl. constructor.
      * eexists; reflexivity.
      * apply IH.
    + rewrite scan_cons_miss by assumption. apply IH.
Qed.

(** A view of the findings that no state influences is the same in every run. *)
Lemma scan_view {X} (view : Q * F -> X) (proj : T * D -> X) tbl :
  (forall p s, In p tbl -> view (built p s) = proj p) ->
  forall s, map view (fst (scan signals body text_lower tbl s)) = map proj (filter hit tbl).
Proof.
  intros Hv s. pose proof (scan_shape tbl s) as H.
  assert (Hin : forall p, In p (filter hit tbl) -> In p tbl)
    by (intros p Hp; apply filter_In in Hp; tauto).
  revert Hin. induction H as [|r p rs ps [s0 Hr] _ IH]; intro Hin.
  - reflexivity.
  - simpl. rewrite Hr, Hv by (apply Hin; left; reflexivity).
    f_equal. apply IH. intros q Hq. apply Hin. right. exact Hq.
Qed.

(** A property every built finding has holds of all results. *)
Lemma scan_Forall (P : Q * F -> Prop) tbl :
  (forall p s, In p tbl -> hit p = true -> P (built p s)) ->
  forall s, Forall P (fst (scan signals body text_lower tbl s)).
Proof.
  intros HP s. pose proof (scan_shape tbl s) as H.
  assert (Hin : forall p, In p (filter hit tbl) -> In p tbl /\ hit p = true)
    by (intros p Hp; apply filter_In in Hp; exact Hp).
  revert Hin. induction H as [|r p rs ps [s0 Hr] _ IH]; intro Hin.
  - constructor.
  - constructor.
    + rewrite Hr. apply HP; apply Hin; left; reflexivity.
    + apply IH. intros q Hq. apply Hin. right. exact Hq.
Qed.

(** What the body leaves alone in the state, the loop leaves alone. *)
Lemma scan_preserves {X} (proj : S -> X) tbl :
  (forall ty d m k s, proj (snd (body ty d m k s)) = proj s) ->
  forall s, proj (snd (scan signals body text_lower tbl s)) = proj s.
Proof.
  intros Hb. induction tbl as [|p rest IH]; intro s.
  - reflexivity.
  - destruct (hit p) eqn:H.
    + rewrite scan_cons_hit by assumption. simpl. rewrite IH. apply Hb.
    + rewrite scan_cons_miss by assumption. apply IH.
Qed.
End ScanFacts.

Lemma Qltb_lt (a b : Q) : Py.Qltb a b = true <-> a < b.
Proof.
  unfold Py.Qltb. rewrite negb_true_iff. split; intro H.
  - apply Qnot_le_lt. intro Hle. apply Qle_bool_iff in Hle. congruence.
  - destruct (Qle_bool b a) eqn:E; [|reflexivity].
    apply Qle_bool_iff in E. exfalso. exact (Qlt_not_le _ _ H E).
Qed.

Lemma Qltb_ge (a b : Q) : Py.Qltb a b = false <-> b <= a.
Proof.
  unfold Py.Qltb. rewrite negb_false_iff. apply Qle_bool_iff.
Qed.

Section SortFacts.
Context {F : Type}.
Implicit Types (x y : Q * F) (l : list (Q * F)).

Lemma insert_desc_perm x l : Permutation (insert_desc x l) (x :: l).
Proof.
  induction l as [|y r IH]; simpl.
  - apply Permutation_refl.
  - destruct (Py.Qltb (fst x) (fst y)).
    + apply perm_trans with (y :: x :: r).
      * apply perm_skip, IH.
      * apply perm_swap.
    + apply Permutation_refl.
Qed.

Lemma sort_desc_perm l : Permutation (sort_desc l) l.
Proof.
  induction l as [|x r IH]; simpl.
  - apply perm_nil.
  - eapply perm_trans; [apply insert_desc_perm|]. apply perm_skip, IH.
Qed.

Lemma sort_desc_In x l : In x (sort_desc l) <-> In x l.
Proof.
  split; apply Permutation_in; [|apply Permutation_sym]; apply sort_desc_perm.
Qed.

Lemma sort_desc_Forall (P : Q * F -> Prop) l : Forall P l -> Forall P (sort_desc l).
Proof.
  intro H. eapply Permutation_Forall; [|exact H].
  apply Permutation_sym, sort_desc_perm.
Qed.

(** The sort puts larger keys first. *)
Lemma insert_desc_sorted x l :
  StronglySorted (fun a b => fst b <= fst a) l ->
  StronglySorted (fun a b => fst b <= fst a) (insert_desc x l).
Proof.
  induction l as [|y r IH]; simpl; intro Hs.
  - constructor; constructor.
  - apply StronglySorted_inv in Hs. destruct Hs as [Hr Hy].
    destruct (Py.Qltb (fst x) (fst y)) eqn:E.
    + apply Qltb_lt in E. constructor; [apply IH, Hr|].
      eapply Permutation_Forall; [apply Permutation_sym, insert_desc_perm|].
      constructor; [apply Qlt_le_weak, E|exact Hy].
    + apply Qltb_ge in E. constructor; [constructor; assumption|].
      constructor; [exact E|].
      eapply Forall_impl; [|exact Hy]. simpl. intros z Hz.
      eapply Qle_trans; eassumption.
Qed.

Lemma sort_desc_sorted l : StronglySorted (fun a b => fst b <= fst a) (sort_desc l).
Proof.
  induction l as [|x r IH]; simpl.
  - constructor.
  - apply insert_desc_sorted, IH.
Qed.

(** The sort is stable: among equal keys the earlier entry stays first.
    Stated for entries that arrive in increasing [place]. *)
Variable place : F -> nat.

Lemma pair_before_le x z :
  fst z <= fst x -> (place (snd x) < place (snd z))%nat -> pair_before place x z.
Proof.
  intros Hle Hp. destruct (Qle_lt_or_eq _ _ Hle) as [Hlt|Heq].
  - left. exact Hlt.
  - right. split; [symmetry; exact Heq|exact Hp].
Qed.

Lemma pair_before_key a b : pair_before place a b -> fst b <= fst a.
Proof.
  intros [H|[H _]]; [apply Qlt_le_weak, H|rewrite H; apply Qle_refl].
Qed.

Lemma insert_desc_stable x l :
  StronglySorted (pair_before place) l ->
  Forall (fun y => (place (snd x) < place (snd y))%nat) l ->
  StronglySorted (pair_before place) (insert_desc x l).
Proof.
  induction l as [|y r IH]; simpl; intros Hs Hp.
  - constructor; constructor.
  - apply StronglySorted_inv in Hs. destruct Hs as [Hr Hy].
    inversion Hp as [|? ? Hpy Hpr]; subst.
    destruct (Py.Qltb (fst x) (fst y)) eqn:E.
    + apply Qltb_lt in E. constructor; [apply IH; assumption|].
      eapply Permutation_Forall; [apply Permutation_sym, insert_desc_perm|].
      constructor; [left; exact E|exact Hy].
    + apply Qltb_ge in E. constructor; [constructor; assumption|].
      constructor; [apply pair_before_le; assumption|].
      rewrite Forall_forall in Hy, Hpr |- *. intros z Hz.
      apply pair_before_le; [|apply Hpr, Hz].
      eapply Qle_trans; [apply pair_before_key, Hy, Hz|exact E].
Qed.

Lemma sort_desc_stable l :
  StronglySorted (fun a b => (place (snd a) < place (snd b))%nat) l ->
  StronglySorted (pair_before place) (sort_desc l).
Proof.
  induction l as [|x r IH]; simpl; intro Hs.
  - constructor.
  - apply StronglySorted_inv in Hs. destruct Hs as [Hr Hx].
    apply insert_desc_stable; [apply IH, Hr|].
    eapply Permutation_Forall; [apply Permutation_sym, sort_desc_perm|exact Hx].
Qed.
End SortFacts.

(** The sort looks at keys only: it commutes with a change of payload. *)
Lemma insert_desc_map {F G} (g : F -> G) (x : Q * F) (l : list (Q * F)) :
  map (fun p => (fst p, g (snd p))) (insert_desc x l) =
  insert_desc (fst x, g (snd x)) (map (fun p => (fst p, g (snd p))) l).
Proof.
  induction l as [|y r IH]; simpl.
  - reflexivity.
  - destruct (Py.Qltb (fst x) (fst y)); simpl; [rewrite IH|]; reflexivity.
Qed.

Lemma sort_desc_map {F G} (g : F -> G) (l : list (Q * F)) :
  map (fun p => (fst p, g (snd p))) (sort_desc l) =
  sort_desc (map (fun p => (fst p, g (snd p))) l).
Proof.
  induction l as [|x r IH]; simpl.
  - reflexivity.
  - rewrite insert_desc_map, IH. reflexivity.
Qed.

Lemma sorted_payload_map {F G} (g : F -> G) (l : list (Q * F)) :
  map g (map snd (sort_desc l)) =
  map snd (sort_desc (map (fun p => (fst p, g (snd p))) l)).
Proof.
  rewrite <- sort_desc_map, !map_map. reflexivity.
Qed.

Lemma StronglySorted_map {A B} (R : B -> B -> Prop) (f : A -> B) (l : list A) :
  StronglySorted (fun a b => R (f a) (f b)) l -> StronglySorted R (map f l).
Proof.
  induction 1 as [|a l Hs IH Ha]; simpl; constructor.
  - exact IH.
  - rewrite Forall_map. exact Ha.
Qed.

Lemma StronglySorted_weaken {A} (R R' : A -> A -> Prop) (l : list A) :
  (forall a b, In a l -> In b l -> R a b -> R' a b) ->
  StronglySorted R l -> StronglySorted R' l.
Proof.
  intros HRR Hs. induction Hs as [|a l Hs IH Ha].
  - constructor.
  - constructor.
    + apply IH. intros x y Hx Hy. apply HRR; right; assumption.
    + rewrite Forall_forall in Ha |- *. intros y Hy.
      apply HRR; [left; reflexivity|right; exact Hy|apply Ha, Hy].
Qed.

Lemma StronglySorted_filter {A} (R : A -> A -> Prop) (f : A -> bool) (l : list A) :
  StronglySorted R l -> StronglySorted R (filter f l).
Proof.
  induction 1 as [|a l Hs IH Ha]; simpl.
  - constructor.
  - destruct (f a); [|exact IH]. constructor; [exact IH|].
    rewrite Forall_forall in Ha |- *. intros y Hy.
    apply filter_In in Hy. apply Ha, Hy.
Qed.

(* ------------------------------------------------------------------ *)
(** ** Lemmas: what every detector shares                               *)
(* ------------------------------------------------------------------ *)

Lemma entry_found {T D} (value : T -> nat) (tbl : list (T * D)) :
  StronglySorted (fun a b => (value (fst a) < value (fst b))%nat) tbl ->
  forall p, In p tbl -> entry value tbl (fst p) = Some (snd p).
Proof.
  unfold entry. induction 1 as [|a l Hs IH Ha]; intros p Hp.
  - destruct Hp.
  - simpl. destruct Hp as [->|Hp].
    + rewrite Nat.eqb_refl. reflexivity.
    + rewrite Forall_forall in Ha. specialize (Ha p Hp).
      destruct (Nat.eqb_spec (value (fst a)) (value (fst p))) as [E|_]; [lia|].
      apply IH, Hp.
Qed.

Lemma sorted_keys_NoDup {T D} (value : T -> nat) (tbl : list (T * D)) :
  StronglySorted (fun a b => (value (fst a) < value (fst b))%nat) tbl ->
  NoDup (map fst tbl).
Proof.
  induction 1 as [|a l Hs IH Ha]; simpl; constructor.
  - rewrite Forall_forall in Ha. intro Hin. apply in_map_iff in Hin.
    destruct Hin as [p [Hp Hin]]. specialize (Ha p Hin). rewrite Hp in Ha. lia.
  - exact IH.
Qed.

Section Detector.
Context {S T D F : Type}.
Variable value : T -> nat.
Variable tbl : list (T * D).
Variable signals : D -> list string.
Variable body : T -> D -> list string -> Q -> State S (Q * F).
Variable text_lower : string.
Variable tag : F -> T.
Variable score : D -> Q.

Hypothesis tbl_in_order :
  StronglySorted (fun a b => (value (fst a) < value (fst b))%nat) tbl.
Hypothesis body_key : forall p s,
  fst (built signals body text_lower p s) = score (snd p).
Hypothesis body_tag : forall p s,
  tag (snd (built signals body text_lower p s)) = fst p.

Local Abbreviation run s := (map snd (sort_desc (fst (scan signals body text_lower tbl s)))).
Local Abbreviation hits := (filter (hit signals text_lower) tbl).

(** Keys and tags of the sorted findings, computed without any state. *)
Lemma run_tags s :
  map tag (run s) = map snd (sort_desc (map (fun p => (score (snd p), fst p)) hits)).
Proof.
  rewrite sorted_payload_map. do 2 f_equal.
  apply scan_view. intros p s0 _. rewrite body_key, body_tag. reflexivity.
Qed.

Lemma run_tags_perm s : Permutation (map tag (run s)) (map fst hits).
Proof.
  rewrite run_tags.
  eapply perm_trans; [apply Permutation_map, sort_desc_perm|].
  rewrite map_map. apply Permutation_refl.
Qed.

(** At most one finding per subtype. *)
Lemma run_tags_NoDup s : NoDup (map tag (run s)).
Proof.
  eapply Permutation_NoDup; [apply Permutation_sym, run_tags_perm|].
  pose proof (sorted_keys_NoDup value tbl tbl_in_order) as H. clear - H.
  induction tbl as [|a l IH]; simpl; [constructor|].
  inversion H as [|? ? Hn Hl]; subst.
  destruct (hit signals text_lower a); simpl; [constructor|]; auto.
  intro Hin. apply Hn. apply in_map_iff in Hin. destruct Hin as [p [Hp Hin]].
  apply filter_In in Hin. apply in_map_iff. exists p. tauto.
Qed.

Lemma run_length s : (List.length (run s) <= List.length tbl)%nat.
Proof.
  rewrite <- (length_map tag). rewrite (Permutation_length (run_tags_perm s)).
  rewrite length_map. apply filter_length_le.
Qed.

(** The findings are ranked by [score], ties in table order. *)
Lemma run_ranked s :
  StronglySorted
    (ranked_before (fun ty => match entry value tbl ty with
                              | Some d => score d | None => 0 end) value)
    (map tag (run s)).
Proof.
  rewrite run_tags. apply StronglySorted_map.
  eapply StronglySorted_weaken;
    [|apply (sort_desc_stable value); apply StronglySorted_map with (f := fun p : T * D => (score (snd p), fst p)) (R := fun a b : Q * T => (value (snd a) < value (snd b))%nat)].
  - intros a b Ha Hb Hab.
    assert (Hk : forall c, In c (sort_desc (map (fun p => (score (snd p), fst p)) hits)) ->
                 match entry value tbl (snd c) with Some d => score d | None => 0 end = fst c).
    { intros c Hc. apply -> (@sort_desc_In T) in Hc. apply in_map_iff in Hc.
      destruct Hc as [p [<- Hp]]. apply filter_In in Hp. simpl.
      rewrite (entry_found value tbl tbl_in_order p) by tauto. reflexivity. }
    unfold ranked_before. rewrite (Hk a Ha), (Hk b Hb). exact Hab.
  - simpl. apply StronglySorted_filter. exact tbl_in_order.
Qed.

(** Every finding was built by the body for an entry with a match. *)
Lemma run_Forall (P : F -> Prop) s :
  (forall p s0, In p tbl -> hit signals text_lower p = true ->
                P (snd (built signals body text_lower p s0))) ->
  Forall P (run s).
Proof.
  intro HP. rewrite Forall_map. apply sort_desc_Forall.
  apply (scan_Forall signals body text_lower (fun r => P (snd r))). exact HP.
Qed.
End Detector.

(* ------------------------------------------------------------------ *)
(** ** Lemmas: the four signal tables and the four loop bodies          *)
(* ------------------------------------------------------------------ *)

Lemma seq_increasing n : forall a, StronglySorted lt (seq a n).
Proof.
  induction n as [|n IH]; intro a; simpl; constructor.
  - apply IH.
  - rewrite Forall_forall. intros x Hx. apply in_seq in Hx. lia.
Qed.

Lemma StronglySorted_unmap {A B} (R : B -> B -> Prop) (f : A -> B) (l : list A) :
  StronglySorted R (map f l) -> StronglySorted (fun a b => R (f a) (f b)) l.
Proof.
  induction l as [|a l IH]; simpl; intro H; constructor;
    apply StronglySorted_inv in H; destruct H as [Hs Ha].
  - apply IH, Hs.
  - rewrite Forall_map in Ha. exact Ha.
Qed.

(** A table whose members carry the numbers 1, 2, ... in order. *)
Lemma numbered_in_order {T D} (value : T -> nat) (tbl : list (T * D)) :
  map (fun p => value (fst p)) tbl = seq 1 (List.length tbl) ->
  StronglySorted (fun a b => (value (fst a) < value (fst b))%nat) tbl.
Proof.
  intro H. apply (StronglySorted_unmap lt (fun p => value (fst p))).
  rewrite H. apply seq_increasing.
Qed.

Lemma FRAME_SIGNALS_in_order :
  StronglySorted (fun a b => (FrameType.value (fst a) < FrameType.value (fst b))%nat)
                 FRAME_SIGNALS.
Proof. apply numbered_in_order. reflexivity. Qed.

Lemma MASK_SIGNALS_in_order :
  StronglySorted (fun a b => (MaskType.value (fst a) < MaskType.value (fst b))%nat)
                 MASK_SIGNALS.
Proof. apply numbered_in_order. reflexivity. Qed.

Lemma SPELL_SIGNALS_in_order :
  StronglySorted (fun a b => (SpellType.value (fst a) < SpellType.value (fst b))%nat)
                 SPELL_SIGNALS.
Proof. apply numbered_in_order. reflexivity. Qed.

Lemma PRISON_SIGNALS_in_order :
  StronglySorted (fun a b => (PrisonType.value (fst a) < PrisonType.value (fst b))%nat)
                 PRISON_SIGNALS.
Proof. apply numbered_in_order. reflexivity. Qed.

(** Each detector returns the sorted findings of its loop. *)
Lemma detect_frames_run text context w :
  fst (detect_frames text context w) =
  map snd (sort_desc (fst (scan FrameSignals.signals frame_entry
             (Py.lower text ++ " " ++ Py.lower context) FRAME_SIGNALS w))).
Proof. unfold detect_frames. rewrite bind_run. reflexivity. Qed.

Lemma graph_identify_masks_run text gw :
  fst (InfluenceGraph.identify_masks text gw) =
  map snd (sort_desc (fst (scan MaskSignals.signals InfluenceGraph.mask_entry
             (Py.lower text) MASK_SIGNALS gw))).
Proof. unfold InfluenceGraph.identify_masks. rewrite bind_run. reflexivity. Qed.

Lemma analyze_spells_run text w :
  fst (analyze_spells text w) =
  map snd (sort_desc (fst (scan SpellSignals.signals spell_entry
             (Py.lower text) SPELL_SIGNALS w))).
Proof. unfold analyze_spells. rewrite bind_run. reflexivity. Qed.

Lemma map_prisons_run text w :
  fst (map_prisons text w) =
  map snd (sort_desc (fst (scan PrisonSignals.signals prison_entry
             (Py.lower text) PRISON_SIGNALS w))).
Proof. unfold map_prisons. rewrite bind_run. reflexivity. Qed.

(** ... and ends in the state its loop ends in. *)
Lemma detect_frames_state text context w :
  snd (detect_frames text context w) =
  snd (scan FrameSignals.signals frame_entry
         (Py.lower text ++ " " ++ Py.lower context) FRAME_SIGNALS w).
Proof. unfold detect_frames. rewrite bind_run. reflexivity. Qed.

Lemma graph_identify_masks_state text gw :
  snd (InfluenceGraph.identify_masks text gw) =
  snd (scan MaskSignals.signals InfluenceGraph.mask_entry
         (Py.lower text) MASK_SIGNALS gw).
Proof. unfold InfluenceGraph.identify_masks. rewrite bind_run. reflexivity. Qed.

Lemma analyze_spells_state text w :
  snd (analyze_spells text w) =
  snd (scan SpellSignals.signals spell_entry (Py.lower text) SPELL_SIGNALS w).
Proof. unfold analyze_spells. rewrite bind_run. reflexivity. Qed.

Lemma map_prisons_state text w :
  snd (map_prisons text w) =
  snd (scan PrisonSignals.signals prison_entry (Py.lower text) PRISON_SIGNALS w).
Proof. unfold map_prisons. rewrite bind_run. reflexivity. Qed.

(** What each loop body puts into the finding and uses as sort key. *)
Lemma frame_entry_built tl p w :
  let d := density_of FrameSignals.signals tl (snd p) in
  let r := built FrameSignals.signals frame_entry tl p w in
  fst r = d /\ Frame.frame_type (snd r) = fst p /\
  Frame.strength (snd r) = Py.min (d * 2) 1 /\
  Frame.visibility (snd r) = 1 - Frame.strength (snd r).
Proof. repeat split. Qed.


Lemma spell_entry_built tl p w :
  let d := density_of SpellSignals.signals tl (snd p) in
  let r := built SpellSignals.signals spell_entry tl p w in
  fst r = Py.min (d * (5 # 2)) 1 /\ Spell.spell_type (snd r) = fst p /\
  Spell.reach (snd r) = d /\ Spell.potency (snd r) = Py.min (d * (5 # 2)) 1.
Proof. repeat split. Qed.

Lemma prison_entry_built tl p w :
  let d := density_of PrisonSignals.signals tl (snd p) in
  let r := built PrisonSignals.signals prison_entry tl p w in
  fst r = Py.min (d * 2) 1 /\ Prison.prison_type (snd r) = fst p /\
  Prison.elegance (snd r) = Py.min (d * 2) 1.
Proof. repeat split. Qed.

(* ------------------------------------------------------------------ *)
(** ** Properties of the detectors                                      *)
(* ------------------------------------------------------------------ *)

(** C1, as stated, fails for spells: on the text "founded" the only spell
    returned has potency 1/4 and reach 1/10, and 1/10 is not 1 - 1/4. *)
Lemma spell_reach_is_not_one_minus_potency :
  exists s, fst (analyze_spells "founded" world0) = [s] /\
            Spell.potency s == 1 # 4 /\ Spell.reach s == 1 # 10 /\
            ~ Spell.reach s == 1 - Spell.potency s.
Proof.
  eexists. split; [vm_compute; reflexivity|].
  split; [reflexivity|]. split; [reflexivity|].
  intro H. vm_compute in H. discriminate H.
Qed.

(** C1 (amended): every frame returned by [detect_frames] has
    visibility = 1 - strength; every spell returned by [analyze_spells] has
    its reach equal to the density of its subtype (matched keywords over
    listed keywords) and its potency equal to min(2.5 * reach, 1). *)
Theorem secondary_scores :
  forall (text context : string) (w : World),
    Forall (fun f => Frame.visibility f = 1 - Frame.strength f)
           (fst (detect_frames text context w))
    /\ Forall (fun s =>
                 Spell.reach s = spell_density (Py.lower text) (Spell.spell_type s)
                 /\ Spell.potency s = Py.min (Spell.reach s * (5 # 2)) 1)
              (fst (analyze_spells text w)).
Proof.
  intros text context w. split.
  - rewrite detect_frames_run. apply run_Forall. intros p s0 _ _.
    apply (frame_entry_built _ p s0).
  - rewrite analyze_spells_run. apply run_Forall. intros p s0 Hp _.
    destruct (spell_entry_built (Py.lower text) p s0) as (_ & Hty & Hreach & Hpot).
    rewrite Hpot, Hreach, Hty. split; [|reflexivity].
    unfold spell_density.
    rewrite (entry_found SpellType.value SPELL_SIGNALS SPELL_SIGNALS_in_order p Hp).
    reflexivity.
Qed.

(** C2, as stated, fails for [analyze_spells]: on a text that matches 5 of
    the 10 ORIGIN_MYTH keywords and 5 of the 9 PROGRESS_NARRATIVE keywords
    both potencies are capped at 1, the tie keeps table order, and the
    spell of density 1/2 is returned before the spell of density 5/9. *)
Lemma spells_not_sorted_by_density :
  let text := "founded began origin genesis our story better improving growing advancing developing" in
  map Spell.spell_type (fst (analyze_spells text world0))
    = [SpellType.ORIGIN_MYTH; SpellType.PROGRESS_NARRATIVE; SpellType.BINARY_SPELL]
  /\ spell_density (Py.lower text) SpellType.ORIGIN_MYTH == 1 # 2
  /\ spell_density (Py.lower text) SpellType.PROGRESS_NARRATIVE == 5 # 9
  /\ ~ StronglySorted
         (ranked_before (spell_density (Py.lower text)) SpellType.value)
         (map Spell.spell_type (fst (analyze_spells text world0))).
Proof.
  cbv zeta. split; [vm_compute; reflexivity|].
  split; [vm_compute; reflexivity|]. split; [vm_compute; reflexivity|].
  intro H.
  replace (map Spell.spell_type _) with
    [SpellType.ORIGIN_MYTH; SpellType.PROGRESS_NARRATIVE; SpellType.BINARY_SPELL]
    in H by (vm_compute; reflexivity).
  apply StronglySorted_inv in H. destruct H as [_ H].
  apply Forall_inv in H. destruct H as [H|[H _]]; vm_compute in H; discriminate H.
Qed.

(** C2 (amended): each detector returns its findings ranked by its own
    sort key, larger first, equal keys in signal-table order.  The key is
    the density for [detect_frames] and [identify_masks], the potency
    min(2.5 * density, 1) for [analyze_spells] and the elegance
    min(2 * density, 1) for [map_prisons]. *)
Theorem detectors_ranked :
  forall (text context : string) (w : World) (g : InfluenceGraph.t),
    StronglySorted
      (ranked_before (frame_density (Py.lower text ++ " " ++ Py.lower context))
                     FrameType.value)
      (map Frame.frame_type (fst (detect_frames text context w)))
    /\ StronglySorted
         (ranked_before (mask_density (Py.lower text)) MaskType.value)
         (map Mask.mask_type (fst (InfluenceGraph.identify_masks text (g, w))))
    /\ StronglySorted
         (ranked_before
            (fun ty => Py.min (spell_density (Py.lower text) ty * (5 # 2)) 1)
            SpellType.value)
         (map Spell.spell_type (fst (analyze_spells text w)))
    /\ StronglySorted
         (ranked_before
            (fun ty => Py.min (prison_density (Py.lower text) ty * 2) 1)
            PrisonType.value)
         (map Prison.prison_type (fst (map_prisons text w))).
Proof.
  intros text context w g. repeat split.
  - rewrite detect_frames_run.
    apply (run_ranked FrameType.value FRAME_SIGNALS FrameSignals.signals frame_entry
             _ Frame.frame_type
             (density_of FrameSignals.signals
                (Py.lower text ++ " " ++ Py.lower context)));
      [apply FRAME_SIGNALS_in_order|reflexivity|reflexivity].
  - rewrite graph_identify_masks_run.
    apply (run_ranked MaskType.value MASK_SIGNALS MaskSignals.signals
             InfluenceGraph.mask_entry _ Mask.mask_type
             (density_of MaskSignals.signals (Py.lower text)));
      [apply MASK_SIGNALS_in_order|reflexivity|reflexivity].
  - rewrite analyze_spells_run.
    eapply StronglySorted_weaken;
      [|apply (run_ranked SpellType.value SPELL_SIGNALS SpellSignals.signals
                 spell_entry _ Spell.spell_type
                 (fun d => Py.min (density_of SpellSignals.signals (Py.lower text) d
                                   * (5 # 2)) 1));
        [apply SPELL_SIGNALS_in_order|reflexivity|reflexivity]].
    intros a b Ha Hb. unfold ranked_before, spell_density, density.
    assert (Hin : forall c, In c (map Spell.spell_type
                    (map snd (sort_desc (fst (scan SpellSignals.signals spell_entry
                       (Py.lower text) SPELL_SIGNALS w))))) ->
                  exists d, entry SpellType.value SPELL_SIGNALS c = Some d).
    { intros c Hc.
      eapply Permutation_in in Hc;
        [|apply (run_tags_perm SPELL_SIGNALS SpellSignals.signals spell_entry (Py.lower text)
                   Spell.spell_type
                   (fun d => Py.min (density_of SpellSignals.signals (Py.lower text) d
                                     * (5 # 2)) 1)); reflexivity].
      apply in_map_iff in Hc. destruct Hc as [p [<- Hp]].
      apply filter_In in Hp. exists (snd p).
      apply (entry_found _ _ SPELL_SIGNALS_in_order), Hp. }
    destruct (Hin a Ha) as [da ->]. destruct (Hin b Hb) as [db ->]. tauto.
  - rewrite map_prisons_run.
    eapply StronglySorted_weaken;
      [|apply (run_ranked PrisonType.value PRISON_SIGNALS PrisonSignals.signals
                 prison_entry _ Prison.prison_type
                 (fun d => Py.min (density_of PrisonSignals.signals (Py.lower text) d
                                   * 2) 1));
        [apply PRISON_SIGNALS_in_order|reflexivity|reflexivity]].
    intros a b Ha Hb. unfold ranked_before, prison_density, density.
    assert (Hin : forall c, In c (map Prison.prison_type
                    (map snd (sort_desc (fst (scan PrisonSignals.signals prison_entry
                       (Py.lower text) PRISON_SIGNALS w))))) ->
                  exists d, entry PrisonType.value PRISON_SIGNALS c = Some d).
    { intros c Hc.
      eapply Permutation_in in Hc;
        [|apply (run_tags_perm PRISON_SIGNALS PrisonSignals.signals prison_entry (Py.lower text)
                   Prison.prison_type
                   (fun d => Py.min (density_of PrisonSignals.signals (Py.lower text) d
                                     * 2) 1)); reflexivity].
      apply in_map_iff in Hc. destruct Hc as [p [<- Hp]].
      apply filter_In in Hp. exists (snd p).
      apply (entry_found _ _ PRISON_SIGNALS_in_order), Hp. }
    destruct (Hin a Ha) as [da ->]. destruct (Hin b Hb) as [db ->]. tauto.
Qed.

(** C9: each detector returns at most one finding per subtype: the
    subtype tags of the result are pairwise distinct and the result has at
    most 8 entries, the number of subtypes of its signal table. *)
Theorem one_finding_per_subtype :
  forall (text context : string) (w : World) (g : InfluenceGraph.t),
    (NoDup (map Frame.frame_type (fst (detect_frames text context w)))
     /\ (List.length (fst (detect_frames text context w)) <= 8)%nat)
    /\ (NoDup (map Mask.mask_type (fst (InfluenceGraph.identify_masks text (g, w))))
        /\ (List.length (fst (InfluenceGraph.identify_masks text (g, w))) <= 8)%nat)
    /\ (NoDup (map Spell.spell_type (fst (analyze_spells text w)))
        /\ (List.length (fst (analyze_spells text w)) <= 8)%nat)
    /\ (NoDup (map Prison.prison_type (fst (map_prisons text w)))
        /\ (List.length (fst (map_prisons text w)) <= 8)%nat).
Proof.
  intros text context w g. repeat split.
  - rewrite detect_frames_run.
    apply (run_tags_NoDup FrameType.value FRAME_SIGNALS FrameSignals.signals
             frame_entry _ Frame.frame_type (density_of FrameSignals.signals (Py.lower text ++ " " ++ Py.lower context)));
      [apply FRAME_SIGNALS_in_order|reflexivity|reflexivity].
  - rewrite detect_frames_run.
    apply (run_length FRAME_SIGNALS FrameSignals.signals frame_entry _
             Frame.frame_type (density_of FrameSignals.signals (Py.lower text ++ " " ++ Py.lower context))); reflexivity.
  - rewrite graph_identify_masks_run.
    apply (run_tags_NoDup MaskType.value MASK_SIGNALS MaskSignals.signals
             InfluenceGraph.mask_entry _ Mask.mask_type
             (density_of MaskSignals.signals (Py.lower text)));
      [apply MASK_SIGNALS_in_order|reflexivity|reflexivity].
  - rewrite graph_identify_masks_run.
    apply (run_length MASK_SIGNALS MaskSignals.signals InfluenceGraph.mask_entry _
             Mask.mask_type (density_of MaskSignals.signals (Py.lower text))); reflexivity.
  - rewrite analyze_spells_run.
    apply (run_tags_NoDup SpellType.value SPELL_SIGNALS SpellSignals.signals
             spell_entry _ Spell.spell_type
             (fun d => Py.min (density_of SpellSignals.signals (Py.lower text) d * (5 # 2)) 1));
      [apply SPELL_SIGNALS_in_order|reflexivity|reflexivity].
  - rewrite analyze_spells_run.
    apply (run_length SPELL_SIGNALS SpellSignals.signals spell_entry _
             Spell.spell_type
             (fun d => Py.min (density_of SpellSignals.signals (Py.lower text) d * (5 # 2)) 1));
      reflexivity.
  - rewrite map_prisons_run.
    apply (run_tags_NoDup PrisonType.value PRISON_SIGNALS PrisonSignals.signals
             prison_entry _ Prison.prison_type
             (fun d => Py.min (density_of PrisonSignals.signals (Py.lower text) d * 2) 1));
      [apply PRISON_SIGNALS_in_order|reflexivity|reflexivity].
  - rewrite map_prisons_run.
    apply (run_length PRISON_SIGNALS PrisonSignals.signals prison_entry _
             Prison.prison_type
             (fun d => Py.min (density_of PrisonSignals.signals (Py.lower text) d * 2) 1));
      reflexivity.
Qed.

(** C10: a keyword can match across the junction of text and context:
    neither "common" nor "sense" contains a keyword of any signal table
    (and [detect_frames] finds nothing in either alone), yet with "common"
    as text and "sense" as context the keyword "common sense" of the
    NORMATIVE entry matches in "common sense". *)
Theorem keyword_across_junction :
  exists text context : string,
    (forall k, In k all_keywords -> Py.str_in k (Py.lower text) = false)
    /\ (forall k, In k all_keywords -> Py.str_in k (Py.lower context) = false)
    /\ (forall w, fst (detect_frames text EmptyString w) = [])
    /\ (forall w, fst (detect_frames context EmptyString w) = [])
    /\ (forall w, map Frame.frame_type (fst (detect_frames text context w))
                  = [FrameType.NORMATIVE]).
Proof.
  exists "common", "sense".
  assert (Hfree : forall t,
            forallb (fun k => negb (Py.str_in k t)) all_keywords = true ->
            forall k, In k all_keywords -> Py.str_in k t = false).
  { intros t H k Hk. rewrite forallb_forall in H. apply negb_true_iff, H, Hk. }
  split; [apply Hfree; vm_compute; reflexivity|].
  split; [apply Hfree; vm_compute; reflexivity|].
  split; [intro w; rewrite detect_frames_run; reflexivity|].
  split; [intro w; rewrite detect_frames_run; reflexivity|].
  intro w. rewrite detect_frames_run. reflexivity.
Qed.

(* ------------------------------------------------------------------ *)
(** ** Lemmas: dictionaries                                             *)
(* ------------------------------------------------------------------ *)

Lemma get_set_same {V} (k : string) (v : V) (d : odict V) :
  OD.get k (OD.set k v d) = Some v.
Proof.
  induction d as [|[k' v'] r IH]; simpl.
  - rewrite String.eqb_refl. reflexivity.
  - destruct (String.eqb k k') eqn:E; simpl; rewrite ?String.eqb_refl, ?E; auto.
Qed.

Lemma get_set_other {V} (k k' : string) (v : V) (d : odict V) :
  k <> k' -> OD.get k (OD.set k' v d) = OD.get k d.
Proof.
  intro Hne. assert (Hk : String.eqb k k' = false) by (apply String.eqb_neq, Hne).
  induction d as [|[k0 v0] r IH]; simpl.
  - rewrite Hk. reflexivity.
  - destruct (String.eqb k' k0) eqn:E; simpl.
    + apply String.eqb_eq in E. subst k0. rewrite Hk. reflexivity.
    + rewrite IH. reflexivity.
Qed.

(* ------------------------------------------------------------------ *)
(** ** Purity and effects of the detectors                              *)
(* ------------------------------------------------------------------ *)

(** Two runs of a detector differ only in what the loop body draws from
    the state. *)
Lemma run_independent {S T D F G} (signals : D -> list string)
    (body : T -> D -> list string -> Q -> State S (Q * F)) (tl : string)
    (tbl : list (T * D)) (g : F -> G) :
  (forall p s s', fst (built signals body tl p s) = fst (built signals body tl p s')
                  /\ g (snd (built signals body tl p s))
                     = g (snd (built signals body tl p s'))) ->
  forall s s',
    map g (map snd (sort_desc (fst (scan signals body tl tbl s)))) =
    map g (map snd (sort_desc (fst (scan signals body tl tbl s')))).
Proof.
  intros H s s'. rewrite !sorted_payload_map. do 2 f_equal.
  rewrite (scan_view signals body tl (fun r => (fst r, g (snd r)))
             (fun p => (fst (built signals body tl p s), g (snd (built signals body tl p s))))).
  - symmetry. apply scan_view. intros p s0 _. destruct (H p s0 s) as [-> ->]. reflexivity.
  - intros p s0 _. destruct (H p s0 s) as [-> ->]. reflexivity.
Qed.

Lemma actor_labels_distinct :
  NoDup (map (fun p => actor_label (fst p)) MASK_SIGNALS).
Proof.
  repeat constructor; simpl; intuition discriminate.
Qed.

(** What the loop of [identify_masks] does to the graph: it leaves the
    edges alone and stores every mask it builds under the mask's label. *)
Lemma mask_scan_graph tl tbl :
  NoDup (map (fun p => actor_label (fst p)) tbl) ->
  forall g w,
    let r := scan MaskSignals.signals InfluenceGraph.mask_entry tl tbl (g, w) in
    InfluenceGraph._edges (fst (snd r)) = InfluenceGraph._edges g
    /\ files (snd (snd r)) = files w
    /\ (forall x, In x (fst r) ->
          OD.get (Mask.actor (snd x)) (InfluenceGraph._actors (fst (snd r))) = Some (snd x))
    /\ (forall k, (forall x, In x (fst r) -> Mask.actor (snd x) <> k) ->
          OD.get k (InfluenceGraph._actors (fst (snd r))) = OD.get k (InfluenceGraph._actors g))
    /\ (forall x, In x (fst r) -> exists p, In p tbl /\ Mask.actor (snd x) = actor_label (fst p)).
Proof.
  induction tbl as [|p rest IH]; intros Hnd g w.
  - simpl. repeat split; try tauto; try (intros x []).
  - inversion Hnd as [|? ? Hp Hrest]; subst. cbv zeta.
    destruct (hit MaskSignals.signals tl p) eqn:Hh.
    + rewrite scan_cons_hit by assumption.
      set (m := snd (built MaskSignals.signals InfluenceGraph.mask_entry tl p (g, w))).
      set (s1 := snd (InfluenceGraph.mask_entry (fst p) (snd p)
                        (matched_in MaskSignals.signals tl (snd p))
                        (density_of MaskSignals.signals tl (snd p)) (g, w))).
      assert (Hs1 : s1 = (InfluenceGraph.add_actor m g, snd s1)) by reflexivity.
      assert (Hw1 : files (snd s1) = files w) by reflexivity.
      assert (Hm : Mask.actor m = actor_label (fst p)) by reflexivity.
      destruct (IH Hrest (InfluenceGraph.add_actor m g) (snd s1))
        as (He & Hf & Hget & Hkeep & Hlab).
      rewrite <- Hs1 in He, Hf, Hget, Hkeep, Hlab. simpl fst. simpl snd.
      assert (Hfresh : forall x,
                In x (fst (scan MaskSignals.signals InfluenceGraph.mask_entry tl rest s1)) ->
                Mask.actor (snd x) <> actor_label (fst p)).
      { intros x Hx Heq. destruct (Hlab x Hx) as [q [Hq Hxq]]. apply Hp.
        rewrite <- Heq, Hxq. apply in_map_iff. exists q. tauto. }
      repeat split.
      * exact He.
      * rewrite Hf. exact Hw1.
      * intros x [<-|Hx]; [|apply Hget, Hx].
        fold m. rewrite Hkeep; [|rewrite Hm; exact Hfresh].
        simpl. apply get_set_same.
      * intros k Hk. rewrite Hkeep by (intros x Hx; apply Hk; right; exact Hx).
        simpl. apply get_set_other. intro E. apply (Hk _ (or_introl eq_refl)). auto.
      * intros x [<-|Hx].
        -- exists p. split; [left; reflexivity|exact Hm].
        -- destruct (Hlab x Hx) as [q [Hq Hxq]]. exists q. split; [right|]; assumption.
    + rewrite scan_cons_miss by assumption.
      destruct (IH Hrest g w) as (He & Hf & Hget & Hkeep & Hlab).
      repeat split; try assumption.
      intros x Hx. destruct (Hlab x Hx) as [q [Hq Hxq]]. exists q. split; [right|]; assumption.
Qed.

(** C8, as stated, fails twice.  Two calls of [detect_frames] with the
    same text and context, one after the other, return frames with
    different ids and timestamps; and a call of
    [InfluenceGraph.identify_masks] on an empty graph leaves an actor in
    the graph. *)
Lemma detectors_are_not_pure :
  (let first := detect_frames "market" EmptyString world0 in
   let second := detect_frames "market" EmptyString (snd first) in
   fst first <> fst second)
  /\ (let after :=
        fst (snd (InfluenceGraph.identify_masks "leadership"
                    (InfluenceGraph.init, world0))) in
      OD.keys (InfluenceGraph._actors InfluenceGraph.init) = []
      /\ OD.keys (InfluenceGraph._actors after) = ["[Actor performing AUTHORITY]"]).
Proof.
  split.
  - cbv zeta. intro H. vm_compute in H. discriminate H.
  - cbv zeta. split; vm_compute; reflexivity.
Qed.

(** C8 (amended): a detector's findings are a function of the text, the
    context and the signal table in every field except the freshly drawn
    id and, for frames, the detection timestamp; [detect_frames],
    [analyze_spells] and [map_prisons] leave the stored files untouched;
    [InfluenceGraph.identify_masks] leaves files and edges untouched and
    stores every mask it returns in the graph under the mask's actor
    label, leaving the other actors as they were. *)
Theorem detectors_effects :
  forall (text context : string) (w w' : World) (g g' : InfluenceGraph.t),
    (map frame_body (fst (detect_frames text context w))
       = map frame_body (fst (detect_frames text context w'))
     /\ map mask_body (fst (InfluenceGraph.identify_masks text (g, w)))
        = map mask_body (fst (InfluenceGraph.identify_masks text (g', w')))
     /\ map spell_body (fst (analyze_spells text w))
        = map spell_body (fst (analyze_spells text w'))
     /\ map prison_body (fst (map_prisons text w))
        = map prison_body (fst (map_prisons text w')))
    /\ (files (snd (detect_frames text context w)) = files w
        /\ files (snd (analyze_spells text w)) = files w
        /\ files (snd (map_prisons text w)) = files w)
    /\ (let r := InfluenceGraph.identify_masks text (g, w) in
        files (snd (snd r)) = files w
        /\ InfluenceGraph._edges (fst (snd r)) = InfluenceGraph._edges g
        /\ (forall m, In m (fst r) ->
              OD.get (Mask.actor m) (InfluenceGraph._actors (fst (snd r))) = Some m)
        /\ (forall k, (forall m, In m (fst r) -> Mask.actor m <> k) ->
              OD.get k (InfluenceGraph._actors (fst (snd r)))
              = OD.get k (InfluenceGraph._actors g))).
Proof.
  intros text context w w' g g'. split; [|split].
  - repeat split.
    + rewrite !detect_frames_run. apply run_independent. intros; split; reflexivity.
    + rewrite !graph_identify_masks_run. apply run_independent.
      intros; split; reflexivity.
    + rewrite !analyze_spells_run. apply run_independent. intros; split; reflexivity.
    + rewrite !map_prisons_run. apply run_independent. intros; split; reflexivity.
  - repeat split.
    + rewrite detect_frames_state.
      apply (scan_preserves FrameSignals.signals frame_entry _ files). reflexivity.
    + rewrite analyze_spells_state.
      apply (scan_preserves SpellSignals.signals spell_entry _ files). reflexivity.
    + rewrite map_prisons_state.
      apply (scan_preserves PrisonSignals.signals prison_entry _ files). reflexivity.
  - cbv zeta.
    destruct (mask_scan_graph (Py.lower text) MASK_SIGNALS actor_labels_distinct g w)
      as (He & Hf & Hget & Hkeep & _).
    pose proof (graph_identify_masks_state text (g, w)) as Hst.
    assert (Hin : forall m, In m (fst (InfluenceGraph.identify_masks text (g, w))) ->
                  exists x, In x (fst (scan MaskSignals.signals InfluenceGraph.mask_entry
                                         (Py.lower text) MASK_SIGNALS (g, w)))
                            /\ snd x = m).
    { intros m Hm. rewrite graph_identify_masks_run in Hm.
      apply in_map_iff in Hm. destruct Hm as [x [Hx Hm]].
      exists x. split; [apply sort_desc_In, Hm|exact Hx]. }
    assert (Hni : forall x, In x (fst (scan MaskSignals.signals InfluenceGraph.mask_entry
                                         (Py.lower text) MASK_SIGNALS (g, w))) ->
                  In (snd x) (fst (InfluenceGraph.identify_masks text (g, w)))).
    { intros x Hx. rewrite graph_identify_masks_run.
      apply in_map. apply sort_desc_In, Hx. }
    rewrite Hst. repeat split.
    + exact Hf.
    + exact He.
    + intros m Hm. destruct (Hin m Hm) as [x [Hx <-]]. apply Hget, Hx.
    + intros k Hk. apply Hkeep. intros x Hx. apply Hk, Hni, Hx.
Qed.

(* ------------------------------------------------------------------ *)
(** ** Facts about binary64 values                                      *)
(* ------------------------------------------------------------------ *)

Module FloatFacts.
Import PrimFloat SpecFloat FloatOps FloatAxioms FloatLemmas.

(** *** Rounding never gives nan *)

Lemma shr_1_nonneg mrs : (0 <= shr_m mrs)%Z -> (0 <= shr_m (shr_1 mrs))%Z.
Proof.
  destruct mrs as [m r s]. cbn [shr_m]. intro H. unfold shr_1.
  destruct m as [|[p|p|]|p]; cbn [shr_m]; lia.
Qed.

Lemma iter_shr_1_nonneg (p : positive) : forall mrs,
  (0 <= shr_m mrs)%Z -> (0 <= shr_m (iter_pos shr_1 p mrs))%Z.
Proof.
  induction p as [p IH|p IH|]; intros mrs H; cbn [iter_pos].
  - apply IH, IH, shr_1_nonneg, H.
  - apply IH, IH, H.
  - apply shr_1_nonneg, H.
Qed.

Lemma shr_fexp_nonneg (m e : Z) (l : location) :
  (0 <= m)%Z -> (0 <= shr_m (fst (shr_fexp prec emax m e l)))%Z.
Proof.
  intro H. unfold shr_fexp, shr.
  assert (H0 : (0 <= shr_m (shr_record_of_loc m l))%Z)
    by (destruct l as [|[]]; exact H).
  destruct (fexp prec emax (Zdigits2 m + e) - e)%Z; cbn [fst]; [exact H0| |exact H0].
  apply iter_shr_1_nonneg, H0.
Qed.

Lemma round_nearest_even_nonneg (m : Z) (l : location) :
  (0 <= m)%Z -> (0 <= round_nearest_even m l)%Z.
Proof.
  intro H. unfold round_nearest_even. destruct l as [|[]]; [lia| |lia|lia].
  destruct (Z.even m); lia.
Qed.

(** Rounding a non-negative mantissa never gives nan. *)
Lemma binary_round_aux_number (s : bool) (m e : Z) (l : location) :
  (0 <= m)%Z -> binary_round_aux prec emax s m e l <> S754_nan.
Proof.
  intro H. unfold binary_round_aux.
  pose proof (shr_fexp_nonneg m e l H) as H1.
  destruct (shr_fexp prec emax m e l) as [mrs' e']. cbn [fst] in H1.
  pose proof (shr_fexp_nonneg _ e' loc_Exact
                (round_nearest_even_nonneg _ (loc_of_shr_record mrs') H1)) as H2.
  destruct (shr_fexp prec emax (round_nearest_even (shr_m mrs') (loc_of_shr_record mrs'))
              e' loc_Exact) as [mrs'' e'']. cbn [fst] in H2.
  destruct (shr_m mrs'') as [|p|p]; [discriminate| |lia].
  destruct (e'' <=? emax - prec)%Z; discriminate.
Qed.

Lemma binary_round_number (s : bool) (m : positive) (e : Z) :
  binary_round prec emax s m e <> S754_nan.
Proof.
  unfold binary_round. destruct (shl_align _ _ _) as [mz ez].
  apply binary_round_aux_number. lia.
Qed.

Lemma binary_normalize_number (z e : Z) (s : bool) :
  binary_normalize prec emax z e s <> S754_nan.
Proof.
  unfold binary_normalize. destruct z; [discriminate| |]; apply binary_round_number.
Qed.

(** Reading a specified value back as a float gives nan only for nan. *)
Lemma SF2Prim_number (x : spec_float) :
  x <> S754_nan -> PyFloat.is_number (SF2Prim x).
Proof.
  unfold PyFloat.is_number. intro H.
  destruct x as [[]|[]| |s m e];
    [vm_compute; discriminate|vm_compute; discriminate|vm_compute; discriminate
    |vm_compute; discriminate|contradiction|].
  unfold SF2Prim.
    assert (Hn : Prim2SF (Z.ldexp (of_uint63 (Uint63.of_Z (Z.pos m))) e) <> S754_nan).
    { rewrite Z_ldexp_spec, of_uint63_spec. unfold SFldexp.
      pose proof (binary_normalize_number (Uint63.to_Z (Uint63.of_Z (Z.pos m))) 0 false) as Hb.
      destruct (binary_normalize prec emax _ 0 false) as [| | |s' m' e'];
        [discriminate|discriminate|contradiction|].
      apply binary_round_number. }
    destruct s; [|exact Hn].
    rewrite opp_spec. destruct (Prim2SF _); [discriminate|discriminate|contradiction|discriminate].
Qed.

(** The constants are the literals of the source. *)
Lemma constants_are_literals :
  PyFloat.hundredth = PyFloat.literal 1 100 /\ PyFloat.zero = PyFloat.of_int 0.
Proof. split; vm_compute; reflexivity. Qed.

(** [round(x, 3)] on some floats: an exact tie goes to the even decimal,
    1.0005 and 0.0005 are not ties as floats, the sign of a negative
    float survives rounding to zero, and infinity is returned as it is. *)
Lemma round3_examples :
  PyFloat.round3 (PyFloat.literal 625 10000) = PyFloat.literal 62 1000
  /\ PyFloat.round3 (PyFloat.literal 1875 10000) = PyFloat.literal 188 1000
  /\ PyFloat.round3 (PyFloat.literal 10005 10000) = PyFloat.literal 1 1
  /\ PyFloat.round3 (PyFloat.literal 5 10000) = PyFloat.literal 1 1000
  /\ PyFloat.round3 (PyFloat.literal 26755 10000) = PyFloat.literal 2675 1000
  /\ PyFloat.round3 (- PyFloat.literal 1 10000) = (- PyFloat.zero)%float
  /\ PyFloat.round3 infinity = infinity.
Proof. repeat split; vm_compute; reflexivity. Qed.

(** *** The order of floats *)

Lemma SFleb_trans (x y z : spec_float) :
  SFleb x y = true -> SFleb y z = true -> SFleb x z = true.
Proof.
  unfold SFleb.
  destruct x as [sx|sx| |sx mx ex]; destruct y as [sy|sy| |sy my ey];
    destruct z as [sz|sz| |sz mz ez]; cbn [SFcompare];
    try discriminate; try (destruct sx); try (destruct sy); try (destruct sz);
    try reflexivity; try discriminate; try (intros; assumption).
  all: rewrite ?Pos.compare_cont_spec; unfold Pos.switch_Eq.
  all: destruct (Z.compare_spec ex ey); destruct (Z.compare_spec ey ez);
       destruct (Z.compare_spec ex ez); try discriminate; try reflexivity;
       try (exfalso; lia); subst.
  all: destruct (Pos.compare_spec mx my); destruct (Pos.compare_spec my mz);
       destruct (Pos.compare_spec mx mz); cbn [CompOpp];
       try discriminate; try reflexivity; try (exfalso; lia).
Qed.

Lemma SFleb_total (x y : spec_float) :
  x <> S754_nan -> y <> S754_nan -> SFltb x y = false -> SFleb y x = true.
Proof.
  unfold SFleb, SFltb.
  destruct x as [sx|sx| |sx mx ex]; destruct y as [sy|sy| |sy my ey];
    cbn [SFcompare]; intros Hx Hy; try contradiction;
    try (destruct sx); try (destruct sy); try reflexivity; try discriminate.
  all: rewrite ?Pos.compare_cont_spec; unfold Pos.switch_Eq.
  all: rewrite (Z.compare_antisym ex ey), (Pos.compare_antisym mx my).
  all: destruct (ex ?= ey)%Z; cbn [CompOpp]; try discriminate; try reflexivity.
  all: destruct (mx ?= my)%positive; cbn [CompOpp]; try discriminate; try reflexivity.
Qed.

Lemma SFltb_number (x y : spec_float) :
  SFltb x y = true -> x <> S754_nan /\ y <> S754_nan.
Proof.
  unfold SFltb. destruct x, y; cbn [SFcompare]; try discriminate; split; discriminate.
Qed.

Lemma ltb_leb (x y : float) : ltb x y = true -> leb x y = true.
Proof.
  rewrite ltb_spec, leb_spec. unfold SFltb, SFleb.
  destruct (SFcompare _ _) as [[]|]; (reflexivity || discriminate).
Qed.

Lemma leb_trans (x y z : float) :
  leb x y = true -> leb y z = true -> leb x z = true.
Proof. rewrite !leb_spec. apply SFleb_trans. Qed.

Lemma leb_total (x y : float) :
  PyFloat.is_number x -> PyFloat.is_number y -> ltb x y = false -> leb y x = true.
Proof. rewrite leb_spec, ltb_spec. apply SFleb_total. Qed.

Lemma ltb_number (x y : float) : ltb x y = true -> PyFloat.is_number x /\ PyFloat.is_number y.
Proof. rewrite ltb_spec. apply SFltb_number. Qed.

(** *** Products and quotients that are numbers *)

Lemma SFdiv_core_nonneg (m1 m2 : positive) (e1 e2 : Z) :
  (0 <= fst (fst (SFdiv_core_binary prec emax (Z.pos m1) e1 (Z.pos m2) e2)))%Z.
Proof.
  unfold SFdiv_core_binary.
  set (s := (e1 - e2 - _)%Z). 
  set (m' := match s with Z.pos _ => Z.shiftl (Z.pos m1) s | Z0 => Z.pos m1 | Z.neg _ => 0%Z end).
  assert (Hm : (0 <= m')%Z).
  { unfold m'. destruct s; [lia| |lia]. apply Z.shiftl_nonneg. lia. }
  pose proof (Z_div_mod m' (Z.pos m2) eq_refl) as H.
  destruct (Z.div_eucl m' (Z.pos m2)) as [q r]. cbn [fst]. nia.
Qed.

Lemma nearest_number (s : bool) (n d : positive) : PyFloat.nearest s n d <> S754_nan.
Proof.
  unfold PyFloat.nearest.
  pose proof (SFdiv_core_nonneg n d 0 0) as H.
  destruct (SFdiv_core_binary prec emax (Z.pos n) 0 (Z.pos d) 0) as [[q e] l].
  apply binary_round_aux_number, H.
Qed.

Lemma round3_number (x : float) : PyFloat.is_number x -> PyFloat.is_number (PyFloat.round3 x).
Proof.
  intro H. unfold PyFloat.round3. destruct (Prim2SF x) eqn:E; try exact H.
  destruct (Py.round_half_even _);
    [apply SF2Prim_number; discriminate|apply SF2Prim_number, nearest_number
    |apply SF2Prim_number; discriminate].
Qed.

Lemma div_number (x y : float) (s : bool) (m : positive) (e : Z) :
  PyFloat.is_number x -> Prim2SF y = S754_finite s m e -> PyFloat.is_number (x / y).
Proof.
  unfold PyFloat.is_number. intros Hx Hy. rewrite div_spec, Hy. unfold SF64div, SFdiv.
  destruct (Prim2SF x) as [sx|sx| |sx mx ex];
    [discriminate|discriminate|contradiction|].
  pose proof (SFdiv_core_nonneg mx m ex e) as H.
  destruct (SFdiv_core_binary prec emax (Z.pos mx) ex (Z.pos m) e) as [[q e'] l].
  apply binary_round_aux_number, H.
Qed.

Lemma mul_number (x y : float) (s : bool) (m : positive) (e : Z) :
  PyFloat.is_number x -> Prim2SF y = S754_finite s m e -> PyFloat.is_number (x * y).
Proof.
  unfold PyFloat.is_number. intros Hx Hy. rewrite mul_spec, Hy. unfold SF64mul, SFmul.
  destruct (Prim2SF x) as [sx|sx| |sx mx ex];
    [discriminate|discriminate|contradiction|].
  apply binary_round_aux_number. lia.
Qed.

(** [max(inc, 0.01)] is finite and not zero when [inc] is less than some
    float: the division of [find_puppeteers] never divides by zero. *)
Lemma max_hundredth_finite (inc out : float) :
  ltb inc out = true ->
  exists s m e, Prim2SF (PyFloat.max inc PyFloat.hundredth) = S754_finite s m e.
Proof.
  intro H. unfold PyFloat.max.
  destruct (ltb inc PyFloat.hundredth) eqn:E.
  - exists false. vm_compute. eexists. eexists. reflexivity.
  - rewrite ltb_spec in H, E. revert H E.
    change (Prim2SF PyFloat.hundredth)
      with (S754_finite false 5764607523034235 (-59)).
    unfold SFltb. destruct (Prim2SF inc) as [si|si| |si mi ei]; cbn [SFcompare].
    + destruct (Prim2SF out) as [so|so| |so mo eo]; discriminate.
    + destruct si.
      * intros _. discriminate.
      * destruct (Prim2SF out) as [so|[]| |so mo eo]; discriminate.
    + discriminate.
    + intros _ _. exists si, mi, ei. reflexivity.
Qed.

(** *** Integers as floats *)

Lemma digits2_pos_lower (p : positive) :
  (2 ^ (Z.pos (digits2_pos p) - 1) <= Z.pos p)%Z.
Proof.
  induction p as [p IH|p IH|]; cbn [digits2_pos].
  - rewrite Pos2Z.inj_succ. replace (Z.succ (Z.pos (digits2_pos p)) - 1)%Z
      with (Z.succ (Z.pos (digits2_pos p) - 1)) by lia.
    rewrite Z.pow_succ_r by lia. lia.
  - rewrite Pos2Z.inj_succ. replace (Z.succ (Z.pos (digits2_pos p)) - 1)%Z
      with (Z.succ (Z.pos (digits2_pos p) - 1)) by lia.
    rewrite Z.pow_succ_r by lia. lia.
  - reflexivity.
Qed.

Lemma digits2_pos_shift (p k : positive) :
  digits2_pos (Pos.iter xO p k) = (digits2_pos p + k)%positive.
Proof.
  induction k as [|k IH] using Pos.peano_ind.
  - cbn [Pos.iter digits2_pos]. lia.
  - rewrite Pos.iter_succ. cbn [digits2_pos]. rewrite IH. lia.
Qed.

Lemma binary_round_aux_exact (s : bool) (m : positive) (e : Z) :
  fexp prec emax (Z.pos (digits2_pos m) + e) = e -> (e <= emax - prec)%Z ->
  binary_round_aux prec emax s (Z.pos m) e loc_Exact = S754_finite s m e.
Proof.
  intros H He. unfold binary_round_aux, shr_fexp. cbn [Zdigits2].
  rewrite H, Z.sub_diag.
  cbn [shr shr_record_of_loc shr_m loc_of_shr_record round_nearest_even Zdigits2].
  rewrite H, Z.sub_diag. cbn [shr shr_record_of_loc shr_m].
  apply Z.leb_le in He. rewrite He. reflexivity.
Qed.

(** An integer between 1 and 2^53 is a finite float that is not zero. *)
Lemma of_int_finite (z : Z) :
  (0 < z < 2 ^ 53)%Z ->
  exists m e, Prim2SF (PyFloat.of_int z) = S754_finite false m e.
Proof.
  intros [H0 H1]. destruct z as [|p|p]; [lia| |lia].
  unfold PyFloat.of_int. cbn [binary_normalize]. unfold binary_round.
  pose proof (digits2_pos_lower p) as Hd.
  assert (Hd53 : (Z.pos (digits2_pos p) <= 53)%Z).
  { assert (Hlt : (2 ^ (Z.pos (digits2_pos p) - 1) < 2 ^ 53)%Z) by lia.
    apply Z.pow_lt_mono_r_iff in Hlt; lia. }
  set (d := digits2_pos p) in *.
  assert (Hf : fexp prec emax (Z.pos d + 0) = (Z.pos d - 53)%Z).
  { unfold fexp, SpecFloat.emin, prec, emax. lia. }
  rewrite Hf. unfold shl_align.
  assert (Hex : exists m e, (let '(mz, ez) :=
              match (Z.pos d - 53 - 0)%Z with
              | Z.neg k => (Pos.iter xO p k, (Z.pos d - 53)%Z)
              | _ => (p, 0%Z)
              end in binary_round_aux prec emax false (Z.pos mz) ez loc_Exact)
            = S754_finite false m e /\ SpecFloat.valid_binary prec emax (S754_finite false m e) = true).
  { destruct (Z.pos d - 53 - 0)%Z as [|k|k] eqn:Ek.
    - exists p, 0%Z. assert (Ed : Z.pos (digits2_pos p) = 53%Z) by (fold d; lia).
      split.
      + apply binary_round_aux_exact; [rewrite Ed; reflexivity|unfold emax, prec; lia].
      + cbn [SpecFloat.valid_binary]. unfold bounded, canonical_mantissa. rewrite Ed. reflexivity.
    - lia.
    - exists (Pos.iter xO p k), (Z.pos d - 53)%Z.
      assert (Ed : (Z.pos (digits2_pos (Pos.iter xO p k)) + (Z.pos d - 53) = Z.pos d)%Z).
      { rewrite digits2_pos_shift. fold d. lia. }
      assert (Hf' : fexp prec emax (Z.pos d) = (Z.pos d - 53)%Z).
      { unfold fexp, SpecFloat.emin, prec, emax. lia. }
      split.
      + apply binary_round_aux_exact; [rewrite Ed; exact Hf'|unfold emax, prec; lia].
      + cbn [SpecFloat.valid_binary]. unfold bounded, canonical_mantissa. rewrite Ed, Hf'.
        rewrite Z.eqb_refl. cbn [andb]. apply Z.leb_le. unfold emax, prec. lia. }
  destruct Hex as (m & e & Hr & Hv). exists m, e. rewrite Hr.
  apply Prim2SF_SF2Prim, Hv.
Qed.
End FloatFacts.

(** The sort on float keys permutes its input, and puts larger keys first
    when no key is nan. *)
Lemma insert_desc_float_perm {F} (x : PrimFloat.float * F) l :
  Permutation (insert_desc_float x l) (x :: l).
Proof.
  induction l as [|y r IH]; cbn [insert_desc_float].
  - apply Permutation_refl.
  - destruct (PrimFloat.ltb (fst x) (fst y)).
    + apply perm_trans with (y :: x :: r).
      * apply perm_skip, IH.
      * apply perm_swap.
    + apply Permutation_refl.
Qed.

Lemma sort_desc_float_perm {F} (l : list (PrimFloat.float * F)) :
  Permutation (sort_desc_float l) l.
Proof.
  induction l as [|x r IH]; cbn [sort_desc_float fold_right].
  - apply perm_nil.
  - eapply perm_trans; [apply insert_desc_float_perm|]. apply perm_skip, IH.
Qed.

Lemma sort_desc_float_In {F} (x : PrimFloat.float * F) l :
  In x (sort_desc_float l) <-> In x l.
Proof.
  split; apply Permutation_in; [|apply Permutation_sym]; apply sort_desc_float_perm.
Qed.

Lemma insert_desc_float_sorted {F} (x : PrimFloat.float * F) l :
  PyFloat.is_number (fst x) -> Forall (fun c => PyFloat.is_number (fst c)) l ->
  StronglySorted (fun a b => PrimFloat.leb (fst b) (fst a) = true) l ->
  StronglySorted (fun a b => PrimFloat.leb (fst b) (fst a) = true) (insert_desc_float x l).
Proof.
  intro Hx. induction l as [|y r IH]; cbn [insert_desc_float]; intros Hn Hs.
  - constructor; constructor.
  - apply StronglySorted_inv in Hs. destruct Hs as [Hr Hy].
    apply Forall_cons_iff in Hn. destruct Hn as [Hny Hnr].
    destruct (PrimFloat.ltb (fst x) (fst y)) eqn:E.
    + constructor; [apply IH; assumption|].
      eapply Permutation_Forall; [apply Permutation_sym, insert_desc_float_perm|].
      constructor; [|exact Hy].
      apply FloatFacts.ltb_leb, E.
    + apply FloatFacts.leb_total in E; [|exact Hx|exact Hny].
      constructor; [constructor; assumption|].
      constructor; [exact E|].
      eapply Forall_impl; [|exact Hy]. cbv beta. intros z Hz.
      eapply FloatFacts.leb_trans; eassumption.
Qed.

Lemma sort_desc_float_sorted {F} (l : list (PrimFloat.float * F)) :
  Forall (fun c => PyFloat.is_number (fst c)) l ->
  StronglySorted (fun a b => PrimFloat.leb (fst b) (fst a) = true) (sort_desc_float l).
Proof.
  induction l as [|x r IH]; cbn [sort_desc_float fold_right]; intro Hn.
  - constructor.
  - apply Forall_cons_iff in Hn. destruct Hn as [Hx Hr].
    apply insert_desc_float_sorted; [exact Hx| |apply IH, Hr].
    eapply Permutation_Forall; [apply Permutation_sym, sort_desc_float_perm|exact Hr].
Qed.

(* ------------------------------------------------------------------ *)
(** ** Properties of [find_puppeteers]                                 *)
(* ------------------------------------------------------------------ *)

Lemma get_or_set_same {V} (k : string) (v dflt : V) (d : odict V) :
  OD.get_or k dflt (OD.set k v d) = v.
Proof. unfold OD.get_or. rewrite get_set_same. reflexivity. Qed.

Lemma get_or_set_other {V} (k k' : string) (v dflt : V) (d : odict V) :
  k <> k' -> OD.get_or k dflt (OD.set k' v d) = OD.get_or k dflt d.
Proof. intro H. unfold OD.get_or. rewrite get_set_other by exact H. reflexivity. Qed.

Lemma total_weight_snoc (es : list InfluenceEdge.t) (e : InfluenceEdge.t) :
  total_weight (es ++ [e])%list
  = PrimFloat.add (total_weight es) (InfluenceEdge.weight e).
Proof.
  unfold total_weight. rewrite map_app, fold_left_app. reflexivity.
Qed.

(** The three dictionaries of the edge loop hold, for every actor, the
    float sum of its outgoing weights and of its incoming weights, added
    in the order of the edges, and the number of its hidden outgoing
    edges. *)
Lemma tally_sums (actors : odict Mask.t) (edges : list InfluenceEdge.t) (a : string) :
  let g := InfluenceGraph.make actors edges in
  OD.get_or a PyFloat.zero (fst (fst (InfluenceGraph.tally edges))) = out_weight g a
  /\ OD.get_or a PyFloat.zero (snd (fst (InfluenceGraph.tally edges))) = in_weight g a
  /\ OD.get_or a 0%nat (snd (InfluenceGraph.tally edges)) = hidden_out g a.
Proof.
  cbv zeta. unfold out_weight, in_weight, hidden_out, out_edges, in_edges.
  cbn [InfluenceGraph._edges].
  induction edges as [|e es IH] using rev_ind.
  - repeat split.
  - unfold InfluenceGraph.tally in *. rewrite fold_left_app.
    cbn [fold_left]. unfold InfluenceGraph.tally_edge at 1 3 5.
    destruct (fold_left InfluenceGraph.tally_edge es ([], [], [])) as [[o i] h].
    cbn [fst snd] in IH |- *. destruct IH as (Ho & Hi & Hh).
    rewrite !filter_app. cbn [filter]. repeat split.
    + destruct (String.eqb_spec (InfluenceEdge.source e) a) as [->|Hne].
      * rewrite get_or_set_same, total_weight_snoc, Ho. reflexivity.
      * rewrite get_or_set_other by congruence. rewrite app_nil_r. exact Ho.
    + destruct (String.eqb_spec (InfluenceEdge.target e) a) as [->|Hne].
      * rewrite get_or_set_same, total_weight_snoc, Hi. reflexivity.
      * rewrite get_or_set_other by congruence. rewrite app_nil_r. exact Hi.
    + destruct (String.eqb_spec (InfluenceEdge.source e) a) as [->|Hne].
      * cbn [filter]. destruct (InfluenceEdge.visible e); cbn [negb].
        -- rewrite app_nil_r. exact Hh.
        -- rewrite get_or_set_same, length_app, Hh. reflexivity.
      * rewrite app_nil_r.
        destruct (InfluenceEdge.visible e); cbn [negb]; [exact Hh|].
        rewrite get_or_set_other by congruence. exact Hh.
Qed.

Lemma candidate_spec (g : InfluenceGraph.t) (a : string) :
  InfluenceGraph.candidate (InfluenceGraph.tally (InfluenceGraph._edges g)) a
  = if qualifies g a then Some (puppeteer_of g a) else None.
Proof.
  destruct g as [actors edges]. cbn [InfluenceGraph._edges].
  destruct (tally_sums actors edges a) as (Ho & Hi & Hh).
  unfold InfluenceGraph.candidate, qualifies, puppeteer_of, raw_score.
  destruct (InfluenceGraph.tally edges) as [[o i] h]. cbn [fst snd] in Ho, Hi, Hh.
  rewrite Ho, Hi, Hh. reflexivity.
Qed.

Lemma collect_spec (g : InfluenceGraph.t) (actors : list string) :
  InfluenceGraph.collect (InfluenceGraph.tally (InfluenceGraph._edges g)) actors
  = map (puppeteer_of g) (filter (qualifies g) actors).
Proof.
  induction actors as [|a rest IH]; cbn [InfluenceGraph.collect filter map].
  - reflexivity.
  - rewrite candidate_spec, IH. destruct (qualifies g a); reflexivity.
Qed.

Lemma hidden_out_le (g : InfluenceGraph.t) (a : string) :
  (hidden_out g a <= List.length (InfluenceGraph._edges g))%nat.
Proof.
  unfold hidden_out, out_edges.
  eapply Nat.le_trans; apply filter_length_le.
Qed.

(** The score of an actor that qualifies is a number, not nan: the
    divisor is finite and not zero, and the count of hidden edges is a
    finite float. *)
Lemma qualified_score_is_number (g : InfluenceGraph.t) (a : string) :
  (Z.of_nat (List.length (InfluenceGraph._edges g)) < 2 ^ 52)%Z ->
  qualifies g a = true ->
  PyFloat.is_number (PyFloat.round3 (raw_score g a)).
Proof.
  intros Hsize Hq. unfold qualifies in Hq. apply andb_true_iff in Hq.
  destruct Hq as [Hlt _].
  destruct (FloatFacts.max_hundredth_finite _ _ Hlt) as (s & m & e & Hmax).
  destruct (FloatFacts.of_int_finite (Z.of_nat (1 + hidden_out g a))) as (m' & e' & Hint).
  { pose proof (hidden_out_le g a). lia. }
  apply FloatFacts.round3_number. unfold raw_score.
  eapply FloatFacts.mul_number; [|exact Hint].
  eapply FloatFacts.div_number; [|exact Hmax].
  apply (FloatFacts.ltb_number _ _ Hlt).
Qed.

(** C5, as stated, fails on the score.  A and C each have one hidden
    outgoing edge and no incoming edge, of weights 1.000001 and 1.000002.
    By the formula of the claim A scores 200.00019999999998 and C scores
    200.0004, so C should come first; the code rounds both scores to 200.0,
    stores that, and returns A before C. *)
Lemma puppet_score_is_rounded :
  map InfluenceGraph.actor (InfluenceGraph.find_puppeteers two_close_scores) = ["A"; "C"]
  /\ Forall (fun p => InfluenceGraph.puppet_score p = PyFloat.literal 200 1)
            (InfluenceGraph.find_puppeteers two_close_scores)
  /\ PrimFloat.ltb (PyFloat.literal 200 1) (raw_score two_close_scores "A") = true
  /\ PrimFloat.ltb (raw_score two_close_scores "A") (raw_score two_close_scores "C") = true.
Proof.
  split; [vm_compute; reflexivity|].
  split; [vm_compute; repeat constructor|].
  split; vm_compute; reflexivity.
Qed.

(** The sums that [find_puppeteers] compares are float sums.  A sends
    0.30000000000000004 through a hidden edge and receives 0.1 and 0.2:
    added exactly, the weights it receives are less than the weight it
    sends, but their float sum is 0.30000000000000004 as well, and A is not
    returned. *)
Lemma sums_are_float_sums :
  exact_weight (in_edges sum_meets_weight "A") < exact_weight (out_edges sum_meets_weight "A")
  /\ (0 < hidden_out sum_meets_weight "A")%nat
  /\ in_weight sum_meets_weight "A" = out_weight sum_meets_weight "A"
  /\ InfluenceGraph.find_puppeteers sum_meets_weight = [].
Proof.
  split; [vm_compute; reflexivity|].
  split; [vm_compute; lia|].
  split; vm_compute; reflexivity.
Qed.

(** The rounded sums can hide what decided.  A sends 0.1 through a hidden
    edge and 0.2 through a visible one, and receives 0.3: the float sum of
    what it sends is 0.30000000000000004, so A is returned, with an
    outgoing and an incoming influence that are both reported as 0.3. *)
Lemma rounded_sums_hide_the_gap :
  map InfluenceGraph.actor (InfluenceGraph.find_puppeteers sum_exceeds_weight) = ["A"]
  /\ Forall (fun p => InfluenceGraph.outgoing_influence p = PyFloat.literal 3 10
                      /\ InfluenceGraph.incoming_influence p = PyFloat.literal 3 10
                      /\ InfluenceGraph.puppet_score p = PyFloat.literal 2 1)
            (InfluenceGraph.find_puppeteers sum_exceeds_weight).
Proof.
  split; [vm_compute; reflexivity|]. vm_compute. repeat constructor.
Qed.

(** C5 (amended): [find_puppeteers] returns exactly the registered actors
    whose outgoing weights, added as floats in the order of the edges, give
    strictly more than their incoming weights added the same way, and who
    have at least one hidden outgoing edge; each is returned once, with the
    float score out / max(in, 0.01) * (1 + hidden) rounded to three
    decimals.  The list is sorted by descending rounded score; for this
    the graph is to have fewer than 2^52 edges, more than any list in
    memory holds, so that the count of hidden edges is a float without
    rounding and no score is nan. *)
Theorem find_puppeteers_spec :
  forall g : InfluenceGraph.t,
    Permutation (InfluenceGraph.find_puppeteers g)
                (map (puppeteer_of g)
                     (filter (qualifies g) (OD.keys (InfluenceGraph._actors g))))
    /\ Forall (fun p =>
                 In (InfluenceGraph.actor p) (OD.keys (InfluenceGraph._actors g))
                 /\ PrimFloat.ltb (in_weight g (InfluenceGraph.actor p))
                                   (out_weight g (InfluenceGraph.actor p)) = true
                 /\ (0 < hidden_out g (InfluenceGraph.actor p))%nat
                 /\ InfluenceGraph.hidden_connections p
                    = hidden_out g (InfluenceGraph.actor p)
                 /\ InfluenceGraph.outgoing_influence p
                    = PyFloat.round3 (out_weight g (InfluenceGraph.actor p))
                 /\ InfluenceGraph.incoming_influence p
                    = PyFloat.round3 (in_weight g (InfluenceGraph.actor p))
                 /\ InfluenceGraph.puppet_score p
                    = PyFloat.round3 (raw_score g (InfluenceGraph.actor p)))
              (InfluenceGraph.find_puppeteers g)
    /\ ((Z.of_nat (List.length (InfluenceGraph._edges g)) < 2 ^ 52)%Z ->
        Forall (fun p => PyFloat.is_number (InfluenceGraph.puppet_score p))
               (InfluenceGraph.find_puppeteers g)
        /\ StronglySorted
             (fun p q => PrimFloat.leb (InfluenceGraph.puppet_score q)
                                       (InfluenceGraph.puppet_score p) = true)
             (InfluenceGraph.find_puppeteers g)).
Proof.
  intro g.
  assert (Hperm : Permutation (InfluenceGraph.find_puppeteers g)
                    (map (puppeteer_of g)
                       (filter (qualifies g) (OD.keys (InfluenceGraph._actors g))))).
  { unfold InfluenceGraph.find_puppeteers. rewrite collect_spec.
    eapply perm_trans; [apply Permutation_map, sort_desc_float_perm|].
    rewrite map_map. cbn [snd]. rewrite map_id. apply Permutation_refl. }
  split; [exact Hperm|]. split.
  - eapply Permutation_Forall; [apply Permutation_sym, Hperm|].
    rewrite Forall_map, Forall_forall. intros a Ha.
    apply filter_In in Ha. destruct Ha as [Hin Hq].
    unfold qualifies in Hq. apply andb_true_iff in Hq. destruct Hq as [Hlt Hh].
    cbn [puppeteer_of InfluenceGraph.actor InfluenceGraph.hidden_connections
         InfluenceGraph.puppet_score InfluenceGraph.outgoing_influence
         InfluenceGraph.incoming_influence].
    split; [exact Hin|]. split; [exact Hlt|]. split; [apply Nat.ltb_lt, Hh|].
    repeat split.
  - intro Hsize. split.
    + eapply Permutation_Forall; [apply Permutation_sym, Hperm|].
      rewrite Forall_map, Forall_forall. intros a Ha.
      apply filter_In in Ha. destruct Ha as [_ Hq].
      cbn [puppeteer_of InfluenceGraph.puppet_score].
      apply qualified_score_is_number; assumption.
    + unfold InfluenceGraph.find_puppeteers. rewrite collect_spec.
      apply StronglySorted_map.
      set (keyed := map (fun p => (InfluenceGraph.puppet_score p, p))
                        (map (puppeteer_of g)
                             (filter (qualifies g) (OD.keys (InfluenceGraph._actors g))))).
      assert (Hk : forall c, In c keyed -> fst c = InfluenceGraph.puppet_score (snd c)).
      { intros c Hc. apply in_map_iff in Hc. destruct Hc as [p [<- _]]. reflexivity. }
      assert (Hn : Forall (fun c => PyFloat.is_number (fst c)) keyed).
      { apply Forall_forall. intros c Hc. apply in_map_iff in Hc.
        destruct Hc as [p [<- Hp]]. apply in_map_iff in Hp. destruct Hp as [a [<- Ha]].
        apply filter_In in Ha. destruct Ha as [_ Hq].
        cbn [fst puppeteer_of InfluenceGraph.puppet_score].
        apply qualified_score_is_number; assumption. }
      eapply StronglySorted_weaken; [|apply sort_desc_float_sorted, Hn].
      intros c d Hc Hd Hcd. cbv beta in Hcd |- *.
      apply -> (@sort_desc_float_In InfluenceGraph.puppeteer) in Hc.
      apply -> (@sort_desc_float_In InfluenceGraph.puppeteer) in Hd.
      rewrite <- (Hk c Hc), <- (Hk d Hd). exact Hcd.
Qed.

(** The two actors of the graph with close scores, in the order of their
    rounded scores. *)
Lemma find_puppeteers_spec_witness :
  (Z.of_nat (List.length (InfluenceGraph._edges two_close_scores)) < 2 ^ 52)%Z
  /\ StronglySorted
       (fun p q => PrimFloat.leb (InfluenceGraph.puppet_score q)
                                 (InfluenceGraph.puppet_score p) = true)
       (InfluenceGraph.find_puppeteers two_close_scores).
Proof.
  split; [reflexivity|].
  destruct (find_puppeteers_spec two_close_scores) as (_ & _ & H).
  apply H. reflexivity.
Defined.

(* ------------------------------------------------------------------ *)
(** ** Round trip of the crumb trail snapshot                          *)
(* ------------------------------------------------------------------ *)

Lemma read_after_write (path : string) (v : json) (w : World) :
  read_json path (snd (write_json path v w)) = Ok v.
Proof. unfold read_json, write_json. simpl. rewrite get_set_same. reflexivity. Qed.

Lemma crumb_of_to_dict (c : Crumb.t) : CrumbTrail.crumb_of (Crumb.to_dict c) = Ok c.
Proof.
  destruct c as [id ty content context visibility audience decay chain created].
  destruct ty, decay, chain; reflexivity.
Qed.

Lemma crumbs_of_to_dict (cs : list Crumb.t) :
  all_of (map CrumbTrail.crumb_of (map Crumb.to_dict cs)) = Ok cs.
Proof.
  induction cs as [|c r IH]; simpl.
  - reflexivity.
  - rewrite crumb_of_to_dict, IH. reflexivity.
Qed.

Lemma ids_of_json (ids : list string) : as_list as_str (JArr (map JStr ids)) = Ok ids.
Proof.
  unfold as_list. induction ids as [|i r IH]; simpl.
  - reflexivity.
  - rewrite IH. reflexivity.
Qed.

Lemma chains_of_json (chains : odict (list string)) :
  as_dict (as_list as_str)
          (map (fun kv => (fst kv, JArr (map JStr (snd kv)))) chains) = Ok chains.
Proof.
  unfold as_dict. induction chains as [|[k ids] r IH]; cbn [map fold_right fst snd].
  - reflexivity.
  - rewrite ids_of_json. cbn [rbind]. rewrite IH. reflexivity.
Qed.

Lemma hex_acc_nonempty (k : nat) : forall n c acc,
  hex_acc k n (String c acc) <> EmptyString.
Proof.
  induction k as [|k IH]; intros n c acc; simpl.
  - discriminate.
  - apply IH.
Qed.

Lemma take_nonempty (n : nat) (s : string) :
  s <> EmptyString -> Py.take (S n) s <> EmptyString.
Proof.
  destruct s as [|c r]; [contradiction|]. intros _. unfold Py.take.
  cbn [String.substring]. discriminate.
Qed.

(** The id a constructor draws is never empty. *)
Lemma uuid4_hex_nonempty (n : nat) (w : World) :
  fst (uuid4_hex (S n) w) <> EmptyString.
Proof.
  unfold uuid4_hex. cbn [fst]. apply take_nonempty.
  unfold uuid_hex. apply (hex_acc_nonempty 31).
Qed.

(** [trail_id or uuid4().hex[:16]]: a trail never has an empty id, and
    dropping a crumb does not change it. *)
Lemma init_trail_id_nonempty (trail_id : option string) (w : World) :
  CrumbTrail.trail_id (fst (CrumbTrail.init trail_id w)) <> EmptyString.
Proof.
  unfold CrumbTrail.init.
  destruct trail_id as [[|c s]|]; try (simpl; discriminate);
    rewrite bind_run; simpl; apply (uuid4_hex_nonempty 15).
Qed.

Lemma drop_crumb_trail_id content ty context visibility audience chain trail w :
  CrumbTrail.trail_id
    (fst (snd (CrumbTrail.drop_crumb content ty context visibility audience chain
                 (trail, w))))
  = CrumbTrail.trail_id trail.
Proof. reflexivity. Qed.

(** C3: loading the snapshot written by [persist] gives back a trail with
    the same trail id, the same number of crumbs, the same crumbs (id and
    every field) in the same order, and the same chain index.  The trail id
    is not empty, as the constructor guarantees. *)
Theorem persist_load_roundtrip :
  forall (trail : CrumbTrail.t) (path : string) (w : World),
    CrumbTrail.trail_id trail <> EmptyString ->
    exists loaded : CrumbTrail.t,
      fst (CrumbTrail.load path (snd (CrumbTrail.persist path trail w))) = Ok loaded
      /\ CrumbTrail.trail_id loaded = CrumbTrail.trail_id trail
      /\ List.length (CrumbTrail._crumbs loaded) = List.length (CrumbTrail._crumbs trail)
      /\ CrumbTrail._crumbs loaded = CrumbTrail._crumbs trail
      /\ CrumbTrail._chains loaded = CrumbTrail._chains trail.
Proof.
  intros trail path w Hid. exists trail.
  split; [|repeat split].
  unfold CrumbTrail.persist. rewrite bind_run.
  unfold CrumbTrail.load. rewrite read_after_write.
  unfold CrumbTrail.snapshot.
  change (subscript (JObj ?ms) "trail_id") with (Ok (JStr (CrumbTrail.trail_id trail))).
  cbv iota beta.
  assert (Ht : truthy (JStr (CrumbTrail.trail_id trail)) = true).
  { simpl. destruct (CrumbTrail.trail_id trail); [contradiction|reflexivity]. }
  rewrite Ht. cbn [fst].
  change (subscript (JObj ?ms) "crumbs")
    with (Ok (JArr (map Crumb.to_dict (CrumbTrail._crumbs trail)))).
  change (get_method (JObj ?ms) "chains" (JObj []))
    with (Ok (JObj (map (fun kv => (fst kv, JArr (map JStr (snd kv))))
                        (CrumbTrail._chains trail)))).
  cbn [rbind iterate py_dict as_str].
  rewrite crumbs_of_to_dict, chains_of_json. cbn [both].
  destruct trail; reflexivity.
Qed.

(** The round trip on a trail holding one crumb. *)
Lemma persist_load_roundtrip_witness :
  CrumbTrail.trail_id (fst demo_trail) <> EmptyString
  /\ exists loaded : CrumbTrail.t,
       fst (CrumbTrail.load "trail.json"
              (snd (CrumbTrail.persist "trail.json" (fst demo_trail) (snd demo_trail))))
       = Ok loaded
       /\ CrumbTrail.trail_id loaded = CrumbTrail.trail_id (fst demo_trail)
       /\ List.length (CrumbTrail._crumbs loaded)
          = List.length (CrumbTrail._crumbs (fst demo_trail))
       /\ CrumbTrail._crumbs loaded = CrumbTrail._crumbs (fst demo_trail)
       /\ CrumbTrail._chains loaded = CrumbTrail._chains (fst demo_trail).
Proof.
  split.
  - vm_compute. discriminate.
  - apply (persist_load_roundtrip (fst demo_trail) "trail.json" (snd demo_trail)).
    vm_compute. discriminate.
Defined.

(* ------------------------------------------------------------------ *)
(** ** Counters of the collective aggregator                             *)
(* ------------------------------------------------------------------ *)

Lemma round3_of_one (x : Q) : x == 1 -> Py.round3 x == 1.
Proof.
  intro Hx.
  assert (Hm : x * (1000 # 1) == inject_Z 1000) by (rewrite Hx; reflexivity).
  assert (Hfl : Qfloor (x * (1000 # 1)) = 1000%Z)
    by (rewrite Hm; apply Qfloor_Z).
  assert (Hc : Qcompare (x * (1000 # 1) - inject_Z 1000) (1 # 2) = Lt)
    by (rewrite Hm; reflexivity).
  unfold Py.round3, Py.round_half_even. cbv zeta. rewrite Hfl, Hc. reflexivity.
Qed.

Lemma round3_ratio_self (z : Z) : (0 < z)%Z -> Py.round3 (inject_Z z / inject_Z z) == 1.
Proof.
  intro Hz. apply round3_of_one. field.
  intro H. unfold Qeq in H. simpl in H. lia.
Qed.

Lemma py_sum_scored (history : list (odict json)) : Forall scored history ->
  forall acc, exists total,
    CollectiveInsight.py_sum acc (CollectiveInsight.awareness_scores history) = Ok total.
Proof.
  induction 1 as [|a r [q Ha] _ IH]; intro acc; simpl.
  - eexists; reflexivity.
  - rewrite Ha. simpl. apply IH.
Qed.

Lemma get_collective_map_scored (self : CollectiveInsight.t) :
  Forall scored (CollectiveInsight._analyses self) ->
  exists m, CollectiveInsight.get_collective_map self = Ok m
            /\ CollectiveMap.frame_distribution m
               = CollectiveInsight.normalize
                   (Py.maxZ (CollectiveInsight._total_analyses self) 1)
                   (CollectiveInsight._frame_frequencies self).
Proof.
  intro H. unfold CollectiveInsight.get_collective_map.
  destruct (py_sum_scored _ H 0) as [total ->]. simpl.
  eexists. split; reflexivity.
Qed.

Lemma contribute_counted (X : FrameType.t) (n : Z) (a : SystemAnalysis.t)
    (self : CollectiveInsight.t) (w : World) :
  (0 <= n)%Z -> counted X n self ->
  map Frame.frame_type (SystemAnalysis.frames a) = [X] ->
  counted X (n + 1) (fst (snd (CollectiveInsight.contribute a (self, w))))
  /\ exists m, fst (CollectiveInsight.contribute a (self, w)) = Ok m.
Proof.
  intros Hn (Hf & Ht & Hh) Ha.
  unfold CollectiveInsight.contribute.
  destruct (now_iso w) as [stamp w1].
  match goal with |- context [CollectiveInsight._save ?s w1] =>
    destruct (CollectiveInsight._save s w1) as [u w2] end.
  cbn [fst snd].
  rewrite <- (map_map Frame.frame_type FrameType.name), Ha. cbn [map].
  assert (Hc : counted X (n + 1)
            (CollectiveInsight.make (CollectiveInsight._storage_path self)
               (CollectiveInsight._analyses self ++
                [[("frame_types", JArr [JStr (FrameType.name X)]);
                  ("mask_types", JArr (map JStr (map (fun m => MaskType.name (Mask.mask_type m))
                                              (SystemAnalysis.masks a))));
                  ("spell_types", JArr (map JStr (map (fun s => SpellType.name (Spell.spell_type s))
                                               (SystemAnalysis.spells a))));
                  ("prison_types", JArr (map JStr (map (fun p => PrisonType.name (Prison.prison_type p))
                                                (SystemAnalysis.prisons a))));
                  ("awareness_score", JNum (SystemAnalysis.awareness_score a));
                  ("seeing_depth", JStr (SeeingDepth.value (SystemAnalysis.seeing_depth a)));
                  ("contributed_at", JStr stamp)]])%list
               (CollectiveInsight.bump [FrameType.name X]
                  (CollectiveInsight._frame_frequencies self))
               (CollectiveInsight.bump (map (fun m => MaskType.name (Mask.mask_type m))
                                          (SystemAnalysis.masks a))
                  (CollectiveInsight._mask_frequencies self))
               (CollectiveInsight.bump (map (fun s => SpellType.name (Spell.spell_type s))
                                          (SystemAnalysis.spells a))
                  (CollectiveInsight._spell_frequencies self))
               (CollectiveInsight.bump (map (fun p => PrisonType.name (Prison.prison_type p))
                                          (SystemAnalysis.prisons a))
                  (CollectiveInsight._prison_frequencies self))
               (CollectiveInsight._total_analyses self + 1))).
  { unfold counted. cbn [CollectiveInsight._frame_frequencies
                          CollectiveInsight._total_analyses CollectiveInsight._analyses].
    split; [|split].
    - rewrite Hf. unfold CollectiveInsight.bump. cbn [fold_left].
      destruct (Z.eqb_spec (n + 1) 0) as [E|_]; [lia|].
      destruct (Z.eqb_spec n 0) as [->|_].
      + reflexivity.
      + unfold OD.get_or. cbn [OD.get OD.set]. rewrite String.eqb_refl. reflexivity.
    - rewrite Ht. reflexivity.
    - apply Forall_app. split; [exact Hh|].
      constructor; [|constructor]. eexists. reflexivity. }
  split; [exact Hc|].
  destruct Hc as (_ & _ & Hs).
  destruct (get_collective_map_scored _ Hs) as [m [Hm _]].
  exists m. exact Hm.
Qed.

Lemma contribute_all_counted (X : FrameType.t) (analyses : list SystemAnalysis.t) :
  Forall (fun a => map Frame.frame_type (SystemAnalysis.frames a) = [X]) analyses ->
  forall (n : Z) (self : CollectiveInsight.t) (w : World),
    (0 <= n)%Z -> counted X n self ->
    counted X (n + Z.of_nat (List.length analyses))
            (fst (snd (CollectiveInsight.contribute_all analyses (self, w))))
    /\ Forall (fun r => exists m, r = Ok m)
              (fst (CollectiveInsight.contribute_all analyses (self, w))).
Proof.
  induction 1 as [|a rest Ha _ IH]; intros n self w Hn Hc.
  - simpl. rewrite Z.add_0_r. split; [exact Hc|constructor].
  - cbn [CollectiveInsight.contribute_all]. rewrite !bind_run. cbn [ret fst snd].
    destruct (contribute_counted X n a self w Hn Hc Ha) as [Hc1 Hr].
    destruct (CollectiveInsight.contribute a (self, w)) as [r [s1 w1]].
    cbn [fst snd] in *.
    destruct (IH (n + 1)%Z s1 w1 ltac:(lia) Hc1) as [Hc2 Hrs].
    split.
    + replace (n + Z.of_nat (List.length (a :: rest)))%Z
        with (n + 1 + Z.of_nat (List.length rest))%Z
        by (cbn [List.length]; lia).
      exact Hc2.
    + constructor; assumption.
Qed.

Lemma init_without_snapshot (storage_path : option string) (w : World) :
  (forall p, storage_path = Some p -> path_exists p w = false) ->
  CollectiveInsight.init storage_path w = Ok (CollectiveInsight.empty storage_path).
Proof.
  intro H. unfold CollectiveInsight.init.
  destruct storage_path as [p|]; [|reflexivity].
  rewrite (H p eq_refl). reflexivity.
Qed.

(** C4: start from an aggregator constructed with no snapshot to load (no
    storage path, or a path where nothing exists yet) and call
    [contribute] once for each of N >= 1 analyses whose frame types are
    exactly [X].  No call raises; afterwards the frame counter of X is N,
    the total is N, and [get_collective_map] reports the proportion 1.0
    for X in the frame distribution. *)
Theorem contribute_counts :
  forall (storage_path : option string) (w : World) (X : FrameType.t)
         (analyses : list SystemAnalysis.t),
    (forall p, storage_path = Some p -> path_exists p w = false) ->
    analyses <> [] ->
    Forall (fun a => map Frame.frame_type (SystemAnalysis.frames a) = [X]) analyses ->
    exists (fresh after : CollectiveInsight.t) (report : CollectiveMap.t) (share : Q),
      CollectiveInsight.init storage_path w = Ok fresh
      /\ after = fst (snd (CollectiveInsight.contribute_all analyses (fresh, w)))
      /\ Forall (fun r => exists m, r = Ok m)
                (fst (CollectiveInsight.contribute_all analyses (fresh, w)))
      /\ OD.get (FrameType.name X) (CollectiveInsight._frame_frequencies after)
         = Some (Z.of_nat (List.length analyses))
      /\ CollectiveInsight._total_analyses after = Z.of_nat (List.length analyses)
      /\ CollectiveInsight.get_collective_map after = Ok report
      /\ OD.get (FrameType.name X) (CollectiveMap.frame_distribution report) = Some share
      /\ share == 1.
Proof.
  intros storage_path w X analyses Hfresh Hne Hall.
  assert (Hpos : (0 < Z.of_nat (List.length analyses))%Z)
    by (destruct analyses; [contradiction|cbn [List.length]; lia]).
  assert (H0 : counted X 0 (CollectiveInsight.empty storage_path))
    by (repeat split; constructor).
  destruct (contribute_all_counted X analyses Hall 0 (CollectiveInsight.empty storage_path)
              w ltac:(lia) H0) as [(Hf & Ht & Hh) Hrs].
  rewrite Z.add_0_l in Hf, Ht.
  destruct (get_collective_map_scored _ Hh) as [m [Hm Hd]].
  exists (CollectiveInsight.empty storage_path).
  eexists. exists m. eexists.
  split; [apply init_without_snapshot, Hfresh|].
  split; [reflexivity|]. split; [exact Hrs|].
  destruct (Z.eqb_spec (Z.of_nat (List.length analyses)) 0) as [E|_]; [lia|].
  split; [rewrite Hf; cbn [OD.get]; rewrite String.eqb_refl; reflexivity|].
  split; [exact Ht|]. split; [exact Hm|].
  rewrite Hd, Hf, Ht. unfold CollectiveInsight.normalize. cbn [map fst snd OD.get].
  rewrite String.eqb_refl. split; [reflexivity|].
  replace (Py.maxZ (Z.of_nat (List.length analyses)) 1) with (Z.of_nat (List.length analyses))
    by (unfold Py.maxZ; destruct (Z.leb_spec 1 (Z.of_nat (List.length analyses))); lia).
  apply round3_ratio_self, Hpos.
Qed.

(** Two contributions of an analysis with one ECONOMIC frame, stored at a
    path where no snapshot exists yet. *)
Lemma contribute_counts_witness :
  exists (after : CollectiveInsight.t) (report : CollectiveMap.t) (share : Q),
    after = fst (snd (CollectiveInsight.contribute_all [demo_analysis; demo_analysis]
                        (CollectiveInsight.empty (Some "collective.json"), world0)))
    /\ OD.get "ECONOMIC" (CollectiveInsight._frame_frequencies after) = Some 2%Z
    /\ CollectiveInsight._total_analyses after = 2%Z
    /\ CollectiveInsight.get_collective_map after = Ok report
    /\ OD.get "ECONOMIC" (CollectiveMap.frame_distribution report) = Some share
    /\ share == 1.
Proof.
  destruct (contribute_counts (Some "collective.json") world0 FrameType.ECONOMIC
              [demo_analysis; demo_analysis])
    as (fresh & after & report & share & Hinit & Hafter & _ & Hc & Ht & Hm & Hd & Hs).
  - intros p Hp. injection Hp as <-. reflexivity.
  - discriminate.
  - repeat constructor.
  - exists after, report, share.
    assert (Hfresh : fresh = CollectiveInsight.empty (Some "collective.json"))
      by (vm_compute in Hinit; injection Hinit as <-; reflexivity).
    rewrite Hfresh in Hafter. repeat split; assumption.
Defined.

(* ------------------------------------------------------------------ *)
(** ** Entropy of the spell distribution                                 *)
(* ------------------------------------------------------------------ *)

Lemma type_counts_names (spells : list Spell.t) :
  type_counts spells
  = count_names (map (fun s => SpellType.name (Spell.spell_type s)) spells).
Proof.
  unfold type_counts, count_names. generalize (@nil (string * nat)).
  induction spells as [|s r IH]; intro acc; simpl; [reflexivity|apply IH].
Qed.

Lemma keys_set_In {V} (k k' : string) (v : V) (d : odict V) :
  In k' (OD.keys (OD.set k v d)) <-> k' = k \/ In k' (OD.keys d).
Proof.
  unfold OD.keys. induction d as [|[k0 v0] r IH]; simpl.
  - intuition.
  - destruct (String.eqb_spec k k0) as [->|Hne]; simpl; [intuition|].
    rewrite IH. intuition.
Qed.

Lemma keys_set_NoDup {V} (k : string) (v : V) (d : odict V) :
  NoDup (OD.keys d) -> NoDup (OD.keys (OD.set k v d)).
Proof.
  unfold OD.keys. induction d as [|[k0 v0] r IH]; simpl; intro H.
  - constructor; [intros []|constructor].
  - inversion H as [|? ? Hk0 Hr]; subst.
    destruct (String.eqb_spec k k0) as [->|Hne]; simpl.
    + constructor; assumption.
    + constructor; [|apply IH, Hr].
      intro Hin. apply (keys_set_In k k0 v r) in Hin.
      destruct Hin as [E|Hin]; [congruence|contradiction].
Qed.

Lemma get_of_In {V} (k : string) (v : V) (d : odict V) :
  NoDup (OD.keys d) -> In (k, v) d -> OD.get k d = Some v.
Proof.
  unfold OD.keys. induction d as [|[k0 v0] r IH]; simpl; intros Hnd Hin.
  - destruct Hin.
  - inversion Hnd as [|? ? Hk0 Hr]; subst.
    destruct Hin as [E|Hin].
    + inversion E; subst. rewrite String.eqb_refl. reflexivity.
    + destruct (String.eqb_spec k k0) as [->|_]; [|apply IH; assumption].
      exfalso. apply Hk0. apply in_map_iff. exists (k0, v). tauto.
Qed.

Lemma count_names_snoc (names : list string) (x : string) :
  count_names (names ++ [x])%list
  = OD.set x (OD.get_or x 0%nat (count_names names) + 1)%nat (count_names names).
Proof. unfold count_names. rewrite fold_left_app. reflexivity. Qed.

(** The dictionary of counts lists every name once, with its number of
    occurrences. *)
Lemma count_names_tallied (names : list string) :
  NoDup (OD.keys (count_names names))
  /\ (forall k, In k (OD.keys (count_names names)) <-> In k names)
  /\ (forall k, OD.get_or k 0%nat (count_names names)
                = count_occ string_dec names k).
Proof.
  induction names as [|x l (Hnd & Hkeys & Hcount)] using rev_ind.
  - repeat split; try constructor; intros [].
  - rewrite count_names_snoc.
    split; [apply keys_set_NoDup, Hnd|]. split.
    + intro k. rewrite keys_set_In, Hkeys, in_app_iff. simpl. intuition.
    + intro k. rewrite count_occ_app. cbn [count_occ].
      destruct (string_dec x k) as [->|Hne].
      * rewrite get_or_set_same, Hcount. reflexivity.
      * rewrite get_or_set_other by congruence. rewrite Hcount. lia.
Qed.

Lemma SpellType_name_injective (a b : SpellType.t) :
  SpellType.name a = SpellType.name b -> a = b.
Proof. destruct a, b; intro H; (reflexivity || discriminate H). Qed.

(** When every type that occurs occurs [k] times, the counts are [k], one
    for each distinct type. *)
Lemma type_counts_uniform (spells : list Spell.t) (k : nat) :
  (forall ty, In ty (map Spell.spell_type spells) ->
              count_occ SpellType_eq_dec (map Spell.spell_type spells) ty = k) ->
  OD.values (type_counts spells)
  = repeat k (List.length (nodup SpellType_eq_dec (map Spell.spell_type spells))).
Proof.
  intro Hk. rewrite type_counts_names.
  rewrite <- (map_map Spell.spell_type SpellType.name).
  set (tys := map Spell.spell_type spells) in *.
  destruct (count_names_tallied (map SpellType.name tys)) as (Hnd & Hkeys & Hcount).
  set (d := count_names (map SpellType.name tys)) in *.
  assert (Hlen : List.length (OD.values d) = List.length (nodup SpellType_eq_dec tys)).
  { unfold OD.values. rewrite length_map, <- (length_map fst).
    rewrite <- (length_map SpellType.name (nodup SpellType_eq_dec tys)).
    apply Permutation_length, NoDup_Permutation.
    - exact Hnd.
    - apply NoDup_map_NoDup_ForallPairs; [|apply NoDup_nodup].
      intros a b _ _. apply SpellType_name_injective.
    - intro x. fold (OD.keys d). rewrite Hkeys, !in_map_iff.
      split; intros [t [Ht Hin]]; exists t; (split; [exact Ht|]);
        apply (nodup_In SpellType_eq_dec); exact Hin. }
  rewrite <- Hlen. apply Forall_eq_repeat.
  unfold OD.values. rewrite Forall_map, Forall_forall. intros [x v] Hin. simpl.
  pose proof (get_of_In x v d Hnd Hin) as Hget.
  assert (Hx : In x (OD.keys d)) by (apply in_map_iff; exists (x, v); tauto).
  apply Hkeys in Hx. apply in_map_iff in Hx. destruct Hx as [t [<- Ht]].
  specialize (Hcount (SpellType.name t)). unfold OD.get_or in Hcount.
  rewrite Hget in Hcount. rewrite Hcount.
  rewrite <- (count_occ_map SpellType.name SpellType_eq_dec string_dec
                SpellType_name_injective).
  symmetry. apply Hk, Ht.
Qed.

Lemma sum_repeat (k n acc : nat) : fold_left Nat.add (repeat k n) acc = (acc + n * k)%nat.
Proof.
  revert acc. induction n as [|n IH]; intro acc; simpl; [lia|].
  rewrite IH. lia.
Qed.

Lemma Rsum_repeat (t : R) (n : nat) (acc : R) :
  fold_left Rplus (repeat t n) acc = (acc + INR n * t)%R.
Proof.
  revert acc. induction n as [|n IH]; intro acc.
  - simpl. lra.
  - cbn [repeat fold_left]. rewrite IH, S_INR. lra.
Qed.

(** Entropy of [n] equally likely outcomes, as the code computes it. *)
Lemma entropy_of_uniform_counts (k n : nat) :
  (0 < k)%nat -> (0 < n)%nat ->
  (- fold_left Rplus
       (map (fun c => INR c / INR (n * k) * Py.log2 (INR c / INR (n * k)))
            (filter (fun c => 0 <? c)%nat (repeat k n)))
       0)%R
  = Py.log2 (INR n).
Proof.
  intros Hk Hn.
  assert (Hf : filter (fun c => 0 <? c)%nat (repeat k n) = repeat k n).
  { apply forallb_filter_id. apply forallb_forall. intros x Hx.
    apply repeat_spec in Hx. subst x. apply Nat.ltb_lt, Hk. }
  rewrite Hf, map_repeat, Rsum_repeat.
  assert (HK : (0 < INR k)%R) by (apply lt_0_INR, Hk).
  assert (HN : (0 < INR n)%R) by (apply lt_0_INR, Hn).
  assert (Hq : (INR k / INR (n * k) = / INR n)%R) by (rewrite mult_INR; field; lra).
  rewrite Hq. unfold Py.log2. rewrite ln_Rinv by exact HN.
  assert (H2 : ln 2 <> 0%R) by (apply ln_neq_0; lra).
  field. split; lra.
Qed.

Lemma spell_entropy_uniform (spells : list Spell.t) (k : nat) :
  spells <> [] ->
  (forall ty, In ty (map Spell.spell_type spells) ->
              count_occ SpellType_eq_dec (map Spell.spell_type spells) ty = k) ->
  spell_entropy spells
  = Py.log2 (INR (List.length (nodup SpellType_eq_dec (map Spell.spell_type spells)))).
Proof.
  intros Hne Hk. unfold spell_entropy. cbv zeta.
  rewrite (type_counts_uniform spells k Hk), sum_repeat. cbn [Nat.add].
  destruct spells as [|s r]; [contradiction|].
  assert (Hs : In (Spell.spell_type s) (map Spell.spell_type (s :: r)))
    by (left; reflexivity).
  apply entropy_of_uniform_counts.
  - rewrite <- (Hk _ Hs). apply (count_occ_In SpellType_eq_dec), Hs.
  - apply (nodup_In SpellType_eq_dec) in Hs.
    destruct (nodup SpellType_eq_dec (map Spell.spell_type (s :: r)));
      [destruct Hs|cbn [List.length]; lia].
Qed.



(* ------------------------------------------------------------------ *)
(** ** Loading the collective snapshot                           *)
(* ------------------------------------------------------------------ *)

(** A missing file, an unreadable one, text that is not JSON and JSON that
    is not an object all leave the aggregator empty. *)
Lemma init_missing (path : string) (w : World) :
  OD.get path (files w) = None ->
  CollectiveInsight.init (Some path) w = Ok (CollectiveInsight.empty (Some path)).
Proof.
  intro H. unfold CollectiveInsight.init, path_exists. rewrite H. reflexivity.
Qed.

Lemma init_unparsable (path : string) (w : World) (raw : string) :
  OD.get path (files w) = Some (Text raw) \/ OD.get path (files w) = Some Unreadable ->
  CollectiveInsight.init (Some path) w = Ok (CollectiveInsight.empty (Some path)).
Proof.
  intros [H|H]; unfold CollectiveInsight.init, CollectiveInsight._load,
    path_exists, read_json; cbn [CollectiveInsight._storage_path CollectiveInsight.empty];
    rewrite H; reflexivity.
Qed.

Lemma init_not_an_object (path : string) (w : World) (v : json) :
  OD.get path (files w) = Some (Document v) ->
  (forall members, v <> JObj members) ->
  CollectiveInsight.init (Some path) w = Ok (CollectiveInsight.empty (Some path)).
Proof.
  intros H Hv. unfold CollectiveInsight.init, CollectiveInsight._load,
    path_exists, read_json; cbn [CollectiveInsight._storage_path CollectiveInsight.empty].
  rewrite H. cbn [negb]. destruct v; try reflexivity.
  exfalso. eapply Hv. reflexivity.
Qed.



(** C7: the code does not reach the empty state on this malformed
    snapshot.  [_load] assigns the total (5), then building the frame
    counter from the number 7 raises, the exception is swallowed, and the
    aggregator keeps total 5 with empty counters and history. *)
Theorem malformed_snapshot_is_half_loaded :
  CollectiveInsight.init (Some "collective.json") half_corrupt_world
  = Ok (CollectiveInsight.make (Some "collective.json") [] [] [] [] [] 5)
  /\ CollectiveInsight.init (Some "collective.json") half_corrupt_world
     <> Ok (CollectiveInsight.empty (Some "collective.json")).
Proof.
  assert (H : CollectiveInsight.init (Some "collective.json") half_corrupt_world
              = Ok (CollectiveInsight.make (Some "collective.json") [] [] [] [] [] 5))
    by (vm_compute; reflexivity).
  split; [exact H|]. rewrite H. intro E. inversion E.
Qed.

(* ------------------------------------------------------------------ *)
(** ** Further properties: scores and their bounds                      *)
(* ------------------------------------------------------------------ *)

From Stdlib Require Lqa.

Lemma min_le_l (a b : Q) : Py.min a b <= a.
Proof.
  unfold Py.min. destruct (Qle_bool a b) eqn:E.
  - apply Qle_refl.
  - apply Qlt_le_weak, Qnot_le_lt. intro H. apply Qle_bool_iff in H. congruence.
Qed.

Lemma min_le_r (a b : Q) : Py.min a b <= b.
Proof.
  unfold Py.min. destruct (Qle_bool a b) eqn:E.
  - apply Qle_bool_iff, E.
  - apply Qle_refl.
Qed.

Lemma min_cases (a b : Q) (P : Q -> Prop) : P a -> P b -> P (Py.min a b).
Proof. unfold Py.min. destruct (Qle_bool a b); auto. Qed.

Lemma len_over_nonneg {A} (l : list A) (d : Z) :
  (0 < d)%Z -> 0 <= SystemAnalysis.len_over l d.
Proof.
  intro Hd. unfold SystemAnalysis.len_over.
  apply Qle_shift_div_l.
  - unfold Qlt. simpl. lia.
  - rewrite Qmult_0_l. unfold Qle. simpl. lia.
Qed.

Lemma component_bounds {A} (l : list A) (d : Z) :
  (0 < d)%Z ->
  0 <= Py.min (SystemAnalysis.len_over l d) 1 /\ Py.min (SystemAnalysis.len_over l d) 1 <= 1.
Proof.
  intro Hd. split; [|apply min_le_r].
  apply min_cases; [apply len_over_nonneg, Hd|discriminate].
Qed.

(** X1: the awareness score of any analysis lies between 0 and 1. *)
Theorem awareness_score_bounds :
  forall a : SystemAnalysis.t,
    0 <= SystemAnalysis.awareness_score a /\ SystemAnalysis.awareness_score a <= 1.
Proof.
  intro a. unfold SystemAnalysis.awareness_score. cbv zeta.
  cbn [fold_left List.length].
  destruct (component_bounds (SystemAnalysis.frames a) 3 ltac:(lia)) as [F0 F1].
  destruct (component_bounds (SystemAnalysis.masks a) 3 ltac:(lia)) as [M0 M1].
  destruct (component_bounds (SystemAnalysis.spells a) 3 ltac:(lia)) as [S0 S1].
  destruct (component_bounds (SystemAnalysis.prisons a) 3 ltac:(lia)) as [P0 P1].
  destruct (component_bounds (SystemAnalysis.influence_edges a) 5 ltac:(lia)) as [E0 E1].
  set (f := Py.min (SystemAnalysis.len_over (SystemAnalysis.frames a) 3) 1) in *.
  set (m := Py.min (SystemAnalysis.len_over (SystemAnalysis.masks a) 3) 1) in *.
  set (s := Py.min (SystemAnalysis.len_over (SystemAnalysis.spells a) 3) 1) in *.
  set (p := Py.min (SystemAnalysis.len_over (SystemAnalysis.prisons a) 3) 1) in *.
  set (e := Py.min (SystemAnalysis.len_over (SystemAnalysis.influence_edges a) 5) 1) in *.
  assert (X : 0 <= match SystemAnalysis.self_examination a with Some _ => 1 | None => 0 end
              /\ match SystemAnalysis.self_examination a with Some _ => 1 | None => 0 end <= 1)
    by (destruct (SystemAnalysis.self_examination a); split; discriminate).
  destruct X as [X0 X1].
  set (x := match SystemAnalysis.self_examination a with Some _ => 1 | None => 0 end) in *.
  change (inject_Z (Z.of_nat 6)) with (6 # 1).
  split.
  - apply Qle_shift_div_l; [reflexivity|]. Lqa.lra.
  - apply Qle_shift_div_r; [reflexivity|]. Lqa.lra.
Qed.

(** Rounding never crosses an integer bound. *)
Lemma round_half_even_ge (x : Q) (n : Z) :
  inject_Z n <= x -> (n <= Py.round_half_even x)%Z.
Proof.
  intro H. apply Qfloor_resp_le in H. rewrite Qfloor_Z in H.
  unfold Py.round_half_even. cbv zeta.
  destruct (Qcompare (x - inject_Z (Qfloor x)) (1 # 2)); [destruct (Z.even (Qfloor x))| |]; lia.
Qed.

Lemma round_half_even_le (x : Q) (n : Z) :
  x <= inject_Z n -> (Py.round_half_even x <= n)%Z.
Proof.
  intro H. pose proof (Qfloor_resp_le _ _ H) as Hfl. rewrite Qfloor_Z in Hfl.
  unfold Py.round_half_even. cbv zeta.
  destruct (Z.eq_dec (Qfloor x) n) as [E|E].
  - assert (Hlt : Qcompare (x - inject_Z (Qfloor x)) (1 # 2) = Lt).
    { apply Qlt_alt. rewrite E. generalize dependent (inject_Z n). intros q Hq.
      change (x - q < 1 # 2). Lqa.lra. }
    rewrite Hlt. lia.
  - destruct (Qcompare (x - inject_Z (Qfloor x)) (1 # 2));
      [destruct (Z.even (Qfloor x))| |]; lia.
Qed.

Lemma round3_nonneg (x : Q) : 0 <= x -> 0 <= Py.round3 x.
Proof.
  intro H. unfold Py.round3.
  assert (Hz : (0 <= Py.round_half_even (x * (1000 # 1)))%Z).
  { apply round_half_even_ge. change (inject_Z 0) with 0. Lqa.lra. }
  unfold Qle. simpl. lia.
Qed.

Lemma round3_le_1 (x : Q) : x <= 1 -> Py.round3 x <= 1.
Proof.
  intro H. unfold Py.round3.
  assert (Hz : (Py.round_half_even (x * (1000 # 1)) <= 1000)%Z).
  { apply round_half_even_le. change (inject_Z 1000) with (1000 # 1). Lqa.lra. }
  unfold Qle. simpl. lia.
Qed.

(** The density of an entry with a match lies in (0, 1]. *)
Lemma density_of_hit {T D} (signals : D -> list string) (tl : string) (p : T * D) :
  hit signals tl p = true ->
  0 < density_of signals tl (snd p) /\ density_of signals tl (snd p) <= 1.
Proof.
  unfold hit, density_of, Py.len_div, matched_in. intro H.
  pose proof (filter_length_le (fun s => Py.str_in s tl) (signals (snd p))) as Hle.
  destruct (filter (fun s => Py.str_in s tl) (signals (snd p))) as [|m ms] eqn:E;
    [discriminate|].
  assert (Ha : (0 < List.length (m :: ms))%nat) by (cbn [List.length]; lia).
  set (a := List.length (m :: ms)) in *.
  set (b := List.length (signals (snd p))) in *. clearbody a b.
  split.
  - apply Qlt_shift_div_l; [unfold Qlt; cbn [inject_Z Qnum Qden]; lia|].
    rewrite Qmult_0_l. unfold Qlt. cbn [inject_Z Qnum Qden]. lia.
  - apply Qle_shift_div_r; [unfold Qlt; cbn [inject_Z Qnum Qden]; lia|].
    rewrite Qmult_1_l. unfold Qle. cbn [inject_Z Qnum Qden]. lia.
Qed.

(** X2: the primary score of every finding lies in (0, 1]: strength and
    visibility of a frame (visibility in [0, 1)), reach and potency of a
    spell, with reach <= potency, and elegance of a prison. *)
Theorem finding_scores_in_range :
  forall (text context : string) (w : World),
    Forall (fun f => 0 < Frame.strength f /\ Frame.strength f <= 1
                     /\ 0 <= Frame.visibility f /\ Frame.visibility f < 1)
           (fst (detect_frames text context w))
    /\ Forall (fun s => 0 < Spell.reach s /\ Spell.reach s <= 1
                        /\ 0 < Spell.potency s /\ Spell.potency s <= 1
                        /\ Spell.reach s <= Spell.potency s)
              (fst (analyze_spells text w))
    /\ Forall (fun p => 0 < Prison.elegance p /\ Prison.elegance p <= 1)
              (fst (map_prisons text w)).
Proof.
  intros text context w. repeat split.
  - rewrite detect_frames_run. apply run_Forall. intros p s0 _ Hh.
    destruct (density_of_hit _ _ p Hh) as [H0 H1].
    destruct (frame_entry_built (Py.lower text ++ " " ++ Py.lower context) p s0) as (_ & _ & Hs & Hv).
    rewrite Hv, Hs.
    set (d := density_of FrameSignals.signals _ (snd p)) in *.
    assert (Hm0 : 0 < Py.min (d * 2) 1) by (apply min_cases; Lqa.lra).
    pose proof (min_le_r (d * 2) 1). repeat split; Lqa.lra.
  - rewrite analyze_spells_run. apply run_Forall. intros p s0 _ Hh.
    destruct (density_of_hit _ _ p Hh) as [H0 H1].
    destruct (spell_entry_built (Py.lower text) p s0) as (_ & _ & Hr & Hp).
    rewrite Hr, Hp.
    set (d := density_of SpellSignals.signals _ (snd p)) in *.
    assert (Hm0 : d <= Py.min (d * (5 # 2)) 1) by (apply min_cases; Lqa.lra).
    pose proof (min_le_r (d * (5 # 2)) 1). repeat split; Lqa.lra.
  - rewrite map_prisons_run. apply run_Forall. intros p s0 _ Hh.
    destruct (density_of_hit _ _ p Hh) as [H0 H1].
    destruct (prison_entry_built (Py.lower text) p s0) as (_ & _ & He).
    rewrite He.
    set (d := density_of PrisonSignals.signals _ (snd p)) in *.
    assert (Hm0 : 0 < Py.min (d * 2) 1) by (apply min_cases; Lqa.lra).
    pose proof (min_le_r (d * 2) 1). split; Lqa.lra.
Qed.

(* ------------------------------------------------------------------ *)
(** ** Further properties: when and what a detector finds               *)
(* ------------------------------------------------------------------ *)

Lemma hit_false_iff {T D} (signals : D -> list string) (tl : string) (p : T * D) :
  hit signals tl p = false <->
  (forall k, In k (signals (snd p)) -> Py.str_in k tl = false).
Proof.
  unfold hit, matched_in. split.
  - intros H k Hk. destruct (Py.str_in k tl) eqn:E; [|reflexivity].
    assert (Hin : In k (filter (fun s => Py.str_in s tl) (signals (snd p))))
      by (apply filter_In; split; assumption).
    destruct (filter (fun s => Py.str_in s tl) (signals (snd p)));
      [destruct Hin|discriminate].
  - intro H.
    destruct (filter (fun s => Py.str_in s tl) (signals (snd p))) as [|k ks] eqn:E;
      [reflexivity|].
    assert (Hin : In k (filter (fun s => Py.str_in s tl) (signals (snd p))))
      by (rewrite E; left; reflexivity).
    apply filter_In in Hin. destruct Hin as [Hk Hs]. rewrite (H k Hk) in Hs. discriminate.
Qed.

(** A detector returns nothing exactly when no entry has a match. *)
Lemma run_empty_iff {S T D F} (signals : D -> list string)
    (body : T -> D -> list string -> Q -> State S (Q * F)) (tl : string)
    (tbl : list (T * D)) (s : S) :
  map snd (sort_desc (fst (scan signals body tl tbl s))) = [] <->
  (forall p k, In p tbl -> In k (signals (snd p)) -> Py.str_in k tl = false).
Proof.
  pose proof (Forall2_length (scan_shape signals body tl tbl s)) as Hlen.
  pose proof (Permutation_length (sort_desc_perm (fst (scan signals body tl tbl s)))) as Hp.
  split.
  - intros H p k Hp0 Hk.
    apply (f_equal (@List.length F)) in H. rewrite length_map in H. cbn [List.length] in H.
    assert (Hf : filter (hit signals tl) tbl = [])
      by (apply length_zero_iff_nil; lia).
    destruct (hit signals tl p) eqn:Hh.
    + assert (Hin : In p (filter (hit signals tl) tbl)) by (apply filter_In; tauto).
      rewrite Hf in Hin. destruct Hin.
    + apply (proj1 (hit_false_iff signals tl p) Hh k Hk).
  - intro H.
    assert (Hf : filter (hit signals tl) tbl = []).
    { destruct (filter (hit signals tl) tbl) as [|p ps] eqn:E; [reflexivity|].
      assert (Hin : In p (filter (hit signals tl) tbl)) by (rewrite E; left; reflexivity).
      apply filter_In in Hin. destruct Hin as [Hp0 Hh].
      rewrite (proj2 (hit_false_iff signals tl p) (fun k => H p k Hp0)) in Hh. discriminate. }
    rewrite Hf in Hlen. cbn [List.length] in Hlen.
    apply length_zero_iff_nil. rewrite length_map. lia.
Qed.

(** X3: a detector returns the empty list exactly when no keyword of its
    signal table occurs in the lower-cased input (text, a space and the
    context for [detect_frames]; the text alone for the other three). *)
Theorem nothing_found_iff_no_keyword :
  forall (text context : string) (w : World) (g : InfluenceGraph.t),
    (fst (detect_frames text context w) = [] <->
     forall p k, In p FRAME_SIGNALS -> In k (FrameSignals.signals (snd p)) ->
                 Py.str_in k (Py.lower text ++ " " ++ Py.lower context) = false)
    /\ (fst (InfluenceGraph.identify_masks text (g, w)) = [] <->
        forall p k, In p MASK_SIGNALS -> In k (MaskSignals.signals (snd p)) ->
                    Py.str_in k (Py.lower text) = false)
    /\ (fst (analyze_spells text w) = [] <->
        forall p k, In p SPELL_SIGNALS -> In k (SpellSignals.signals (snd p)) ->
                    Py.str_in k (Py.lower text) = false)
    /\ (fst (map_prisons text w) = [] <->
        forall p k, In p PRISON_SIGNALS -> In k (PrisonSignals.signals (snd p)) ->
                    Py.str_in k (Py.lower text) = false).
Proof.
  intros text context w g.
  rewrite detect_frames_run, graph_identify_masks_run, analyze_spells_run, map_prisons_run.
  repeat split; apply run_empty_iff.
Qed.

(** X4: every finding cites its evidence.  A frame lists, in table order,
    one "Signal detected" line for each keyword of its own subtype that
    occurs in the input, and at least one; its description, question and
    antidote are those of that subtype's table entry.  A prison does the
    same with its "Signal" lines, mechanism and door. *)
Theorem findings_cite_their_evidence :
  forall (text context : string) (w : World),
    Forall (fun f =>
              exists d,
                entry FrameType.value FRAME_SIGNALS (Frame.frame_type f) = Some d
                /\ matched_in FrameSignals.signals
                     (Py.lower text ++ " " ++ Py.lower context) d <> []
                /\ Frame.unspoken_rules f
                   = map (fun m => "Signal detected: '" ++ m ++ "'")
                         (matched_in FrameSignals.signals
                            (Py.lower text ++ " " ++ Py.lower context) d)
                /\ Frame.description f = FrameSignals.reveals d
                /\ Frame.forbidden_questions f = [FrameSignals.question d]
                /\ Frame.edges_of_thinkable f = [FrameSignals.antidote d])
           (fst (detect_frames text context w))
    /\ Forall (fun p =>
                 exists d,
                   entry PrisonType.value PRISON_SIGNALS (Prison.prison_type p) = Some d
                   /\ matched_in PrisonSignals.signals (Py.lower text) d <> []
                   /\ Prison.invisible_walls p
                      = map (fun m => "Signal: '" ++ m ++ "'")
                            (matched_in PrisonSignals.signals (Py.lower text) d)
                   /\ Prison.description p = PrisonSignals.mechanism d
                   /\ Prison.exit_conditions p = [PrisonSignals.door d])
              (fst (map_prisons text w)).
Proof.
  intros text context w. split.
  - rewrite detect_frames_run. apply run_Forall. intros p s0 Hp Hh.
    exists (snd p). split; [|split].
    + apply (entry_found FrameType.value FRAME_SIGNALS FRAME_SIGNALS_in_order p Hp).
    + unfold hit in Hh. intro E. rewrite E in Hh. discriminate.
    + repeat split.
  - rewrite map_prisons_run. apply run_Forall. intros p s0 Hp Hh.
    exists (snd p). split; [|split].
    + apply (entry_found PrisonType.value PRISON_SIGNALS PRISON_SIGNALS_in_order p Hp).
    + unfold hit in Hh. intro E. rewrite E in Hh. discriminate.
    + repeat split.
Qed.

(* ------------------------------------------------------------------ *)
(** ** Further properties: the aggregate reports                        *)
(* ------------------------------------------------------------------ *)

(** [max_by] returns the first item of largest key: everything before it
    is strictly smaller, nothing after it is larger. *)
Lemma max_by_split {A} (key : A -> Q) (rest : list A) :
  forall (best : A) (pre mid : list A),
    Forall (fun x => key x < key best) pre ->
    Forall (fun x => key x <= key best) mid ->
    exists l1 l2,
      (pre ++ best :: mid ++ rest)%list = (l1 ++ max_by key best rest :: l2)%list
      /\ Forall (fun x => key x < key (max_by key best rest)) l1
      /\ Forall (fun x => key x <= key (max_by key best rest)) l2.
Proof.
  induction rest as [|x r IH]; intros best pre mid Hpre Hmid.
  - exists pre, mid. rewrite app_nil_r. auto.
  - cbn [max_by]. destruct (Py.Qltb (key best) (key x)) eqn:E.
    + apply Qltb_lt in E.
      destruct (IH x (pre ++ best :: mid)%list []) as (l1 & l2 & Heq & H1 & H2).
      * apply Forall_app. split.
        -- eapply Forall_impl; [|exact Hpre]. intros a Ha. cbv beta in Ha.
           eapply Qlt_trans; eassumption.
        -- constructor; [exact E|].
           eapply Forall_impl; [|exact Hmid]. intros a Ha. cbv beta in Ha.
           eapply Qle_lt_trans; eassumption.
      * constructor.
      * exists l1, l2. split; [|auto].
        rewrite <- Heq. rewrite <- app_assoc. reflexivity.
    + apply Qltb_ge in E.
      destruct (IH best pre (mid ++ [x])%list Hpre) as (l1 & l2 & Heq & H1 & H2).
      * apply Forall_app. split; [exact Hmid|]. constructor; [exact E|constructor].
      * exists l1, l2. split; [|auto].
        rewrite <- Heq. rewrite <- app_assoc. reflexivity.
Qed.

Lemma max_by_first {A} (key : A -> Q) (best : A) (rest : list A) :
  exists l1 l2,
    best :: rest = (l1 ++ max_by key best rest :: l2)%list
    /\ Forall (fun x => key x < key (max_by key best rest)) l1
    /\ Forall (fun x => key x <= key (max_by key best rest)) l2.
Proof. apply (max_by_split key rest best [] []); constructor. Qed.

(** On a sequence that is already in descending order it is the head. *)
Lemma max_by_head {A} (key : A -> Q) (best : A) (rest : list A) :
  Forall (fun x => key x <= key best) rest -> max_by key best rest = best.
Proof.
  induction 1 as [|x r Hx _ IH]; [reflexivity|].
  cbn [max_by]. apply Qltb_ge in Hx. rewrite Hx. exact IH.
Qed.

Lemma max_potency_max_by (rest : list Spell.t) :
  forall best, max_potency best rest = max_by Spell.potency best rest.
Proof. induction rest as [|s r IH]; intro best; [reflexivity|]. cbn. apply IH. Qed.

(** The sum and the mean of numbers between two bounds. *)
Lemma sum_bounds (lo hi : Q) (l : list Q) :
  Forall (fun x => lo <= x /\ x <= hi) l ->
  forall acc,
    acc + inject_Z (Z.of_nat (List.length l)) * lo <= fold_left Qplus l acc
    /\ fold_left Qplus l acc <= acc + inject_Z (Z.of_nat (List.length l)) * hi.
Proof.
  induction 1 as [|x r [Hlo Hhi] _ IH]; intro acc.
  - cbn [fold_left List.length]. change (inject_Z (Z.of_nat 0)) with 0.
    split; Lqa.lra.
  - cbn [fold_left List.length]. destruct (IH (acc + x)) as [I1 I2].
    rewrite Nat2Z.inj_succ. unfold Z.succ. rewrite inject_Z_plus.
    change (inject_Z 1) with 1.
    set (n := inject_Z (Z.of_nat (List.length r))) in *.
    assert (E1 : (n + 1) * lo == n * lo + lo) by ring.
    assert (E2 : (n + 1) * hi == n * hi + hi) by ring.
    rewrite E1, E2.
    set (a := n * lo) in *. set (b := n * hi) in *.
    set (s := fold_left Qplus r (acc + x)) in *. clearbody a b s.
    split; Lqa.lra.
Qed.

Lemma mean_bounds (lo hi : Q) (l : list Q) :
  l <> [] -> Forall (fun x => lo <= x /\ x <= hi) l ->
  lo <= fold_left Qplus l 0 / inject_Z (Z.of_nat (List.length l))
  /\ fold_left Qplus l 0 / inject_Z (Z.of_nat (List.length l)) <= hi.
Proof.
  intros Hne H. destruct (sum_bounds lo hi l H 0) as [H1 H2].
  assert (Hn : 0 < inject_Z (Z.of_nat (List.length l))).
  { destruct l; [contradiction|]. unfold Qlt. cbn [List.length inject_Z Qnum Qden]. lia. }
  set (n := inject_Z (Z.of_nat (List.length l))) in *.
  set (s := fold_left Qplus l 0) in *.
  split.
  - apply Qle_shift_div_l; [exact Hn|]. rewrite Qmult_comm. Lqa.lra.
  - apply Qle_shift_div_r; [exact Hn|]. rewrite Qmult_comm. Lqa.lra.
Qed.

(** Rounding to three decimals never crosses a multiple of 1/1000. *)
Lemma round3_ge (n : Z) (x : Q) : n # 1000 <= x -> n # 1000 <= Py.round3 x.
Proof.
  intro H. unfold Py.round3.
  assert (Hz : (n <= Py.round_half_even (x * (1000 # 1)))%Z).
  { apply round_half_even_ge.
    assert (E : inject_Z n == (n # 1000) * (1000 # 1)).
    { unfold Qeq. cbn [inject_Z Qmult Qnum Qden]. lia. }
    rewrite E. apply Qmult_le_compat_r; [exact H|discriminate]. }
  unfold Qle. cbn [Qnum Qden]. lia.
Qed.

(** An entry with a match has matched at least one of its keywords. *)
Lemma density_of_hit_ge {T D} (signals : D -> list string) (tl : string) (p : T * D)
    (n : positive) :
  hit signals tl p = true ->
  (List.length (signals (snd p)) <= Pos.to_nat n)%nat ->
  1 # n <= density_of signals tl (snd p).
Proof.
  unfold hit, density_of, Py.len_div, matched_in. intros H Hn.
  pose proof (filter_length_le (fun s => Py.str_in s tl) (signals (snd p))) as Hle.
  destruct (filter (fun s => Py.str_in s tl) (signals (snd p))) as [|m ms] eqn:E;
    [discriminate|].
  assert (Ha : (0 < List.length (m :: ms))%nat) by (cbn [List.length]; lia).
  set (a := List.length (m :: ms)) in *.
  set (b := List.length (signals (snd p))) in *. clearbody a b.
  apply Qle_shift_div_l; [unfold Qlt; cbn [inject_Z Qnum Qden]; lia|].
  unfold Qle. cbn [inject_Z Qmult Qnum Qden]. nia.
Qed.

Lemma SPELL_SIGNALS_sizes :
  Forall (fun p => (List.length (SpellSignals.signals (snd p)) <= 10)%nat) SPELL_SIGNALS.
Proof.
  apply Forall_forall. intros p Hp.
  assert (H : forallb (fun p => (List.length (SpellSignals.signals (snd p)) <=? 10)%nat)
                      SPELL_SIGNALS = true) by (vm_compute; reflexivity).
  rewrite forallb_forall in H. apply Nat.leb_le, H, Hp.
Qed.

Lemma PRISON_SIGNALS_sizes :
  Forall (fun p => (List.length (PrisonSignals.signals (snd p)) <= 10)%nat) PRISON_SIGNALS.
Proof.
  apply Forall_forall. intros p Hp.
  assert (H : forallb (fun p => (List.length (PrisonSignals.signals (snd p)) <=? 10)%nat)
                      PRISON_SIGNALS = true) by (vm_compute; reflexivity).
  rewrite forallb_forall in H. apply Nat.leb_le, H, Hp.
Qed.

(** The findings of [analyze_spells] come in descending order of potency,
    each potency between 1/4 and 1. *)
Lemma analyze_spells_potencies (text : string) (w : World) :
  StronglySorted (fun a b => Spell.potency b <= Spell.potency a)
                 (fst (analyze_spells text w))
  /\ Forall (fun s => 1 # 4 <= Spell.potency s /\ Spell.potency s <= 1)
            (fst (analyze_spells text w)).
Proof.
  rewrite analyze_spells_run. split.
  - apply StronglySorted_map.
    eapply StronglySorted_weaken; [|apply sort_desc_sorted].
    intros a b Ha Hb Hab.
    assert (Hk : forall c, In c (sort_desc (fst (scan SpellSignals.signals spell_entry
                                   (Py.lower text) SPELL_SIGNALS w))) ->
                           Spell.potency (snd c) = fst c).
    { intros c Hc. revert c Hc. apply Forall_forall. apply sort_desc_Forall.
      apply (scan_Forall SpellSignals.signals spell_entry (Py.lower text)
               (fun r => Spell.potency (snd r) = fst r)).
      intros p s _ _. reflexivity. }
    rewrite (Hk a Ha), (Hk b Hb). exact Hab.
  - apply run_Forall. intros p s0 Hp Hh.
    destruct (spell_entry_built (Py.lower text) p s0) as (_ & _ & _ & Hpot).
    rewrite Hpot.
    pose proof (density_of_hit_ge SpellSignals.signals (Py.lower text) p 10 Hh
                  (proj1 (Forall_forall _ _) SPELL_SIGNALS_sizes p Hp)) as Hd.
    set (d := density_of SpellSignals.signals _ (snd p)) in *.
    split; [apply min_cases; Lqa.lra|apply min_le_r].
Qed.

(** X5: the potency report of the spells found in a text.  It counts them;
    its dominant spell is the first finding; the level is "clear" exactly
    when nothing was found and is never "minimal_enchantment", since a
    single matched keyword already gives a potency of at least 1/4; the
    aggregate lies in [1/4, 1] unless nothing was found. *)
Theorem potency_report_of_detected_spells :
  forall (text : string) (w : World),
    let spells := fst (analyze_spells text w) in
    let report := compute_spell_potency spells in
    SpellPotency.spell_count report = List.length spells
    /\ SpellPotency.dominant_spell report = hd_error spells
    /\ (SpellPotency.enchantment_level report = "clear" <-> spells = [])
    /\ SpellPotency.enchantment_level report <> "minimal_enchantment"
    /\ (spells = []
        \/ (1 # 4 <= SpellPotency.aggregate_potency report
            /\ SpellPotency.aggregate_potency report <= 1)).
Proof.
  intros text w spells report.
  destruct (analyze_spells_potencies text w) as [Hsorted Hrange].
  fold spells in Hsorted, Hrange. subst report. clearbody spells.
  destruct spells as [|first others].
  - cbn. repeat split; auto; discriminate.
  - assert (Hmean := mean_bounds (1 # 4) 1 (map Spell.potency (first :: others))
                       ltac:(discriminate)
                       ltac:(rewrite Forall_map; exact Hrange)).
    rewrite length_map in Hmean. destruct Hmean as [Hlo Hhi].
    unfold compute_spell_potency. cbv zeta.
    set (aggregate := fold_left Qplus (map Spell.potency (first :: others)) 0
                      / inject_Z (Z.of_nat (List.length (first :: others)))) in *.
    clearbody aggregate.
    cbn [SpellPotency.spell_count SpellPotency.dominant_spell
         SpellPotency.enchantment_level SpellPotency.aggregate_potency hd_error].
    assert (H2 : Qle_bool (2 # 10) aggregate = true) by (apply Qle_bool_iff; Lqa.lra).
    split; [reflexivity|]. split.
    { f_equal. rewrite max_potency_max_by. apply max_by_head.
      inversion Hsorted; assumption. }
    split; [|split].
    + split; [|discriminate].
      destruct (Qle_bool (8 # 10) aggregate), (Qle_bool (6 # 10) aggregate),
               (Qle_bool (4 # 10) aggregate), (Qle_bool (2 # 10) aggregate); discriminate.
    + rewrite H2.
      destruct (Qle_bool (8 # 10) aggregate), (Qle_bool (6 # 10) aggregate),
               (Qle_bool (4 # 10) aggregate); discriminate.
    + right. pose proof (round3_ge 250 aggregate ltac:(Lqa.lra)) as R1.
      pose proof (round3_le_1 aggregate Hhi) as R2.
      set (r := Py.round3 aggregate) in *. clearbody r. split; Lqa.lra.
Qed.

(** X6: the dominant spell of any non-empty list is one of its spells, no
    spell before it is as potent and none after it is more potent: ties go
    to the spell that comes first.  The most elegant prison of a cage
    report is chosen the same way. *)
Theorem dominant_is_first_strongest :
  (forall (first : Spell.t) (others : list Spell.t),
     exists (d : Spell.t) (before after : list Spell.t),
       SpellPotency.dominant_spell (compute_spell_potency (first :: others)) = Some d
       /\ first :: others = (before ++ d :: after)%list
       /\ Forall (fun s => Spell.potency s < Spell.potency d) before
       /\ Forall (fun s => Spell.potency s <= Spell.potency d) after)
  /\ (forall (first : Prison.t) (others : list Prison.t),
        exists (d : Prison.t) (before after : list Prison.t),
          CageScore.most_elegant_prison (compute_cage_score (first :: others))
          = Some (Prison.name d)
          /\ first :: others = (before ++ d :: after)%list
          /\ Forall (fun p => Prison.elegance p < Prison.elegance d) before
          /\ Forall (fun p => Prison.elegance p <= Prison.elegance d) after).
Proof.
  split; intros first others.
  - destruct (max_by_first Spell.potency first others) as (l1 & l2 & Heq & H1 & H2).
    exists (max_by Spell.potency first others), l1, l2.
    split; [|auto].
    unfold compute_spell_potency. cbv zeta. cbn [SpellPotency.dominant_spell].
    rewrite max_potency_max_by. reflexivity.
  - destruct (max_by_first Prison.elegance first others) as (l1 & l2 & Heq & H1 & H2).
    exists (max_by Prison.elegance first others), l1, l2.
    split; [reflexivity|auto].
Qed.

(** The findings of [map_prisons] come in descending order of elegance,
    each elegance between 1/5 and 1, each with the one door of its entry. *)
Lemma map_prisons_elegances (text : string) (w : World) :
  StronglySorted (fun a b => Prison.elegance b <= Prison.elegance a)
                 (fst (map_prisons text w))
  /\ Forall (fun p => 1 # 5 <= Prison.elegance p /\ Prison.elegance p <= 1)
            (fst (map_prisons text w))
  /\ Forall (fun p => List.length (Prison.exit_conditions p) = 1%nat)
            (fst (map_prisons text w)).
Proof.
  rewrite map_prisons_run. split; [|split].
  - apply StronglySorted_map.
    eapply StronglySorted_weaken; [|apply sort_desc_sorted].
    intros a b Ha Hb Hab.
    assert (Hk : forall c, In c (sort_desc (fst (scan PrisonSignals.signals prison_entry
                                   (Py.lower text) PRISON_SIGNALS w))) ->
                           Prison.elegance (snd c) = fst c).
    { intros c Hc. revert c Hc. apply Forall_forall. apply sort_desc_Forall.
      apply (scan_Forall PrisonSignals.signals prison_entry (Py.lower text)
               (fun r => Prison.elegance (snd r) = fst r)).
      intros p s _ _. reflexivity. }
    rewrite (Hk a Ha), (Hk b Hb). exact Hab.
  - apply run_Forall. intros p s0 Hp Hh.
    destruct (prison_entry_built (Py.lower text) p s0) as (_ & _ & He).
    rewrite He.
    pose proof (density_of_hit_ge PrisonSignals.signals (Py.lower text) p 10 Hh
                  (proj1 (Forall_forall _ _) PRISON_SIGNALS_sizes p Hp)) as Hd.
    set (d := density_of PrisonSignals.signals _ (snd p)) in *.
    split; [apply min_cases; Lqa.lra|apply min_le_r].
  - apply run_Forall. intros p s0 _ _. reflexivity.
Qed.

(** X7: the cage report of the prisons found in a text.  It counts them;
    its most elegant prison is the first finding; the interpretation is
    "open_field" exactly when nothing was found and is never
    "mostly_free", since one matched keyword gives an elegance of at least
    1/5 and one prison an interlocking bonus of 1/10; the score lies in
    [3/10, 1] unless nothing was found; there is one door per prison, in
    the same order, each with a single exit and a difficulty in [1/5, 1]. *)
Theorem cage_report_of_detected_prisons :
  forall (text : string) (w : World),
    let prisons := fst (map_prisons text w) in
    let report := compute_cage_score prisons in
    CageScore.prison_count report = List.length prisons
    /\ CageScore.most_elegant_prison report = option_map Prison.name (hd_error prisons)
    /\ (CageScore.interpretation report = "open_field" <-> prisons = [])
    /\ CageScore.interpretation report <> "mostly_free"
    /\ (prisons = []
        \/ (3 # 10 <= CageScore.cage_score report
            /\ CageScore.cage_score report <= 1
            /\ exists doors,
                 CageScore.doors report = Some doors
                 /\ map Door.prison doors = map Prison.name prisons
                 /\ Forall (fun d => List.length (Door.exits d) = 1%nat
                                     /\ 1 # 5 <= Door.escape_difficulty d
                                     /\ Door.escape_difficulty d <= 1) doors)).
Proof.
  intros text w prisons report.
  destruct (map_prisons_elegances text w) as (Hsorted & Hrange & Hexits).
  fold prisons in Hsorted, Hrange, Hexits. subst report. clearbody prisons.
  destruct prisons as [|first others].
  - cbn. repeat split; auto; discriminate.
  - assert (Hmean := mean_bounds (1 # 5) 1 (map Prison.elegance (first :: others))
                       ltac:(discriminate)
                       ltac:(rewrite Forall_map; exact Hrange)).
    rewrite length_map in Hmean. destruct Hmean as [Hlo Hhi].
    unfold compute_cage_score. cbv zeta.
    set (avg := fold_left Qplus (map Prison.elegance (first :: others)) 0
                / inject_Z (Z.of_nat (List.length (first :: others)))) in *.
    assert (Hb : 1 # 10 <= Py.min (inject_Z (Z.of_nat (List.length (first :: others)))
                                   * (1 # 10)) (5 # 10)).
    { apply min_cases; [|discriminate].
      unfold Qle. cbn [List.length inject_Z Qmult Qnum Qden]. lia. }
    set (bonus := Py.min (inject_Z (Z.of_nat (List.length (first :: others))) * (1 # 10))
                         (5 # 10)) in *.
    assert (Hc : 3 # 10 <= Py.min (avg + bonus) 1) by (apply min_cases; Lqa.lra).
    pose proof (min_le_r (avg + bonus) 1) as Hc1.
    set (cage := Py.min (avg + bonus) 1) in *. clearbody avg bonus cage.
    cbn [CageScore.prison_count CageScore.most_elegant_prison CageScore.doors
         CageScore.interpretation CageScore.cage_score hd_error option_map].
    assert (H2 : Qle_bool (2 # 10) cage = true) by (apply Qle_bool_iff; Lqa.lra).
    split; [reflexivity|]. split.
    { do 2 f_equal. apply max_by_head. inversion Hsorted; assumption. }
    split; [|split].
    + split; [|discriminate].
      destruct (Qle_bool (8 # 10) cage), (Qle_bool (6 # 10) cage),
               (Qle_bool (4 # 10) cage), (Qle_bool (2 # 10) cage); discriminate.
    + rewrite H2.
      destruct (Qle_bool (8 # 10) cage), (Qle_bool (6 # 10) cage),
               (Qle_bool (4 # 10) cage); discriminate.
    + right. pose proof (round3_ge 300 cage ltac:(Lqa.lra)) as R1.
      pose proof (round3_le_1 cage Hc1) as R2.
      set (r := Py.round3 cage) in *. clearbody r.
      split; [Lqa.lra|]. split; [Lqa.lra|].
      eexists. split; [reflexivity|]. split.
      * unfold find_doors. rewrite map_map. reflexivity.
      * unfold find_doors. rewrite Forall_map. cbn [Door.exits Door.escape_difficulty].
        rewrite Forall_forall in Hrange, Hexits. apply Forall_forall. intros p Hp.
        destruct (Hrange p Hp) as [E1 E2].
        pose proof (round3_ge 200 (Prison.elegance p) ltac:(Lqa.lra)) as D1.
        pose proof (round3_le_1 (Prison.elegance p) E2) as D2.
        split; [apply Hexits, Hp|].
        set (e := Py.round3 (Prison.elegance p)) in *. clearbody e. split; Lqa.lra.
Qed.

(* ------------------------------------------------------------------ *)
(** ** Further properties: the collective aggregator                    *)
(* ------------------------------------------------------------------ *)

Lemma counts_of_json (d : odict Z) :
  as_dict as_int (map (fun kv => (fst kv, JInt (snd kv))) d) = Ok d.
Proof.
  unfold as_dict. induction d as [|[k n] r IH]; cbn [map fold_right fst snd].
  - reflexivity.
  - cbn [as_int rbind]. rewrite IH. reflexivity.
Qed.

Lemma history_of_json (h : list (odict json)) :
  as_list as_obj (JArr (map JObj h)) = Ok h.
Proof.
  unfold as_list. induction h as [|a r IH]; cbn [map fold_right].
  - reflexivity.
  - cbn [as_obj rbind]. rewrite IH. reflexivity.
Qed.

(** Constructing an aggregator on the path a snapshot was saved to. *)
Lemma init_after_save (path : string) (self : CollectiveInsight.t) (w : World) :
  CollectiveInsight._storage_path self = Some path ->
  CollectiveInsight.init (Some path) (snd (CollectiveInsight._save self w))
  = Ok (truncated self).
Proof.
  intro Hp. unfold CollectiveInsight._save. rewrite Hp, bind_run.
  set (stamp := fst (now_iso w)). set (w1 := snd (now_iso w)).
  match goal with |- context [write_json path ?v w1] => set (data := v) end.
  unfold CollectiveInsight.init.
  assert (Hex : path_exists path (snd (write_json path data w1)) = true).
  { unfold path_exists, write_json. cbn [snd files]. rewrite get_set_same. reflexivity. }
  rewrite Hex. unfold CollectiveInsight._load.
  cbn [CollectiveInsight.empty CollectiveInsight._storage_path].
  rewrite Hex, read_after_write. cbn [negb].
  unfold CollectiveInsight.counter_of, data, CollectiveInsight.counts_json.
  cbn [get_method OD.get_or OD.get String.eqb Ascii.eqb Bool.eqb rbind as_int
       CollectiveInsight.assign py_dict].
  rewrite !counts_of_json. cbn [CollectiveInsight.assign].
  rewrite history_of_json. cbn [CollectiveInsight.assign].
  unfold truncated. rewrite Hp. reflexivity.
Qed.

Lemma last_100_length {A} (l : list A) :
  List.length (CollectiveInsight.last_100 l) = Nat.min 100 (List.length l).
Proof. unfold CollectiveInsight.last_100. rewrite length_skipn. lia. Qed.

Lemma last_100_short {A} (l : list A) :
  (List.length l <= 100)%nat -> CollectiveInsight.last_100 l = l.
Proof.
  intro H. unfold CollectiveInsight.last_100.
  replace (List.length l - 100)%nat with 0%nat by lia. reflexivity.
Qed.

(** What one contribution does to the aggregator and to the file system. *)
Lemma contribute_state (a : SystemAnalysis.t) (self : CollectiveInsight.t) (w : World) :
  let names_f := map (fun f => FrameType.name (Frame.frame_type f)) (SystemAnalysis.frames a) in
  let names_m := map (fun m => MaskType.name (Mask.mask_type m)) (SystemAnalysis.masks a) in
  let names_s := map (fun s => SpellType.name (Spell.spell_type s)) (SystemAnalysis.spells a) in
  let names_p := map (fun p => PrisonType.name (Prison.prison_type p)) (SystemAnalysis.prisons a) in
  exists entry,
    fst (snd (CollectiveInsight.contribute a (self, w)))
    = CollectiveInsight.make
        (CollectiveInsight._storage_path self)
        (CollectiveInsight._analyses self ++ [entry])%list
        (CollectiveInsight.bump names_f (CollectiveInsight._frame_frequencies self))
        (CollectiveInsight.bump names_m (CollectiveInsight._mask_frequencies self))
        (CollectiveInsight.bump names_s (CollectiveInsight._spell_frequencies self))
        (CollectiveInsight.bump names_p (CollectiveInsight._prison_frequencies self))
        (CollectiveInsight._total_analyses self + 1)%Z
    /\ snd (snd (CollectiveInsight.contribute a (self, w)))
       = snd (CollectiveInsight._save
                (fst (snd (CollectiveInsight.contribute a (self, w))))
                (snd (now_iso w))).
Proof.
  intros names_f names_m names_s names_p.
  unfold CollectiveInsight.contribute.
  destruct (now_iso w) as [stamp w1].
  match goal with |- context [CollectiveInsight._save ?s w1] =>
    destruct (CollectiveInsight._save s w1) as [u w2] eqn:E end.
  cbn [fst snd]. eexists. split; [reflexivity|]. rewrite E. reflexivity.
Qed.

(** X8: a contribution survives a restart.  After [contribute] on an
    aggregator with a storage path, a new aggregator constructed on that
    path has the same total and the same four counters; its history is
    the last 100 entries of the old one, so it is the same history while
    there are at most 100 contributions and 100 entries long afterwards. *)
Theorem contribution_survives_restart :
  forall (path : string) (self : CollectiveInsight.t) (w : World) (a : SystemAnalysis.t),
    CollectiveInsight._storage_path self = Some path ->
    let after := fst (snd (CollectiveInsight.contribute a (self, w))) in
    let disk := snd (snd (CollectiveInsight.contribute a (self, w))) in
    exists reloaded,
      CollectiveInsight.init (Some path) disk = Ok reloaded
      /\ CollectiveInsight._total_analyses reloaded
         = (CollectiveInsight._total_analyses self + 1)%Z
      /\ CollectiveInsight._total_analyses reloaded = CollectiveInsight._total_analyses after
      /\ CollectiveInsight._frame_frequencies reloaded
         = CollectiveInsight._frame_frequencies after
      /\ CollectiveInsight._mask_frequencies reloaded
         = CollectiveInsight._mask_frequencies after
      /\ CollectiveInsight._spell_frequencies reloaded
         = CollectiveInsight._spell_frequencies after
      /\ CollectiveInsight._prison_frequencies reloaded
         = CollectiveInsight._prison_frequencies after
      /\ CollectiveInsight._analyses reloaded
         = CollectiveInsight.last_100 (CollectiveInsight._analyses after)
      /\ List.length (CollectiveInsight._analyses reloaded)
         = Nat.min 100 (List.length (CollectiveInsight._analyses self) + 1)
      /\ ((List.length (CollectiveInsight._analyses self) < 100)%nat -> reloaded = after).
Proof.
  intros path self w a Hp after disk.
  destruct (contribute_state a self w) as (entry & Hs & Hw).
  fold after in Hs, Hw. fold disk in Hw.
  assert (Hpath : CollectiveInsight._storage_path after = Some path)
    by (rewrite Hs; exact Hp).
  exists (truncated after).
  split; [rewrite Hw; apply init_after_save, Hpath|].
  assert (Hlen : List.length (CollectiveInsight._analyses after)
                 = (List.length (CollectiveInsight._analyses self) + 1)%nat).
  { rewrite Hs. cbn [CollectiveInsight._analyses]. rewrite length_app. reflexivity. }
  unfold truncated.
  cbn [CollectiveInsight._total_analyses CollectiveInsight._frame_frequencies
       CollectiveInsight._mask_frequencies CollectiveInsight._spell_frequencies
       CollectiveInsight._prison_frequencies CollectiveInsight._analyses].
  split; [rewrite Hs; reflexivity|].
  do 6 (split; [reflexivity|]).
  split; [rewrite last_100_length, Hlen; reflexivity|].
  intro Hshort. rewrite last_100_short by lia. destruct after; reflexivity.
Qed.

(** One contribution to an empty aggregator stored at "collective.json". *)
Lemma contribution_survives_restart_witness :
  exists reloaded,
    CollectiveInsight.init (Some "collective.json")
      (snd (snd (CollectiveInsight.contribute demo_analysis
                   (CollectiveInsight.empty (Some "collective.json"), world0))))
    = Ok reloaded
    /\ CollectiveInsight._total_analyses reloaded = 1%Z
    /\ CollectiveInsight._frame_frequencies reloaded = [("ECONOMIC", 1%Z)]
    /\ List.length (CollectiveInsight._analyses reloaded) = 1%nat.
Proof.
  destruct (contribution_survives_restart "collective.json"
              (CollectiveInsight.empty (Some "collective.json")) world0 demo_analysis
              eq_refl)
    as (reloaded & Hi & Ht & _ & Hf & _ & _ & _ & _ & Hl & _).
  exists reloaded. repeat split; assumption.
Defined.

(** A counter after [freq[k] += 1] for every name of a list. *)
Lemma bump_get (k : string) (names : list string) :
  forall d : odict Z,
    OD.get_or k 0%Z (CollectiveInsight.bump names d)
    = (OD.get_or k 0%Z d + occurrences k names)%Z.
Proof.
  unfold CollectiveInsight.bump, occurrences.
  induction names as [|n r IH]; intro d; cbn [fold_left count_occ].
  - cbn. lia.
  - rewrite IH. destruct (string_dec n k) as [->|Hne].
    + rewrite get_or_set_same. rewrite Nat2Z.inj_succ. lia.
    + rewrite get_or_set_other by congruence. reflexivity.
Qed.

Lemma occurrences_app (k : string) (l1 l2 : list string) :
  occurrences k (l1 ++ l2)%list = (occurrences k l1 + occurrences k l2)%Z.
Proof. unfold occurrences. rewrite count_occ_app. lia. Qed.

(** X9: the counters tally the contributions.  After any sequence of
    contributions to any aggregator, the total has grown by the number of
    analyses, the history by as many entries, and the counter of every
    name by the number of findings of that type in all the analyses (a
    name never seen counts as 0).  The storage path does not change. *)
Theorem counters_tally_contributions :
  forall (analyses : list SystemAnalysis.t) (self : CollectiveInsight.t) (w : World)
         (k : string),
    let after := fst (snd (CollectiveInsight.contribute_all analyses (self, w))) in
    CollectiveInsight._total_analyses after
    = (CollectiveInsight._total_analyses self + Z.of_nat (List.length analyses))%Z
    /\ List.length (CollectiveInsight._analyses after)
       = (List.length (CollectiveInsight._analyses self) + List.length analyses)%nat
    /\ OD.get_or k 0%Z (CollectiveInsight._frame_frequencies after)
       = (OD.get_or k 0%Z (CollectiveInsight._frame_frequencies self)
          + occurrences k (flat_map frame_names analyses))%Z
    /\ OD.get_or k 0%Z (CollectiveInsight._mask_frequencies after)
       = (OD.get_or k 0%Z (CollectiveInsight._mask_frequencies self)
          + occurrences k (flat_map mask_names analyses))%Z
    /\ OD.get_or k 0%Z (CollectiveInsight._spell_frequencies after)
       = (OD.get_or k 0%Z (CollectiveInsight._spell_frequencies self)
          + occurrences k (flat_map spell_names analyses))%Z
    /\ OD.get_or k 0%Z (CollectiveInsight._prison_frequencies after)
       = (OD.get_or k 0%Z (CollectiveInsight._prison_frequencies self)
          + occurrences k (flat_map prison_names analyses))%Z
    /\ CollectiveInsight._storage_path after = CollectiveInsight._storage_path self.
Proof.
  intros analyses self w k. cbv zeta. revert self w.
  induction analyses as [|a rest IH]; intros self w.
  - cbn [CollectiveInsight.contribute_all ret fst snd flat_map List.length].
    unfold occurrences. cbn [count_occ Z.of_nat].
    rewrite !Z.add_0_r, Nat.add_0_r. repeat split; reflexivity.
  - cbn [CollectiveInsight.contribute_all]. rewrite !bind_run. cbn [ret fst snd].
    destruct (contribute_state a self w) as (entry & Hs & _).
    destruct (CollectiveInsight.contribute a (self, w)) as [r [s1 w1]].
    cbn [fst snd] in Hs |- *.
    destruct (IH s1 w1) as (Ht & Hl & Hf & Hm & Hsp & Hp & Hpath).
    rewrite Ht, Hl, Hf, Hm, Hsp, Hp, Hpath. rewrite Hs.
    cbn [CollectiveInsight._total_analyses CollectiveInsight._analyses
         CollectiveInsight._frame_frequencies CollectiveInsight._mask_frequencies
         CollectiveInsight._spell_frequencies CollectiveInsight._prison_frequencies
         CollectiveInsight._storage_path flat_map List.length].
    rewrite !bump_get, !occurrences_app, length_app. cbn [List.length].
    fold (frame_names a) (mask_names a) (spell_names a) (prison_names a).
    repeat split; lia.
Qed.

(** [argmax] returns the first key of largest count. *)
Lemma argmax_split (rest : odict Z) :
  forall (best : string * Z) (pre mid : odict Z),
    Forall (fun kv => (snd kv < snd best)%Z) pre ->
    Forall (fun kv => (snd kv <= snd best)%Z) mid ->
    exists n l1 l2,
      (pre ++ best :: mid ++ rest)%list
      = (l1 ++ (CollectiveInsight.argmax best rest, n) :: l2)%list
      /\ Forall (fun kv => (snd kv < n)%Z) l1
      /\ Forall (fun kv => (snd kv <= n)%Z) l2.
Proof.
  induction rest as [|x r IH]; intros best pre mid Hpre Hmid.
  - exists (snd best), pre, mid. rewrite app_nil_r. cbn [CollectiveInsight.argmax].
    rewrite <- surjective_pairing. auto.
  - cbn [CollectiveInsight.argmax]. destruct (Z.ltb_spec (snd best) (snd x)) as [E|E].
    + destruct (IH x (pre ++ best :: mid)%list []) as (n & l1 & l2 & Heq & H1 & H2).
      * apply Forall_app. split.
        -- eapply Forall_impl; [|exact Hpre]. intros a Ha. cbv beta in Ha. lia.
        -- constructor; [exact E|].
           eapply Forall_impl; [|exact Hmid]. intros a Ha. cbv beta in Ha. lia.
      * constructor.
      * exists n, l1, l2. split; [|auto].
        rewrite <- Heq. rewrite <- app_assoc. reflexivity.
    + destruct (IH best pre (mid ++ [x])%list Hpre) as (n & l1 & l2 & Heq & H1 & H2).
      * apply Forall_app. split; [exact Hmid|]. constructor; [exact E|constructor].
      * exists n, l1, l2. split; [|auto].
        rewrite <- Heq. rewrite <- app_assoc. reflexivity.
Qed.

(** X10: the most common frame, mask, spell and prison of the collective
    map are chosen by [max(d, key=d.get)]: on an empty counter the answer
    is None; otherwise it is a key of the counter whose count no key
    reaches before it and none exceeds after it, so that ties go to the
    type that was counted first. *)
Theorem most_common_is_first_largest :
  forall d : odict Z,
    (d = [] /\ CollectiveInsight.most_common d = None)
    \/ exists (k : string) (n : Z) (before after : odict Z),
         CollectiveInsight.most_common d = Some k
         /\ d = (before ++ (k, n) :: after)%list
         /\ Forall (fun kv => (snd kv < n)%Z) before
         /\ Forall (fun kv => (snd kv <= n)%Z) after.
Proof.
  intros [|kv r]; [left; split; reflexivity|right].
  destruct (argmax_split r kv [] []) as (n & l1 & l2 & Heq & H1 & H2);
    [constructor|constructor|].
  exists (CollectiveInsight.argmax kv r), n, l1, l2.
  split; [reflexivity|]. split; [exact Heq|auto].
Qed.

(* ------------------------------------------------------------------ *)
(** ** Further properties: the crumb trail                              *)
(* ------------------------------------------------------------------ *)

Lemma for_each_view {S A B X} (f : A -> State S B) (view : B -> X) (proj : A -> X) :
  (forall x s, view (fst (f x s)) = proj x) ->
  forall l s, map view (fst (for_each f l s)) = map proj l.
Proof.
  intro H. induction l as [|x r IH]; intro s; [reflexivity|].
  cbn [for_each]. rewrite !bind_run. cbn [ret fst map]. rewrite H, IH. reflexivity.
Qed.

Lemma init_indexed (trail_id : option string) (w : World) :
  indexed (fst (CrumbTrail.init trail_id w)).
Proof.
  unfold CrumbTrail.init.
  destruct trail_id as [[|c s]|]; try (intro k; reflexivity);
    rewrite bind_run; intro k; reflexivity.
Qed.

Lemma filter_snoc {A} (p : A -> bool) (l : list A) (x : A) :
  filter p (l ++ [x])%list = (filter p l ++ (if p x then [x] else []))%list.
Proof. rewrite filter_app. reflexivity. Qed.

(** Appending a crumb and its id to the index of its chain. *)
Lemma snoc_indexed (self : CrumbTrail.t) (crumb : Crumb.t) (chain tid : string) :
  indexed self -> Crumb.chain_id crumb = Some chain ->
  indexed (CrumbTrail.make tid
             (CrumbTrail._crumbs self ++ [crumb])%list
             (OD.set chain
                (OD.get_or chain [] (CrumbTrail._chains self) ++ [Crumb.crumb_id crumb])%list
                (CrumbTrail._chains self))).
Proof.
  intros Hidx Hc k. cbn [CrumbTrail._crumbs CrumbTrail._chains].
  rewrite filter_snoc, map_app. unfold on_chain at 2. rewrite Hc.
  destruct (String.eqb_spec chain k) as [<-|Hk].
  - rewrite get_or_set_same, Hidx. reflexivity.
  - rewrite get_or_set_other by congruence. rewrite Hidx, app_nil_r. reflexivity.
Qed.

(** What one [drop_crumb] does. *)
Lemma drop_crumb_drops content ty context visibility audience chain
    (tw : CrumbTrail.t * World) :
  chain <> EmptyString ->
  drops chain tw
        (snd (CrumbTrail.drop_crumb content ty context visibility audience (Some chain) tw))
        [fst (CrumbTrail.drop_crumb content ty context visibility audience (Some chain) tw)]
  /\ kind_and_content
       (fst (CrumbTrail.drop_crumb content ty context visibility audience (Some chain) tw))
     = (ty, content).
Proof.
  intro Hne. destruct tw as [self w]. destruct chain as [|c s]; [contradiction|].
  unfold drops. cbn [CrumbTrail.drop_crumb fst snd].
  unfold uuid4_hex, now_iso.
  cbn [fst snd CrumbTrail.trail_id CrumbTrail._crumbs CrumbTrail._chains
       files drawn ticks List.length Crumb.chain_id].
  split; [|reflexivity].
  split; [reflexivity|]. split; [reflexivity|]. split; [repeat constructor|].
  split; [reflexivity|]. split; [lia|]. split; [lia|].
  intros Hidx. apply snoc_indexed; [exact Hidx|reflexivity].
Qed.

Lemma drops_nil (chain : string) (tw : CrumbTrail.t * World) : drops chain tw tw [].
Proof.
  unfold drops. rewrite app_nil_r. cbn [List.length]. rewrite !Nat.add_0_r.
  repeat split; auto.
Qed.

Lemma drops_app (chain : string) (a b c : CrumbTrail.t * World) (o1 o2 : list Crumb.t) :
  drops chain a b o1 -> drops chain b c o2 -> drops chain a c (o1 ++ o2)%list.
Proof.
  intros (A1 & A2 & A3 & A4 & A5 & A6 & A7) (B1 & B2 & B3 & B4 & B5 & B6 & B7).
  unfold drops. rewrite B1, B2, B4, B5, B6, A1, A2, A4, A5, A6, length_app, app_assoc.
  repeat split; auto; try lia. apply Forall_app. split; assumption.
Qed.

(** A loop of steps that drop crumbs drops the crumbs of all its steps. *)
Lemma for_each_drops {A B} (chain : string) (f : A -> CrumbTrail.Method B)
    (out : B -> list Crumb.t) :
  (forall x tw, drops chain tw (snd (f x tw)) (out (fst (f x tw)))) ->
  forall l tw, drops chain tw (snd (for_each f l tw)) (flat_map out (fst (for_each f l tw))).
Proof.
  intro H. induction l as [|x r IH]; intro tw.
  - apply drops_nil.
  - cbn [for_each]. rewrite !bind_run. cbn [ret fst snd flat_map].
    eapply drops_app; [apply H|apply IH].
Qed.

Lemma flat_map_single {A} (l : list A) : flat_map (fun x => [x]) l = l.
Proof. induction l as [|x r IH]; [reflexivity|]. cbn. rewrite IH. reflexivity. Qed.

Lemma flat_map_id {A} (l : list (list A)) : flat_map (fun x => x) l = List.concat l.
Proof. induction l as [|x r IH]; [reflexivity|]. cbn. rewrite IH. reflexivity. Qed.

(** The two shapes of loop in [generate_from_analysis]. *)
Lemma drop_each_drops {A} (chain : string) (ty : CrumbType.t)
    (content context : A -> string) (l : list A) (tw : CrumbTrail.t * World) :
  chain <> EmptyString ->
  let f := fun x => CrumbTrail.drop_crumb (content x) ty (context x)
                      "hidden" "seekers" (Some chain) in
  drops chain tw (snd (for_each f l tw)) (fst (for_each f l tw))
  /\ map kind_and_content (fst (for_each f l tw)) = map (fun x => (ty, content x)) l.
Proof.
  intros Hne f. split.
  - rewrite <- (flat_map_single (fst (for_each f l tw))).
    apply for_each_drops. intros x tw0. apply drop_crumb_drops, Hne.
  - apply for_each_view. intros x s. apply drop_crumb_drops, Hne.
Qed.

Lemma drop_each_nested_drops {A} (chain : string) (ty : CrumbType.t)
    (items : A -> list string) (context : A -> string) (l : list A)
    (tw : CrumbTrail.t * World) :
  chain <> EmptyString ->
  let f := fun x => for_each
                      (fun item => CrumbTrail.drop_crumb item ty (context x)
                                     "hidden" "seekers" (Some chain))
                      (items x) in
  drops chain tw (snd (for_each f l tw)) (List.concat (fst (for_each f l tw)))
  /\ map kind_and_content (List.concat (fst (for_each f l tw)))
     = flat_map (fun x => map (pair ty) (items x)) l.
Proof.
  intros Hne f. split.
  - rewrite <- flat_map_id. apply for_each_drops. intros x tw0.
    apply (drop_each_drops chain ty (fun item => item) (fun _ => context x)), Hne.
  - rewrite concat_map, flat_map_concat_map. f_equal.
    apply for_each_view. intros x s.
    apply (drop_each_drops chain ty (fun item => item) (fun _ => context x)), Hne.
Qed.

(** What [generate_from_analysis] does, in terms of the chain id it draws. *)
Lemma generate_from_analysis_drops (analysis : SystemAnalysis.t)
    (self : CrumbTrail.t) (w : World) :
  let run := CrumbTrail.generate_from_analysis analysis (self, w) in
  let chain := fst (uuid4_hex 12 w) in
  drops chain (self, snd (uuid4_hex 12 w)) (snd run) (fst run)
  /\ map kind_and_content (fst run) = planned analysis.
Proof.
  intros run chain. subst run.
  assert (Hne : chain <> EmptyString) by apply (uuid4_hex_nonempty 11).
  unfold CrumbTrail.generate_from_analysis.
  rewrite bind_run.
  assert (E0 : CrumbTrail.in_world (uuid4_hex 12) (self, w)
               = (chain, (self, snd (uuid4_hex 12 w)))) by reflexivity.
  rewrite E0. cbn [fst snd]. clear E0.
  set (tw0 := (self, snd (uuid4_hex 12 w))). clearbody chain.
  rewrite bind_run.
  destruct (drop_each_nested_drops chain CrumbType.QUESTION Frame.forbidden_questions
              CrumbTrail.question_context (SystemAnalysis.frames analysis) tw0 Hne)
    as [D1 V1].
  cbv zeta in D1, V1.
  match type of D1 with drops _ _ (snd ?r) _ =>
    set (r1 := r) in *; destruct r1 as [questions tw1] end.
  cbn [fst snd] in D1, V1 |- *.
  rewrite bind_run.
  destruct (drop_each_drops chain CrumbType.PATTERN CrumbTrail.pattern_content
              CrumbTrail.pattern_context (SystemAnalysis.masks analysis) tw1 Hne)
    as [D2 V2].
  cbv zeta in D2, V2.
  match type of D2 with drops _ _ (snd ?r) _ =>
    set (r2 := r) in *; destruct r2 as [patterns tw2] end.
  cbn [fst snd] in D2, V2 |- *.
  rewrite bind_run.
  destruct (drop_each_drops chain CrumbType.PARADOX Spell.counter_narrative
              CrumbTrail.paradox_context (SystemAnalysis.spells analysis) tw2 Hne)
    as [D3 V3].
  cbv zeta in D3, V3.
  match type of D3 with drops _ _ (snd ?r) _ =>
    set (r3 := r) in *; destruct r3 as [paradoxes tw3] end.
  cbn [fst snd] in D3, V3 |- *.
  rewrite bind_run.
  destruct (drop_each_nested_drops chain CrumbType.TRAIL Prison.exit_conditions
              CrumbTrail.trail_context (SystemAnalysis.prisons analysis) tw3 Hne)
    as [D4 V4].
  cbv zeta in D4, V4.
  match type of D4 with drops _ _ (snd ?r) _ =>
    set (r4 := r) in *; destruct r4 as [trails tw4] end.
  cbn [fst snd] in D4, V4 |- *.
  pose proof (drops_app _ _ _ _ _ _ D1 (drops_app _ _ _ _ _ _ D2
               (drops_app _ _ _ _ _ _ D3 D4))) as D.
  assert (V : map kind_and_content
                (List.concat questions ++ patterns ++ paradoxes ++ List.concat trails)%list
              = crumb_plan analysis).
  { rewrite !map_app, V1, V2, V3, V4. reflexivity. }
  unfold planned. rewrite <- V.
  set (generated := (List.concat questions ++ patterns ++ paradoxes
                     ++ List.concat trails)%list) in *.
  clearbody generated.
  destruct generated as [|g gs].
  - cbn [ret fst snd map]. split; [exact D|reflexivity].
  - rewrite bind_run. cbn [ret fst snd].
    destruct (drop_crumb_drops (CrumbTrail.bridge_content analysis) CrumbType.BRIDGE
                "Meta-analysis bridge" "hidden" "seekers" chain tw4 Hne) as [D5 V5].
    split.
    + eapply drops_app; [exact D|exact D5].
    + rewrite map_app. cbn [map]. rewrite V5. reflexivity.
Qed.

(** X11: the chain index is maintained.  A new trail is indexed, and
    [drop_crumb] and [generate_from_analysis] keep a trail indexed: under
    every chain id the index lists the ids of the crumbs dropped on that
    chain, in order. *)
Theorem chain_index_maintained :
  (forall (trail_id : option string) (w : World),
     indexed (fst (CrumbTrail.init trail_id w)))
  /\ (forall content ty context visibility audience chain (tw : CrumbTrail.t * World),
        indexed (fst tw) ->
        indexed (fst (snd (CrumbTrail.drop_crumb content ty context visibility audience
                             chain tw))))
  /\ (forall (analysis : SystemAnalysis.t) (tw : CrumbTrail.t * World),
        indexed (fst tw) ->
        indexed (fst (snd (CrumbTrail.generate_from_analysis analysis tw)))).
Proof.
  split; [exact init_indexed|]. split.
  - intros content ty context visibility audience chain [self w] Hidx.
    cbn [fst] in Hidx.
    destruct chain as [[|c s]|]; cbn [CrumbTrail.drop_crumb]; unfold uuid4_hex, now_iso;
      cbn [fst snd]; apply snoc_indexed; try exact Hidx; reflexivity.
  - intros analysis [self w] Hidx.
    destruct (generate_from_analysis_drops analysis self w) as [D _].
    apply D. exact Hidx.
Qed.

Lemma filter_filter_implied {A} (p q : A -> bool) (l : list A) :
  (forall x, In x l -> p x = true -> q x = true) ->
  filter p (filter q l) = filter p l.
Proof.
  induction l as [|x r IH]; intro H; [reflexivity|]. cbn [filter].
  assert (IH' : filter p (filter q r) = filter p r)
    by (apply IH; intros y Hy; apply H; right; exact Hy).
  destruct (q x) eqn:Eq; cbn [filter]; rewrite IH'; [reflexivity|].
  destruct (p x) eqn:Ep; [|reflexivity].
  rewrite (H x (or_introl eq_refl) Ep) in Eq. discriminate.
Qed.

Lemma NoDup_map_injective {A B} (f : A -> B) (l : list A) :
  NoDup (map f l) -> forall x y, In x l -> In y l -> f x = f y -> x = y.
Proof.
  induction l as [|a r IH]; intros Hnd x y Hx Hy Hf; [destruct Hx|].
  cbn [map] in Hnd. inversion Hnd as [|? ? Hn Hr]; subst.
  destruct Hx as [<-|Hx], Hy as [<-|Hy]; auto.
  - exfalso. apply Hn. rewrite Hf. apply in_map, Hy.
  - exfalso. apply Hn. rewrite <- Hf. apply in_map, Hx.
Qed.

Lemma listed_iff (ids : list string) (i : string) :
  existsb (String.eqb i) ids = true <-> In i ids.
Proof.
  rewrite existsb_exists. split.
  - intros [x [Hx He]]. apply String.eqb_eq in He. subst. exact Hx.
  - intro H. exists i. split; [exact H|apply String.eqb_refl].
Qed.

(** On an indexed trail [follow_chain] returns every crumb of the chain. *)
Lemma follow_chain_complete (self : CrumbTrail.t) (k : string) :
  indexed self ->
  filter (on_chain k) (CrumbTrail.follow_chain k self)
  = filter (on_chain k) (CrumbTrail._crumbs self).
Proof.
  intro Hidx. unfold CrumbTrail.follow_chain. cbv zeta. rewrite Hidx.
  apply filter_filter_implied. intros c Hc Hk.
  apply listed_iff. apply in_map. apply filter_In. split; assumption.
Qed.

(** It returns nothing else when no two crumbs of the trail share an id. *)
Lemma follow_chain_exact (self : CrumbTrail.t) (k : string) :
  indexed self -> NoDup (map Crumb.crumb_id (CrumbTrail._crumbs self)) ->
  CrumbTrail.follow_chain k self = filter (on_chain k) (CrumbTrail._crumbs self).
Proof.
  intros Hidx Hnd. unfold CrumbTrail.follow_chain. cbv zeta. rewrite Hidx.
  apply filter_ext_in. intros c Hc.
  destruct (on_chain k c) eqn:Hk.
  - apply listed_iff. apply in_map. apply filter_In. split; assumption.
  - destruct (existsb _ _) eqn:E; [|reflexivity].
    apply listed_iff in E. apply in_map_iff in E. destruct E as [c' [Hid Hc']].
    apply filter_In in Hc'. destruct Hc' as [Hin' Hk'].
    rewrite (NoDup_map_injective Crumb.crumb_id _ Hnd c' c Hin' Hc Hid) in Hk'.
    congruence.
Qed.

(** X12: following a chain.  On a trail whose index is maintained (as
    [chain_index_maintained] shows for trails built with [drop_crumb]),
    [follow_chain] returns every crumb dropped on the chain, in the order
    in which they were dropped; if the crumb ids of the trail are pairwise
    distinct it returns exactly these. *)
Theorem follow_chain_returns_the_chain :
  forall (self : CrumbTrail.t) (k : string),
    indexed self ->
    filter (on_chain k) (CrumbTrail.follow_chain k self)
    = filter (on_chain k) (CrumbTrail._crumbs self)
    /\ (NoDup (map Crumb.crumb_id (CrumbTrail._crumbs self)) ->
        CrumbTrail.follow_chain k self = filter (on_chain k) (CrumbTrail._crumbs self)).
Proof.
  intros self k Hidx. split.
  - apply follow_chain_complete, Hidx.
  - apply follow_chain_exact, Hidx.
Qed.

(** The trail with one crumb dropped on the trail's own chain. *)
Lemma follow_chain_returns_the_chain_witness :
  indexed (fst demo_trail)
  /\ filter (on_chain "0000000100000000")
            (CrumbTrail.follow_chain "0000000100000000" (fst demo_trail))
     = CrumbTrail._crumbs (fst demo_trail).
Proof.
  assert (H : indexed (fst demo_trail)).
  { unfold demo_trail.
    apply (snoc_indexed (fst (CrumbTrail.init None world0)));
      [apply init_indexed|reflexivity]. }
  split; [exact H|].
  rewrite (proj1 (follow_chain_returns_the_chain (fst demo_trail) "0000000100000000" H)).
  reflexivity.
Defined.

(** X13: the crumbs generated from an analysis.  Their types and contents
    are, in order, a QUESTION per forbidden question of each frame, a
    PATTERN per mask, a PARADOX per spell, a TRAIL per exit condition of
    each prison and, if there is at least one of these, a closing BRIDGE;
    nothing is generated otherwise.  They are appended to the crumbs of
    the trail in that order, all on one chain whose id is drawn first; the
    trail id and the file system are untouched; one id is drawn per crumb
    after the chain id; and on an indexed trail [follow_chain] on the new
    chain id finds every one of them. *)
Theorem generate_from_analysis_spec :
  forall (analysis : SystemAnalysis.t) (self : CrumbTrail.t) (w : World),
    let run := CrumbTrail.generate_from_analysis analysis (self, w) in
    let chain := Py.take 12 (uuid_hex (entropy w (drawn w))) in
    map kind_and_content (fst run) = planned analysis
    /\ CrumbTrail._crumbs (fst (snd run)) = (CrumbTrail._crumbs self ++ fst run)%list
    /\ CrumbTrail.trail_id (fst (snd run)) = CrumbTrail.trail_id self
    /\ Forall (fun c => Crumb.chain_id c = Some chain) (fst run)
    /\ files (snd (snd run)) = files w
    /\ drawn (snd (snd run)) = S (drawn w + List.length (fst run))
    /\ (indexed self ->
        forall c, In c (fst run) ->
                  In c (CrumbTrail.follow_chain chain (fst (snd run)))).
Proof.
  intros analysis self w run chain.
  destruct (generate_from_analysis_drops analysis self w)
    as [(D1 & D2 & D3 & D4 & D5 & D6 & D7) V].
  fold run in D1, D2, D3, D4, D5, D6, D7, V.
  change (fst (uuid4_hex 12 w)) with chain in D3.
  cbn [fst snd] in D1, D2, D4, D5, D7.
  split; [exact V|]. split; [exact D2|]. split; [exact D1|]. split; [exact D3|].
  split; [exact D4|]. split; [exact D5|].
  intros Hidx c Hc.
  assert (Hon : on_chain chain c = true).
  { rewrite Forall_forall in D3. unfold on_chain. rewrite (D3 c Hc).
    apply String.eqb_refl. }
  assert (Hin : In c (filter (on_chain chain) (CrumbTrail._crumbs (fst (snd run))))).
  { apply filter_In. split; [|exact Hon]. rewrite D2. apply in_or_app. right. exact Hc. }
  rewrite <- (follow_chain_complete _ chain (D7 Hidx)) in Hin.
  apply filter_In in Hin. apply Hin.
Qed.

(** X14: decoding a trail.  Whatever the digest function, [decode_trail]
    returns the crumbs of the trail whose default encoding is among the
    markers, in trail order; given the encodings of all its crumbs it
    returns them all; and the default encoding of a crumb is the one made
    with the trail id as key. *)
Theorem decode_trail_recovers :
  forall (sha256_hex : string -> string) (self : CrumbTrail.t),
    CrumbTrail.decode_trail sha256_hex
      (map (fun c => CrumbTrail.encode_crumb sha256_hex c EmptyString self)
           (CrumbTrail._crumbs self)) self
    = CrumbTrail._crumbs self
    /\ (forall (markers : list string) (c : Crumb.t),
          In c (CrumbTrail.decode_trail sha256_hex markers self)
          <-> In c (CrumbTrail._crumbs self)
              /\ In (CrumbTrail.encode_crumb sha256_hex c EmptyString self) markers)
    /\ (forall c : Crumb.t,
          CrumbTrail.encode_crumb sha256_hex c (CrumbTrail.trail_id self) self
          = CrumbTrail.encode_crumb sha256_hex c EmptyString self).
Proof.
  intros sha256_hex self. split; [|split].
  - unfold CrumbTrail.decode_trail.
    rewrite (filter_ext_in _ (fun _ => true)).
    + induction (CrumbTrail._crumbs self) as [|c r IH]; [reflexivity|].
      cbn [filter]. rewrite IH. reflexivity.
    + intros c Hc. apply listed_iff.
      apply (in_map (fun c => CrumbTrail.encode_crumb sha256_hex c EmptyString self)), Hc.
  - intros markers c. unfold CrumbTrail.decode_trail. rewrite filter_In, listed_iff.
    reflexivity.
  - intro c. unfold CrumbTrail.encode_crumb.
    destruct (CrumbTrail.trail_id self); reflexivity.
Qed.

(* ------------------------------------------------------------------ *)
(** ** Further properties: the composite frame map                      *)
(* ------------------------------------------------------------------ *)

Lemma detect_frames_tags (text : string) (w : World) :
  map Frame.frame_type (fst (detect_frames text EmptyString w)) = frame_tags text.
Proof.
  rewrite detect_frames_run. unfold frame_tags. cbv zeta.
  apply (run_tags FRAME_SIGNALS FrameSignals.signals frame_entry
           (Py.lower text ++ " " ++ Py.lower EmptyString) Frame.frame_type
           (density_of FrameSignals.signals (Py.lower text ++ " " ++ Py.lower EmptyString)));
    reflexivity.
Qed.

Lemma frame_tags_perm (text : string) :
  Permutation (frame_tags text)
    (map fst (filter (hit FrameSignals.signals (Py.lower text ++ " " ++ Py.lower EmptyString))
                     FRAME_SIGNALS)).
Proof.
  unfold frame_tags. cbv zeta.
  eapply perm_trans; [apply Permutation_map, sort_desc_perm|].
  rewrite map_map. apply Permutation_refl.
Qed.

Lemma frame_tags_NoDup (text : string) : NoDup (frame_tags text).
Proof.
  rewrite <- (detect_frames_tags text world0). rewrite detect_frames_run.
  apply (run_tags_NoDup FrameType.value FRAME_SIGNALS FrameSignals.signals
           frame_entry _ Frame.frame_type
           (density_of FrameSignals.signals (Py.lower text ++ " " ++ Py.lower EmptyString)));
    [apply FRAME_SIGNALS_in_order|reflexivity|reflexivity].
Qed.


Lemma FrameType_value_injective (a b : FrameType.t) :
  FrameType.value a = FrameType.value b -> a = b.
Proof. destruct a, b; intro H; (reflexivity || discriminate H). Qed.

Lemma FrameType_name_injective (a b : FrameType.t) :
  FrameType.name a = FrameType.name b -> a = b.
Proof. destruct a, b; intro H; (reflexivity || discriminate H). Qed.

Lemma frame_tags_In (X : FrameType.t) (text : string) :
  In X (frame_tags text) <-> frame_found X text = true.
Proof.
  split.
  - intro H. apply (Permutation_in _ (frame_tags_perm text)) in H.
    apply in_map_iff in H. destruct H as [p [<- Hp]]. apply filter_In in Hp.
    destruct Hp as [Hp Hh]. unfold frame_found.
    rewrite (entry_found FrameType.value FRAME_SIGNALS FRAME_SIGNALS_in_order p Hp).
    exact Hh.
  - unfold frame_found, entry. intro H.
    destruct (find _ FRAME_SIGNALS) as [p|] eqn:E; [|discriminate].
    apply find_some in E. destruct E as [Hp Hv].
    apply Nat.eqb_eq, FrameType_value_injective in Hv. cbn [option_map] in H.
    apply (Permutation_in _ (Permutation_sym (frame_tags_perm text))).
    apply in_map_iff. exists p. split; [exact Hv|]. apply filter_In. split; [exact Hp|].
    exact H.
Qed.

(** How often the name of [X] occurs among the names found in a text. *)
Lemma tag_names_count (X : FrameType.t) (text : string) :
  count_occ string_dec (tag_names text) (FrameType.name X)
  = if frame_found X text then 1%nat else 0%nat.
Proof.
  assert (Hnd : NoDup (tag_names text)).
  { unfold tag_names. apply NoDup_map_NoDup_ForallPairs; [|apply frame_tags_NoDup].
    intros a b _ _. apply FrameType_name_injective. }
  assert (Hin : In (FrameType.name X) (tag_names text) <-> frame_found X text = true).
  { rewrite <- frame_tags_In. unfold tag_names. rewrite in_map_iff. split.
    - intros [Y [HY Hin]]. apply FrameType_name_injective in HY. subst. exact Hin.
    - intro H. exists X. split; [reflexivity|exact H]. }
  destruct (frame_found X text).
  - apply NoDup_count_occ'; [exact Hnd|]. apply Hin. reflexivity.
  - apply count_occ_not_In. intro H. apply Hin in H. discriminate.
Qed.


(** What the loop over the texts accumulates. *)
Lemma architecture_loop_spec (texts : list string) :
  forall (acc : architecture) (w : World),
    let r := fst (architecture_loop texts acc w) in
    List.length (fst (fst r))
    = (List.length (fst (fst acc)) + List.length (flat_map tag_names texts))%nat
    /\ snd (fst r)
       = fold_left (fun d ft => OD.set ft (OD.get_or ft 0%nat d + 1)%nat d)
                   (flat_map tag_names texts) (snd (fst acc)).
Proof.
  induction texts as [|text rest IH]; intros acc w; cbv zeta.
  - cbn [architecture_loop ret fst flat_map List.length fold_left].
    rewrite Nat.add_0_r. split; reflexivity.
  - cbn [architecture_loop]. rewrite bind_run.
    pose proof (detect_frames_tags text w) as Ht.
    destruct (detect_frames text EmptyString w) as [frames w1]. cbn [fst snd] in Ht |- *.
    destruct (IH (architecture_step acc frames) w1) as [I1 I2].
    rewrite I1, I2. destruct acc as [[all_frames frame_counts] co].
    cbn [architecture_step fst snd flat_map].
    rewrite <- (map_map Frame.frame_type FrameType.name), Ht.
    fold (tag_names text). rewrite fold_left_app, !length_app.
    split; [|reflexivity].
    replace (List.length frames) with (List.length (tag_names text)); [lia|].
    unfold tag_names. rewrite length_map, <- Ht, length_map. reflexivity.
Qed.




Lemma of_pairs_acc {V} (l : odict V) :
  forall acc : odict V,
    NoDup (OD.keys (acc ++ l)%list) ->
    fold_left (fun d kv => OD.set (fst kv) (snd kv) d) l acc = (acc ++ l)%list.
Proof.
  induction l as [|[k v] r IH]; intros acc Hnd.
  - rewrite app_nil_r. reflexivity.
  - cbn [fold_left fst snd].
    assert (Hset : OD.set k v acc = (acc ++ [(k, v)])%list).
    { assert (Hk : ~ In k (OD.keys acc)).
      { unfold OD.keys in *. rewrite map_app in Hnd. cbn [map fst] in Hnd.
        apply NoDup_remove_2 in Hnd. intro H. apply Hnd. apply in_or_app. left. exact H. }
      clear - Hk. induction acc as [|[k0 v0] a IHa]; [reflexivity|].
      cbn [OD.set]. destruct (String.eqb_spec k k0) as [->|Hne].
      - exfalso. apply Hk. left. reflexivity.
      - cbn [app]. rewrite IHa; [reflexivity|]. intro H. apply Hk. right. exact H. }
    rewrite Hset. rewrite IH; rewrite <- app_assoc; [reflexivity|exact Hnd].
Qed.

(** [dict(pairs)] of pairs with distinct keys keeps them as they are. *)
Lemma of_pairs_NoDup {V} (l : odict V) : NoDup (OD.keys l) -> OD.of_pairs l = l.
Proof. intro H. unfold OD.of_pairs. apply (of_pairs_acc l []). exact H. Qed.





(* ------------------------------------------------------------------ *)
(** ** Further properties: the unmasked network                         *)
(* ------------------------------------------------------------------ *)

Lemma find_puppeteers_In (g : InfluenceGraph.t) (p : InfluenceGraph.puppeteer) :
  In p (InfluenceGraph.find_puppeteers g) <->
  exists a, In a (OD.keys (InfluenceGraph._actors g))
            /\ qualifies g a = true /\ p = puppeteer_of g a.
Proof.
  unfold InfluenceGraph.find_puppeteers. cbv zeta. rewrite collect_spec.
  rewrite in_map_iff. split.
  - intros [[k q] [Hq Hin]]. cbn [snd] in Hq. subst q.
    apply -> (@sort_desc_float_In InfluenceGraph.puppeteer) in Hin.
    apply in_map_iff in Hin. destruct Hin as [q [Hq Hin]]. injection Hq as _ ->.
    apply in_map_iff in Hin. destruct Hin as [a [<- Ha]].
    apply filter_In in Ha. exists a. tauto.
  - intros [a (Ha & Hq & ->)].
    exists (InfluenceGraph.puppet_score (puppeteer_of g a), puppeteer_of g a).
    split; [reflexivity|]. apply sort_desc_float_In. apply in_map_iff.
    exists (puppeteer_of g a). split; [reflexivity|].
    apply in_map. apply filter_In. tauto.
Qed.


(* ------------------------------------------------------------------ *)
(** ** Further properties: the integration layer                        *)
(* ------------------------------------------------------------------ *)

Lemma detect_frames_files text context w :
  files (snd (detect_frames text context w)) = files w.
Proof.
  rewrite detect_frames_state.
  apply (scan_preserves FrameSignals.signals frame_entry _ files). reflexivity.
Qed.

Lemma analyze_spells_files text w : files (snd (analyze_spells text w)) = files w.
Proof.
  rewrite analyze_spells_state.
  apply (scan_preserves SpellSignals.signals spell_entry _ files). reflexivity.
Qed.

Lemma map_prisons_files text w : files (snd (map_prisons text w)) = files w.
Proof.
  rewrite map_prisons_state.
  apply (scan_preserves PrisonSignals.signals prison_entry _ files). reflexivity.
Qed.

Lemma identify_masks_graph text g w :
  files (snd (snd (InfluenceGraph.identify_masks text (g, w)))) = files w
  /\ InfluenceGraph._edges (fst (snd (InfluenceGraph.identify_masks text (g, w))))
     = InfluenceGraph._edges g.
Proof.
  rewrite graph_identify_masks_state.
  destruct (mask_scan_graph (Py.lower text) MASK_SIGNALS actor_labels_distinct g w)
    as (He & Hf & _). split; assumption.
Qed.

(** What [analyze] returns and what it leaves behind, step by step. *)
Lemma analyze_shape (introspect : World -> odict json) (text name context : string)
    (depth : SeeingDepth.t) (flag : bool) (self : SkeletonKey.t) (w : World) :
  let run := SkeletonKey.analyze introspect text name context depth flag (self, w) in
  exists (a : SystemAnalysis.t) (w1 w2 w3 w7 w8 : World),
    SystemAnalysis.frames a = fst (detect_frames text context w)
    /\ SystemAnalysis.masks a
       = fst (InfluenceGraph.identify_masks text (SkeletonKey.influence_graph self, w1))
    /\ SystemAnalysis.spells a = fst (analyze_spells text w2)
    /\ SystemAnalysis.prisons a = fst (map_prisons text w3)
    /\ SystemAnalysis.influence_edges a = []
    /\ SystemAnalysis.system_name a = name
    /\ SystemAnalysis.seeing_depth a = depth
    /\ (SystemAnalysis.self_examination a = None
        <-> SkeletonKey.value_in depth ["recursive"; "integral"] = false)
    /\ ((SkeletonKey.value_in depth ["structure"; "generative"; "recursive"; "integral"]
         = false
         /\ SystemAnalysis.crumbs a = []
         /\ SkeletonKey.crumb_trail (fst (snd run)) = SkeletonKey.crumb_trail self
         /\ w8 = w7)
        \/ (SkeletonKey.value_in depth ["structure"; "generative"; "recursive"; "integral"]
            = true
            /\ map kind_and_content (SystemAnalysis.crumbs a) = planned a
            /\ exists chain,
                 drops chain (SkeletonKey.crumb_trail self, snd (uuid4_hex 12 w7))
                       (SkeletonKey.crumb_trail (fst (snd run)), w8)
                       (SystemAnalysis.crumbs a)))
    /\ SkeletonKey.influence_graph (fst (snd run))
       = fst (snd (InfluenceGraph.identify_masks text (SkeletonKey.influence_graph self, w1)))
    /\ SkeletonKey._crumb_path (fst (snd run)) = SkeletonKey._crumb_path self
    /\ (if flag
        then fst run
             = (' _ <-? fst (CollectiveInsight.contribute a (SkeletonKey.collective self, w8)) ;;
                Ok a)
             /\ SkeletonKey.collective (fst (snd run))
                = fst (snd (CollectiveInsight.contribute a (SkeletonKey.collective self, w8)))
             /\ snd (snd run)
                = snd (snd (CollectiveInsight.contribute a (SkeletonKey.collective self, w8)))
        else fst run = Ok a
             /\ SkeletonKey.collective (fst (snd run)) = SkeletonKey.collective self
             /\ snd (snd run) = w8)
    /\ files w8 = files w.
Proof.
  cbv zeta. unfold SkeletonKey.analyze.
  pose proof (detect_frames_files text context w) as F1.
  destruct (detect_frames text context w) as [frames w1] eqn:E1. cbn [snd] in F1.
  pose proof (identify_masks_graph text (SkeletonKey.influence_graph self) w1) as [F2 _].
  destruct (InfluenceGraph.identify_masks text (SkeletonKey.influence_graph self, w1))
    as [masks [graph w2]] eqn:E2. cbn [fst snd] in F2.
  pose proof (analyze_spells_files text w2) as F3.
  destruct (analyze_spells text w2) as [spells w3] eqn:E3. cbn [snd] in F3.
  pose proof (map_prisons_files text w3) as F4.
  destruct (map_prisons text w3) as [prisons w4] eqn:E4. cbn [snd] in F4.
  set (wanted := SkeletonKey.value_in depth ["recursive"; "integral"]).
  assert (F5 : files (snd (if wanted
                           then let (exam, w') := examine_self introspect w4 in (Some exam, w')
                           else (None, w4))) = files w4
               /\ (fst (if wanted
                        then let (exam, w') := examine_self introspect w4 in (Some exam, w')
                        else (None, w4)) = None <-> wanted = false)).
  { destruct wanted.
    - unfold examine_self. rewrite !bind_run. cbn [ret fst snd].
      split; [reflexivity|]. split; discriminate.
    - split; [reflexivity|]. split; reflexivity. }
  destruct (if wanted
            then let (exam, w') := examine_self introspect w4 in (Some exam, w')
            else (None, w4)) as [self_exam w5].
  cbn [fst snd] in F5. destruct F5 as [F5 X5].
  assert (F6 : files (snd (uuid4_hex 12 w5)) = files w5) by reflexivity.
  destruct (uuid4_hex 12 w5) as [analysis_id w6]. cbn [snd] in F6.
  assert (F7 : files (snd (now_iso w6)) = files w6) by reflexivity.
  destruct (now_iso w6) as [analyzed_at w7]. cbn [snd] in F7.
  set (base := SystemAnalysis.make analysis_id name frames masks spells prisons
                 [] [] self_exam depth analyzed_at).
  set (four := SkeletonKey.value_in depth
                 ["structure"; "generative"; "recursive"; "integral"]).
  destruct (generate_from_analysis_drops base (SkeletonKey.crumb_trail self) w7)
    as [D V].
  cbv zeta in D, V.
  destruct four eqn:Efour.
  - (* crumbs are generated *)
    destruct (CrumbTrail.generate_from_analysis base (SkeletonKey.crumb_trail self, w7))
      as [crumbs [trail w8]].
    cbn [fst snd] in D, V.
    set (a := SystemAnalysis.make analysis_id name frames masks spells prisons
                crumbs [] self_exam depth analyzed_at).
    assert (F8 : files w8 = files w).
    { destruct D as (_ & _ & _ & D4 & _). cbn [snd] in D4.
      rewrite D4. change (files (snd (uuid4_hex 12 w7))) with (files w7). congruence. }
    exists a, w1, w2, w3, w7, w8. rewrite E2, E3, E4.
    cbn [fst snd SystemAnalysis.frames SystemAnalysis.masks SystemAnalysis.spells
         SystemAnalysis.prisons SystemAnalysis.influence_edges SystemAnalysis.system_name
         SystemAnalysis.seeing_depth SystemAnalysis.self_examination SystemAnalysis.crumbs].
    do 8 (split; [first [reflexivity | exact X5]|]).
    split.
    { right. split; [reflexivity|]. split; [exact V|].
      eexists. destruct flag;
        [destruct (CollectiveInsight.contribute a (SkeletonKey.collective self, w8))
           as [report [coll w9]]|]; exact D. }
    destruct flag.
    + destruct (CollectiveInsight.contribute a (SkeletonKey.collective self, w8))
        as [report [coll w9]].
      cbn [fst snd SkeletonKey.influence_graph SkeletonKey._crumb_path
           SkeletonKey.collective].
      repeat split; try reflexivity; exact F8.
    + cbn [fst snd SkeletonKey.influence_graph SkeletonKey._crumb_path
           SkeletonKey.collective].
      repeat split; try reflexivity; exact F8.
  - (* no crumbs at this depth *)
    clear D V.
    assert (F8 : files w7 = files w) by congruence.
    exists base, w1, w2, w3, w7, w7. rewrite E2, E3, E4.
    cbn [fst snd SystemAnalysis.frames SystemAnalysis.masks SystemAnalysis.spells
         SystemAnalysis.prisons SystemAnalysis.influence_edges SystemAnalysis.system_name
         SystemAnalysis.seeing_depth SystemAnalysis.self_examination SystemAnalysis.crumbs].
    do 8 (split; [first [reflexivity | exact X5]|]).
    split.
    { left. destruct flag;
        [destruct (CollectiveInsight.contribute base (SkeletonKey.collective self, w7))
           as [report [coll w9]]|]; repeat split; reflexivity. }
    destruct flag.
    + destruct (CollectiveInsight.contribute base (SkeletonKey.collective self, w7))
        as [report [coll w9]].
      cbn [fst snd SkeletonKey.influence_graph SkeletonKey._crumb_path
           SkeletonKey.collective].
      repeat split; try reflexivity; exact F8.
    + cbn [fst snd SkeletonKey.influence_graph SkeletonKey._crumb_path
           SkeletonKey.collective].
      repeat split; try reflexivity; exact F8.
Qed.

Lemma contribute_ok (a : SystemAnalysis.t) (self : CollectiveInsight.t) (w : World) :
  Forall scored (CollectiveInsight._analyses self) ->
  (exists m, fst (CollectiveInsight.contribute a (self, w)) = Ok m)
  /\ Forall scored (CollectiveInsight._analyses
                      (fst (snd (CollectiveInsight.contribute a (self, w))))).
Proof.
  intro Hh. unfold CollectiveInsight.contribute.
  destruct (now_iso w) as [stamp w1].
  match goal with |- context [CollectiveInsight._save ?s w1] =>
    set (self' := s); destruct (CollectiveInsight._save self' w1) as [u w2] end.
  cbn [fst snd].
  assert (Hs : Forall scored (CollectiveInsight._analyses self')).
  { unfold self'. cbn [CollectiveInsight._analyses]. apply Forall_app.
    split; [exact Hh|]. constructor; [|constructor]. eexists. reflexivity. }
  split; [|exact Hs].
  destruct (get_collective_map_scored _ Hs) as [m [Hm _]]. exists m. exact Hm.
Qed.

(** X17: [analyze] runs the four detectors and assembles their findings.
    Provided the history of the collective is well formed whenever the
    analysis is to be contributed, [analyze] returns an analysis.  Its
    frames, masks, spells and prisons are those the stand-alone detectors
    return for the same text and context, up to ids and time stamps; it
    has no influence edges; it carries a self-examination exactly at the
    depths "recursive" and "integral"; its crumbs are those planned for it
    at the depths "structure" and deeper, none otherwise, and they are
    appended to the trail of the key. *)
Theorem analyze_runs_the_detectors :
  forall (introspect : World -> odict json) (text name context : string)
         (depth : SeeingDepth.t) (flag : bool) (self : SkeletonKey.t) (w : World),
    (flag = true ->
     Forall scored (CollectiveInsight._analyses (SkeletonKey.collective self))) ->
    let run := SkeletonKey.analyze introspect text name context depth flag (self, w) in
    exists a : SystemAnalysis.t,
      fst run = Ok a
      /\ (forall w0, map frame_body (SystemAnalysis.frames a)
                     = map frame_body (fst (detect_frames text context w0)))
      /\ (forall g0 w0, map mask_body (SystemAnalysis.masks a)
                        = map mask_body (fst (InfluenceGraph.identify_masks text (g0, w0))))
      /\ (forall w0, map spell_body (SystemAnalysis.spells a)
                     = map spell_body (fst (analyze_spells text w0)))
      /\ (forall w0, map prison_body (SystemAnalysis.prisons a)
                     = map prison_body (fst (map_prisons text w0)))
      /\ SystemAnalysis.influence_edges a = []
      /\ SystemAnalysis.system_name a = name
      /\ SystemAnalysis.seeing_depth a = depth
      /\ (SystemAnalysis.self_examination a = None
          <-> SkeletonKey.value_in depth ["recursive"; "integral"] = false)
      /\ map kind_and_content (SystemAnalysis.crumbs a)
         = (if SkeletonKey.value_in depth ["structure"; "generative"; "recursive"; "integral"]
            then planned a else [])
      /\ CrumbTrail._crumbs (SkeletonKey.crumb_trail (fst (snd run)))
         = (CrumbTrail._crumbs (SkeletonKey.crumb_trail self) ++ SystemAnalysis.crumbs a)%list.
Proof.
  intros introspect text name context depth flag self w Hh run.
  destruct (analyze_shape introspect text name context depth flag self w)
    as (a & w1 & w2 & w3 & w7 & w8 & Hf & Hm & Hs & Hp & He & Hn & Hd & Hx & Hc
        & _ & _ & Hr & _).
  fold run in Hc, Hr.
  exists a. split.
  { destruct flag.
    - destruct Hr as [Hr _]. rewrite Hr.
      destruct (contribute_ok a (SkeletonKey.collective self) w8 (Hh eq_refl))
        as [[m Hm'] _].
      rewrite Hm'. reflexivity.
    - apply Hr. }
  split.
  { intro w0. rewrite Hf, !detect_frames_run. apply run_independent.
    intros; split; reflexivity. }
  split.
  { intros g0 w0. rewrite Hm, !graph_identify_masks_run. apply run_independent.
    intros; split; reflexivity. }
  split.
  { intro w0. rewrite Hs, !analyze_spells_run. apply run_independent.
    intros; split; reflexivity. }
  split.
  { intro w0. rewrite Hp, !map_prisons_run. apply run_independent.
    intros; split; reflexivity. }
  do 4 (split; [assumption|]).
  destruct Hc as [(Hv & Hnil & Ht & _)|(Hv & Hplan & chain & D)]; rewrite Hv.
  - rewrite Hnil, Ht, app_nil_r. split; reflexivity.
  - split; [exact Hplan|]. destruct D as (_ & D2 & _). exact D2.
Qed.

(** An analysis of the text "common sense" at the default depth. *)
Lemma analyze_runs_the_detectors_witness :
  exists a : SystemAnalysis.t,
    fst (SkeletonKey.analyze no_metrics "common sense" "Unknown System" EmptyString
           SeeingDepth.STRUCTURE true (demo_key, world0)) = Ok a
    /\ SystemAnalysis.influence_edges a = []
    /\ SystemAnalysis.seeing_depth a = SeeingDepth.STRUCTURE.
Proof.
  destruct (analyze_runs_the_detectors no_metrics "common sense" "Unknown System"
              EmptyString SeeingDepth.STRUCTURE true demo_key world0)
    as (a & Hr & _ & _ & _ & _ & He & _ & Hd & _).
  - intros _. constructor.
  - exists a. repeat split; assumption.
Defined.

Lemma Qlt_div_iff (a b c : Q) : 0 < c -> (a < b / c <-> a * c < b).
Proof.
  intro Hc.
  assert (Hn : ~ c == 0) by (intro E; rewrite E in Hc; apply (Qlt_irrefl 0 Hc)).
  split.
  - intro H. apply (Qmult_lt_compat_r _ _ c) in H; [|exact Hc].
    assert (E : b / c * c == b) by (field; exact Hn).
    rewrite E in H. exact H.
  - apply Qlt_shift_div_l, Hc.
Qed.

Lemma Qle_div_iff (a b c : Q) : 0 < c -> (a / c <= b <-> a <= b * c).
Proof.
  intro Hc.
  assert (Hn : ~ c == 0) by (intro E; rewrite E in Hc; apply (Qlt_irrefl 0 Hc)).
  split.
  - intro H. apply (Qmult_le_compat_r _ _ c) in H; [|apply Qlt_le_weak, Hc].
    assert (E : a / c * c == a) by (field; exact Hn).
    rewrite E in H. exact H.
  - apply Qle_shift_div_r, Hc.
Qed.

(** A component of the awareness score counts at most three findings. *)
Lemma component_counted {A} (l : list A) :
  Py.min (SystemAnalysis.len_over l 3) 1
  == inject_Z (Z.of_nat (counted_findings l)) / 3.
Proof.
  unfold Py.min, SystemAnalysis.len_over, counted_findings.
  set (n := List.length l). change (inject_Z 3) with 3.
  destruct (Qle_bool (inject_Z (Z.of_nat n) / 3) 1) eqn:E.
  - apply Qle_bool_iff in E.
    assert (Hn : (n <= 3)%nat).
    { apply Qle_div_iff in E; [|reflexivity]. rewrite Qmult_1_l in E.
      change 3 with (inject_Z 3) in E. rewrite <- Zle_Qle in E. lia. }
    rewrite Nat.min_r by exact Hn. reflexivity.
  - assert (Hn : (3 < n)%nat).
    { destruct (Nat.le_gt_cases n 3) as [Hle|Hgt]; [exfalso|exact Hgt].
      assert (Hq : Qle_bool (inject_Z (Z.of_nat n) / 3) 1 = true); [|congruence].
      apply Qle_bool_iff. apply Qle_shift_div_r; [reflexivity|].
      rewrite Qmult_1_l. change 3 with (inject_Z 3). rewrite <- Zle_Qle. lia. }
    rewrite Nat.min_l by lia. reflexivity.
Qed.

(** The awareness score of an analysis without influence edges. *)
Lemma awareness_without_edges (a : SystemAnalysis.t) :
  SystemAnalysis.influence_edges a = [] ->
  SystemAnalysis.awareness_score a
  == (inject_Z (Z.of_nat (counted_findings (SystemAnalysis.frames a)
                          + counted_findings (SystemAnalysis.masks a)
                          + counted_findings (SystemAnalysis.spells a)
                          + counted_findings (SystemAnalysis.prisons a))) / 3
      + match SystemAnalysis.self_examination a with Some _ => 1 | None => 0 end) / 6.
Proof.
  intro He. unfold SystemAnalysis.awareness_score. cbv zeta.
  cbn [fold_left List.length]. rewrite He.
  rewrite !component_counted.
  change (Py.min (SystemAnalysis.len_over (@nil InfluenceEdge.t) 5) 1) with (0 # 5).
  change (inject_Z (Z.of_nat 6)) with 6.
  rewrite !Nat2Z.inj_add, !inject_Z_plus.
  set (x := match SystemAnalysis.self_examination a with Some _ => 1 | None => 0 end).
  field.
Qed.

Lemma scaled_gt (n : nat) (x bound : Q) (k : Z) :
  (inject_Z k < bound * 18 - x * 3) -> (bound * 18 - x * 3 < inject_Z (k + 1)) ->
  (bound < (inject_Z (Z.of_nat n) / 3 + x) / 6 <-> (k < Z.of_nat n)%Z).
Proof.
  intros Hlo Hhi. set (q := inject_Z (Z.of_nat n)).
  assert (E : (q / 3 + x) / 6 == (q + x * 3) / 18) by field.
  rewrite E. split.
  - intro H. apply Qlt_div_iff in H; [|reflexivity].
    assert (Hk : inject_Z k < q) by (clear - H Hlo; Lqa.lra).
    unfold q in Hk. rewrite <- Zlt_Qlt in Hk. exact Hk.
  - intro H. apply Qlt_shift_div_l; [reflexivity|].
    assert (Hk : inject_Z (k + 1) <= q) by (unfold q; rewrite <- Zle_Qle; lia).
    clear - Hk Hhi. Lqa.lra.
Qed.

(** The level [assess_seeing_depth] picks for an analysis without
    influence edges, and the bounds of its awareness score. *)
Lemma assessed_depth_without_edges :
  forall a : SystemAnalysis.t,
    SystemAnalysis.influence_edges a = [] ->
    let enough :=
      (3 <= List.length (SystemAnalysis.frames a))%nat
      /\ (3 <= List.length (SystemAnalysis.masks a))%nat
      /\ (3 <= List.length (SystemAnalysis.spells a))%nat
      /\ (3 <= List.length (SystemAnalysis.prisons a))%nat in
    SystemAnalysis.awareness_score a <= 5 # 6
    /\ (SystemAnalysis.self_examination a = None
        -> SystemAnalysis.awareness_score a <= 2 # 3)
    /\ (SkeletonKey.assessed_depth a = SeeingDepth.INTEGRAL
        <-> SystemAnalysis.self_examination a <> None /\ enough)
    /\ (SkeletonKey.assessed_depth a = SeeingDepth.RECURSIVE
        <-> SystemAnalysis.self_examination a <> None /\ ~ enough)
    /\ (SkeletonKey.assessed_depth a = SeeingDepth.GENERATIVE
        <-> SystemAnalysis.self_examination a = None
            /\ SystemAnalysis.crumbs a <> []
            /\ (11 <= counted_findings (SystemAnalysis.frames a)
                      + counted_findings (SystemAnalysis.masks a)
                      + counted_findings (SystemAnalysis.spells a)
                      + counted_findings (SystemAnalysis.prisons a))%nat).
Proof.
  intros a He enough.
  pose proof (awareness_without_edges a He) as Hscore.
  set (N := (counted_findings (SystemAnalysis.frames a)
             + counted_findings (SystemAnalysis.masks a)
             + counted_findings (SystemAnalysis.spells a)
             + counted_findings (SystemAnalysis.prisons a))%nat) in *.
  assert (HN : (N <= 12)%nat) by (unfold N, counted_findings; lia).
  assert (Henough : enough <-> (12 <= N)%nat)
    by (unfold enough, N, counted_findings; lia).
  assert (Hq : inject_Z (Z.of_nat N) <= 12)
    by (change 12 with (inject_Z 12); rewrite <- Zle_Qle; lia).
  assert (Hq0 : 0 <= inject_Z (Z.of_nat N))
    by (change 0 with (inject_Z 0); rewrite <- Zle_Qle; lia).
  unfold SkeletonKey.assessed_depth. cbv zeta.
  set (q := inject_Z (Z.of_nat N)) in *.
  set (score := SystemAnalysis.awareness_score a) in *.
  assert (H8 : Py.Qltb (8 # 10) score = true
               <-> 8 # 10 < (q / 3 + match SystemAnalysis.self_examination a with
                                     | Some _ => 1 | None => 0 end) / 6)
    by (rewrite <- Hscore; apply Qltb_lt).
  assert (H6 : Py.Qltb (6 # 10) score = true
               <-> 6 # 10 < (q / 3 + match SystemAnalysis.self_examination a with
                                     | Some _ => 1 | None => 0 end) / 6)
    by (rewrite <- Hscore; apply Qltb_lt).
  assert (Hcap : score <= 5 # 6
                 /\ (SystemAnalysis.self_examination a = None -> score <= 2 # 3)).
  { rewrite Hscore.
    assert (Hq3 : q / 3 <= 4) by (apply Qle_div_iff; [reflexivity|exact Hq]).
    set (t := q / 3) in *. clearbody t.
    destruct (SystemAnalysis.self_examination a).
    - split; [apply Qle_shift_div_r; [reflexivity|]; clear - Hq3; Lqa.lra|discriminate].
    - split; [|intros _]; (apply Qle_shift_div_r; [reflexivity|]; clear - Hq3; Lqa.lra). }
  destruct Hcap as [Hcap1 Hcap2].
  split; [exact Hcap1|]. split; [exact Hcap2|]. clear Hcap1 Hcap2 Hscore.
  clearbody score.
  destruct (SystemAnalysis.self_examination a) as [exam|].
  - (* with a self-examination *)
    unfold q in H8. rewrite (scaled_gt N 1 (8 # 10) 11) in H8 by reflexivity.
    cbn [andb].
    destruct (Py.Qltb (8 # 10) score) eqn:E.
    + assert (H12 : (12 <= N)%nat) by (apply proj1 in H8; specialize (H8 eq_refl); lia).
      split; [|split].
      * split; [intros _; split; [discriminate|apply Henough, H12]|reflexivity].
      * split; [discriminate|]. intros [_ Hn]. exfalso. apply Hn, Henough, H12.
      * split; [discriminate|]. intros [Hn _]. discriminate.
    + assert (H12 : ~ (12 <= N)%nat).
      { intro H. assert (Ht : false = true); [|discriminate]. apply H8. lia. }
      split; [|split].
      * split; [discriminate|]. intros [_ Hn]. exfalso. apply H12, Henough, Hn.
      * split; [intros _; split; [discriminate|]|reflexivity].
        intro Hn. apply H12, Henough, Hn.
      * split; [discriminate|]. intros [Hn _]. discriminate.
  - (* without *)
    unfold q in H6. rewrite (scaled_gt N 0 (6 # 10) 10) in H6 by reflexivity.
    cbn [andb].
    split; [split; [|intros [Hn _]; exfalso; apply Hn; reflexivity]|].
    { destruct ((0 <? List.length (SystemAnalysis.crumbs a))%nat
                && Py.Qltb (6 # 10) score);
        [discriminate|].
      destruct ((2 <? _)%nat && _ && _); [discriminate|].
      destruct (_ || _); discriminate. }
    split; [split; [|intros [Hn _]; exfalso; apply Hn; reflexivity]|].
    { destruct ((0 <? List.length (SystemAnalysis.crumbs a))%nat
                && Py.Qltb (6 # 10) score);
        [discriminate|].
      destruct ((2 <? _)%nat && _ && _); [discriminate|].
      destruct (_ || _); discriminate. }
    assert (Hc : (0 <? List.length (SystemAnalysis.crumbs a))%nat = true
                 <-> SystemAnalysis.crumbs a <> []).
    { rewrite Nat.ltb_lt. destruct (SystemAnalysis.crumbs a); cbn [List.length];
        split; intro H; try lia; try discriminate. exfalso. apply H. reflexivity. }
    destruct ((0 <? List.length (SystemAnalysis.crumbs a))%nat) eqn:Ec;
      destruct (Py.Qltb (6 # 10) score) eqn:E6; cbn [andb].
    + split; [intros _|reflexivity]. split; [reflexivity|].
      split; [apply Hc; reflexivity|]. apply proj1 in H6. specialize (H6 eq_refl). lia.
    + split.
      * destruct ((2 <? _)%nat && _ && _); [discriminate|].
        destruct (_ || _); discriminate.
      * intros (_ & _ & H11). assert (Ht : false = true); [|discriminate].
        apply H6. lia.
    + split.
      * destruct ((2 <? _)%nat && _ && _); [discriminate|].
        destruct (_ || _); discriminate.
      * intros (_ & Hn & _). apply Hc in Hn. discriminate.
    + split.
      * destruct ((2 <? _)%nat && _ && _); [discriminate|].
        destruct (_ || _); discriminate.
      * intros (_ & Hn & _). apply Hc in Hn. discriminate.
Qed.

Lemma SeeingDepth_value_injective (x y : SeeingDepth.t) :
  SeeingDepth.value x = SeeingDepth.value y -> x = y.
Proof. destruct x, y; intro H; (reflexivity || discriminate H). Qed.

(** Rounding a number below [n + 1/2] gives at most [n]. *)
Lemma round_half_even_below (x : Q) (n : Z) :
  x < inject_Z n + (1 # 2) -> (Py.round_half_even x <= n)%Z.
Proof.
  intro H.
  assert (Hfl : (Qfloor x <= n)%Z).
  { destruct (Z.le_gt_cases (Qfloor x) n) as [Hle|Hgt]; [exact Hle|exfalso].
    assert (Hge : inject_Z (n + 1) <= x).
    { apply Qle_trans with (inject_Z (Qfloor x)); [|apply Qfloor_le].
      rewrite <- Zle_Qle. lia. }
    rewrite inject_Z_plus in Hge. change (inject_Z 1) with 1 in Hge.
    revert H Hge. generalize (inject_Z n). intros q Hq Hge. Lqa.lra. }
  unfold Py.round_half_even. cbv zeta.
  destruct (Z.eq_dec (Qfloor x) n) as [E|E].
  - assert (Hlt : Qcompare (x - inject_Z (Qfloor x)) (1 # 2) = Lt).
    { apply Qlt_alt. rewrite E. revert H. generalize (inject_Z n). intros q Hq.
      change (x - q < 1 # 2). Lqa.lra. }
    rewrite Hlt. lia.
  - destruct (Qcompare (x - inject_Z (Qfloor x)) (1 # 2));
      [destruct (Z.even (Qfloor x))| |]; lia.
Qed.

Lemma round3_below (n : Z) (x : Q) :
  x * (1000 # 1) < inject_Z n + (1 # 2) -> Py.round3 x <= n # 1000.
Proof.
  intro H. unfold Py.round3. pose proof (round_half_even_below _ _ H) as Hz.
  unfold Qle. cbn [Qnum Qden]. lia.
Qed.

(** X18: the depth of seeing of an analysis without influence edges, as
    [analyze] produces them.  The report of [assess_seeing_depth] gives an
    awareness score of at most 0.833, and of at most 0.667 without a
    self-examination.  Its depth is "integral" exactly when the analysis
    carries a self-examination and each of the four detectors contributed
    at least three findings, "recursive" when it carries one and some
    detector contributed fewer; it is "generative" exactly when it carries
    none, has crumbs, and the detectors contributed at least 11 of the 12
    findings that count.  The interpretation is the description of that
    depth. *)
Theorem seeing_depth_without_edges :
  forall a : SystemAnalysis.t,
    SystemAnalysis.influence_edges a = [] ->
    let report := SkeletonKey.assess_seeing_depth a in
    let enough :=
      (3 <= List.length (SystemAnalysis.frames a))%nat
      /\ (3 <= List.length (SystemAnalysis.masks a))%nat
      /\ (3 <= List.length (SystemAnalysis.spells a))%nat
      /\ (3 <= List.length (SystemAnalysis.prisons a))%nat in
    SkeletonKey.awareness_score report <= 833 # 1000
    /\ (SystemAnalysis.self_examination a = None
        -> SkeletonKey.awareness_score report <= 667 # 1000)
    /\ (SkeletonKey.depth report = "integral"
        <-> SystemAnalysis.self_examination a <> None /\ enough)
    /\ (SkeletonKey.depth report = "recursive"
        <-> SystemAnalysis.self_examination a <> None /\ ~ enough)
    /\ (SkeletonKey.depth report = "generative"
        <-> SystemAnalysis.self_examination a = None
            /\ SystemAnalysis.crumbs a <> []
            /\ (11 <= counted_findings (SystemAnalysis.frames a)
                      + counted_findings (SystemAnalysis.masks a)
                      + counted_findings (SystemAnalysis.spells a)
                      + counted_findings (SystemAnalysis.prisons a))%nat)
    /\ exists d : SeeingDepth.t,
         SkeletonKey.depth report = SeeingDepth.value d
         /\ SkeletonKey.interpretation report = _DEPTH_DESCRIPTIONS d.
Proof.
  intros a He report enough.
  destruct (assessed_depth_without_edges a He) as (H1 & H2 & H3 & H4 & H5).
  fold enough in H3, H4.
  assert (Hd : forall d, SkeletonKey.depth report = SeeingDepth.value d
                         <-> SkeletonKey.assessed_depth a = d).
  { intro d. unfold report, SkeletonKey.assess_seeing_depth. cbn [SkeletonKey.depth].
    split; [apply SeeingDepth_value_injective|intros ->; reflexivity]. }
  split.
  { apply round3_below. change (inject_Z 833 + (1 # 2)) with (1667 # 2).
    set (x := SystemAnalysis.awareness_score a) in *. clearbody x. clear - H1. Lqa.lra. }
  split.
  { intro Hn. specialize (H2 Hn). apply round3_below.
    change (inject_Z 667 + (1 # 2)) with (1335 # 2).
    set (x := SystemAnalysis.awareness_score a) in *. clearbody x. clear - H2. Lqa.lra. }
  split; [rewrite <- H3; apply (Hd SeeingDepth.INTEGRAL)|].
  split; [rewrite <- H4; apply (Hd SeeingDepth.RECURSIVE)|].
  split; [rewrite <- H5; apply (Hd SeeingDepth.GENERATIVE)|].
  exists (SkeletonKey.assessed_depth a). split; reflexivity.
Qed.

(** The analysis with a single frame and no edges. *)
Lemma seeing_depth_without_edges_witness :
  SkeletonKey.awareness_score (SkeletonKey.assess_seeing_depth demo_analysis) <= 833 # 1000
  /\ SkeletonKey.awareness_score (SkeletonKey.assess_seeing_depth demo_analysis)
     <= 667 # 1000.
Proof.
  destruct (seeing_depth_without_edges demo_analysis eq_refl) as (H1 & H2 & _).
  split; [exact H1|apply H2; reflexivity].
Defined.

Lemma find_puppeteers_no_edges (g : InfluenceGraph.t) :
  InfluenceGraph._edges g = [] -> InfluenceGraph.find_puppeteers g = [].
Proof.
  intro He. destruct (InfluenceGraph.find_puppeteers g) as [|p ps] eqn:E; [reflexivity|].
  exfalso. assert (Hp : In p (InfluenceGraph.find_puppeteers g))
    by (rewrite E; left; reflexivity).
  apply find_puppeteers_In in Hp. destruct Hp as [a (_ & Hq & _)].
  unfold qualifies, hidden_out, out_edges in Hq. rewrite He in Hq.
  cbn [filter List.length] in Hq. rewrite andb_false_r in Hq. discriminate.
Qed.

Lemma contribute_files (a : SystemAnalysis.t) (self : CollectiveInsight.t) (w : World) :
  CollectiveInsight._storage_path self = None ->
  files (snd (snd (CollectiveInsight.contribute a (self, w)))) = files w.
Proof.
  intro Hp. destruct (contribute_state a self w) as (entry & Hs & Hw).
  rewrite Hw. unfold CollectiveInsight._save. rewrite Hs.
  cbn [CollectiveInsight._storage_path]. rewrite Hp. reflexivity.
Qed.

(** X19: what [analyze] leaves behind in the key, whether or not it
    returns.  It never adds an influence edge, so that a key whose graph
    has no edges reports no puppeteers and a hidden-edge ratio of 0; it
    keeps the crumb path, the id of the trail and the storage path of the
    collective, and keeps the trail indexed; the total of the collective
    grows by one exactly when the analysis is contributed; the files are
    untouched unless it is contributed to a collective with a storage
    path. *)
Theorem analyze_effects :
  forall (introspect : World -> odict json) (text name context : string)
         (depth : SeeingDepth.t) (flag : bool) (self : SkeletonKey.t) (w : World),
    let run := SkeletonKey.analyze introspect text name context depth flag (self, w) in
    let key := fst (snd run) in
    InfluenceGraph._edges (SkeletonKey.influence_graph key)
    = InfluenceGraph._edges (SkeletonKey.influence_graph self)
    /\ (InfluenceGraph._edges (SkeletonKey.influence_graph self) = [] ->
        InfluenceGraph.puppeteers (SkeletonKey.get_influence_network key) = []
        /\ InfluenceGraph.hidden_edge_ratio (SkeletonKey.get_influence_network key) == 0)
    /\ SkeletonKey._crumb_path key = SkeletonKey._crumb_path self
    /\ CrumbTrail.trail_id (SkeletonKey.crumb_trail key)
       = CrumbTrail.trail_id (SkeletonKey.crumb_trail self)
    /\ (indexed (SkeletonKey.crumb_trail self) -> indexed (SkeletonKey.crumb_trail key))
    /\ CollectiveInsight._total_analyses (SkeletonKey.collective key)
       = (CollectiveInsight._total_analyses (SkeletonKey.collective self)
          + (if flag then 1 else 0))%Z
    /\ CollectiveInsight._storage_path (SkeletonKey.collective key)
       = CollectiveInsight._storage_path (SkeletonKey.collective self)
    /\ (flag = false \/ CollectiveInsight._storage_path (SkeletonKey.collective self) = None ->
        files (snd (snd run)) = files w).
Proof.
  intros introspect text name context depth flag self w run key.
  destruct (analyze_shape introspect text name context depth flag self w)
    as (a & w1 & w2 & w3 & w7 & w8 & _ & _ & _ & _ & _ & _ & _ & _ & Hc
        & Hg & Hpath & Hr & Hfiles).
  fold run in Hc, Hg, Hpath, Hr. fold key in Hc, Hg, Hpath, Hr.
  assert (Hedges : InfluenceGraph._edges (SkeletonKey.influence_graph key)
                   = InfluenceGraph._edges (SkeletonKey.influence_graph self)).
  { rewrite Hg. apply identify_masks_graph. }
  split; [exact Hedges|]. split.
  { intro He. rewrite He in Hedges. unfold SkeletonKey.get_influence_network,
      InfluenceGraph.unmask_network.
    cbn [InfluenceGraph.puppeteers InfluenceGraph.hidden_edge_ratio].
    split; [apply find_puppeteers_no_edges, Hedges|]. rewrite Hedges. reflexivity. }
  split; [exact Hpath|].
  assert (Htrail : CrumbTrail.trail_id (SkeletonKey.crumb_trail key)
                   = CrumbTrail.trail_id (SkeletonKey.crumb_trail self)
                   /\ (indexed (SkeletonKey.crumb_trail self)
                       -> indexed (SkeletonKey.crumb_trail key))).
  { destruct Hc as [(_ & _ & Ht & _)|(_ & _ & chain & D)].
    - rewrite Ht. split; [reflexivity|auto].
    - destruct D as (D1 & _ & _ & _ & _ & _ & D7). split; [exact D1|exact D7]. }
  split; [apply Htrail|]. split; [apply Htrail|].
  destruct flag.
  - destruct Hr as (_ & Hcoll & Hw).
    destruct (contribute_state a (SkeletonKey.collective self) w8) as (entry & Hs & _).
    rewrite Hcoll, Hs.
    cbn [CollectiveInsight._total_analyses CollectiveInsight._storage_path].
    split; [reflexivity|]. split; [reflexivity|].
    intros [Hf|Hnone]; [discriminate|].
    rewrite Hw, (contribute_files a _ w8 Hnone). exact Hfiles.
  - destruct Hr as (_ & Hcoll & Hw). rewrite Hcoll, Hw.
    split; [lia|]. split; [reflexivity|]. intros _. exact Hfiles.
Qed.

(** Loading what [persist] wrote gives the trail back. *)
Lemma load_after_persist (trail : CrumbTrail.t) (path : string) (w : World) :
  CrumbTrail.trail_id trail <> EmptyString ->
  fst (CrumbTrail.load path (snd (CrumbTrail.persist path trail w))) = Ok trail.
Proof.
  intro Hid. unfold CrumbTrail.persist. rewrite bind_run.
  unfold CrumbTrail.load. rewrite read_after_write.
  unfold CrumbTrail.snapshot.
  change (subscript (JObj ?ms) "trail_id") with (Ok (JStr (CrumbTrail.trail_id trail))).
  cbv iota beta.
  assert (Ht : truthy (JStr (CrumbTrail.trail_id trail)) = true).
  { cbn [truthy]. destruct (CrumbTrail.trail_id trail); [contradiction|reflexivity]. }
  rewrite Ht. cbn [fst].
  change (subscript (JObj ?ms) "crumbs")
    with (Ok (JArr (map Crumb.to_dict (CrumbTrail._crumbs trail)))).
  change (get_method (JObj ?ms) "chains" (JObj []))
    with (Ok (JObj (map (fun kv => (fst kv, JArr (map JStr (snd kv))))
                        (CrumbTrail._chains trail)))).
  cbn [rbind iterate py_dict as_str].
  rewrite crumbs_of_to_dict, chains_of_json. cbn [both].
  destruct trail; reflexivity.
Qed.

(** X20: leaving a trail.  With a crumb path, [leave_trail] generates the
    crumbs planned for the analysis, appends them to the trail of the key
    and persists the trail: loading the path afterwards gives back the
    trail of the key, new crumbs included.  The graph, the collective and
    the crumb path of the key are untouched. *)
Theorem leave_trail_persists :
  forall (a : SystemAnalysis.t) (self : SkeletonKey.t) (w : World) (path : string),
    SkeletonKey._crumb_path self = Some path ->
    CrumbTrail.trail_id (SkeletonKey.crumb_trail self) <> EmptyString ->
    let run := SkeletonKey.leave_trail a (self, w) in
    let key := fst (snd run) in
    map kind_and_content (fst run) = planned a
    /\ CrumbTrail._crumbs (SkeletonKey.crumb_trail key)
       = (CrumbTrail._crumbs (SkeletonKey.crumb_trail self) ++ fst run)%list
    /\ fst (CrumbTrail.load path (snd (snd run))) = Ok (SkeletonKey.crumb_trail key)
    /\ SkeletonKey.influence_graph key = SkeletonKey.influence_graph self
    /\ SkeletonKey.collective key = SkeletonKey.collective self
    /\ SkeletonKey._crumb_path key = SkeletonKey._crumb_path self.
Proof.
  intros a self w path Hp Hid run key. subst key run.
  unfold SkeletonKey.leave_trail.
  destruct (generate_from_analysis_drops a (SkeletonKey.crumb_trail self) w) as [D V].
  cbv zeta in D, V.
  destruct (CrumbTrail.generate_from_analysis a (SkeletonKey.crumb_trail self, w))
    as [crumbs [trail w1]].
  unfold drops in D. cbn [fst snd] in D, V |- *. rewrite Hp.
  cbn [SkeletonKey.crumb_trail SkeletonKey.influence_graph SkeletonKey.collective
       SkeletonKey._crumb_path].
  destruct D as (D1 & D2 & _).
  split; [exact V|]. split; [exact D2|].
  split; [apply load_after_persist; rewrite D1; exact Hid|].
  repeat split.
Qed.

(** A trail left for an analysis with one spell. *)
Lemma leave_trail_persists_witness :
  map kind_and_content
      (fst (SkeletonKey.leave_trail demo_spell_analysis (demo_key_with_path, snd demo_trail)))
  = [ (CrumbType.PARADOX, "Who benefits from this story of the beginning?");
      (CrumbType.BRIDGE, CrumbTrail.bridge_content demo_spell_analysis) ]
  /\ fst (CrumbTrail.load "trail.json"
            (snd (snd (SkeletonKey.leave_trail demo_spell_analysis
                         (demo_key_with_path, snd demo_trail)))))
     = Ok (SkeletonKey.crumb_trail
             (fst (snd (SkeletonKey.leave_trail demo_spell_analysis
                          (demo_key_with_path, snd demo_trail))))).
Proof.
  destruct (leave_trail_persists demo_spell_analysis demo_key_with_path (snd demo_trail)
              "trail.json" eq_refl) as (H1 & _ & H3 & _).
  - apply (init_trail_id_nonempty None world0).
  - split; [exact H1|exact H3].
Defined.

(** X21: [analyze] followed by [leave_trail] drops the planned crumbs
    twice.  At the depths at which [analyze] generates crumbs, calling
    [leave_trail] on the analysis it returned, as the usage note of the
    class suggests, appends a second copy of the same types and contents:
    afterwards the trail holds what it held before, then the planned
    crumbs, then the planned crumbs again.  This holds whether or not the
    analysis is contributed to the collective, so also for the default
    call; when it is contributed, the history of the collective must be
    well formed for [analyze] to return. *)
Theorem analyze_then_leave_trail_duplicates :
  forall (introspect : World -> odict json) (text name context : string)
         (depth : SeeingDepth.t) (flag : bool) (self : SkeletonKey.t) (w : World),
    SkeletonKey.value_in depth ["structure"; "generative"; "recursive"; "integral"] = true ->
    (flag = true ->
     Forall scored (CollectiveInsight._analyses (SkeletonKey.collective self))) ->
    let run := SkeletonKey.analyze introspect text name context depth flag (self, w) in
    exists a : SystemAnalysis.t,
      fst run = Ok a
      /\ map kind_and_content (SystemAnalysis.crumbs a) = planned a
      /\ map kind_and_content
           (CrumbTrail._crumbs
              (SkeletonKey.crumb_trail (fst (snd (SkeletonKey.leave_trail a (snd run))))))
         = (map kind_and_content (CrumbTrail._crumbs (SkeletonKey.crumb_trail self))
            ++ planned a ++ planned a)%list.
Proof.
  intros introspect text name context depth flag self w Hdepth Hh run.
  destruct (analyze_shape introspect text name context depth flag self w)
    as (a & w1 & w2 & w3 & w7 & w8 & _ & _ & _ & _ & _ & _ & _ & _ & Hc & _ & _ & Hr & _).
  fold run in Hc, Hr.
  exists a. split.
  { destruct flag.
    - destruct Hr as [Hr _]. rewrite Hr.
      destruct (contribute_ok a (SkeletonKey.collective self) w8 (Hh eq_refl))
        as [[m Hm'] _].
      rewrite Hm'. reflexivity.
    - apply Hr. }
  destruct Hc as [(Hv & _)|(_ & Hplan & chain & D)]; [congruence|].
  split; [exact Hplan|].
  destruct D as (_ & D2 & _). cbn [fst] in D2.
  destruct (snd run) as [key w'] eqn:Ek. cbn [fst] in D2.
  unfold SkeletonKey.leave_trail.
  destruct (generate_from_analysis_drops a (SkeletonKey.crumb_trail key) w') as [D' V'].
  cbv zeta in D', V'.
  destruct (CrumbTrail.generate_from_analysis a (SkeletonKey.crumb_trail key, w'))
    as [crumbs [trail w1']].
  unfold drops in D'. cbn [fst snd SkeletonKey.crumb_trail] in D', V' |- *.
  destruct D' as (_ & D2' & _). rewrite D2', D2, !map_app, Hplan, V', app_assoc.
  reflexivity.
Qed.

(** Two crumbs for the text "common sense", dropped twice, by the default
    call, which contributes the analysis, and by the call that does not. *)
Lemma analyze_then_leave_trail_duplicates_witness :
  (exists a : SystemAnalysis.t,
     fst (SkeletonKey.analyze no_metrics "common sense" "Unknown System" EmptyString
            SeeingDepth.STRUCTURE true (demo_key, world0)) = Ok a
     /\ List.length
          (CrumbTrail._crumbs
             (SkeletonKey.crumb_trail
                (fst (snd (SkeletonKey.leave_trail a
                             (snd (SkeletonKey.analyze no_metrics "common sense"
                                     "Unknown System" EmptyString SeeingDepth.STRUCTURE
                                     true (demo_key, world0))))))))
        = (List.length (planned a) + List.length (planned a))%nat)
  /\ (exists a : SystemAnalysis.t,
        fst (SkeletonKey.analyze no_metrics "common sense" "Unknown System" EmptyString
               SeeingDepth.STRUCTURE false (demo_key, world0)) = Ok a
        /\ List.length
             (CrumbTrail._crumbs
                (SkeletonKey.crumb_trail
                   (fst (snd (SkeletonKey.leave_trail a
                                (snd (SkeletonKey.analyze no_metrics "common sense"
                                        "Unknown System" EmptyString SeeingDepth.STRUCTURE
                                        false (demo_key, world0))))))))
           = (List.length (planned a) + List.length (planned a))%nat).
Proof.
  split.
  - destruct (analyze_then_leave_trail_duplicates no_metrics "common sense"
                "Unknown System" EmptyString SeeingDepth.STRUCTURE true demo_key world0
                eq_refl) as (a & Hr & _ & Hd).
    + intros _. constructor.
    + exists a. split; [exact Hr|].
      rewrite <- (length_map kind_and_content), Hd. cbn [demo_key SkeletonKey.crumb_trail
        CrumbTrail._crumbs map app]. rewrite length_app. reflexivity.
  - destruct (analyze_then_leave_trail_duplicates no_metrics "common sense"
                "Unknown System" EmptyString SeeingDepth.STRUCTURE false demo_key world0
                eq_refl) as (a & Hr & _ & Hd).
    + intros E. discriminate E.
    + exists a. split; [exact Hr|].
      rewrite <- (length_map kind_and_content), Hd. cbn [demo_key SkeletonKey.crumb_trail
        CrumbTrail._crumbs map app]. rewrite length_app. reflexivity.
Defined.

Lemma get_collective_map_total (self : CollectiveInsight.t) (m : CollectiveMap.t) :
  CollectiveInsight.get_collective_map self = Ok m ->
  CollectiveMap.total_analyses m = CollectiveInsight._total_analyses self.
Proof.
  unfold CollectiveInsight.get_collective_map. cbv zeta.
  destruct (CollectiveInsight.py_sum 0 _) as [total| |]; cbn [rbind]; intro H;
    [|discriminate|discriminate].
  injection H as <-. reflexivity.
Qed.

(** One turn of the loop of [scan_corpus]. *)
Lemma analyze_step (introspect : World -> odict json) (text name : string)
    (self : SkeletonKey.t) (w : World) :
  Forall scored (CollectiveInsight._analyses (SkeletonKey.collective self)) ->
  let run := SkeletonKey.analyze introspect text name EmptyString
               SeeingDepth.STRUCTURE true (self, w) in
  exists a : SystemAnalysis.t,
    fst run = Ok a
    /\ analysis_of_text text a
    /\ map Frame.frame_type (SystemAnalysis.frames a) = frame_tags text
    /\ SystemAnalysis.system_name a = name
    /\ Forall scored (CollectiveInsight._analyses (SkeletonKey.collective (fst (snd run))))
    /\ CollectiveInsight._total_analyses (SkeletonKey.collective (fst (snd run)))
       = (CollectiveInsight._total_analyses (SkeletonKey.collective self) + 1)%Z.
Proof.
  intros Hh run.
  destruct (analyze_shape introspect text name EmptyString SeeingDepth.STRUCTURE true self w)
    as (a & w1 & w2 & w3 & w7 & w8 & Hf & Hm & Hs & Hp & _ & Hn & Hd & _ & _
        & _ & _ & (Hr & Hcoll & _) & _).
  fold run in Hr, Hcoll.
  destruct (contribute_ok a (SkeletonKey.collective self) w8 Hh) as [[m Hm'] Hscored].
  destruct (contribute_state a (SkeletonKey.collective self) w8) as (entry & Hst & _).
  exists a. split; [rewrite Hr, Hm'; reflexivity|]. split.
  { unfold analysis_of_text. split; [|split; [|split; [|split]]].
    - intro w0. rewrite Hf, !detect_frames_run. apply run_independent.
      intros; split; reflexivity.
    - intros g0 w0. rewrite Hm, !graph_identify_masks_run. apply run_independent.
      intros; split; reflexivity.
    - intro w0. rewrite Hs, !analyze_spells_run. apply run_independent.
      intros; split; reflexivity.
    - intro w0. rewrite Hp, !map_prisons_run. apply run_independent.
      intros; split; reflexivity.
    - exact Hd. }
  split; [rewrite Hf; apply detect_frames_tags|]. split; [exact Hn|].
  rewrite Hcoll. split; [exact Hscored|]. rewrite Hst. reflexivity.
Qed.

Lemma analyze_each_spec (introspect : World -> odict json) (system_name : string)
    (total : nat) (texts : list string) :
  forall (i : nat) (self : SkeletonKey.t) (w : World),
    Forall scored (CollectiveInsight._analyses (SkeletonKey.collective self)) ->
    let run := SkeletonKey.analyze_each introspect system_name total i texts (self, w) in
    exists analyses : list SystemAnalysis.t,
      fst run = Ok analyses
      /\ Forall2 analysis_of_text texts analyses
      /\ Forall2 (fun text a => map Frame.frame_type (SystemAnalysis.frames a)
                                = frame_tags text) texts analyses
      /\ map SystemAnalysis.system_name analyses
         = map (numbered_name system_name total) (seq i (List.length texts))
      /\ Forall scored (CollectiveInsight._analyses (SkeletonKey.collective (fst (snd run))))
      /\ CollectiveInsight._total_analyses (SkeletonKey.collective (fst (snd run)))
         = (CollectiveInsight._total_analyses (SkeletonKey.collective self)
            + Z.of_nat (List.length texts))%Z.
Proof.
  induction texts as [|text rest IH]; intros i self w Hh; cbv zeta.
  - exists []. cbn [SkeletonKey.analyze_each ret fst snd List.length seq map].
    rewrite Z.add_0_r. repeat split; try constructor. exact Hh.
  - cbn [SkeletonKey.analyze_each].
    destruct (analyze_step introspect text (numbered_name system_name total i) self w Hh)
      as (a & Hr & Ha & Hf & Hn & Hs & Ht).
    unfold numbered_name in Hr, Hs, Ht.
    destruct (SkeletonKey.analyze introspect text _ EmptyString SeeingDepth.STRUCTURE true
                (self, w)) as [r [key1 w1]].
    cbn [fst snd] in Hr, Hs, Ht. subst r.
    destruct (IH (S i) key1 w1 Hs) as (analyses & Hr' & Ha' & Hf' & Hn' & Hs' & Ht').
    destruct (SkeletonKey.analyze_each introspect system_name total (S i) rest (key1, w1))
      as [r' [key2 w2]].
    cbn [fst snd] in Hr', Hs', Ht' |- *. subst r'.
    exists (a :: analyses). cbn [rbind map List.length seq].
    split; [reflexivity|]. split; [constructor; assumption|].
    split; [constructor; assumption|].
    split; [rewrite Hn, Hn'; reflexivity|]. split; [exact Hs'|].
    rewrite Ht', Ht. lia.
Qed.

Lemma frames_total (texts : list string) (analyses : list SystemAnalysis.t) :
  Forall2 (fun text a => map Frame.frame_type (SystemAnalysis.frames a) = frame_tags text)
          texts analyses ->
  List.length (flat_map SystemAnalysis.frames analyses)
  = List.length (flat_map tag_names texts).
Proof.
  induction 1 as [|text a texts analyses H _ IH]; [reflexivity|].
  cbn [flat_map]. rewrite !length_app, IH. f_equal.
  unfold tag_names. rewrite <- H, !length_map. reflexivity.
Qed.

Lemma spell_count_length (spells : list Spell.t) :
  SpellPotency.spell_count (compute_spell_potency spells) = List.length spells.
Proof. destruct spells; reflexivity. Qed.

Lemma prison_count_length (prisons : list Prison.t) :
  CageScore.prison_count (compute_cage_score prisons) = List.length prisons.
Proof. destruct prisons; reflexivity. Qed.

(** X22: scanning a corpus.  On a key whose collective history is well
    formed, [scan_corpus] returns a report.  It holds one analysis per
    text, in order, each with the findings of the four detectors for its
    text (up to ids and time stamps), named "name [k/n]" and made at depth
    STRUCTURE.  The aggregates agree with the analyses: the frame
    architecture counts as many frames as the analyses hold, the potency
    report as many spells, the cage report as many prisons, and the
    collective map has grown by the number of texts. *)
Theorem scan_corpus_report :
  forall (introspect : World -> odict json) (texts : list string) (system_name : string)
         (self : SkeletonKey.t) (w : World),
    Forall scored (CollectiveInsight._analyses (SkeletonKey.collective self)) ->
    exists report : CorpusScan.t,
      fst (SkeletonKey.scan_corpus introspect texts system_name (self, w)) = Ok report
      /\ CorpusScan.corpus_size report = List.length texts
      /\ Forall2 analysis_of_text texts (CorpusScan.individual_analyses report)
      /\ map SystemAnalysis.system_name (CorpusScan.individual_analyses report)
         = map (numbered_name system_name (List.length texts))
               (seq 0 (List.length texts))
      /\ FrameArchitecture.total_frames_detected (CorpusScan.frame_architecture report)
         = List.length (flat_map SystemAnalysis.frames (CorpusScan.individual_analyses report))
      /\ SpellPotency.spell_count (CorpusScan.spell_potency report)
         = List.length (flat_map SystemAnalysis.spells (CorpusScan.individual_analyses report))
      /\ CageScore.prison_count (CorpusScan.cage_score report)
         = List.length (flat_map SystemAnalysis.prisons (CorpusScan.individual_analyses report))
      /\ CollectiveMap.total_analyses (CorpusScan.collective_map report)
         = (CollectiveInsight._total_analyses (SkeletonKey.collective self)
            + Z.of_nat (List.length texts))%Z.
Proof.
  intros introspect texts system_name self w Hh.
  unfold SkeletonKey.scan_corpus.
  destruct (analyze_each_spec introspect system_name (List.length texts) texts 0 self w Hh)
    as (analyses & Hr & Ha & Hf & Hn & Hs & Ht).
  destruct (SkeletonKey.analyze_each introspect system_name (List.length texts) 0 texts
              (self, w)) as [r [key1 w1]].
  cbn [fst snd] in Hr, Hs, Ht. subst r.
  destruct (architecture_loop_spec texts ([], [], []) w1) as [Hlen _].
  pose proof (frames_total texts analyses Hf) as Hframes.
  assert (Htotal : FrameArchitecture.total_frames_detected
                     (fst (map_frame_architecture texts w1))
                   = List.length (flat_map tag_names texts)).
  { unfold map_frame_architecture. rewrite bind_run.
    destruct (fst (architecture_loop texts ([], [], []) w1)) as [[all_frames counts] co].
    cbn [fst snd List.length Nat.add] in Hlen. cbn [ret fst].
    cbn [FrameArchitecture.total_frames_detected]. exact Hlen. }
  destruct (map_frame_architecture texts w1) as [frame_arch w2]. cbn [fst] in Htotal.
  destruct (get_collective_map_scored _ Hs) as [m [Hm _]].
  rewrite Hm. cbn [rbind fst].
  eexists. split; [reflexivity|].
  cbn [CorpusScan.corpus_size CorpusScan.individual_analyses CorpusScan.frame_architecture
       CorpusScan.spell_potency CorpusScan.cage_score CorpusScan.collective_map].
  split; [reflexivity|]. split; [exact Ha|]. split; [exact Hn|].
  split; [rewrite Htotal, Hframes; reflexivity|].
  split; [apply spell_count_length|]. split; [apply prison_count_length|].
  rewrite (get_collective_map_total _ _ Hm). exact Ht.
Qed.

(** A corpus of two texts scanned with a new key. *)
Lemma scan_corpus_report_witness :
  exists report : CorpusScan.t,
    fst (SkeletonKey.scan_corpus no_metrics ["common sense"; "the market decides"] "Corpus"
           (demo_key, world0)) = Ok report
    /\ CorpusScan.corpus_size report = 2%nat
    /\ map SystemAnalysis.system_name (CorpusScan.individual_analyses report)
       = ["Corpus [1/2]"; "Corpus [2/2]"]
    /\ CollectiveMap.total_analyses (CorpusScan.collective_map report) = 2%Z.
Proof.
  destruct (scan_corpus_report no_metrics ["common sense"; "the market decides"] "Corpus"
              demo_key world0) as (report & Hr & Hc & _ & Hn & _ & _ & _ & Ht).
  - constructor.
  - exists report. repeat split; assumption.
Defined.


(* ------------------------------------------------------------------ *)
(** ** Further properties: longer texts                                *)
(* ------------------------------------------------------------------ *)

Lemma prefix_app (p t u : string) :
  String.prefix p t = true -> String.prefix p (t ++ u) = true.
Proof.
  revert p. induction t as [|d t IH]; intros p H.
  - destruct p; [|discriminate]. destruct u; reflexivity.
  - destruct p as [|c p]; [reflexivity|]. cbn [String.prefix append] in *.
    destruct (ascii_dec c d); [apply IH, H|discriminate].
Qed.

Lemma str_in_app_r (k t u : string) :
  Py.str_in k t = true -> Py.str_in k (t ++ u) = true.
Proof.
  induction t as [|c t IH]; intro H.
  - cbn [Py.str_in] in H. destruct (String.prefix k EmptyString) eqn:E; [|discriminate].
    destruct k; [|discriminate]. cbn [append]. destruct u; reflexivity.
  - cbn [Py.str_in append] in *.
    destruct (String.prefix k (String c t)) eqn:E.
    + pose proof (prefix_app k (String c t) u E) as E'. cbn [append] in E'.
      rewrite E'. reflexivity.
    + rewrite (IH H). destruct (String.prefix k (String c (t ++ u))); reflexivity.
Qed.

Lemma str_in_app_l (k t u : string) :
  Py.str_in k t = true -> Py.str_in k (u ++ t) = true.
Proof.
  intro H. induction u as [|c u IH]; [exact H|].
  cbn [append Py.str_in]. rewrite IH.
  destruct (String.prefix k (String c (u ++ t))); reflexivity.
Qed.

Lemma string_app_assoc (a b c : string) : (a ++ b) ++ c = a ++ (b ++ c).
Proof. induction a as [|x a IH]; [reflexivity|]. cbn [append]. rewrite IH. reflexivity. Qed.

Lemma lower_app (a b : string) : Py.lower (a ++ b) = Py.lower a ++ Py.lower b.
Proof. induction a as [|c a IH]; [reflexivity|]. cbn. rewrite IH. reflexivity. Qed.

Lemma filter_length_mono {A} (p q : A -> bool) (l : list A) :
  (forall x, p x = true -> q x = true) ->
  (List.length (filter p l) <= List.length (filter q l))%nat.
Proof.
  intro H. induction l as [|x r IH]; [apply Nat.le_refl|]. cbn [filter].
  destruct (p x) eqn:E.
  - rewrite (H x E). cbn [List.length]. lia.
  - destruct (q x); cbn [List.length]; lia.
Qed.

Lemma Forall2_In_l {A B} (R : A -> B -> Prop) (l : list A) (l' : list B) (x : A) :
  Forall2 R l l' -> In x l -> exists y, In y l' /\ R x y.
Proof.
  induction 1 as [|a b l l' Hab _ IH]; intro Hx; [destruct Hx|].
  destruct Hx as [<-|Hx].
  - exists b. split; [left; reflexivity|exact Hab].
  - destruct (IH Hx) as [y [Hy HR]]. exists y. split; [right; exact Hy|exact HR].
Qed.

Lemma Forall2_In_r {A B} (R : A -> B -> Prop) (l : list A) (l' : list B) (y : B) :
  Forall2 R l l' -> In y l' -> exists x, In x l /\ R x y.
Proof.
  induction 1 as [|a b l l' Hab _ IH]; intro Hy; [destruct Hy|].
  destruct Hy as [<-|Hy].
  - exists a. split; [left; reflexivity|exact Hab].
  - destruct (IH Hy) as [x [Hx HR]]. exists x. split; [right; exact Hx|exact HR].
Qed.

(** A finding of a detector comes from an entry with a match, and every
    entry with a match gives a finding. *)
Lemma run_In_built {S T D F} (signals : D -> list string)
    (body : T -> D -> list string -> Q -> State S (Q * F)) (tl : string)
    (tbl : list (T * D)) (s : S) (f : F) :
  In f (map snd (sort_desc (fst (scan signals body tl tbl s)))) ->
  exists p s0, In p tbl /\ hit signals tl p = true
               /\ f = snd (built signals body tl p s0).
Proof.
  pose proof (scan_shape signals body tl tbl s) as Hsh.
  intro H. apply in_map_iff in H. destruct H as [r [<- Hr]].
  apply -> (@sort_desc_In F) in Hr.
  destruct (Forall2_In_l _ _ _ r Hsh Hr) as [p [Hp [s0 ->]]].
  apply filter_In in Hp. exists p, s0. tauto.
Qed.

Lemma run_has_built {S T D F} (signals : D -> list string)
    (body : T -> D -> list string -> Q -> State S (Q * F)) (tl : string)
    (tbl : list (T * D)) (s : S) (p : T * D) :
  In p tbl -> hit signals tl p = true ->
  exists s1, In (snd (built signals body tl p s1))
                (map snd (sort_desc (fst (scan signals body tl tbl s)))).
Proof.
  pose proof (scan_shape signals body tl tbl s) as Hsh.
  intros Hp Hh.
  assert (Hin : In p (filter (hit signals tl) tbl)) by (apply filter_In; tauto).
  destruct (Forall2_In_r _ _ _ p Hsh Hin) as [r [Hr [s1 ->]]].
  exists s1. apply in_map. apply sort_desc_In. exact Hr.
Qed.

(** When every keyword that occurs in one text occurs in another, an
    entry matched in the first is matched in the second, with a density
    that is at least as large. *)
Lemma hit_mono {T D} (signals : D -> list string) (tl tl' : string) (p : T * D) :
  (forall k, Py.str_in k tl = true -> Py.str_in k tl' = true) ->
  hit signals tl p = true ->
  hit signals tl' p = true
  /\ density_of signals tl (snd p) <= density_of signals tl' (snd p).
Proof.
  intros Hk Hh.
  pose proof (filter_length_mono (fun s => Py.str_in s tl) (fun s => Py.str_in s tl')
                (signals (snd p)) Hk) as Hlen.
  unfold hit, density_of, Py.len_div, matched_in in *.
  destruct (filter (fun s => Py.str_in s tl) (signals (snd p))) as [|m ms] eqn:E;
    [discriminate|].
  split.
  - destruct (filter (fun s => Py.str_in s tl') (signals (snd p)));
      [cbn [List.length] in Hlen; lia|reflexivity].
  - pose proof (filter_length_le (fun s => Py.str_in s tl) (signals (snd p))) as Hle.
    rewrite E in Hle.
    set (a := List.length (m :: ms)) in *.
    set (a' := List.length (filter (fun s => Py.str_in s tl') (signals (snd p)))) in *.
    set (b := List.length (signals (snd p))) in *.
    assert (Hb : (0 < b)%nat) by (unfold a in Hle; cbn [List.length] in Hle; lia).
    clearbody a a' b.
    apply Qle_shift_div_l; [unfold Qlt; cbn [inject_Z Qnum Qden]; lia|].
    assert (E' : inject_Z (Z.of_nat a) / inject_Z (Z.of_nat b) * inject_Z (Z.of_nat b)
                 == inject_Z (Z.of_nat a)).
    { field. unfold Qeq. cbn [inject_Z Qnum Qden]. lia. }
    rewrite E'. rewrite <- Zle_Qle. lia.
Qed.

Lemma min_mono (a b c : Q) : a <= b -> Py.min a c <= Py.min b c.
Proof.
  intro H. apply (min_cases b c (fun x => Py.min a c <= x)).
  - apply Qle_trans with a; [apply min_le_l|exact H].
  - apply min_le_r.
Qed.

(** X24: a longer text never loses a finding.  Every frame found in a
    text is found, with the same type and at least the same strength,
    when more text is put in front of it; every mask, spell and prison
    found in a text is found, with the same type and at least the same
    reach, potency and elegance, when more text is put in front of it and
    behind it. *)
Theorem more_text_keeps_findings :
  forall (before text after context : string) (w w' : World) (g g' : InfluenceGraph.t),
    (forall f, In f (fst (detect_frames text context w)) ->
       exists f', In f' (fst (detect_frames (before ++ text) context w'))
                  /\ Frame.frame_type f' = Frame.frame_type f
                  /\ Frame.strength f <= Frame.strength f')
    /\ (forall m, In m (fst (InfluenceGraph.identify_masks text (g, w))) ->
          exists m', In m' (fst (InfluenceGraph.identify_masks
                                   (before ++ text ++ after) (g', w')))
                     /\ Mask.mask_type m' = Mask.mask_type m)
    /\ (forall s, In s (fst (analyze_spells text w)) ->
          exists s', In s' (fst (analyze_spells (before ++ text ++ after) w'))
                     /\ Spell.spell_type s' = Spell.spell_type s
                     /\ Spell.reach s <= Spell.reach s'
                     /\ Spell.potency s <= Spell.potency s')
    /\ (forall p, In p (fst (map_prisons text w)) ->
          exists p', In p' (fst (map_prisons (before ++ text ++ after) w'))
                     /\ Prison.prison_type p' = Prison.prison_type p
                     /\ Prison.elegance p <= Prison.elegance p').
Proof.
  intros before text after context w w' g g'.
  assert (Hfront : forall k,
            Py.str_in k (Py.lower text ++ " " ++ Py.lower context) = true ->
            Py.str_in k (Py.lower (before ++ text) ++ " " ++ Py.lower context) = true).
  { intros k H. rewrite lower_app, string_app_assoc. apply str_in_app_l, H. }
  assert (Hboth : forall k,
            Py.str_in k (Py.lower text) = true ->
            Py.str_in k (Py.lower (before ++ text ++ after)) = true).
  { intros k H. rewrite !lower_app. apply str_in_app_l, str_in_app_r, H. }
  split; [|split; [|split]].
  - intros f Hf. rewrite detect_frames_run in Hf.
    apply run_In_built in Hf. destruct Hf as (p & s0 & Hp & Hh & ->).
    destruct (hit_mono FrameSignals.signals _ _ p Hfront Hh) as [Hh' Hd].
    destruct (run_has_built FrameSignals.signals frame_entry _ FRAME_SIGNALS w' p Hp Hh')
      as [s1 Hin].
    eexists. rewrite detect_frames_run. split; [exact Hin|].
    split; [reflexivity|].
    destruct (frame_entry_built (Py.lower text ++ " " ++ Py.lower context) p s0)
      as (_ & _ & -> & _).
    destruct (frame_entry_built (Py.lower (before ++ text) ++ " " ++ Py.lower context) p s1)
      as (_ & _ & -> & _).
    apply min_mono. apply Qmult_le_compat_r; [exact Hd|discriminate].
  - intros m Hm. rewrite graph_identify_masks_run in Hm.
    apply run_In_built in Hm. destruct Hm as (p & s0 & Hp & Hh & ->).
    destruct (hit_mono MaskSignals.signals _ _ p Hboth Hh) as [Hh' _].
    destruct (run_has_built MaskSignals.signals InfluenceGraph.mask_entry _ MASK_SIGNALS
                (g', w') p Hp Hh') as [s1 Hin].
    eexists. rewrite graph_identify_masks_run. split; [exact Hin|reflexivity].
  - intros s Hs. rewrite analyze_spells_run in Hs.
    apply run_In_built in Hs. destruct Hs as (p & s0 & Hp & Hh & ->).
    destruct (hit_mono SpellSignals.signals _ _ p Hboth Hh) as [Hh' Hd].
    destruct (run_has_built SpellSignals.signals spell_entry _ SPELL_SIGNALS w' p Hp Hh')
      as [s1 Hin].
    eexists. rewrite analyze_spells_run. split; [exact Hin|].
    split; [reflexivity|].
    destruct (spell_entry_built (Py.lower text) p s0) as (_ & _ & -> & ->).
    destruct (spell_entry_built (Py.lower (before ++ text ++ after)) p s1)
      as (_ & _ & -> & ->).
    split; [exact Hd|].
    apply min_mono. apply Qmult_le_compat_r; [exact Hd|discriminate].
  - intros q Hq. rewrite map_prisons_run in Hq.
    apply run_In_built in Hq. destruct Hq as (p & s0 & Hp & Hh & ->).
    destruct (hit_mono PrisonSignals.signals _ _ p Hboth Hh) as [Hh' Hd].
    destruct (run_has_built PrisonSignals.signals prison_entry _ PRISON_SIGNALS w' p Hp Hh')
      as [s1 Hin].
    eexists. rewrite map_prisons_run. split; [exact Hin|].
    split; [reflexivity|].
    destruct (prison_entry_built (Py.lower text) p s0) as (_ & _ & ->).
    destruct (prison_entry_built (Py.lower (before ++ text ++ after)) p s1) as (_ & _ & ->).
    apply min_mono. apply Qmult_le_compat_r; [exact Hd|discriminate].
Qed.

(** X25: the diversity of the spells found in one text.  The detector
    returns each spell type at most once, so the entropy of the types of
    the spells found in a text is that of a uniform distribution:
    log2 of their number, which the report rounds to three decimals.  It
    is 0 for a single spell and at most log2 8 = 3. *)
Theorem diversity_of_detected_spells :
  forall (text : string) (w : World),
    let spells := fst (analyze_spells text w) in
    spells = []
    \/ (spell_entropy spells = Py.log2 (INR (List.length spells))
        /\ SpellPotency.spell_diversity (compute_spell_potency spells)
           = Some (round3_R (Py.log2 (INR (List.length spells))))
        /\ (1 <= List.length spells <= 8)%nat).
Proof.
  intros text w spells.
  assert (Hnd : NoDup (map Spell.spell_type spells)).
  { unfold spells. rewrite analyze_spells_run.
    apply (run_tags_NoDup SpellType.value SPELL_SIGNALS SpellSignals.signals
             spell_entry _ Spell.spell_type
             (fun d => Py.min (density_of SpellSignals.signals (Py.lower text) d * (5 # 2)) 1));
      [apply SPELL_SIGNALS_in_order|reflexivity|reflexivity]. }
  assert (Hlen : (List.length spells <= 8)%nat).
  { unfold spells. rewrite analyze_spells_run.
    apply (run_length SPELL_SIGNALS SpellSignals.signals spell_entry _
             Spell.spell_type
             (fun d => Py.min (density_of SpellSignals.signals (Py.lower text) d * (5 # 2)) 1));
      reflexivity. }
  clearbody spells. destruct spells as [|s r]; [left; reflexivity|right].
  assert (He : spell_entropy (s :: r) = Py.log2 (INR (List.length (s :: r)))).
  { rewrite (spell_entropy_uniform (s :: r) 1).
    - rewrite (nodup_fixed_point SpellType_eq_dec Hnd), length_map. reflexivity.
    - discriminate.
    - intros ty Hty. apply NoDup_count_occ'; assumption. }
  split; [exact He|]. split.
  - unfold compute_spell_potency. cbv zeta. cbn [SpellPotency.spell_diversity].
    rewrite He. reflexivity.
  - cbn [List.length] in *. lia.
Qed.

(* ------------------------------------------------------------------ *)
(** ** Further properties: the collective map                           *)
(* ------------------------------------------------------------------ *)

Lemma awareness_in_range (a : SystemAnalysis.t) :
  0 <= SystemAnalysis.awareness_score a /\ SystemAnalysis.awareness_score a <= 1.
Proof.
  unfold SystemAnalysis.awareness_score. cbv zeta.
  cbn [fold_left List.length].
  destruct (component_bounds (SystemAnalysis.frames a) 3 ltac:(lia)) as [F0 F1].
  destruct (component_bounds (SystemAnalysis.masks a) 3 ltac:(lia)) as [M0 M1].
  destruct (component_bounds (SystemAnalysis.spells a) 3 ltac:(lia)) as [S0 S1].
  destruct (component_bounds (SystemAnalysis.prisons a) 3 ltac:(lia)) as [P0 P1].
  destruct (component_bounds (SystemAnalysis.influence_edges a) 5 ltac:(lia)) as [E0 E1].
  set (f := Py.min (SystemAnalysis.len_over (SystemAnalysis.frames a) 3) 1) in *.
  set (m := Py.min (SystemAnalysis.len_over (SystemAnalysis.masks a) 3) 1) in *.
  set (s := Py.min (SystemAnalysis.len_over (SystemAnalysis.spells a) 3) 1) in *.
  set (p := Py.min (SystemAnalysis.len_over (SystemAnalysis.prisons a) 3) 1) in *.
  set (e := Py.min (SystemAnalysis.len_over (SystemAnalysis.influence_edges a) 5) 1) in *.
  assert (X : 0 <= match SystemAnalysis.self_examination a with Some _ => 1 | None => 0 end
              /\ match SystemAnalysis.self_examination a with Some _ => 1 | None => 0 end <= 1)
    by (destruct (SystemAnalysis.self_examination a); split; discriminate).
  destruct X as [X0 X1].
  set (x := match SystemAnalysis.self_examination a with Some _ => 1 | None => 0 end) in *.
  change (inject_Z (Z.of_nat 6)) with (6 # 1).
  split.
  - apply Qle_shift_div_l; [reflexivity|]. Lqa.lra.
  - apply Qle_shift_div_r; [reflexivity|]. Lqa.lra.
Qed.

Lemma bump_keys_NoDup (names : list string) :
  forall d : odict Z, NoDup (OD.keys d) -> NoDup (OD.keys (CollectiveInsight.bump names d)).
Proof.
  unfold CollectiveInsight.bump.
  induction names as [|n r IH]; intros d H; [exact H|].
  cbn [fold_left]. apply IH. apply keys_set_NoDup, H.
Qed.

Lemma bump_within (n : Z) (names : list string) (d : odict Z) :
  NoDup names -> within n d -> within (n + 1) (CollectiveInsight.bump names d).
Proof.
  intros Hn [Hnd Hb]. split; [apply bump_keys_NoDup, Hnd|].
  intro k. rewrite bump_get. specialize (Hb k).
  assert (Ho : (0 <= occurrences k names <= 1)%Z).
  { unfold occurrences. pose proof (proj1 (NoDup_count_occ string_dec names) Hn k). lia. }
  lia.
Qed.

Lemma contribute_history (a : SystemAnalysis.t) (self : CollectiveInsight.t) (w : World) :
  exists entry,
    CollectiveInsight._analyses (fst (snd (CollectiveInsight.contribute a (self, w))))
    = (CollectiveInsight._analyses self ++ [entry])%list
    /\ OD.get "awareness_score" entry = Some (JNum (SystemAnalysis.awareness_score a)).
Proof.
  unfold CollectiveInsight.contribute.
  destruct (now_iso w) as [stamp w1].
  match goal with |- context [CollectiveInsight._save ?s w1] =>
    destruct (CollectiveInsight._save s w1) as [u w2] end.
  cbn [fst snd CollectiveInsight._analyses]. eexists. split; reflexivity.
Qed.

Lemma contribute_balanced (n : Z) (a : SystemAnalysis.t) (self : CollectiveInsight.t)
    (w : World) :
  tidy a -> balanced n self ->
  balanced (n + 1) (fst (snd (CollectiveInsight.contribute a (self, w)))).
Proof.
  intros (Tf & Tm & Ts & Tp) (Ht & Hn & Hf & Hm & Hs & Hp & Hh).
  destruct (contribute_history a self w) as (entry & He & Hscore).
  destruct (contribute_state a self w) as (entry' & Hst & _).
  unfold balanced. rewrite He. rewrite Hst.
  cbn [CollectiveInsight._total_analyses CollectiveInsight._frame_frequencies
       CollectiveInsight._mask_frequencies CollectiveInsight._spell_frequencies
       CollectiveInsight._prison_frequencies].
  split; [rewrite Ht; reflexivity|]. split; [lia|].
  split; [apply bump_within; assumption|]. split; [apply bump_within; assumption|].
  split; [apply bump_within; assumption|]. split; [apply bump_within; assumption|].
  apply Forall_app. split; [exact Hh|]. constructor; [|constructor].
  exists (SystemAnalysis.awareness_score a). split; [exact Hscore|].
  apply awareness_in_range.
Qed.

Lemma contribute_all_balanced (analyses : list SystemAnalysis.t) :
  Forall tidy analyses ->
  forall (n : Z) (self : CollectiveInsight.t) (w : World),
    balanced n self ->
    balanced (n + Z.of_nat (List.length analyses))
             (fst (snd (CollectiveInsight.contribute_all analyses (self, w)))).
Proof.
  induction 1 as [|a rest Ha _ IH]; intros n self w Hb.
  - cbn [CollectiveInsight.contribute_all ret fst snd List.length Z.of_nat].
    rewrite Z.add_0_r. exact Hb.
  - cbn [CollectiveInsight.contribute_all]. rewrite !bind_run. cbn [ret fst snd].
    pose proof (contribute_balanced n a self w Ha Hb) as Hb1.
    destruct (CollectiveInsight.contribute a (self, w)) as [r [s1 w1]].
    cbn [fst snd] in Hb1 |- *.
    specialize (IH (n + 1)%Z s1 w1 Hb1).
    replace (n + Z.of_nat (List.length (a :: rest)))%Z
      with (n + 1 + Z.of_nat (List.length rest))%Z by (cbn [List.length]; lia).
    exact IH.
Qed.

(** The sum of scores between 0 and 1. *)
Lemma py_sum_in_range (history : list (odict json)) :
  Forall score_in_range history ->
  forall acc, exists total,
    CollectiveInsight.py_sum acc (CollectiveInsight.awareness_scores history) = Ok total
    /\ acc <= total
    /\ total <= acc + inject_Z (Z.of_nat
                                  (List.length (CollectiveInsight.awareness_scores history))).
Proof.
  induction 1 as [|a r (q & Ha & Hq0 & Hq1) _ IH]; intro acc.
  - cbn [CollectiveInsight.awareness_scores CollectiveInsight.py_sum List.length].
    exists acc. change (inject_Z (Z.of_nat 0)) with 0. repeat split; Lqa.lra.
  - cbn [CollectiveInsight.awareness_scores]. rewrite Ha.
    cbn [CollectiveInsight.py_sum number rbind List.length].
    destruct (IH (acc + q)) as (total & Ht & Hlo & Hhi). exists total.
    split; [exact Ht|]. rewrite Nat2Z.inj_succ. unfold Z.succ. rewrite inject_Z_plus.
    change (inject_Z 1) with 1.
    set (n := inject_Z (Z.of_nat (List.length (CollectiveInsight.awareness_scores r)))) in *.
    clearbody n. split; Lqa.lra.
Qed.

Lemma normalize_proportions (n : Z) (d : odict Z) :
  (0 <= n)%Z -> within n d ->
  Forall proportion (CollectiveInsight.normalize (Py.maxZ n 1) d).
Proof.
  intros Hn [Hnd Hb]. unfold CollectiveInsight.normalize.
  rewrite Forall_map. apply Forall_forall. intros [k v] Hin.
  unfold proportion. cbn [fst snd].
  pose proof (Hb k) as Hk. unfold OD.get_or in Hk. rewrite (get_of_In k v d Hnd Hin) in Hk.
  assert (Hmax : (1 <= Py.maxZ n 1)%Z /\ (n <= Py.maxZ n 1)%Z)
    by (unfold Py.maxZ; destruct (Z.leb_spec 1 n); lia).
  set (t := Py.maxZ n 1) in *. clearbody t.
  assert (Hpos : 0 < inject_Z t) by (unfold Qlt; cbn [inject_Z Qnum Qden]; lia).
  split.
  - apply round3_nonneg. apply Qle_shift_div_l; [exact Hpos|].
    rewrite Qmult_0_l. change 0 with (inject_Z 0). rewrite <- Zle_Qle. lia.
  - apply round3_le_1. apply Qle_shift_div_r; [exact Hpos|].
    rewrite Qmult_1_l. rewrite <- Zle_Qle. lia.
Qed.

(** The collective map of a balanced aggregator. *)
Lemma balanced_map (n : Z) (self : CollectiveInsight.t) :
  balanced n self ->
  exists m : CollectiveMap.t,
    CollectiveInsight.get_collective_map self = Ok m
    /\ CollectiveMap.total_analyses m = n
    /\ Forall proportion (CollectiveMap.frame_distribution m)
    /\ Forall proportion (CollectiveMap.mask_distribution m)
    /\ Forall proportion (CollectiveMap.spell_distribution m)
    /\ Forall proportion (CollectiveMap.prison_distribution m)
    /\ 0 <= CollectiveMap.average_awareness m
    /\ CollectiveMap.average_awareness m <= 1.
Proof.
  intros (Ht & Hn & Hf & Hm & Hs & Hp & Hh).
  unfold CollectiveInsight.get_collective_map. cbv zeta.
  destruct (py_sum_in_range _ Hh 0) as (total & Hsum & Hlo & Hhi).
  rewrite Hsum. cbn [rbind]. eexists. split; [reflexivity|].
  cbn [CollectiveMap.total_analyses CollectiveMap.frame_distribution
       CollectiveMap.mask_distribution CollectiveMap.spell_distribution
       CollectiveMap.prison_distribution CollectiveMap.average_awareness].
  rewrite Ht.
  split; [reflexivity|].
  split; [apply normalize_proportions; assumption|].
  split; [apply normalize_proportions; assumption|].
  split; [apply normalize_proportions; assumption|].
  split; [apply normalize_proportions; assumption|].
  set (len := List.length (CollectiveInsight.awareness_scores
                             (CollectiveInsight._analyses self))) in *.
  assert (Hmax : (1 <= Py.maxZ (Z.of_nat len) 1)%Z
                 /\ (Z.of_nat len <= Py.maxZ (Z.of_nat len) 1)%Z)
    by (unfold Py.maxZ; destruct (Z.leb_spec 1 (Z.of_nat len)); lia).
  set (t := Py.maxZ (Z.of_nat len) 1) in *.
  assert (Hpos : 0 < inject_Z t) by (unfold Qlt; cbn [inject_Z Qnum Qden]; lia).
  assert (Hle : inject_Z (Z.of_nat len) <= inject_Z t) by (rewrite <- Zle_Qle; lia).
  clearbody t len. split.
  - apply round3_nonneg. apply Qle_shift_div_l; [exact Hpos|]. Lqa.lra.
  - apply round3_le_1. apply Qle_shift_div_r; [exact Hpos|]. Lqa.lra.
Qed.

(** X26: the shares of the collective map are proportions.  Start from an
    empty aggregator and contribute analyses that name each type at most
    once in each list of findings, as those of [analyze] do.  The map then
    reports the number of contributions as its total, every share of its
    four distributions lies between 0 and 1, and so does the average
    awareness. *)
Theorem shares_are_proportions :
  forall (analyses : list SystemAnalysis.t) (storage_path : option string) (w : World),
    Forall tidy analyses ->
    let after :=
      fst (snd (CollectiveInsight.contribute_all analyses
                  (CollectiveInsight.empty storage_path, w))) in
    exists m : CollectiveMap.t,
      CollectiveInsight.get_collective_map after = Ok m
      /\ CollectiveMap.total_analyses m = Z.of_nat (List.length analyses)
      /\ Forall proportion (CollectiveMap.frame_distribution m)
      /\ Forall proportion (CollectiveMap.mask_distribution m)
      /\ Forall proportion (CollectiveMap.spell_distribution m)
      /\ Forall proportion (CollectiveMap.prison_distribution m)
      /\ 0 <= CollectiveMap.average_awareness m
      /\ CollectiveMap.average_awareness m <= 1.
Proof.
  intros analyses storage_path w Htidy after.
  assert (H0 : balanced 0 (CollectiveInsight.empty storage_path)).
  { unfold balanced, within. cbn. repeat split; try constructor; lia. }
  pose proof (contribute_all_balanced analyses Htidy 0 _ w H0) as Hb.
  fold after in Hb. rewrite Z.add_0_l in Hb.
  exact (balanced_map _ after Hb).
Qed.

(** Two contributions of an analysis with one ECONOMIC frame. *)
Lemma shares_are_proportions_witness :
  exists m : CollectiveMap.t,
    CollectiveInsight.get_collective_map
      (fst (snd (CollectiveInsight.contribute_all [demo_analysis; demo_analysis]
                   (CollectiveInsight.empty None, world0)))) = Ok m
    /\ CollectiveMap.total_analyses m = 2%Z
    /\ Forall proportion (CollectiveMap.frame_distribution m).
Proof.
  destruct (shares_are_proportions [demo_analysis; demo_analysis] None world0)
    as (m & Hm & Ht & Hf & _).
  - repeat constructor; cbn; intuition discriminate.
  - exists m. repeat split; assumption.
Defined.

(* ------------------------------------------------------------------ *)
(** ** Further properties: co-occurring frames                          *)
(* ------------------------------------------------------------------ *)

Lemma pair_eqb_eq (p q : string * string) : pair_eqb p q = true <-> p = q.
Proof.
  destruct p as [a b], q as [c d]. unfold pair_eqb. cbn [fst snd].
  rewrite andb_true_iff, !String.eqb_eq. split.
  - intros [-> ->]. reflexivity.
  - intro H. injection H as -> ->. split; reflexivity.
Qed.

Lemma pair_eqb_refl (p : string * string) : pair_eqb p p = true.
Proof. apply pair_eqb_eq. reflexivity. Qed.

Lemma pair_eqb_neq (p q : string * string) : p <> q -> pair_eqb p q = false.
Proof.
  intro H. destruct (pair_eqb p q) eqn:E; [|reflexivity].
  apply pair_eqb_eq in E. contradiction.
Qed.

Lemma bump_pair_get (k k' : string * string) (d : list ((string * string) * nat)) :
  pair_get k (bump_pair k' d)
  = (pair_get k d + (if pair_eqb k k' then 1 else 0))%nat.
Proof.
  induction d as [|[k0 n0] r IH]; cbn [bump_pair pair_get].
  - destruct (pair_eqb k k'); reflexivity.
  - destruct (pair_eqb k' k0) eqn:E0; cbn [pair_get].
    + apply pair_eqb_eq in E0. subst k0.
      destruct (pair_eqb k k'); lia.
    + destruct (pair_eqb k k0) eqn:E1.
      * apply pair_eqb_eq in E1. subst k0.
        rewrite (pair_eqb_neq k k'); [lia|].
        intro H. subst k'. rewrite pair_eqb_refl in E0. discriminate.
      * exact IH.
Qed.

Lemma bump_pairs_get (k : string * string) (l : list (string * string)) :
  forall d,
    pair_get k (fold_left (fun d pair => bump_pair pair d) l d)
    = (pair_get k d + List.length (filter (pair_eqb k) l))%nat.
Proof.
  induction l as [|p r IH]; intro d; cbn [fold_left filter].
  - cbn. lia.
  - rewrite IH, bump_pair_get. destruct (pair_eqb k p); cbn [List.length]; lia.
Qed.

(** The keys of the dictionary of pairs: distinct, and among the pairs
    that were counted. *)
Lemma bump_pair_keys (k : string * string) (d : list ((string * string) * nat)) :
  NoDup (map fst d) ->
  NoDup (map fst (bump_pair k d))
  /\ forall q, In q (map fst (bump_pair k d)) <-> q = k \/ In q (map fst d).
Proof.
  induction d as [|[k0 n0] r IH]; cbn [bump_pair map fst]; intro Hnd.
  - split; [repeat constructor; intros []|]. intro q. cbn. intuition.
  - inversion Hnd as [|? ? Hk0 Hr]; subst.
    destruct (pair_eqb k k0) eqn:E; cbn [map fst].
    + apply pair_eqb_eq in E. subst k0. split; [exact Hnd|]. intro q. cbn. intuition.
    + destruct (IH Hr) as [IH1 IH2]. split.
      * constructor; [|exact IH1]. intro Hin. apply IH2 in Hin.
        destruct Hin as [->|Hin]; [rewrite pair_eqb_refl in E; discriminate|contradiction].
      * intro q. cbn. rewrite IH2. intuition.
Qed.

Lemma bump_pairs_keys (l : list (string * string)) :
  forall d,
    NoDup (map fst d) ->
    NoDup (map fst (fold_left (fun d pair => bump_pair pair d) l d))
    /\ forall q, In q (map fst (fold_left (fun d pair => bump_pair pair d) l d))
                 -> In q l \/ In q (map fst d).
Proof.
  induction l as [|p r IH]; intros d Hnd; cbn [fold_left].
  - split; [exact Hnd|]. intros q Hq. right. exact Hq.
  - destruct (bump_pair_keys p d Hnd) as [H1 H2].
    destruct (IH (bump_pair p d) H1) as [I1 I2]. split; [exact I1|].
    intros q Hq. apply I2 in Hq. destruct Hq as [Hq|Hq].
    + left. right. exact Hq.
    + apply H2 in Hq. destruct Hq as [->|Hq]; [left; left; reflexivity|right; exact Hq].
Qed.

(** [sorted] of two strings does not depend on their order. *)
Lemma sorted_pair_sym (x y : string) : sorted_pair x y = sorted_pair y x.
Proof.
  unfold sorted_pair, String.ltb. pose proof (String.compare_antisym y x) as A.
  destruct (String.compare x y) eqn:E.
  - apply String.compare_eq_iff in E. subst.
    destruct (String.compare y y); reflexivity.
  - destruct (String.compare y x); try discriminate A; reflexivity.
  - destruct (String.compare y x); try discriminate A; reflexivity.
Qed.

Lemma sorted_pair_cases (x y : string) :
  sorted_pair x y = (x, y) \/ sorted_pair x y = (y, x).
Proof. unfold sorted_pair. destruct (String.ltb y x); auto. Qed.

Lemma sorted_pair_same (x y a b : string) :
  sorted_pair x y = sorted_pair a b <-> (x = a /\ y = b) \/ (x = b /\ y = a).
Proof.
  split.
  - intro H.
    destruct (sorted_pair_cases x y) as [E|E], (sorted_pair_cases a b) as [E'|E'];
      rewrite E, E' in H; injection H as -> ->; auto.
  - intros [[-> ->]|[-> ->]]; [reflexivity|apply sorted_pair_sym].
Qed.

(** How often two different names meet in the pairs of a list. *)
Lemma pairs_with_count (a b x : string) (r : list string) :
  a <> b ->
  List.length (filter (pair_eqb (sorted_pair a b)) (map (fun y => sorted_pair x y) r))
  = ((if string_dec x a then count_occ string_dec r b else 0)
     + (if string_dec x b then count_occ string_dec r a else 0))%nat.
Proof.
  intro Hab. induction r as [|y r IH]; cbn [map filter count_occ].
  - destruct (string_dec x a), (string_dec x b); reflexivity.
  - destruct (pair_eqb (sorted_pair a b) (sorted_pair x y)) eqn:E.
    + apply pair_eqb_eq in E. symmetry in E. apply sorted_pair_same in E.
      cbn [List.length]. rewrite IH.
      destruct E as [[-> ->]|[-> ->]].
      * destruct (string_dec a a) as [_|N]; [|contradiction].
        destruct (string_dec b b) as [_|N]; [|contradiction].
        destruct (string_dec a b) as [N|_]; [contradiction|].
        destruct (string_dec b a) as [N|_]; [congruence|]. lia.
      * destruct (string_dec a a) as [_|N]; [|contradiction].
        destruct (string_dec b b) as [_|N]; [|contradiction].
        destruct (string_dec a b) as [N|_]; [contradiction|].
        destruct (string_dec b a) as [N|_]; [congruence|]. lia.
    + rewrite IH.
      assert (Hne : ~ ((x = a /\ y = b) \/ (x = b /\ y = a))).
      { intro H. apply sorted_pair_same in H. rewrite H, pair_eqb_refl in E.
        discriminate. }
      destruct (string_dec x a) as [Ea|Na], (string_dec x b) as [Eb|Nb],
               (string_dec y a) as [Fa|Ma], (string_dec y b) as [Fb|Mb];
        try lia; exfalso; apply Hne; tauto.
Qed.

Lemma pairs_of_count (a b : string) (l : list string) :
  a <> b ->
  List.length (filter (pair_eqb (sorted_pair a b)) (pairs_of l))
  = (count_occ string_dec l a * count_occ string_dec l b)%nat.
Proof.
  intro Hab. induction l as [|x r IH]; [reflexivity|].
  cbn [pairs_of count_occ]. rewrite filter_app, length_app, IH, pairs_with_count by exact Hab.
  destruct (string_dec x a) as [Ea|Na], (string_dec x b) as [Eb|Nb];
    try congruence; lia.
Qed.

Lemma architecture_loop_pairs (texts : list string) :
  forall (acc : architecture) (w : World),
    snd (fst (architecture_loop texts acc w))
    = fold_left (fun d pair => bump_pair pair d)
                (flat_map (fun text => pairs_of (tag_names text)) texts) (snd acc).
Proof.
  induction texts as [|text rest IH]; intros acc w; [reflexivity|].
  cbn [architecture_loop]. rewrite bind_run.
  pose proof (detect_frames_tags text w) as Ht.
  destruct (detect_frames text EmptyString w) as [frames w1]. cbn [fst snd] in Ht |- *.
  rewrite IH. destruct acc as [[all_frames frame_counts] co].
  cbn [architecture_step fst snd flat_map].
  rewrite <- (map_map Frame.frame_type FrameType.name), Ht.
  fold (tag_names text). rewrite fold_left_app. reflexivity.
Qed.

Lemma both_found_count (X Y : FrameType.t) (texts : list string) :
  X <> Y ->
  List.length (filter (pair_eqb (sorted_pair (FrameType.name X) (FrameType.name Y)))
                      (flat_map (fun text => pairs_of (tag_names text)) texts))
  = List.length (filter (both_found X Y) texts).
Proof.
  intro Hne.
  assert (Hab : FrameType.name X <> FrameType.name Y)
    by (intro H; apply Hne, FrameType_name_injective, H).
  induction texts as [|t r IH]; [reflexivity|].
  cbn [flat_map filter]. rewrite filter_app, length_app, IH.
  rewrite (pairs_of_count _ _ (tag_names t) Hab), !tag_names_count.
  unfold both_found.
  destruct (frame_found X t), (frame_found Y t); reflexivity.
Qed.

Lemma pairs_of_In (q : string * string) (l : list string) :
  In q (pairs_of l) -> exists x y, In x l /\ In y l /\ q = sorted_pair x y.
Proof.
  induction l as [|x r IH]; [intros []|]. cbn [pairs_of]. intro H.
  apply in_app_or in H. destruct H as [H|H].
  - apply in_map_iff in H. destruct H as [y [<- Hy]].
    exists x, y. repeat split; [left; reflexivity|right; exact Hy].
  - destruct (IH H) as (a & b & Ha & Hb & ->).
    exists a, b. repeat split; right; assumption.
Qed.

Lemma tag_pairs_named (texts : list string) (q : string * string) :
  In q (flat_map (fun text => pairs_of (tag_names text)) texts) -> named_pair q.
Proof.
  intro H. apply in_flat_map in H. destruct H as [t [_ Hq]].
  apply pairs_of_In in Hq. destruct Hq as (x & y & Hx & Hy & ->).
  unfold tag_names in Hx, Hy. apply in_map_iff in Hx, Hy.
  destruct Hx as [A [<- _]], Hy as [B [<- _]].
  destruct (sorted_pair_cases (FrameType.name A) (FrameType.name B)) as [E|E]; rewrite E.
  - exists A, B. reflexivity.
  - exists B, A. reflexivity.
Qed.

Lemma name_dashless (A : FrameType.t) : dashless (FrameType.name A).
Proof.
  unfold dashless. destruct A; cbn [FrameType.name list_ascii_of_string In];
    intuition discriminate.
Qed.

Lemma join_injective (a b c d : string) :
  dashless a -> dashless c -> a ++ "-" ++ b = c ++ "-" ++ d -> a = c /\ b = d.
Proof.
  revert c. induction a as [|x a IH]; intros c Ha Hc H.
  - destruct c as [|y c].
    + cbn in H. injection H as ->. split; reflexivity.
    + cbn in H. injection H as <- _. exfalso. apply Hc. left. reflexivity.
  - destruct c as [|y c].
    + cbn in H. injection H as -> _. exfalso. apply Ha. left. reflexivity.
    + cbn [append] in H. injection H as -> H.
      destruct (IH c) as [-> ->].
      * intro Hin. apply Ha. right. exact Hin.
      * intro Hin. apply Hc. right. exact Hin.
      * exact H.
      * split; reflexivity.
Qed.

Lemma join_key_injective (p q : string * string) :
  named_pair p -> named_pair q -> join_key p = join_key q -> p = q.
Proof.
  intros (A & B & ->) (C & D & ->) H. unfold join_key in H. cbn [fst snd] in H.
  apply join_injective in H; [|apply name_dashless|apply name_dashless].
  destruct H as [-> ->]. reflexivity.
Qed.

(** The matrix lists under [f"{a}-{b}"] what the loop counted for [(a, b)]. *)
Lemma matrix_get (k : string * string) (co : list ((string * string) * nat)) :
  named_pair k -> Forall named_pair (map fst co) -> NoDup (map fst co) ->
  OD.get_or (join_key k) 0%nat
            (OD.of_pairs (map (fun kc => (fst (fst kc) ++ "-" ++ snd (fst kc), snd kc)) co))
  = pair_get k co.
Proof.
  intros Hk Hnamed Hnd.
  assert (Hkeys : NoDup (OD.keys (map (fun kc : string * string * nat =>
                                         (fst (fst kc) ++ "-" ++ snd (fst kc), snd kc)) co))).
  { unfold OD.keys. rewrite map_map. cbn [fst].
    change (map (fun x : string * string * nat => fst (fst x) ++ "-" ++ snd (fst x)) co)
      with (map (fun x : string * string * nat => join_key (fst x)) co).
    rewrite <- (map_map fst join_key).
    apply NoDup_map_NoDup_ForallPairs; [|exact Hnd].
    intros p q Hp Hq. rewrite Forall_forall in Hnamed.
    apply join_key_injective; apply Hnamed; assumption. }
  rewrite (of_pairs_NoDup _ Hkeys). clear Hkeys Hnd.
  unfold OD.get_or. induction co as [|[k0 n0] r IH]; [reflexivity|].
  cbn [map fst snd OD.get pair_get] in *. inversion Hnamed as [|? ? Hk0 Hr]; subst.
  change (fst k0 ++ "-" ++ snd k0) with (join_key k0).
  destruct (pair_eqb k k0) eqn:E.
  - apply pair_eqb_eq in E. subst k0. rewrite String.eqb_refl. reflexivity.
  - destruct (String.eqb_spec (join_key k) (join_key k0)) as [Ej|_]; [|apply IH, Hr].
    apply (join_key_injective k k0 Hk Hk0) in Ej. subst k0.
    rewrite pair_eqb_refl in E. discriminate.
Qed.

(** X27: the co-occurrence matrix.  For two different frame types the
    matrix lists, under the two type names in alphabetical order joined by
    a dash, the number of texts in which frames of both types are
    detected; a pair that never occurs together has no entry. *)
Theorem co_occurrence_counts :
  forall (texts : list string) (w : World) (X Y : FrameType.t),
    X <> Y ->
    OD.get_or (matrix_key X Y) 0%nat
              (FrameArchitecture.co_occurrence_matrix (fst (map_frame_architecture texts w)))
    = List.length (filter (both_found X Y) texts).
Proof.
  intros texts w X Y Hne.
  unfold map_frame_architecture. rewrite bind_run.
  pose proof (architecture_loop_pairs texts ([], [], []) w) as Hco.
  destruct (fst (architecture_loop texts ([], [], []) w)) as [[all_frames counts] co].
  cbn [fst snd] in Hco. cbn [ret fst FrameArchitecture.co_occurrence_matrix].
  set (pairs := flat_map (fun text => pairs_of (tag_names text)) texts) in *.
  destruct (bump_pairs_keys pairs [] ltac:(constructor)) as [Hnd Hin].
  rewrite <- Hco in Hnd, Hin.
  assert (Hk : named_pair (sorted_pair (FrameType.name X) (FrameType.name Y))).
  { destruct (sorted_pair_cases (FrameType.name X) (FrameType.name Y)) as [E|E]; rewrite E.
    - exists X, Y. reflexivity.
    - exists Y, X. reflexivity. }
  assert (Hnamed : Forall named_pair (map fst co)).
  { apply Forall_forall. intros q Hq. destruct (Hin q Hq) as [H|[]].
    apply (tag_pairs_named texts q H). }
  change (matrix_key X Y)
    with (join_key (sorted_pair (FrameType.name X) (FrameType.name Y))).
  rewrite (matrix_get _ co Hk Hnamed Hnd), Hco, bump_pairs_get.
  cbn [pair_get Nat.add]. apply both_found_count, Hne.
Qed.

(** Two texts with a NORMATIVE and an ECONOMIC frame each. *)
Lemma co_occurrence_counts_witness :
  OD.get_or "ECONOMIC-NORMATIVE" 0%nat
            (FrameArchitecture.co_occurrence_matrix
               (fst (map_frame_architecture
                       ["common sense market profit obviously";
                        "the market is natural, everyone knows"] world0)))
  = 2%nat.
Proof.
  change "ECONOMIC-NORMATIVE" with (matrix_key FrameType.NORMATIVE FrameType.ECONOMIC).
  rewrite (co_occurrence_counts
             ["common sense market profit obviously"; "the market is natural, everyone knows"]
             world0 FrameType.NORMATIVE FrameType.ECONOMIC);
    [vm_compute; reflexivity|discriminate].
Defined.

(* ------------------------------------------------------------------ *)
(** ** Further properties: the actors of the graph                      *)
(* ------------------------------------------------------------------ *)








